(** * Vndro approval chain: the order ledger over a spreadsheet store

    A shallow embedding of [functions/index.js]: the ECMAScript built-ins the
    handlers rely on, the spreadsheet store behind the four calls the code
    makes ([spreadsheets.get], [values.get], [values.update],
    [values.batchUpdate]), the identity resolver, the serial generator and
    the order handlers, followed by the properties of the ledger.

    Conventions of the model.
    - Strings are byte strings; [trim], [toUpperCase] and [toLowerCase] act on
      the ASCII range (the non-ASCII white space and letters of ECMAScript
      are left alone).
    - A finite JavaScript number is an exact decimal [m * 10^-k]; binary64
      rounding and overflow are not modelled, [NaN] and the infinities are.
    - An object used as a dictionary is the [gmap] of the values assigned by
      key.  Where a handler reads a key taken from the request
      ([/api/updateWaitingOrder], [/api/updatePreviousOrders],
      [/api/exportOrdersExcel]) or tests a key before it creates an entry
      ([/api/approvalsSummary]), the read goes through [readKey], which knows
      the names every object literal inherits from [Object.prototype]; the
      other dictionaries (the pending orders by branch, the summary by serial
      and status, the table of images) are read by lookup, and the properties
      stated about them are about the entries they hold.  Every request is
      run against the built-in objects as the language defines them.  The
      order of [Object.values] is not modelled. *)

From Stdlib Require Import ZArith List Ascii String DecimalString DecimalN Lia Bool.
From stdpp Require Import gmap strings list fin_maps.

Open Scope Z_scope.

(** ** ECMAScript built-ins *)
Module Js.

(** *** Strings *)

Definition isWhiteSpace (c : ascii) : bool :=
  let n := N_of_ascii c in
  (N.leb 9 n && N.leb n 13)%N || N.eqb n 32.

Fixpoint trimStart (s : string) : string :=
  match s with
  | EmptyString => EmptyString
  | String c r => if isWhiteSpace c then trimStart r else s
  end.

Fixpoint trimEnd (s : string) : string :=
  match s with
  | EmptyString => EmptyString
  | String c r =>
      match trimEnd r with
      | EmptyString => if isWhiteSpace c then EmptyString else String c EmptyString
      | r' => String c r'
      end
  end.

(** [String.prototype.trim] *)
Definition trim (s : string) : string := trimEnd (trimStart s).

Definition upperChar (c : ascii) : ascii :=
  let n := N_of_ascii c in
  if (N.leb 97 n && N.leb n 122)%N then ascii_of_N (n - 32) else c.

Definition lowerChar (c : ascii) : ascii :=
  let n := N_of_ascii c in
  if (N.leb 65 n && N.leb n 90)%N then ascii_of_N (n + 32) else c.

Fixpoint mapChars (f : ascii -> ascii) (s : string) : string :=
  match s with
  | EmptyString => EmptyString
  | String c r => String (f c) (mapChars f r)
  end.

Definition toUpperCase : string -> string := mapChars upperChar.
Definition toLowerCase : string -> string := mapChars lowerChar.

(** [s.startsWith(p)] *)
Definition startsWith (p s : string) : bool := String.prefix p s.

(** [s.slice(n)] for [0 <= n] *)
Fixpoint slice (n : nat) (s : string) : string :=
  match n, s with
  | O, _ => s
  | S n', String _ r => slice n' r
  | S _, EmptyString => EmptyString
  end.

(** [s.split(sep)] for a non-empty separator: [cur] is the piece being read,
    [skip] counts the characters of a separator still to be passed. *)
Fixpoint splitFrom (sep : string) (skip : nat) (cur : string) (s : string)
  : list string :=
  match s with
  | EmptyString => [cur]
  | String c r =>
      match skip with
      | S k => splitFrom sep k cur r
      | O =>
          if String.prefix sep s
          then cur :: splitFrom sep (Nat.pred (String.length sep)) EmptyString r
          else splitFrom sep O (cur +:+ String c EmptyString) r
      end
  end.

Definition split (sep s : string) : list string := splitFrom sep O EmptyString s.

(** [s.replace(c, d)] with one-character strings: the first occurrence only *)
Fixpoint replaceChar (c d : ascii) (s : string) : string :=
  match s with
  | EmptyString => EmptyString
  | String x r => if Ascii.eqb x c then String d r else String x (replaceChar c d r)
  end.

(** *** Numbers *)

(** [Fin m k] is the number [m * 10^-k]. *)
Inductive num : Type :=
| NaN
| Inf (neg : bool)
| Fin (m : Z) (k : nat).

Definition pow10 (k : nat) : Z := 10 ^ Z.of_nat k.

Definition ofZ (z : Z) : num := Fin z 0.

Definition nmul (a b : num) : num :=
  match a, b with
  | NaN, _ | _, NaN => NaN
  | Inf s, Inf t => Inf (xorb s t)
  | Inf s, Fin m _ | Fin m _, Inf s =>
      if m =? 0 then NaN else Inf (xorb s (m <? 0))
  | Fin m1 k1, Fin m2 k2 => Fin (m1 * m2) (k1 + k2)
  end.

Definition nadd (a b : num) : num :=
  match a, b with
  | NaN, _ | _, NaN => NaN
  | Inf s, Inf t => if Bool.eqb s t then Inf s else NaN
  | Inf s, Fin _ _ | Fin _ _, Inf s => Inf s
  | Fin m1 k1, Fin m2 k2 =>
      Fin (m1 * pow10 (k2 - k1) + m2 * pow10 (k1 - k2)) (Nat.max k1 k2)
  end.

(** The order of two numbers; [None] when one of them is [NaN]. *)
Definition ncompare (a b : num) : option comparison :=
  match a, b with
  | NaN, _ | _, NaN => None
  | Inf s, Inf t => Some (if s then (if t then Eq else Lt) else (if t then Gt else Eq))
  | Inf s, Fin _ _ => Some (if s then Lt else Gt)
  | Fin _ _, Inf s => Some (if s then Gt else Lt)
  | Fin m1 k1, Fin m2 k2 => Some (Z.compare (m1 * pow10 k2) (m2 * pow10 k1))
  end.

(** [a > b] *)
Definition ngt (a b : num) : bool :=
  match ncompare a b with Some Gt => true | _ => false end.

(** [a >= b] *)
Definition nge (a b : num) : bool :=
  match ncompare a b with Some Gt | Some Eq => true | _ => false end.

(** [Math.max(a, b)] *)
Definition mathMax (a b : num) : num :=
  match ncompare a b with
  | None => NaN
  | Some Lt => b
  | Some _ => a
  end.

Definition isNaNnum (a : num) : bool :=
  match a with NaN => true | _ => false end.

(** ToBoolean on a number *)
Definition truthyNum (a : num) : bool :=
  match a with
  | NaN => false
  | Inf _ => true
  | Fin m _ => negb (m =? 0)
  end.

(** *** Decimal text of numbers *)

Definition showN (n : N) : string := NilEmpty.string_of_uint (N.to_uint n).

Definition showZabs (z : Z) : string := showN (Z.abs_N z).

(** Drop the zeros at the end of the fraction. *)
Fixpoint stripZeros (m : Z) (k : nat) : Z * nat :=
  match k with
  | O => (m, O)
  | S k' => if m mod 10 =? 0 then stripZeros (m / 10) k' else (m, k)
  end.

Fixpoint zeros (n : nat) : string :=
  match n with O => EmptyString | S n' => String "0" (zeros n') end.

(** The significant digits of an integer text: without the zeros at its end. *)
Fixpoint dropEndZeros (s : string) : string :=
  match s with
  | EmptyString => EmptyString
  | String c r =>
      match dropEndZeros r with
      | EmptyString => if Ascii.eqb c "0" then EmptyString else String c EmptyString
      | r' => String c r'
      end
  end.

(** Exponential notation [d.ddde±x] of digits [ds] with the point after the
    first [n] digits. *)
Definition showExp (ds : string) (n : Z) : string :=
  let e := n - 1 in
  let tail := (if e <? 0 then "e-" else "e+") +:+ showZabs e in
  match dropEndZeros ds with
  | EmptyString => "0"
  | String d EmptyString => String d tail
  | String d r => String d (String "." (r +:+ tail))
  end.

(** [Number.prototype.toString()] (radix 10) *)
Definition numToString (a : num) : string :=
  match a with
  | NaN => "NaN"
  | Inf false => "Infinity"
  | Inf true => "-Infinity"
  | Fin m k =>
      let '(m', k') := stripZeros m k in
      if m' =? 0 then "0" else
      let sign := if m' <? 0 then "-" else "" in
      let ds := showZabs m' in
      let n := Z.of_nat (String.length ds) - Z.of_nat k' in
      sign +:+
      match k' with
      | O => if Z.abs m' <? 10 ^ 21 then ds else showExp ds n
      | S _ =>
          if (0 <? n) && (n <=? 21)
          then substring 0 (Z.to_nat n) ds +:+ "." +:+ slice (Z.to_nat n) ds
          else if (-6 <? n) && (n <=? 0)
          then "0." +:+ zeros (Z.to_nat (- n)) +:+ ds
          else showExp ds n
      end
  end.

(** *** Reading numbers from text *)

Definition digitOf (c : ascii) : option (Decimal.uint -> Decimal.uint) :=
  match c with
  | "0"%char => Some Decimal.D0 | "1"%char => Some Decimal.D1
  | "2"%char => Some Decimal.D2 | "3"%char => Some Decimal.D3
  | "4"%char => Some Decimal.D4 | "5"%char => Some Decimal.D5
  | "6"%char => Some Decimal.D6 | "7"%char => Some Decimal.D7
  | "8"%char => Some Decimal.D8 | "9"%char => Some Decimal.D9
  | _ => None
  end.

(** The longest run of decimal digits at the head of [s], and what follows. *)
Fixpoint takeDigits (s : string) : Decimal.uint * string :=
  match s with
  | EmptyString => (Decimal.Nil, EmptyString)
  | String c r =>
      match digitOf c with
      | Some d => let '(u, rest) := takeDigits r in (d u, rest)
      | None => (Decimal.Nil, s)
      end
  end.

Definition uintZ (u : Decimal.uint) : Z := Z.of_N (N.of_uint u).

Definition isNil (u : Decimal.uint) : bool :=
  match u with Decimal.Nil => true | _ => false end.

(** The value of a digit in a radix up to 16. *)
Definition radixDigit (radix : Z) (c : ascii) : option Z :=
  let n := Z.of_N (N_of_ascii c) in
  let v := if (48 <=? n) && (n <=? 57) then Some (n - 48)
           else if (97 <=? n) && (n <=? 102) then Some (n - 87)
           else if (65 <=? n) && (n <=? 70) then Some (n - 55)
           else None in
  match v with
  | Some d => if d <? radix then Some d else None
  | None => None
  end.

(** The longest run of radix digits at the head of [s]: its value when the
    run is not empty, and what follows. *)
Fixpoint takeRadix (radix : Z) (acc : option Z) (s : string) : option Z * string :=
  match s with
  | EmptyString => (acc, EmptyString)
  | String c r =>
      match radixDigit radix c with
      | Some d => takeRadix radix (Some (default 0 acc * radix + d)) r
      | None => (acc, s)
      end
  end.

Definition takeSign (s : string) : bool * string :=
  match s with
  | String "-" r => (true, r)
  | String "+" r => (false, r)
  | _ => (false, s)
  end.

Definition hasHexPrefix (s : string) : bool :=
  String.prefix "0x" s || String.prefix "0X" s.

(** [parseInt(s, radix)] on a string: [radix10] is [true] for [parseInt(s, 10)]
    and [false] for [parseInt(s)], which also reads a [0x] prefix. *)
Definition parseIntStr (radix10 : bool) (s : string) : num :=
  let '(neg, s1) := takeSign (trimStart s) in
  let '(radix, s2) :=
    if negb radix10 && hasHexPrefix s1 then (16, slice 2 s1) else (10, s1) in
  match fst (takeRadix radix None s2) with
  | None => NaN
  | Some v => ofZ (if neg then - v else v)
  end.

(** The longest prefix of [s] that is a StrDecimalLiteral, as a number, and
    what follows it. *)
Definition strDecimalLiteral (s : string) : option (num * string) :=
  let '(neg, s1) := takeSign s in
  if String.prefix "Infinity" s1 then Some (Inf neg, slice 8 s1) else
  let '(ip, s2) := takeDigits s1 in
  let '(fp, s3) :=
    match s2 with
    | String "." r =>
        let '(f, r') := takeDigits r in
        if isNil ip && isNil f then (Decimal.Nil, s2) else (f, r')
    | _ => (Decimal.Nil, s2)
    end in
  if isNil ip && isNil fp then None else
  let k := Decimal.nb_digits fp in
  let mant := uintZ ip * pow10 k + uintZ fp in
  let '(ex, s4) :=
    match s3 with
    | String c r =>
        if Ascii.eqb c "e" || Ascii.eqb c "E" then
          let '(eneg, r1) := takeSign r in
          let '(ed, r2) := takeDigits r1 in
          if isNil ed then (0, s3) else ((if eneg then - uintZ ed else uintZ ed), r2)
        else (0, s3)
    | EmptyString => (0, s3)
    end in
  let m := if neg then - mant else mant in
  let sh := ex - Z.of_nat k in
  Some ((if 0 <=? sh then Fin (m * 10 ^ sh) 0 else Fin m (Z.to_nat (- sh))), s4).

(** [parseFloat(s)] on a string *)
Definition parseFloatStr (s : string) : num :=
  match strDecimalLiteral (trimStart s) with
  | Some (n, _) => n
  | None => NaN
  end.

(** The whole of [s] as digits of [radix], for the [0x], [0o] and [0b] forms. *)
Definition wholeRadix (radix : Z) (s : string) : num :=
  match takeRadix radix None s with
  | (Some v, EmptyString) => ofZ v
  | _ => NaN
  end.

(** StringToNumber: [Number(s)] on a string *)
Definition stringToNumber (s : string) : num :=
  let t := trim s in
  match t with
  | EmptyString => ofZ 0
  | _ =>
      if hasHexPrefix t then wholeRadix 16 (slice 2 t)
      else if String.prefix "0o" t || String.prefix "0O" t then wholeRadix 8 (slice 2 t)
      else if String.prefix "0b" t || String.prefix "0B" t then wholeRadix 2 (slice 2 t)
      else match strDecimalLiteral t with
           | Some (n, EmptyString) => n
           | _ => NaN
           end
  end.

(** *** Values *)

(** The primitive values a JSON request field or a written cell can hold. *)
Inductive value : Type :=
| Undefined
| Null
| Bool (b : bool)
| Num (n : num)
| Str (s : string).

(** ToBoolean *)
Definition truthy (v : value) : bool :=
  match v with
  | Undefined | Null => false
  | Bool b => b
  | Num n => truthyNum n
  | Str s => negb (String.eqb s "")
  end.

(** ToString *)
Definition toString (v : value) : string :=
  match v with
  | Undefined => "undefined"
  | Null => "null"
  | Bool true => "true"
  | Bool false => "false"
  | Num n => numToString n
  | Str s => s
  end.

(** ToNumber: [Number(v)] *)
Definition toNumber (v : value) : num :=
  match v with
  | Undefined => NaN
  | Null => ofZ 0
  | Bool true => ofZ 1
  | Bool false => ofZ 0
  | Num n => n
  | Str s => stringToNumber s
  end.

(** [parseInt(v)] and [parseFloat(v)] convert their argument to a string first. *)
Definition parseInt (v : value) : num := parseIntStr false (toString v).
Definition parseFloat (v : value) : num := parseFloatStr (toString v).

(** [a === b] on values; [NaN] is equal to nothing, and two finite numbers
    are equal when they have the same value. *)
Definition strictEq (a b : value) : bool :=
  match a, b with
  | Undefined, Undefined | Null, Null => true
  | Bool x, Bool y => Bool.eqb x y
  | Num x, Num y => match ncompare x y with Some Eq => true | _ => false end
  | Str x, Str y => String.eqb x y
  | _, _ => false
  end.

(** [a || b] on values *)
Definition orElse (a b : value) : value := if truthy a then a else b.

(** [n || 0] on numbers *)
Definition orZero (n : num) : num := if truthyNum n then n else ofZ 0.

(** A cell read from a row: [row[i]], [undefined] past the end. *)
Definition cellAt (row : list string) (i : nat) : value :=
  match row !! i with
  | Some s => Str s
  | None => Undefined
  end.

(** *** Objects used as dictionaries

    An object literal inherits the properties of [Object.prototype]: a key
    that is one of their names is found in every such object, with a
    function or an object as its value.  The assignment [o['__proto__'] = v]
    of a number sets no property, so that this key reads as inherited
    whatever was assigned to it. *)

Definition objectPrototypeKeys : list string :=
  [ "constructor"; "hasOwnProperty"; "isPrototypeOf"; "propertyIsEnumerable";
    "toLocaleString"; "toString"; "valueOf"; "__proto__";
    "__defineGetter__"; "__defineSetter__"; "__lookupGetter__";
    "__lookupSetter__" ]%string.

Definition inherited (key : string) : bool :=
  existsb (String.eqb key) objectPrototypeKeys.

(** What [o[key]] reads: a property of the object's own, an inherited one, or
    [undefined]. *)
Inductive Slot (A : Type) : Type :=
| Own (a : A)
| Inherited
| Absent.
Arguments Own {A} a.
Arguments Inherited {A}.
Arguments Absent {A}.

Definition readKey {A : Type} (assigned : gmap string A) (key : string) : Slot A :=
  if String.eqb key "__proto__" then Inherited
  else match assigned !! key with
       | Some a => Own a
       | None => if inherited key then Inherited else Absent
       end.

(** *** Dates *)

(** A [Date] object: [None] is the Invalid Date, [Some t] the time value in
    milliseconds since the epoch. *)
Definition Date : Type := option Z.

(** [new Date(n)] for a number: TimeClip. *)
Definition dateOfNum (n : num) : Date :=
  match n with
  | Fin m k =>
      let t := Z.quot m (pow10 k) in
      if Z.abs t <=? 8640000000000000 then Some t else None
  | _ => None
  end.

End Js.


Import Js.

(** ** The spreadsheet store

    A sheet is kept as the rows [values.get] returns for it: a list of rows,
    each a list of cell texts, possibly of different lengths.  The way the
    sheet interprets entered text (formulas, dates, number formats) is not
    modelled: a written string is kept as it is and a finite number as its
    decimal text. *)

Abbreviation row := (list string) (only parsing).
Abbreviation grid := (list (list string)) (only parsing).
Abbreviation spreadsheet := (list (string * list (list string))) (only parsing).

(** The ranges the code reads: a whole sheet, or the block of rows [r0..r1]
    (to the last row when [r1] is [None]) and columns [c0..c1], 0-based. *)
Inductive Range : Type :=
| Whole
| Block (r0 c0 : nat) (r1 : option nat) (c1 : nat).

(** [A2:Z], [F2], [A:A] and [B2] *)
Definition rangeA2Z : Range := Block 1 0 None 25.
Definition rangeF2 : Range := Block 1 5 (Some 1%nat) 5.
Definition rangeAA : Range := Block 0 0 None 0.
Definition rangeB2 : Range := Block 1 1 (Some 1%nat) 1.

Definition readRange (g : grid) (rg : Range) : grid :=
  match rg with
  | Whole => g
  | Block r0 c0 r1 c1 =>
      let upto := match r1 with Some r => take (S r) g | None => g end in
      map (fun r => take (S c1 - c0) (drop c0 r)) (drop r0 upto)
  end.

(** A write of [wvalues] with its upper left cell at row [wrow] and column
    [wcol] (0-based) of sheet [wsheet]. *)
Record Write : Type := mkWrite {
  wsheet : string;
  wrow : nat;
  wcol : nat;
  wvalues : list (list value)
}.

(** What the request body carries for a value: [undefined], [null], [NaN] and
    the infinities are serialised as [null], which the store skips. *)
Definition cellText (v : value) : option string :=
  match v with
  | Undefined | Null => None
  | Bool true => Some "TRUE"
  | Bool false => Some "FALSE"
  | Num (Fin m k) => Some (numToString (Fin m k))
  | Num _ => None
  | Str s => Some s
  end.

Fixpoint setCell (r : row) (c : nat) (t : string) : row :=
  match c, r with
  | O, [] => [t]
  | O, _ :: r' => t :: r'
  | S c', [] => EmptyString :: setCell [] c' t
  | S c', x :: r' => x :: setCell r' c' t
  end.

Fixpoint writeCells (r : row) (c : nat) (vs : list value) : row :=
  match vs with
  | [] => r
  | v :: vs' =>
      writeCells (match cellText v with Some t => setCell r c t | None => r end)
                 (S c) vs'
  end.

Fixpoint updRow (g : grid) (i : nat) (f : row -> row) : grid :=
  match i, g with
  | O, [] => [f []]
  | O, x :: g' => f x :: g'
  | S i', [] => [] :: updRow [] i' f
  | S i', x :: g' => x :: updRow g' i' f
  end.

Fixpoint writeBlock (g : grid) (i c : nat) (vals : list (list value)) : grid :=
  match vals with
  | [] => g
  | vs :: rest => writeBlock (updRow g i (fun r => writeCells r c vs)) (S i) c rest
  end.

Fixpoint lookupTab (ss : spreadsheet) (title : string) : option grid :=
  match ss with
  | [] => None
  | (t, g) :: rest => if String.eqb t title then Some g else lookupTab rest title
  end.

Fixpoint updTab (ss : spreadsheet) (title : string) (f : grid -> grid)
  : option spreadsheet :=
  match ss with
  | [] => None
  | (t, g) :: rest =>
      if String.eqb t title then Some ((t, f g) :: rest)
      else match updTab rest title f with
           | Some rest' => Some ((t, g) :: rest')
           | None => None
           end
  end.

Definition applyWrite (ss : spreadsheet) (w : Write) : option spreadsheet :=
  updTab ss (wsheet w) (fun g => writeBlock g (wrow w) (wcol w) (wvalues w)).

Fixpoint applyWrites (ss : spreadsheet) (ws : list Write) : option spreadsheet :=
  match ws with
  | [] => Some ss
  | w :: rest =>
      match applyWrite ss w with
      | Some ss' => applyWrites ss' rest
      | None => None
      end
  end.

(** The calls made on the store, in the order they are made. *)
Inductive Call : Type :=
| CallMeta (id : string)
| CallGet (id title : string) (rg : Range)
| CallUpdate (id : string) (w : Write)
| CallBatch (id : string) (ws : list Write).

Definition isWriteCall (c : Call) : bool :=
  match c with
  | CallUpdate _ _ | CallBatch _ _ => true
  | _ => false
  end.

(** The world a handler runs in: the spreadsheets by identifier, whether the
    service-account file can be read, the transport faults still to come (one
    entry per call on the store, [true] for a call that fails; no entry, no
    fault), and the calls made so far. *)
Record World : Type := mkWorld {
  files : gmap string (list (string * list (list string)));
  keyFile : bool;
  faults : list bool;
  trace : list Call
}.

Inductive Error : Type :=
| StoreError
| KeyFileError
| BudgetSheetIdMissing (title : string)
| UserNotFoundInAnyTab
| TypeError.

Inductive Res (A : Type) : Type :=
| Ok (a : A)
| Err (e : Error).
Arguments Ok {A} a.
Arguments Err {A} e.

(** Handlers are state transformers of the world that return or throw. *)
Definition M (A : Type) : Type := World -> Res A * World.

#[global] Instance M_ret : MRet M := fun A a w => (Ok a, w).
#[global] Instance M_bind : MBind M := fun A B f m w =>
  match m w with
  | (Ok a, w') => f a w'
  | (Err e, w') => (Err e, w')
  end.

Definition throw {A : Type} (e : Error) : M A := fun w => (Err e, w).

(** [try { m } catch (e) { h e }] *)
Definition tryCatch {A : Type} (m : M A) (h : Error -> M A) : M A := fun w =>
  match m w with
  | (Ok a, w') => (Ok a, w')
  | (Err e, w') => h e w'
  end.

(** One call on the store: it is recorded, and fails when the next fault says so. *)
Definition call (c : Call) : M unit := fun w =>
  let w' := mkWorld (files w) (keyFile w) (tail (faults w)) (trace w ++ [c]) in
  match faults w with
  | true :: _ => (Err StoreError, w')
  | _ => (Ok tt, w')
  end.

Definition getFile (id : string) : M (list (string * list (list string))) := fun w =>
  match files w !! id with
  | Some ss => (Ok ss, w)
  | None => (Err StoreError, w)
  end.

Definition putFile (id : string) (ss : spreadsheet) : M unit := fun w =>
  (Ok tt, mkWorld (<[id := ss]> (files w)) (keyFile w) (faults w) (trace w)).

(** [getSheetsClient()] reads the service-account file. *)
Definition getSheetsClient : M unit := fun w =>
  if keyFile w then (Ok tt, w) else (Err KeyFileError, w).

(** [sheets.spreadsheets.get({spreadsheetId})]: the titles of the tabs *)
Definition spreadsheets_get (id : string) : M (list string) :=
  _ ← call (CallMeta id);
  ss ← getFile id;
  mret (map fst ss).

(** [sheets.spreadsheets.values.get({spreadsheetId, range})]: the rows, [[]]
    when the response has no [values] *)
Definition values_get (id title : string) (rg : Range) : M (list (list string)) :=
  _ ← call (CallGet id title rg);
  ss ← getFile id;
  match lookupTab ss title with
  | Some g => mret (readRange g rg)
  | None => throw StoreError
  end.

(** [sheets.spreadsheets.values.update] *)
Definition values_update (id : string) (w : Write) : M unit :=
  _ ← call (CallUpdate id w);
  ss ← getFile id;
  match applyWrite ss w with
  | Some ss' => putFile id ss'
  | None => throw StoreError
  end.

(** [sheets.spreadsheets.values.batchUpdate] *)
Definition values_batchUpdate (id : string) (ws : list Write) : M unit :=
  _ ← call (CallBatch id ws);
  ss ← getFile id;
  match applyWrites ss ws with
  | Some ss' => putFile id ss'
  | None => throw StoreError
  end.

(** ** The host: what the JavaScript runtime decides

    [Date] parsing of text, the local calendar of [getFullYear] and
    [getMonth], and [toLocaleString('sv-SE', {timeZone: 'Africa/Cairo'})]
    belong to the runtime and its time zone; the handlers are written over
    any such host. *)
Record Host : Type := mkHost {
  dateParse : string -> option Z;
  getFullYear : Z -> Z;
  getMonth : Z -> Z;
  toLocaleStringCairo : Z -> string
}.

(** ** Requests and responses *)

(** The messages of the failure responses, by the line of the source that
    sends them. *)
Inductive Message : Type :=
| MsgBadLogin            (* 481 *)
| MsgSystemError         (* 505 *)
| MsgIncomplete          (* 1192, 1333, 1459 *)
| MsgStatusNotApprovable (* 1198 *)
| MsgUserNotFound        (* 1213, 1354, 1480 *)
| MsgApproveForbidden    (* 1218 *)
| MsgNoWaitingForSerial  (* 1251, 1518 *)
| MsgApproveError        (* 1300 *)
| MsgStatusNotEditable   (* 1339 *)
| MsgEditForbidden       (* 1359 *)
| MsgNoLinesToEdit       (* 1413 *)
| MsgEditError           (* 1435 *)
| MsgStatusNotCancellable (* 1465 *)
| MsgCancelForbidden     (* 1485 *)
| MsgCancelError         (* 1573 *)
| MsgOrderIncomplete     (* 1599 *)
| MsgBadUser             (* 1614 *)
| MsgBranchForbidden     (* 1626 *)
| MsgSubmitError.        (* 1679 *)

(** The [user] object of a successful login. *)
Record LoginUser : Type := mkLoginUser {
  lu_username : value;
  lu_branch : string;
  lu_userType : string;
  lu_restricted : bool;
  lu_paperMode : bool;
  lu_level : string
}.

(** The JSON body of a response: [{success: false, message}] or
    [{success: true, ...}]. *)
Inductive Body : Type :=
| Failure (m : Message)
| Success
| SuccessUser (u : LoginUser)
| SuccessSerial (orderSerial : string).

(** A response: [res.status(c).json(b)]; [res.json(b)] leaves the status at 200. *)
Record Response : Type := mkResponse {
  status : Z;
  body : Body
}.

Definition json (b : Body) : Response := mkResponse 200 b.

Definition isFailure (r : Response) : bool :=
  match body r with Failure _ => true | _ => false end.

(** What the identity resolver returns for a user. *)
Record UserInfo : Type := mkUserInfo {
  tab : string;
  branch : string;
  restricted : bool;
  level : string;
  paperMode : bool;
  budgetSheetId : string
}.

Record LoginRequest : Type := mkLoginRequest {
  login_username : value;
  login_password : value
}.

(** [{ username, orderId, serial }] *)
Record OrderRequest : Type := mkOrderRequest {
  or_username : value;
  or_orderId : value;
  or_serial : value
}.

(** An element of [items]: [{ productCode, quantity }] *)
Record EditItem : Type := mkEditItem {
  ei_productCode : value;
  ei_quantity : value
}.

(** [{ username, orderId, items }]; [items] is [None] when it is not an array. *)
Record EditRequest : Type := mkEditRequest {
  er_username : value;
  er_orderId : value;
  er_items : option (list EditItem)
}.

(** An element of [orderItems] *)
Record OrderItem : Type := mkOrderItem {
  oi_productCode : value;
  oi_productName : value;
  oi_unitPrice : value;
  oi_quantity : value;
  oi_subtotal : value;
  oi_category : value
}.

(** [{ branchName, orderItems, userType, username }]; [orderItems] is [None]
    when it is not an array. *)
Record SubmitRequest : Type := mkSubmitRequest {
  sr_branchName : value;
  sr_orderItems : option (list OrderItem);
  sr_username : value
}.

(** ** Helpers of the source *)

(** [(row[i] || '')] on a row of cell texts, where [toString()] changes nothing *)
Definition cellStr (r : row) (i : nat) : string := default EmptyString (r !! i).

(** [s === v] for a string [s] *)
Definition strictEqStr (s : string) (v : value) : bool :=
  match v with
  | Str t => String.eqb s t
  | _ => false
  end.

Definition nonEmpty (s : string) : bool := negb (String.eqb s EmptyString).

(** [serialToDate] (43-45): [new Date(Date.UTC(1899, 11, 30) + serial * 86400000)] *)
Definition serialToDate (serial : num) : Date :=
  dateOfNum (nadd (ofZ (-2209161600000)) (nmul serial (ofZ 86400000))).

Section Ledger.

Variable host : Host.

(** [isSameMonth] (46-52); the years and months of an Invalid Date are [NaN],
    which is equal to nothing. *)
Definition isSameMonth (date : option Date) (now : Z) : bool :=
  match date with
  | None => false
  | Some None => false
  | Some (Some t) =>
      (getFullYear host t =? getFullYear host now)
      && (getMonth host t =? getMonth host now)
  end.

(** The date of a row, as every scan of the source computes it
    (712-716, 795-799, 889-893, 975-979, 1094-1098, 1235-1239, 1377-1381,
    1502-1506, 1850-1854, 2041-2045, 2159-2163, 2366-2370):
    [!cell ? null : !isNaN(cell) && Number(cell) > 30000
       ? serialToDate(Number(cell)) : new Date(cell)] *)
Definition decodeDate (cell : value) : option Date :=
  if negb (truthy cell) then None
  else if negb (isNaNnum (toNumber cell)) && ngt (toNumber cell) (ofZ 30000)
       then Some (serialToDate (toNumber cell))
       else Some (dateParse host (toString cell)).

(** [!date || !isSameMonth(date, now)] is false: the row is of the current month *)
Definition inMonth (now : Z) (r : row) : bool :=
  match decodeDate (cellAt r 0) with
  | None => false
  | Some d => isSameMonth (Some d) now
  end.

(** The loop every scan of a sheet runs:
    [for (let i = 1; i < rows.length; i++) { ...;
       if (!date || !isSameMonth(date, now)) continue; BODY }],
    here from row [i] on, over the rows from there. *)
Fixpoint scanFrom {A : Type} (now : Z) (body : nat -> row -> A -> A)
  (i : nat) (rows : grid) (acc : A) : A :=
  match rows with
  | [] => acc
  | r :: rest =>
      scanFrom now body (S i) rest (if inMonth now r then body i r acc else acc)
  end.

Definition scanCurrentMonth {A : Type} (now : Z) (body : nat -> row -> A -> A)
  (rows : grid) (init : A) : A :=
  scanFrom now body 1 (drop 1 rows) init.

(** *** Identity resolver *)

(** The client tabs of the master sheet: every titled tab but [Config] and
    [Readme] (140-146). *)
Definition clientTabs (titles : list string) : list string :=
  List.filter (fun t => negb (String.eqb t "Config" || String.eqb t "Readme"))
              (List.filter nonEmpty titles).

(** The fields read off a credential row (160-166, 218-224). *)
Definition levelOfRow (r : row) : string :=
  let l := toUpperCase (trim (cellStr r 4)) in
  if nonEmpty l then l else "L1".

(** The cell [F2] of a tab and the result object (168-184, 226-242). *)
Definition userOfRow (masterSheetId title : string) (r : row) : M UserInfo :=
  let branch := trim (cellStr r 2) in
  let restricted := String.eqb (toUpperCase (trim (cellStr r 3))) "Y" in
  let level := levelOfRow r in
  let paperMode := String.eqb (toUpperCase (trim (cellStr r 25))) "Y" in
  idCell ← values_get masterSheetId title rangeF2;
  let budgetSheetId := trim (cellStr (default [] (head idCell)) 0) in
  if nonEmpty budgetSheetId
  then mret (mkUserInfo title branch restricted level paperMode budgetSheetId)
  else throw (BudgetSheetIdMissing title).

(** The test of a credential row at login (156-159): rows without user name
    and password are passed over. *)
Definition loginRowMatches (username password : value) (r : row) : bool :=
  let u := trim (cellStr r 0) in
  let p := cellStr r 1 in
  if negb (nonEmpty u) && negb (nonEmpty p) then false
  else strictEqStr u username && strictEqStr p password.

(** The loop over the client tabs of [findClientTabAndSheetIdByUser] (148-188) *)
Fixpoint loginScanTabs (masterSheetId : string) (username password : value)
  (tabs : list string) : M (option UserInfo) :=
  match tabs with
  | [] => mret None
  | title :: rest =>
      rows ← values_get masterSheetId title rangeA2Z;
      match List.find (loginRowMatches username password) rows with
      | Some r => u ← userOfRow masterSheetId title r; mret (Some u)
      | None => loginScanTabs masterSheetId username password rest
      end
  end.

(** [findClientTabAndSheetIdByUser] (131-189) *)
Definition findClientTabAndSheetIdByUser (masterSheetId : string)
  (username password : value) : M (option UserInfo) :=
  titles ← spreadsheets_get masterSheetId;
  loginScanTabs masterSheetId username password (clientTabs titles).

(** The test of a credential row after login (215-217) *)
Definition userRowMatches (username : value) (r : row) : bool :=
  let u := trim (cellStr r 0) in
  if negb (nonEmpty u) then false else strictEqStr u username.

Fixpoint userScanTabs (masterSheetId : string) (username : value)
  (tabs : list string) : M (option UserInfo) :=
  match tabs with
  | [] => mret None
  | title :: rest =>
      rows ← values_get masterSheetId title rangeA2Z;
      match List.find (userRowMatches username) rows with
      | Some r => u ← userOfRow masterSheetId title r; mret (Some u)
      | None => userScanTabs masterSheetId username rest
      end
  end.

(** [getUserInfoByUsername] (195-247) *)
Definition getUserInfoByUsername (masterSheetId : string) (username : value)
  : M (option UserInfo) :=
  titles ← spreadsheets_get masterSheetId;
  userScanTabs masterSheetId username (clientTabs titles).

(** *** Appending rows *)

(** The test of a cell of column A in [appendRowsAtoK] (95-96) *)
Definition nonBlankA (r : row) : bool :=
  match r !! 0%nat with
  | Some v => nonEmpty (trim v)
  | None => false
  end.

(** [lastRow] of [appendRowsAtoK] (93-100): the 1-based index of the last row
    with text in column A, 0 when there is none. *)
Fixpoint lastRowOf (colA : grid) : nat :=
  match colA with
  | [] => 0
  | r :: rest =>
      match lastRowOf rest with
      | S n => S (S n)
      | O => if nonBlankA r then 1 else 0
      end
  end.

(** [appendRowsAtoK] (83-119): the rows are written from column A of the row
    below [lastRow]. *)
Definition appendRowsAtoK (spreadsheetId sheetName : string)
  (values : list (list value)) : M unit :=
  match values with
  | [] => mret tt
  | _ =>
      colA ← values_get spreadsheetId sheetName rangeAA;
      values_update spreadsheetId (mkWrite sheetName (lastRowOf colA) 0 values)
  end.

(** *** Serial generator *)

(** The number read off the counter cell (432-440) *)
Definition currentNumOf (currentSerial : string) : num :=
  let upper := toUpperCase currentSerial in
  if nonEmpty upper && startsWith "AA" upper then
    let parsed := parseIntStr true (trim (slice 2 upper)) in
    if negb (isNaNnum parsed) && nge parsed (ofZ 0) then parsed else ofZ 0
  else ofZ 0.

(** [newSerial] (442-443) *)
Definition newSerialOf (currentSerial : string) : string :=
  "AA" +:+ numToString (nadd (currentNumOf currentSerial) (ofZ 1)).

(** [getNextOrderSerial] (413-458) *)
Definition getNextOrderSerial (spreadsheetId : string) : M string :=
  currentSerial ←
    tryCatch
      (resp ← values_get spreadsheetId "Serial Numbers" rangeB2;
       mret (trim (cellStr (default [] (head resp)) 0)))
      (fun _ => mret EmptyString);
  let newSerial := newSerialOf currentSerial in
  _ ← values_update spreadsheetId
        (mkWrite "Serial Numbers" 1 1 [[Str newSerial]]);
  mret newSerial.

(** *** Handlers *)

(** [process.env.GOOGLE_CREDENTIALS_SHEET_ID] *)
Variable credentialsSheetId : string.

(** [app.post('/api/validateLogin')] (463-507) *)
Definition validateLogin (req : LoginRequest) : M Response :=
  tryCatch
    (_ ← getSheetsClient;
     found ← findClientTabAndSheetIdByUser credentialsSheetId
               (login_username req) (login_password req);
     match found with
     | None => mret (json (Failure MsgBadLogin))
     | Some m =>
         mret (json (SuccessUser
           (mkLoginUser (login_username req) (branch m) "tasa"
              (restricted m) (paperMode m)
              (if nonEmpty (level m) then level m else "L1"))))
     end)
    (fun _ => mret (mkResponse 500 (Failure MsgSystemError))).

(** The serial and the status of a composite order identifier
    (1183-1187, 1319-1323, 1450-1454): [composite.split('__')]. *)
Definition orderSerialOf (composite : string) : string :=
  trim (default EmptyString (split "__" composite !! 0%nat)).

Definition statusOf (composite : string) : string :=
  let status := toLowerCase (trim (default EmptyString (split "__" composite !! 1%nat))) in
  if nonEmpty status then status else "waiting".

(** The rows of 'Waiting for Approval' of an order (1231-1246, 1498-1513):
    their indices, in order. *)
Definition rowsOfSerial (now : Z) (rows : grid) (orderSerial : string) : list nat :=
  scanCurrentMonth now
    (fun i r acc =>
       if String.eqb (trim (cellStr r 10)) orderSerial then acc ++ [i] else acc)
    rows [].

(** A row as it is copied, columns A to K (1255-1272, 1522-1539) *)
Definition copyAtoK (r : row) : list value :=
  map (fun c => Str (cellStr r c)) (seq 0 11).

Definition appendValuesOf (rows : grid) (rowsToClear : list nat) : list (list value) :=
  map (fun idx => copyAtoK (default [] (rows !! idx))) rowsToClear.

(** The eleven empty strings that clear a row (1276-1279, 1548-1551) *)
Definition clearDataOf (rowsToClear : list nat) : list Write :=
  map (fun idx => mkWrite "Waiting for Approval" idx 0 [repeat (Str EmptyString) 11])
      rowsToClear.

(** [app.post('/api/approveOrder')] (1179-1303) *)
Definition approveOrder (req : OrderRequest) (now : Z) : M Response :=
  tryCatch
    (let composite :=
       toString (orElse (orElse (or_orderId req) (or_serial req)) (Str EmptyString)) in
     let orderSerial := orderSerialOf composite in
     let status := statusOf composite in
     if negb (truthy (or_username req)) || negb (nonEmpty orderSerial)
     then mret (mkResponse 400 (Failure MsgIncomplete))
     else if negb (String.eqb status "waiting")
     then mret (mkResponse 400 (Failure MsgStatusNotApprovable))
     else
       _ ← getSheetsClient;
       userInfo ← getUserInfoByUsername credentialsSheetId (or_username req);
       match userInfo with
       | None => mret (mkResponse 400 (Failure MsgUserNotFound))
       | Some ui =>
           if negb (String.eqb (toUpperCase (level ui)) "L2")
           then mret (mkResponse 403 (Failure MsgApproveForbidden))
           else
             rows ← values_get (budgetSheetId ui) "Waiting for Approval" Whole;
             let rowsToClear := rowsOfSerial now rows orderSerial in
             match rowsToClear with
             | [] => mret (mkResponse 400 (Failure MsgNoWaitingForSerial))
             | _ =>
                 _ ← appendRowsAtoK (budgetSheetId ui) "Final Orders"
                       (appendValuesOf rows rowsToClear);
                 _ ← values_batchUpdate (budgetSheetId ui) (clearDataOf rowsToClear);
                 mret (json Success)
             end
       end)
    (fun _ => mret (mkResponse 500 (Failure MsgApproveError))).

(** [app.post('/api/cancelOrder')] (1446-1576) *)
Definition cancelOrder (req : OrderRequest) (now : Z) : M Response :=
  tryCatch
    (let composite := toString (orElse (or_orderId req) (Str EmptyString)) in
     let orderSerial := orderSerialOf composite in
     let status := statusOf composite in
     if negb (truthy (or_username req)) || negb (nonEmpty orderSerial)
     then mret (mkResponse 400 (Failure MsgIncomplete))
     else if negb (String.eqb status "waiting")
     then mret (mkResponse 400 (Failure MsgStatusNotCancellable))
     else
       _ ← getSheetsClient;
       userInfo ← getUserInfoByUsername credentialsSheetId (or_username req);
       match userInfo with
       | None => mret (mkResponse 400 (Failure MsgUserNotFound))
       | Some ui =>
           if negb (String.eqb (toUpperCase (level ui)) "L2")
           then mret (mkResponse 403 (Failure MsgCancelForbidden))
           else
             rows ← values_get (budgetSheetId ui) "Waiting for Approval" Whole;
             let rowsToClear := rowsOfSerial now rows orderSerial in
             match rowsToClear with
             | [] => mret (mkResponse 400 (Failure MsgNoWaitingForSerial))
             | _ =>
                 _ ← appendRowsAtoK (budgetSheetId ui) "Cancelled Orders"
                       (appendValuesOf rows rowsToClear);
                 _ ← values_batchUpdate (budgetSheetId ui) (clearDataOf rowsToClear);
                 mret (json Success)
             end
       end)
    (fun _ => mret (mkResponse 500 (Failure MsgCancelError))).

(** The index of the rows of an order by product code (1373-1390): a later
    row of the same code replaces an earlier one. *)
Definition indexOfSerial (now : Z) (rows : grid) (orderSerial : string)
  : gmap string nat :=
  scanCurrentMonth now
    (fun i r (index : gmap string nat) =>
       if String.eqb (trim (cellStr r 10)) orderSerial then
         if nonEmpty (cellStr r 3) then <[cellStr r 3 := i]> index else index
       else index)
    rows ∅.

(** The two writes of an item (1397-1407) *)
Definition editWrites (rows : grid) (rowIdx : nat) (item : EditItem) : list Write :=
  let r := default [] (rows !! rowIdx) in
  let unitPrice := orZero (parseFloat (cellAt r 5)) in
  let qty := mathMax (ofZ 0) (orZero (parseInt (ei_quantity item))) in
  let subtotal := nmul unitPrice qty in
  [ mkWrite "Waiting for Approval" rowIdx 8 [[Num qty]];
    mkWrite "Waiting for Approval" rowIdx 6 [[Num subtotal]] ].

(** The batch of an edit (1392-1408); [None] when an item makes the loop
    throw: [index[code]] is then an inherited property, [rows[rowIdx]] is
    [undefined] and reading [row[5]] is a [TypeError]. *)
Fixpoint editBatch (rows : grid) (index : gmap string nat) (items : list EditItem)
  : option (list Write) :=
  match items with
  | [] => Some []
  | item :: rest =>
      let code := ei_productCode item in
      if negb (truthy code) then editBatch rows index rest
      else match readKey index (toString code) with
           | Absent => editBatch rows index rest
           | Inherited => None
           | Own rowIdx =>
               match editBatch rows index rest with
               | Some batch => Some (editWrites rows rowIdx item ++ batch)
               | None => None
               end
           end
  end.

(** [app.post('/api/updateWaitingOrder')] (1315-1438) *)
Definition updateWaitingOrder (req : EditRequest) (now : Z) : M Response :=
  tryCatch
    (let composite := toString (orElse (er_orderId req) (Str EmptyString)) in
     let orderSerial := orderSerialOf composite in
     let status := statusOf composite in
     match er_items req with
     | None | Some [] => mret (mkResponse 400 (Failure MsgIncomplete))
     | Some items =>
       if negb (truthy (er_username req)) || negb (nonEmpty orderSerial)
       then mret (mkResponse 400 (Failure MsgIncomplete))
       else if negb (String.eqb status "waiting")
       then mret (mkResponse 400 (Failure MsgStatusNotEditable))
       else
         _ ← getSheetsClient;
         userInfo ← getUserInfoByUsername credentialsSheetId (er_username req);
         match userInfo with
         | None => mret (mkResponse 400 (Failure MsgUserNotFound))
         | Some ui =>
             if negb (String.eqb (toUpperCase (level ui)) "L2")
             then mret (mkResponse 403 (Failure MsgEditForbidden))
             else
               rows ← values_get (budgetSheetId ui) "Waiting for Approval" Whole;
               let index := indexOfSerial now rows orderSerial in
               match editBatch rows index items with
               | None => throw TypeError
               | Some [] => mret (mkResponse 400 (Failure MsgNoLinesToEdit))
               | Some batch =>
                   _ ← values_batchUpdate (budgetSheetId ui) batch;
                   mret (json Success)
               end
         end
     end)
    (fun _ => mret (mkResponse 500 (Failure MsgEditError))).

(** A row of a submitted order (1641-1660) *)
Definition submitRow (dateString : string) (branchName username : value)
  (orderSerial : string) (i : OrderItem) : list value :=
  let price := orZero (toNumber (oi_unitPrice i)) in
  let qty := orZero (toNumber (oi_quantity i)) in
  let subtotal :=
    match oi_subtotal i with
    | Num n => n
    | _ => nmul price qty
    end in
  let cat := orElse (oi_category i) (Str EmptyString) in
  [ Str dateString; branchName; username; oi_productCode i; oi_productName i;
    Num price; Num subtotal; cat; Num qty; Str EmptyString; Str orderSerial ].

(** [app.post('/api/submitOrder')] (1582-1682) *)
Definition submitOrder (req : SubmitRequest) (now : Z) : M Response :=
  tryCatch
    (match sr_orderItems req with
     | None | Some [] => mret (mkResponse 400 (Failure MsgOrderIncomplete))
     | Some orderItems =>
       if negb (truthy (sr_branchName req))
       then mret (mkResponse 400 (Failure MsgOrderIncomplete))
       else
         _ ← getSheetsClient;
         userInfo ← getUserInfoByUsername credentialsSheetId (sr_username req);
         match userInfo with
         | None => mret (mkResponse 400 (Failure MsgBadUser))
         | Some ui =>
             let userLevel :=
               toUpperCase (if nonEmpty (level ui) then level ui else "L1") in
             let userBranch := trim (branch ui) in
             if negb (String.eqb userLevel "L2")
                && nonEmpty userBranch
                && negb (strictEqStr userBranch (sr_branchName req))
             then mret (mkResponse 403 (Failure MsgBranchForbidden))
             else
               let targetSheet :=
                 if String.eqb userLevel "L2" then "Final Orders"
                 else "Waiting for Approval" in
               orderSerial ← getNextOrderSerial (budgetSheetId ui);
               let dateString := replaceChar "T" " " (toLocaleStringCairo host now) in
               _ ← appendRowsAtoK (budgetSheetId ui) targetSheet
                     (map (submitRow dateString (sr_branchName req) (sr_username req)
                             orderSerial) orderItems);
               mret (json (SuccessSerial orderSerial))
         end
     end)
    (fun _ => mret (mkResponse 500 (Failure MsgSubmitError))).

(** *** Scans of the reporting and export handlers *)

(** [set.add(x)] on a [Set] kept in insertion order *)
Definition setAdd (x : string) (l : list string) : list string :=
  if existsb (String.eqb x) l then l else l ++ [x].

(** [if (requestedBy) entry.requestors.add(requestedBy)] *)
Definition addRequestor (r : row) (l : list string) : list string :=
  let requestedBy := trim (cellStr r 2) in
  if nonEmpty requestedBy then setAdd requestedBy l else l.

(** The line read off a row (804-806, 899-904, 1105-1110, 1861-1866,
    2060-2065, 2170-2175, 2377-2382). *)
Record Line : Type := mkLine {
  ln_productCode : value;
  ln_productName : value;
  ln_unitPrice : num;
  ln_quantity : num;
  ln_subtotal : num;
  ln_category : value
}.

Definition lineOf (r : row) : Line :=
  let unitPrice := orZero (parseFloat (cellAt r 5)) in
  let qty := orZero (parseInt (cellAt r 8)) in
  let subtotal :=
    let stored := parseFloat (cellAt r 6) in
    if truthyNum stored then stored else nmul unitPrice qty in
  mkLine (cellAt r 3) (cellAt r 4) unitPrice qty subtotal
         (orElse (cellAt r 7) (Str EmptyString)).

(** [codeToImage[productCode] || ''] *)
Definition imageOf (codeToImage : gmap string string) (r : row) : string :=
  default EmptyString (codeToImage !! toString (cellAt r 3)).

(** The time value of the date of a row of the current month. *)
Definition timeOf (r : row) : Z :=
  match decodeDate (cellAt r 0) with
  | Some (Some t) => t
  | _ => 0
  end.

(** [if (date && (!entry.createdAt || date < entry.createdAt)) entry.createdAt = date] *)
Definition earlier (t createdAt : Z) : Z := if t <? createdAt then t else createdAt.

(** An entry of [summary] in [/api/approvalsSummary] *)
Record BranchSummary : Type := mkBranchSummary {
  bs_branchName : string;
  bs_totalAmount : num;
  bs_totalQty : num;
  bs_lines : Z
}.

(** The scan of [/api/approvalsSummary] (790-819).  For a branch named as an
    inherited property [summary[branch]] is truthy: no entry is created and
    the sums go to the inherited object, which [Object.values] does not
    list. *)
Definition approvalsSummaryScan (now : Z) (rows : grid) : gmap string BranchSummary :=
  scanCurrentMonth now
    (fun _ r (summary : gmap string BranchSummary) =>
       let branch := trim (cellStr r 1) in
       if negb (nonEmpty branch) then summary else
       let l := lineOf r in
       let add e :=
         <[branch := mkBranchSummary (bs_branchName e)
                       (nadd (bs_totalAmount e) (ln_subtotal l))
                       (nadd (bs_totalQty e) (ln_quantity l))
                       (bs_lines e + 1)]> summary in
       match readKey summary branch with
       | Own e => add e
       | Absent => add (mkBranchSummary branch (ofZ 0) (ofZ 0) 0)
       | Inherited => summary
       end)
    rows ∅.

(** The scan of [/api/approvalDetails] (884-915) *)
Definition approvalDetailsScan (now : Z) (codeToImage : gmap string string)
  (rows : grid) (branchName : string) : list (Line * string) :=
  scanCurrentMonth now
    (fun _ r items =>
       if negb (String.eqb (trim (cellStr r 1)) branchName) then items
       else items ++ [(lineOf r, imageOf codeToImage r)])
    rows [].

(** The scan of [/api/approveBranchOrder] (971-986) *)
Definition rowsOfBranch (now : Z) (rows : grid) (branchName : value) : list nat :=
  scanCurrentMonth now
    (fun i r acc =>
       if negb (strictEqStr (trim (cellStr r 1)) branchName) then acc else acc ++ [i])
    rows [].

(** An entry of [ordersByBranch] in [/api/pendingOrders] *)
Record PendingEntry : Type := mkPendingEntry {
  pe_branchName : string;
  pe_total : num;
  pe_createdAt : Z;
  pe_requestors : list string;
  pe_items : list Line
}.

(** The scan of [/api/pendingOrders] (1089-1136) *)
Definition pendingOrdersScan (now : Z) (rows : grid) : gmap string PendingEntry :=
  scanCurrentMonth now
    (fun _ r (ordersByBranch : gmap string PendingEntry) =>
       let branchName := trim (cellStr r 1) in
       if negb (nonEmpty branchName) then ordersByBranch else
       let l := lineOf r in
       let e := default (mkPendingEntry branchName (ofZ 0) (timeOf r) [] [])
                        (ordersByBranch !! branchName) in
       <[branchName := mkPendingEntry (pe_branchName e)
                         (nadd (pe_total e) (ln_subtotal l))
                         (earlier (timeOf r) (pe_createdAt e))
                         (addRequestor r (pe_requestors e))
                         (pe_items e ++ [l])]> ordersByBranch)
    rows ∅.

(** An entry of [summaryMap], [ordersMap] or [orders] in the summary and the
    export handlers *)
Record OrderEntry : Type := mkOrderEntry {
  oe_serial : string;
  oe_branchName : string;
  oe_status : string;
  oe_total : num;
  oe_createdAt : Z;
  oe_requestors : list string;
  oe_items : list (Line * string)
}.

(** [processSheet] of [handleOrdersSummaryForL2] (1845-1899) *)
Definition summaryProcessSheet (now : Z) (codeToImage : gmap string string)
  (rows : grid) (statusKey : string) (summaryMap : gmap string OrderEntry)
  : gmap string OrderEntry :=
  scanCurrentMonth now
    (fun _ r (summaryMap : gmap string OrderEntry) =>
       let branchName := trim (cellStr r 1) in
       if negb (nonEmpty branchName) then summaryMap else
       let l := lineOf r in
       let serial := trim (cellStr r 10) in
       if negb (nonEmpty serial) then summaryMap else
       let key := serial +:+ "__" +:+ statusKey in
       let e := default (mkOrderEntry serial branchName statusKey (ofZ 0) (timeOf r) [] [])
                        (summaryMap !! key) in
       <[key := mkOrderEntry (oe_serial e) (oe_branchName e) (oe_status e)
                  (nadd (oe_total e) (ln_subtotal l))
                  (earlier (timeOf r) (oe_createdAt e))
                  (addRequestor r (oe_requestors e))
                  (oe_items e ++ [(l, imageOf codeToImage r)])]> summaryMap)
    rows summaryMap.

(** The scan of [handleOrderDetailsForL2] (2035-2076): the items and
    [effectiveBranchName] *)
Definition orderDetailsScan (now : Z) (codeToImage : gmap string string)
  (rows : grid) (branchNameQuery serialQuery : string)
  : list (Line * string) * string :=
  scanCurrentMonth now
    (fun _ r '(items, effectiveBranchName) =>
       let rowBranch := trim (cellStr r 1) in
       let rowSerial := trim (cellStr r 10) in
       if nonEmpty serialQuery then
         if negb (String.eqb rowSerial serialQuery) then (items, effectiveBranchName)
         else (items ++ [(lineOf r, imageOf codeToImage r)],
               if negb (nonEmpty effectiveBranchName) && nonEmpty rowBranch
               then rowBranch else effectiveBranchName)
       else
         if negb (String.eqb rowBranch branchNameQuery) then (items, effectiveBranchName)
         else (items ++ [(lineOf r, imageOf codeToImage r)], effectiveBranchName))
    rows ([], branchNameQuery).

(** [processSheet] of [/api/exportOrdersExcel] (2154-2206): one entry per
    serial, the status of the last sheet read.  [ordersMap] is a plain
    object (2152): a selected serial that is the name of a property every
    object inherits finds that property where its entry would be (2181), and
    the scan ends at the row with a [TypeError], since the property has no
    [requestors] and no [items] to add to (2195, 2197).  The result is the
    entries when the scan ends and whether it ended so. *)
Definition exportManyProcessSheet (now : Z) (selectedSerials : list string)
  (rows : grid) (statusKey : string) (ordersMap : gmap string OrderEntry)
  : gmap string OrderEntry * bool :=
  scanCurrentMonth now
    (fun _ r (state : gmap string OrderEntry * bool) =>
       let ordersMap := fst state in
       if snd state then state else
       let branchName := trim (cellStr r 1) in
       if negb (nonEmpty branchName) then state else
       let l := lineOf r in
       let serial := trim (cellStr r 10) in
       if negb (nonEmpty serial) || negb (existsb (String.eqb serial) selectedSerials)
       then state else
       let put e :=
         (<[serial := mkOrderEntry (oe_serial e) (oe_branchName e) statusKey
                        (oe_total e)
                        (earlier (timeOf r) (oe_createdAt e))
                        (addRequestor r (oe_requestors e))
                        (oe_items e ++ [(l, EmptyString)])]> ordersMap, false) in
       match readKey ordersMap serial with
       | Own e => put e
       | Absent =>
           put (mkOrderEntry serial branchName statusKey (ofZ 0) (timeOf r) [] [])
       | Inherited => (ordersMap, true)
       end)
    rows (ordersMap, false).

(** An entry of [ordersMap] in [/api/previousOrders] *)
Record PreviousOrder : Type := mkPreviousOrder {
  po_productCode : value;
  po_productName : value;
  po_imageUrl : value;
  po_quantity : num;
  po_rowIndex : nat
}.

(** The scan of [/api/previousOrders] (708-730); [codeToProduct] gives the
    name and the image of a product code. *)
Definition previousOrdersScan (now : Z) (codeToProduct : gmap string (value * value))
  (rows : grid) (branchName : value) : gmap string PreviousOrder :=
  scanCurrentMonth now
    (fun i r (ordersMap : gmap string PreviousOrder) =>
       if negb (strictEq (cellAt r 1) branchName) then ordersMap else
       let productCode := cellAt r 3 in
       let quantity := orZero (parseInt (cellAt r 8)) in
       let product := codeToProduct !! toString productCode in
       <[toString productCode :=
           mkPreviousOrder productCode
             (orElse (default Undefined (fst <$> product)) productCode)
             (orElse (default Undefined (snd <$> product)) (Str EmptyString))
             quantity i]> ordersMap)
    rows ∅.

(** The scan of [/api/updatePreviousOrders] (1728-1740): the last row of a
    branch for each product code. *)
Definition latestIndexOf (now : Z) (rows : grid) (branchName : value)
  : gmap string nat :=
  scanCurrentMonth now
    (fun i r (latestIndex : gmap string nat) =>
       if negb (strictEq (cellAt r 1) branchName) then latestIndex
       else <[toString (cellAt r 3) := i]> latestIndex)
    rows ∅.

(** The entry of [orders] for a serial, a status and a branch updated by [f],
    pushed at the end when [orders.find] finds none (2386-2400). *)
Fixpoint upsertEntry (serial statusKey branchName : string) (fresh : OrderEntry)
  (f : OrderEntry -> OrderEntry) (orders : list OrderEntry) : list OrderEntry :=
  match orders with
  | [] => [f fresh]
  | o :: rest =>
      if String.eqb (oe_serial o) serial && String.eqb (oe_status o) statusKey
         && String.eqb (oe_branchName o) branchName
      then f o :: rest
      else o :: upsertEntry serial statusKey branchName fresh f rest
  end.

(** [processSheet] of [/api/exportOrderExcel] (2361-2416) *)
Definition exportOneProcessSheet (now : Z) (serialQuery : string)
  (rows : grid) (statusKey : string) (orders : list OrderEntry) : list OrderEntry :=
  scanCurrentMonth now
    (fun _ r orders =>
       let branchName := trim (cellStr r 1) in
       if negb (nonEmpty branchName) then orders else
       let l := lineOf r in
       let serial := trim (cellStr r 10) in
       if negb (nonEmpty serial) || negb (String.eqb serial serialQuery) then orders else
       upsertEntry serial statusKey branchName
         (mkOrderEntry serial branchName statusKey (ofZ 0) (timeOf r) [] [])
         (fun e => mkOrderEntry (oe_serial e) (oe_branchName e) (oe_status e)
                     (oe_total e)
                     (earlier (timeOf r) (oe_createdAt e))
                     (addRequestor r (oe_requestors e))
                     (oe_items e ++ [(l, EmptyString)]))
         orders)
    rows orders.

End Ledger.

(** ** A concrete host and store, for the examples

    The host keeps UTC and reads and prints dates in the form
    [YYYY-MM-DD hh:mm:ss]. *)

(** Days since 1970-01-01 of a civil date, and back (proleptic Gregorian). *)
Definition daysFromCivil (y m d : Z) : Z :=
  let y' := if m <=? 2 then y - 1 else y in
  let era := y' / 400 in
  let yoe := y' - era * 400 in
  let doy := (153 * (if 2 <? m then m - 3 else m + 9) + 2) / 5 + d - 1 in
  let doe := yoe * 365 + yoe / 4 - yoe / 100 + doy in
  era * 146097 + doe - 719468.

Definition civilFromDays (z : Z) : Z * Z * Z :=
  let z' := z + 719468 in
  let era := z' / 146097 in
  let doe := z' - era * 146097 in
  let yoe := (doe - doe / 1460 + doe / 36524 - doe / 146096) / 365 in
  let doy := doe - (365 * yoe + yoe / 4 - yoe / 100) in
  let mp := (5 * doy + 2) / 153 in
  let d := doy - (153 * mp + 2) / 5 + 1 in
  let m := if mp <? 10 then mp + 3 else mp - 9 in
  (if m <=? 2 then yoe + era * 400 + 1 else yoe + era * 400, m, d).

Definition msPerDay : Z := 86400000.

(** Two numbers separated by [sep] at the head of [s] *)
Definition takeField (sep : ascii) (s : string) : option (Z * string) :=
  let '(u, rest) := takeDigits s in
  if isNil u then None else
  match rest with
  | String c rest' => if Ascii.eqb c sep then Some (uintZ u, rest') else None
  | EmptyString => None
  end.

Definition takeLast (s : string) : option (Z * string) :=
  let '(u, rest) := takeDigits s in
  if isNil u then None else Some (uintZ u, rest).

Definition sampleDateParse (s : string) : option Z :=
  '(y, s1) ← takeField "-" s;
  '(m, s2) ← takeField "-" s1;
  '(d, s3) ← takeLast s2;
  let day := daysFromCivil y m d * msPerDay in
  match s3 with
  | EmptyString => Some day
  | String " " s4 =>
      '(hh, s5) ← takeField ":" s4;
      '(mm, s6) ← takeField ":" s5;
      '(ss, s7) ← takeLast s6;
      match s7 with
      | EmptyString => Some (day + hh * 3600000 + mm * 60000 + ss * 1000)
      | _ => None
      end
  | _ => None
  end.

Definition pad2 (z : Z) : string :=
  if z <? 10 then "0" +:+ showZabs z else showZabs z.

Definition sampleToLocaleString (t : Z) : string :=
  let '(y, m, d) := civilFromDays (t / msPerDay) in
  let r := t mod msPerDay in
  showZabs y +:+ "-" +:+ pad2 m +:+ "-" +:+ pad2 d +:+ " " +:+
  pad2 (r / 3600000) +:+ ":" +:+ pad2 (r mod 3600000 / 60000) +:+ ":" +:+
  pad2 (r mod 60000 / 1000).

Definition sampleHost : Host :=
  mkHost sampleDateParse
         (fun t => fst (fst (civilFromDays (t / msPerDay))))
         (fun t => snd (fst (civilFromDays (t / msPerDay))) - 1)
         sampleToLocaleString.

(** 2025-01-15 12:00:00 *)
Definition sampleNow : Z := daysFromCivil 2025 1 15 * msPerDay + 12 * 3600000.

Definition sampleMaster : list (string * list (list string)) :=
  [ ("Config", [["key"; "value"]; ["amr"; "secret"]]);
    ("Acme", [ ["username"; "password"; "branch"; "restricted"; "level"; "sheet"];
               ["amr"; "secret"; "Maadi"; "N"; "L1"; "budget-acme"];
               ["mona"; "pass2"; ""; "N"; "l2"] ]);
    ("Zeta", [ ["username"; "password"; "branch"; "restricted"; "level"; "sheet"];
               ["zed"; "zz"; "Giza"; "Y"; ""; "budget-zeta"] ]) ].

Definition sampleHeader : list string :=
  ["Date"; "Branch"; "User"; "Code"; "Name"; "Price"; "Subtotal"; "Category";
   "Qty"; ""; "Serial"].

Definition sampleWaiting : list (list string) :=
  [ sampleHeader;
    ["2025-01-10 09:00:00"; "Maadi"; "amr"; "P1"; "Juice"; "10"; "30"; "Drinks"; "3"; ""; "AA1"];
    ["2024-12-20 09:00:00"; "Maadi"; "amr"; "P1"; "Juice"; "10"; "20"; "Drinks"; "2"; ""; "AA1"];
    ["2025-01-11 10:30:00"; "Maadi"; "amr"; "P2"; "Water"; "2.5"; "10"; "Drinks"; "4"; ""; "AA1"];
    ["45668"; "Giza"; "zed"; "P1"; "Juice"; "10"; "10"; "Drinks"; "1"; ""; "AA2"] ].

Definition sampleBudget : list (string * list (list string)) :=
  [ ("Product Catalog", [["Code"; "Name"; "Category"; "Price"; "Image"]]);
    ("Waiting for Approval", sampleWaiting);
    ("Final Orders", [sampleHeader]);
    ("Cancelled Orders", [sampleHeader]);
    ("Serial Numbers", [["Name"; "Last"]; ["orders"; "AA2"]]) ].

Definition sampleWorld : World :=
  mkWorld (<["master" := sampleMaster]> (<["budget-acme" := sampleBudget]> ∅))
          true [] [].

(** ** Notions used to state the properties *)

(** The world after a call was recorded. *)
Definition logged (w : World) (c : Call) : World :=
  mkWorld (files w) (keyFile w) (tail (faults w)) (trace w ++ [c]).

(** The write calls of a trace. *)
Definition writesOf (t : list Call) : list Call := List.filter isWriteCall t.

(** A spreadsheet with the sheet [title] replaced by [g]. *)
Fixpoint setTab (ss : spreadsheet) (title : string) (g : grid) : spreadsheet :=
  match ss with
  | [] => []
  | (t, g0) :: rest =>
      if String.eqb t title then (t, g) :: rest else (t, g0) :: setTab rest title g
  end.

(** The indices, counted from [i], of the rows that satisfy [q]. *)
Fixpoint selectFrom (q : row -> bool) (i : nat) (rows : grid) : list nat :=
  match rows with
  | [] => []
  | r :: rest => if q r then i :: selectFrom q (S i) rest else selectFrom q (S i) rest
  end.

(** A row with its columns A to K cleared. *)
Definition clearedRow (r : row) : row := repeat EmptyString 11 ++ drop 11 r.

(** A number that is zero. *)
Definition isZero (n : num) : bool :=
  match n with Fin m _ => m =? 0 | _ => false end.

Definition isFinite (n : num) : bool :=
  match n with Fin _ _ => true | _ => false end.

Section Notions.

Variable host : Host.

(** A sheet with the rows dated outside the current month emptied. *)
Definition eraseOutside (now : Z) (rows : grid) : grid :=
  map (fun r => if inMonth host now r then r else []) rows.

(** A row of the current month that carries the serial. *)
Definition matchesSerial (now : Z) (orderSerial : string) (r : row) : bool :=
  inMonth host now r && String.eqb (trim (cellStr r 10)) orderSerial.

(** A row of the current month that carries the serial and the product code. *)
Definition matchesLine (now : Z) (orderSerial code : string) (r : row) : bool :=
  matchesSerial now orderSerial r && nonEmpty code && String.eqb (cellStr r 3) code.

End Notions.

(** A computation that leaves the spreadsheets alone: it changes no file,
    makes no write call, and meets no fault when none is pending. *)
Definition Quiet {A : Type} (m : M A) : Prop :=
  forall w r w', m w = (r, w') ->
    files w' = files w /\ keyFile w' = keyFile w
    /\ writesOf (trace w') = writesOf (trace w)
    /\ (faults w = [] -> faults w' = []).

(** Two worlds without pending faults that hold the same spreadsheet [id]. *)
Definition sameFile (id : string) (w1 w2 : World) : Prop :=
  files w1 !! id = files w2 !! id /\ faults w1 = [] /\ faults w2 = [].

(** A computation that depends on the spreadsheet [id] only. *)
Definition DependsOn (id : string) {A : Type} (m : M A) : Prop :=
  forall w1 w2, sameFile id w1 w2 ->
    fst (m w1) = fst (m w2) /\ sameFile id (snd (m w1)) (snd (m w2)).

(** The value of a run of decimal digits read after the value [a]. *)
Fixpoint digitsAfter (d : Decimal.uint) (a : Z) : Z :=
  match d with
  | Decimal.Nil => a
  | Decimal.D0 l => digitsAfter l (a * 10 + 0)
  | Decimal.D1 l => digitsAfter l (a * 10 + 1)
  | Decimal.D2 l => digitsAfter l (a * 10 + 2)
  | Decimal.D3 l => digitsAfter l (a * 10 + 3)
  | Decimal.D4 l => digitsAfter l (a * 10 + 4)
  | Decimal.D5 l => digitsAfter l (a * 10 + 5)
  | Decimal.D6 l => digitsAfter l (a * 10 + 6)
  | Decimal.D7 l => digitsAfter l (a * 10 + 7)
  | Decimal.D8 l => digitsAfter l (a * 10 + 8)
  | Decimal.D9 l => digitsAfter l (a * 10 + 9)
  end.

(** A text of decimal digits only. *)
Fixpoint allDigits (s : string) : bool :=
  match s with
  | EmptyString => true
  | String c r => match digitOf c with Some _ => allDigits r | None => false end
  end.

(** The serial generator as the specification words it: an optional [AA]
    prefix, then the numeric suffix; content that does not conform counts
    as 0. *)
Definition specNewSerialOf (currentSerial : string) : string :=
  let upper := toUpperCase currentSerial in
  let suffix := if startsWith "AA" upper then slice 2 upper else upper in
  let parsed := parseIntStr true (trim suffix) in
  "AA" +:+ numToString
    (nadd (if negb (isNaNnum parsed) && nge parsed (ofZ 0) then parsed else ofZ 0)
          (ofZ 1)).

(** The serial generator with the prefix required.  The number of a counter
    cell is the run of decimal digits that follows its first two letters
    when these are [AA], in either case, with white space and one [+] before
    the digits passed over; a cell of any other content counts as 0. *)
Definition isLetterA (c : ascii) : bool := Ascii.eqb c "A" || Ascii.eqb c "a".

Fixpoint digitsValue (acc : N) (s : string) : N :=
  match s with
  | EmptyString => acc
  | String c r =>
      let n := N_of_ascii c in
      if (N.leb 48 n && N.leb n 57)%N then digitsValue (10 * acc + (n - 48)) r
      else acc
  end.

Definition prefixedNumberOf (cell : string) : N :=
  match cell with
  | String a (String b rest) =>
      if isLetterA a && isLetterA b then
        match trimStart rest with
        | String "+" r => digitsValue 0 r
        | r => digitsValue 0 r
        end
      else 0%N
  | _ => 0%N
  end.

Definition prefixedNewSerialOf (cell : string) : string :=
  "AA" +:+ showN (prefixedNumberOf cell + 1).

(** A store whose counter cell holds [cell]. *)
Definition sampleWorldCounter (cell : string) : World :=
  mkWorld (<["budget-acme" := [("Serial Numbers", [["Name"; "Last"]; ["orders"; cell]])]]> ∅)
          true [] [].

(** A store whose counter cell holds a number without the prefix. *)
Definition sampleWorldBareCounter : World :=
  mkWorld (<["budget-acme" := [("Serial Numbers", [["Name"; "Last"]; ["orders"; "7"]])]]> ∅)
          true [] [].

(** A sheet with the rows at the given indices cleared. *)
Definition clearRows (g : grid) (idxs : list nat) : grid :=
  fold_left (fun g i => updRow g i clearedRow) idxs g.

(** A sheet after the writes [ws], applied in order. *)
Definition applyAll (g : grid) (ws : list Write) : grid :=
  fold_left (fun g w => writeBlock g (wrow w) (wcol w) (wvalues w)) ws g.







(** A store whose counter cell is still empty. *)
Definition sampleWorldFresh : World :=
  mkWorld (<["master" := sampleMaster]>
             (<["budget-acme" :=
                  [ ("Waiting for Approval", [sampleHeader]);
                    ("Final Orders", [sampleHeader]);
                    ("Serial Numbers", [["Name"; "Last"]]) ]]> ∅))
          true [] [].

(** The sheet [title] of the spreadsheet [id] in a world, empty when there is
    none. *)
Definition sheetOf (w : World) (id title : string) : grid :=
  default [] (files w !! id ≫= fun ss => lookupTab ss title).

(** The users of the sample master sheet, as the identity resolver returns them. *)
Definition sampleAmr : UserInfo := mkUserInfo "Acme" "Maadi" false "L1" false "budget-acme".
Definition sampleMona : UserInfo := mkUserInfo "Acme" "" false "L2" false "budget-acme".

(** ** The other handlers

    The handlers that report on the order sheets, the approval of a branch
    and the edit of approved lines.  A parameter of the query string is the
    text it was given once, [None] when it is absent; the workbook of an
    export is kept as the rows added to its worksheet. *)

(** [A2:A] and [C2:C] *)
Definition rangeA2A : Range := Block 1 0 None 0.
Definition rangeC2C : Range := Block 1 2 None 2.

(** [req.query.x] *)
Definition queryValue (q : option string) : value :=
  match q with
  | Some s => Str s
  | None => Undefined
  end.

(** [(req.query.x || '').trim()] *)
Definition queryText (q : option string) : string := trim (default EmptyString q).

(** [a < b] *)
Definition nlt (a b : num) : bool :=
  match ncompare a b with Some Lt => true | _ => false end.

(** The array index a number is, when it is a whole number that is not negative. *)
Definition asIndex (n : num) : option nat :=
  match n with
  | Fin m k =>
      if (m mod pow10 k =? 0) && (0 <=? m) then Some (Z.to_nat (m / pow10 k)) else None
  | _ => None
  end.

(** The messages of the failure responses of these handlers, by the lines of
    the source that send them. *)
Inductive Notice : Type :=
| NoticeMissingUsername    (* 519, 565, 759, 1057, 1803 *)
| NoticeUserNotFound       (* 533, 581, 773, 856, 953, 1071, 1817, 2007, 2140, 2348 *)
| NoticeBranchesError      (* 554, 605 *)
| NoticeLoadError          (* 658 *)
| NoticePreviousError      (* 743 *)
| NoticeApproveForbidden   (* 778, 861, 958, 1076 *)
| NoticeApprovalsError     (* 828 *)
| NoticeIncomplete         (* 842, 939, 1982, 2125, 2333 *)
| NoticeDetailsError       (* 924, 2092 *)
| NoticeNoWaitingForBranch (* 991 *)
| NoticeConfirmError       (* 1041 *)
| NoticePendingError       (* 1171 *)
| NoticeOrdersIncomplete   (* 1708 *)
| NoticeNothingToUpdate    (* 1767 *)
| NoticeUpdateError        (* 1787 *)
| NoticeSummaryForbidden   (* 1822 *)
| NoticeSummaryError       (* 1960 *)
| NoticeDetailsForbidden   (* 2012 *)
| NoticeExportForbidden    (* 2145, 2353 *)
| NoticeNoDataForOrders    (* 2237 *)
| NoticeExportError        (* 2315, 2521 *)
| NoticeNoDataForOrder.    (* 2446 *)

(** What a handler answers: [res.status(c).json({success: false, message})],
    the same with [branches: []] beside the message, or the payload of
    [res.json] and [res.send], sent with status 200. *)
Inductive Reply (A : Type) : Type :=
| Refused (code : Z) (n : Notice)
| RefusedNoBranches (code : Z) (n : Notice)
| Sent (payload : A).
Arguments Refused {A} code n.
Arguments RefusedNoBranches {A} code n.
Arguments Sent {A} payload.

(** The status of an answer. *)
Definition codeOf {A : Type} (r : Reply A) : Z :=
  match r with
  | Refused c _ | RefusedNoBranches c _ => c
  | Sent _ => 200
  end.

(** [requestedBy] of an order: no requestor, the one there is, or the text
    that says there are several (1140-1145, 1927-1932, 2264-2269, 2470-2475). *)
Inductive RequestedBy : Type :=
| NoRequestor
| OneRequestor (name : string)
| SeveralRequestors.

Definition requestedByOf (requestors : list string) : RequestedBy :=
  match requestors with
  | [] => NoRequestor
  | [x] => OneRequestor x
  | _ => SeveralRequestors
  end.

(** An element of [products] (643-649) *)
Record Product : Type := mkProduct {
  pr_code : value;
  pr_name : value;
  pr_category : value;
  pr_price : num;
  pr_imageUrl : value
}.

Definition productOf (r : row) : Product :=
  mkProduct (cellAt r 0) (cellAt r 1) (cellAt r 2)
            (orZero (parseFloat (cellAt r 3)))
            (orElse (cellAt r 4) (Str EmptyString)).

(** [codeToProduct] (692-699): a later row of a code replaces an earlier one. *)
Definition codeToProductOf (productRows : grid) : gmap string (value * value) :=
  fold_left
    (fun (m : gmap string (value * value)) r =>
       <[toString (cellAt r 0) := (cellAt r 1, orElse (cellAt r 4) (Str EmptyString))]> m)
    (drop 1 productRows) ∅.

(** [codeToImage] (872-876, 2023-2027) *)
Definition codeToImageOf (productRows : grid) : gmap string string :=
  fold_left
    (fun (m : gmap string string) r => <[toString (cellAt r 0) := cellStr r 4]> m)
    (drop 1 productRows) ∅.

(** [codeToImage] of the summary (1833-1840): rows without a code are passed over. *)
Definition codeToImageOfCodes (productRows : grid) : gmap string string :=
  fold_left
    (fun (m : gmap string string) r =>
       if truthy (cellAt r 0) then <[toString (cellAt r 0) := cellStr r 4]> m else m)
    (drop 1 productRows) ∅.

(** The branches of a client tab (543-547, 593-597), in the order they are met. *)
Definition branchesOf (rows : grid) : list string :=
  fold_left
    (fun set r =>
       let b := trim (cellStr r 0) in
       if nonEmpty b then setAdd b set else set)
    rows [].

(** [{ username, branchName }] *)
Record BranchRequest : Type := mkBranchRequest {
  br_username : value;
  br_branchName : value
}.

(** An element of [orders] in [/api/pendingOrders] (1153-1160) *)
Record PendingOrder : Type := mkPendingOrder {
  pd_orderId : string;
  pd_branchName : string;
  pd_requestedBy : RequestedBy;
  pd_createdAt : string;
  pd_total : num;
  pd_items : list Line
}.

(** An element of [updatedOrders]: [{ rowIndex, productCode, quantity }] *)
Record UpdatedOrder : Type := mkUpdatedOrder {
  uo_rowIndex : value;
  uo_productCode : value;
  uo_quantity : value
}.

(** [{ branchName, userType, updatedOrders, username }]; [updatedOrders] is
    [None] when it is not an array. *)
Record UpdateRequest : Type := mkUpdateRequest {
  ur_branchName : value;
  ur_updatedOrders : option (list UpdatedOrder);
  ur_username : value
}.

(** The row an element of [updatedOrders] is written to (1744-1751): the row
    of [idx]; none, when [idx] is [undefined]; or [RowMissing], when [idx] is
    a number that is no index or an inherited property of [latestIndex], so
    that [rows[idx]] is [undefined] and reading its cell throws. *)
Inductive RowRef : Type :=
| RowAt (i : nat)
| RowNone
| RowMissing.

Definition rowRefOf (rows : grid) (latestIndex : gmap string nat) (o : UpdatedOrder)
  : RowRef :=
  let byCode :=
    match readKey latestIndex (toString (uo_productCode o)) with
    | Own i => RowAt i
    | Inherited => RowMissing
    | Absent => RowNone
    end in
  match uo_rowIndex o with
  | Num n =>
      if ngt n (ofZ 0) && nlt n (ofZ (Z.of_nat (length rows)))
      then match asIndex n with
           | Some i => RowAt i
           | None => RowMissing
           end
      else byCode
  | _ => byCode
  end.

(** The two writes of an element (1753-1761) *)
Definition updateWrites (rows : grid) (idx : nat) (o : UpdatedOrder) : list Write :=
  let r := default [] (rows !! idx) in
  let unitPrice := orZero (parseFloat (cellAt r 5)) in
  let qty := mathMax (ofZ 0) (orZero (parseInt (uo_quantity o))) in
  let newSubtotal := nmul unitPrice qty in
  [ mkWrite "Final Orders" idx 8 [[Num qty]];
    mkWrite "Final Orders" idx 6 [[Num newSubtotal]] ].

(** The batch of an update (1742-1762); [None] when an element makes the
    loop throw. *)
Fixpoint updateBatch (rows : grid) (latestIndex : gmap string nat)
  (orders : list UpdatedOrder) : option (list Write) :=
  match orders with
  | [] => Some []
  | o :: rest =>
      match rowRefOf rows latestIndex o with
      | RowMissing => None
      | RowNone => updateBatch rows latestIndex rest
      | RowAt idx =>
          match updateBatch rows latestIndex rest with
          | Some batch => Some (updateWrites rows idx o ++ batch)
          | None => None
          end
      end
  end.

(** An element of [orders] in the summary (1940-1949) *)
Record OrderSummary : Type := mkOrderSummary {
  os_orderId : string;
  os_serial : string;
  os_branchName : string;
  os_status : string;
  os_requestedBy : RequestedBy;
  os_createdAt : string;
  os_total : num;
  os_items : list (Line * string)
}.

(** [?username=&branchName=&status=&serial=] *)
Record DetailsQuery : Type := mkDetailsQuery {
  dq_username : option string;
  dq_branchName : option string;
  dq_status : option string;
  dq_serial : option string
}.

(** The answer of the details (2078-2084); [od_serial] is [None] for [null]. *)
Record OrderDetails : Type := mkOrderDetails {
  od_branchName : string;
  od_serial : option string;
  od_status : string;
  od_items : list (Line * string)
}.

(** [status] (1976, 1985-1987) and [sheetName] (1989-1994) *)
Definition statusOfQuery (status : option string) : string :=
  let statusRaw := toLowerCase (queryText status) in
  if String.eqb statusRaw "approved" then "approved"
  else if String.eqb statusRaw "cancelled" then "cancelled"
  else "waiting".

Definition sheetOfStatus (status : string) : string :=
  if String.eqb status "waiting" then "Waiting for Approval"
  else if String.eqb status "approved" then "Final Orders"
  else "Cancelled Orders".

(** [serials] (2117-2120) *)
Definition serialsOf (serialsParam : string) : list string :=
  List.filter nonEmpty (map trim (split "," serialsParam)).

(** A row added to the worksheet of an export (2278-2290, 2484-2496) *)
Record SheetRow : Type := mkSheetRow {
  xr_serial : string;
  xr_status : string;
  xr_branch : string;
  xr_requestedBy : RequestedBy;
  xr_createdAt : string;
  xr_item : Line
}.

Section Reports.

Variable host : Host.
Variable credentialsSheetId : string.

(** The loop over the client tabs of [resolveBudgetSheetIdFromF2ByUsername]
    (268-290) *)
Fixpoint budgetScanTabs (masterSheetId : string) (username : value)
  (tabs : list string) : M string :=
  match tabs with
  | [] => throw UserNotFoundInAnyTab
  | title :: rest =>
      usernames ← values_get masterSheetId title rangeA2A;
      match List.find (userRowMatches username) usernames with
      | Some _ =>
          idCell ← values_get masterSheetId title rangeF2;
          let budgetSheetId := trim (cellStr (default [] (head idCell)) 0) in
          if nonEmpty budgetSheetId then mret budgetSheetId
          else throw (BudgetSheetIdMissing title)
      | None => budgetScanTabs masterSheetId username rest
      end
  end.

(** [resolveBudgetSheetIdFromF2ByUsername] (252-291) *)
Definition resolveBudgetSheetIdFromF2ByUsername (masterSheetId : string)
  (username : value) : M string :=
  titles ← spreadsheets_get masterSheetId;
  budgetScanTabs masterSheetId username (clientTabs titles).

(** The steps every handler for L2 users starts with (762-780, 845-863,
    942-960, 1060-1078, 1806-1824, 1996-2014, 2129-2147, 2337-2355): the
    client, the user, and the test of the level. *)
Definition withL2User {A : Type} (username : value) (forbidden : Notice)
  (k : UserInfo -> M (Reply A)) : M (Reply A) :=
  _ ← getSheetsClient;
  userInfo ← getUserInfoByUsername credentialsSheetId username;
  match userInfo with
  | None => mret (Refused 400 NoticeUserNotFound)
  | Some ui =>
      if negb (String.eqb (toUpperCase (level ui)) "L2")
      then mret (Refused 403 forbidden)
      else k ui
  end.

(** [app.get('/api/clientBranches')] (513-556) *)
Definition clientBranches (username : option string) : M (Reply (list string)) :=
  tryCatch
    (let username := queryText username in
     if negb (nonEmpty username) then mret (Refused 400 NoticeMissingUsername)
     else
       _ ← getSheetsClient;
       userInfo ← getUserInfoByUsername credentialsSheetId (Str username);
       match userInfo with
       | None => mret (Refused 400 NoticeUserNotFound)
       | Some ui =>
           rows ← values_get credentialsSheetId (tab ui) rangeC2C;
           mret (Sent (branchesOf rows))
       end)
    (fun _ => mret (Refused 500 NoticeBranchesError)).

(** [app.get('/api/branchesForL2')] (559-609) *)
Definition branchesForL2 (username : option string) : M (Reply (list string)) :=
  tryCatch
    (let username := queryText username in
     if negb (nonEmpty username) then mret (RefusedNoBranches 400 NoticeMissingUsername)
     else
       _ ← getSheetsClient;
       userInfo ← getUserInfoByUsername credentialsSheetId (Str username);
       match userInfo with
       | None => mret (RefusedNoBranches 400 NoticeUserNotFound)
       | Some ui =>
           rows ← values_get credentialsSheetId (tab ui) rangeC2C;
           mret (Sent (branchesOf rows))
       end)
    (fun _ => mret (RefusedNoBranches 500 NoticeBranchesError)).

(** [app.get('/api/loadOrderDataWithSpending')] (615-661) *)
Definition loadOrderDataWithSpending (username : option string)
  : M (Reply (list Product)) :=
  tryCatch
    (let username := default EmptyString username in
     _ ← getSheetsClient;
     budgetId ← resolveBudgetSheetIdFromF2ByUsername credentialsSheetId (Str username);
     productsRows ← values_get budgetId "Product Catalog" Whole;
     mret (Sent (map productOf (drop 1 productsRows))))
    (fun _ => mret (Refused 500 NoticeLoadError)).

(** [app.get('/api/previousOrders')] (666-746) *)
Definition previousOrders (branchName username : option string) (now : Z)
  : M (Reply (gmap string PreviousOrder)) :=
  tryCatch
    (let username := default EmptyString username in
     _ ← getSheetsClient;
     budgetId ← resolveBudgetSheetIdFromF2ByUsername credentialsSheetId (Str username);
     productRows ← values_get budgetId "Product Catalog" Whole;
     let codeToProduct := codeToProductOf productRows in
     ordersRows ← values_get budgetId "Final Orders" Whole;
     mret (Sent (previousOrdersScan host now codeToProduct ordersRows
                   (queryValue branchName))))
    (fun _ => mret (Refused 500 NoticePreviousError)).

(** [app.get('/api/approvalsSummary')] (753-831) *)
Definition approvalsSummary (username : option string) (now : Z)
  : M (Reply (gmap string BranchSummary)) :=
  tryCatch
    (let username := queryText username in
     if negb (nonEmpty username) then mret (Refused 400 NoticeMissingUsername)
     else
       withL2User (Str username) NoticeApproveForbidden (fun ui =>
         rows ← values_get (budgetSheetId ui) "Waiting for Approval" Whole;
         mret (Sent (approvalsSummaryScan host now rows))))
    (fun _ => mret (Refused 500 NoticeApprovalsError)).

(** [app.get('/api/approvalDetails')] (834-927): the branch and the items *)
Definition approvalDetails (username branchName : option string) (now : Z)
  : M (Reply (string * list (Line * string))) :=
  tryCatch
    (let username := queryText username in
     let branchName := queryText branchName in
     if negb (nonEmpty username) || negb (nonEmpty branchName)
     then mret (Refused 400 NoticeIncomplete)
     else
       withL2User (Str username) NoticeApproveForbidden (fun ui =>
         productRows ← values_get (budgetSheetId ui) "Product Catalog" Whole;
         let codeToImage := codeToImageOf productRows in
         rows ← values_get (budgetSheetId ui) "Waiting for Approval" Whole;
         mret (Sent (branchName,
                     approvalDetailsScan host now codeToImage rows branchName))))
    (fun _ => mret (Refused 500 NoticeDetailsError)).

(** [app.post('/api/approveBranchOrder')] (932-1044) *)
Definition approveBranchOrder (req : BranchRequest) (now : Z) : M (Reply unit) :=
  tryCatch
    (if negb (truthy (br_username req)) || negb (truthy (br_branchName req))
     then mret (Refused 400 NoticeIncomplete)
     else
       withL2User (br_username req) NoticeApproveForbidden (fun ui =>
         rows ← values_get (budgetSheetId ui) "Waiting for Approval" Whole;
         let rowsToClear := rowsOfBranch host now rows (br_branchName req) in
         match rowsToClear with
         | [] => mret (Refused 400 NoticeNoWaitingForBranch)
         | _ =>
             _ ← appendRowsAtoK (budgetSheetId ui) "Final Orders"
                   (appendValuesOf rows rowsToClear);
             _ ← values_batchUpdate (budgetSheetId ui) (clearDataOf rowsToClear);
             mret (Sent tt)
         end))
    (fun _ => mret (Refused 500 NoticeConfirmError)).

(** The element of [orders] of an entry (1138-1161) *)
Definition pendingOrderOf (e : PendingEntry) : PendingOrder :=
  mkPendingOrder (pe_branchName e) (pe_branchName e)
                 (requestedByOf (pe_requestors e))
                 (toLocaleStringCairo host (pe_createdAt e))
                 (pe_total e) (pe_items e).

(** [app.get('/api/pendingOrders')] (1051-1174) *)
Definition pendingOrders (username : option string) (now : Z)
  : M (Reply (gmap string PendingOrder)) :=
  tryCatch
    (let username := queryText username in
     if negb (nonEmpty username) then mret (Refused 400 NoticeMissingUsername)
     else
       withL2User (Str username) NoticeApproveForbidden (fun ui =>
         rows ← values_get (budgetSheetId ui) "Waiting for Approval" Whole;
         mret (Sent (pendingOrderOf <$> pendingOrdersScan host now rows))))
    (fun _ => mret (Refused 500 NoticePendingError)).

(** [app.post('/api/updatePreviousOrders')] (1687-1790); an exception of the
    loop over [updatedOrders] is caught like any other (1780-1789). *)
Definition updatePreviousOrders (req : UpdateRequest) (now : Z) : M (Reply unit) :=
  tryCatch
    (match ur_updatedOrders req with
     | None | Some [] => mret (Refused 400 NoticeOrdersIncomplete)
     | Some updatedOrders =>
       if negb (truthy (ur_branchName req))
       then mret (Refused 400 NoticeOrdersIncomplete)
       else
         _ ← getSheetsClient;
         budgetId ← resolveBudgetSheetIdFromF2ByUsername credentialsSheetId
                      (ur_username req);
         rows ← values_get budgetId "Final Orders" Whole;
         let latestIndex := latestIndexOf host now rows (ur_branchName req) in
         match updateBatch rows latestIndex updatedOrders with
         | None => throw TypeError
         | Some [] => mret (Refused 400 NoticeNothingToUpdate)
         | Some batch =>
             _ ← values_batchUpdate budgetId batch;
             mret (Sent tt)
         end
     end)
    (fun _ => mret (Refused 500 NoticeUpdateError)).

(** The element of [orders] of an entry (1925-1950) *)
Definition orderSummaryOf (e : OrderEntry) : OrderSummary :=
  mkOrderSummary (oe_serial e +:+ "__" +:+ toLowerCase (oe_status e))
                 (oe_serial e) (oe_branchName e) (oe_status e)
                 (requestedByOf (oe_requestors e))
                 (toLocaleStringCairo host (oe_createdAt e))
                 (oe_total e) (oe_items e).

(** [handleOrdersSummaryForL2] (1797-1963) *)
Definition ordersSummary (username : option string) (now : Z)
  : M (Reply (gmap string OrderSummary)) :=
  tryCatch
    (let username := queryText username in
     if negb (nonEmpty username) then mret (Refused 400 NoticeMissingUsername)
     else
       withL2User (Str username) NoticeSummaryForbidden (fun ui =>
         productRows ← values_get (budgetSheetId ui) "Product Catalog" Whole;
         let codeToImage := codeToImageOfCodes productRows in
         waiting ← values_get (budgetSheetId ui) "Waiting for Approval" Whole;
         let m1 := summaryProcessSheet host now codeToImage waiting "Waiting" ∅ in
         final ← values_get (budgetSheetId ui) "Final Orders" Whole;
         let m2 := summaryProcessSheet host now codeToImage final "Approved" m1 in
         m3 ← tryCatch
                (cancelled ← values_get (budgetSheetId ui) "Cancelled Orders" Whole;
                 mret (summaryProcessSheet host now codeToImage cancelled "Cancelled" m2))
                (fun _ => mret m2);
         mret (Sent (orderSummaryOf <$> m3))))
    (fun _ => mret (Refused 500 NoticeSummaryError)).

(** [handleOrderDetailsForL2] (1972-2095) *)
Definition orderDetails (q : DetailsQuery) (now : Z) : M (Reply OrderDetails) :=
  tryCatch
    (let username := queryText (dq_username q) in
     let branchNameQuery := queryText (dq_branchName q) in
     let serialQuery := queryText (dq_serial q) in
     if negb (nonEmpty username)
        || (negb (nonEmpty branchNameQuery) && negb (nonEmpty serialQuery))
     then mret (Refused 400 NoticeIncomplete)
     else
       let status := statusOfQuery (dq_status q) in
       let sheetName := sheetOfStatus status in
       withL2User (Str username) NoticeDetailsForbidden (fun ui =>
         productRows ← values_get (budgetSheetId ui) "Product Catalog" Whole;
         let codeToImage := codeToImageOf productRows in
         rows ← values_get (budgetSheetId ui) sheetName Whole;
         let found := orderDetailsScan host now codeToImage rows
                        branchNameQuery serialQuery in
         mret (Sent (mkOrderDetails (snd found)
                       (if nonEmpty serialQuery then Some serialQuery else None)
                       status (fst found)))))
    (fun _ => mret (Refused 500 NoticeDetailsError)).

(** The rows of an order in the worksheet and the blank row after them
    (2259-2295, 2468-2501); [None] is the blank row. *)
Definition sheetRowsOf (e : OrderEntry) : list (option SheetRow) :=
  map (fun it =>
         Some (mkSheetRow (oe_serial e) (oe_status e) (oe_branchName e)
                 (requestedByOf (oe_requestors e))
                 (toLocaleStringCairo host (oe_createdAt e))
                 (fst it)))
      (oe_items e)
  ++ [None].

(** [app.get('/api/exportOrdersExcel')] (2111-2318): the rows of the
    worksheet, by serial *)
Definition exportOrdersExcel (username serials : option string) (now : Z)
  : M (Reply (gmap string (list (option SheetRow)))) :=
  tryCatch
    (let username := queryText username in
     let serials := serialsOf (queryText serials) in
     if negb (nonEmpty username) || (length serials =? 0)%nat
     then mret (Refused 400 NoticeIncomplete)
     else
       withL2User (Str username) NoticeExportForbidden (fun ui =>
         waiting ← values_get (budgetSheetId ui) "Waiting for Approval" Whole;
         let s1 := exportManyProcessSheet host now serials waiting "Waiting" ∅ in
         if snd s1 then throw TypeError else
         final ← values_get (budgetSheetId ui) "Final Orders" Whole;
         let s2 := exportManyProcessSheet host now serials final "Approved" (fst s1) in
         if snd s2 then throw TypeError else
         m3 ← tryCatch
                (cancelled ← values_get (budgetSheetId ui) "Cancelled Orders" Whole;
                 mret (fst (exportManyProcessSheet host now serials cancelled
                              "Cancelled" (fst s2))))
                (fun _ => mret (fst s2));
         if (size m3 =? 0)%nat
         then mret (Refused 400 NoticeNoDataForOrders)
         else mret (Sent (sheetRowsOf <$> m3))))
    (fun _ => mret (Refused 500 NoticeExportError)).

(** [app.get('/api/exportOrderExcel')] (2325-2524): the rows of the worksheet *)
Definition exportOrderExcel (username serial : option string) (now : Z)
  : M (Reply (list (option SheetRow))) :=
  tryCatch
    (let username := queryText username in
     let serialQuery := queryText serial in
     if negb (nonEmpty username) || negb (nonEmpty serialQuery)
     then mret (Refused 400 NoticeIncomplete)
     else
       withL2User (Str username) NoticeExportForbidden (fun ui =>
         waiting ← values_get (budgetSheetId ui) "Waiting for Approval" Whole;
         let o1 := exportOneProcessSheet host now serialQuery waiting "Waiting" [] in
         final ← values_get (budgetSheetId ui) "Final Orders" Whole;
         let o2 := exportOneProcessSheet host now serialQuery final "Approved" o1 in
         o3 ← tryCatch
                (cancelled ← values_get (budgetSheetId ui) "Cancelled Orders" Whole;
                 mret (exportOneProcessSheet host now serialQuery cancelled "Cancelled" o2))
                (fun _ => mret o2);
         match o3 with
         | [] => mret (Refused 400 NoticeNoDataForOrder)
         | _ => mret (Sent (concat (map sheetRowsOf o3)))
         end))
    (fun _ => mret (Refused 500 NoticeExportError)).

End Reports.

(** ** Further notions used to state the properties *)

(** A row of values that puts text that is not blank in column A. *)
Definition writesColumnA (vs : list value) : bool :=
  match vs with
  | v :: _ =>
      match cellText v with
      | Some t => nonEmpty (trim t)
      | None => false
      end
  | [] => false
  end.

(** Every value a computation returns satisfies [P]. *)
Definition Ensures {A : Type} (P : A -> Prop) (m : M A) : Prop :=
  forall w a w', m w = (Ok a, w') -> P a.

(** A computation that has changed no spreadsheet and made no write call
    when the value it returns satisfies [P]. *)
Definition QuietWhen {A : Type} (P : A -> Prop) (m : M A) : Prop :=
  forall w a w', m w = (Ok a, w') -> P a ->
    files w' = files w /\ writesOf (trace w') = writesOf (trace w).

(** A response whose status agrees with its body: 200 with [success: true],
    or 400, 403 or 500 with [success: false]. *)
Definition statusAgrees (r : Response) : bool :=
  if isFailure r
  then (status r =? 400) || (status r =? 403) || (status r =? 500)
  else status r =? 200.

(** A response that refuses the request: status 400 or 403. *)
Definition refuses (r : Response) : Prop := status r = 400 \/ status r = 403.

(** An answer that refuses the request: status 400 or 403. *)
Definition refused {A : Type} (r : Reply A) : Prop := codeOf r = 400 \/ codeOf r = 403.

(** The sum of numbers, added from the left as the scans add them. *)
Definition sumOf (l : list num) : num := fold_left nadd l (ofZ 0).

(** A text without the underscore character. *)
Fixpoint noUnderscore (s : string) : bool :=
  match s with
  | EmptyString => true
  | String c r => negb (Ascii.eqb c "_") && noUnderscore r
  end.

(** What the scans of the summaries keep of an entry: the total is the sum
    of the subtotals of the items, there is an item, and no requestor is
    listed twice. *)
Definition entrySound (total : num) (subtotals : list num) (requestors : list string)
  : Prop :=
  total = sumOf subtotals /\ subtotals <> [] /\ NoDup requestors.

(** The group an entry of the export of one order stands for. *)
Definition groupOf (e : OrderEntry) : string * string * string :=
  (oe_serial e, oe_status e, oe_branchName e).

Section MoreNotions.

Variable host : Host.

(** A row the export of several orders takes for the serial [s]: of the
    current month, with a branch, and carrying the serial, which is selected. *)
Definition exportsRow (now : Z) (selectedSerials : list string) (s : string)
  (r : row) : bool :=
  inMonth host now r
  && (nonEmpty (trim (cellStr r 1)) && nonEmpty s
      && String.eqb (trim (cellStr r 10)) s
      && existsb (String.eqb s) selectedSerials).

End MoreNotions.

(** ** Further sample stores *)

(** A store whose sheet of approved orders holds the rows of [sampleWaiting]. *)
Definition sampleWorldApproved : World :=
  mkWorld (<["master" := sampleMaster]>
             (<["budget-acme" := [("Final Orders", sampleWaiting)]]> ∅))
          true [] [].

(** A store without the sheet 'Waiting for Approval'. *)
Definition sampleWorldNoWaiting : World :=
  mkWorld (<["master" := sampleMaster]>
             (<["budget-acme" :=
                  [ ("Final Orders", [sampleHeader]);
                    ("Serial Numbers", [["Name"; "Last"]; ["orders"; "AA2"]]) ]]> ∅))
          true [] [].

(** A store without the sheet 'Cancelled Orders'. *)
Definition sampleCatalog : list (list string) :=
  [ ["Code"; "Name"; "Category"; "Price"; "Image"];
    ["P1"; "Juice"; "Drinks"; "10"; "juice.png"];
    ["P2"; "Water"; "Drinks"; "2.5"] ].

Definition sampleWorldNoCancelled : World :=
  mkWorld (<["master" := sampleMaster]>
             (<["budget-acme" :=
                  [ ("Product Catalog", sampleCatalog);
                    ("Waiting for Approval", sampleWaiting);
                    ("Final Orders", [sampleHeader]) ]]> ∅))
          true [] [].

(** The sample store under a schedule of faults: the seventh call fails. *)
Definition sampleWorldSeventhFails : World :=
  mkWorld (files sampleWorld) true
          [false; false; false; false; false; false; true] [].

(** * Properties *)

(** ** The scan loop *)

Section ScanFacts.

Variable host : Host.

Lemma inMonth_nil now : inMonth host now [] = false.
Proof. reflexivity. Qed.

Lemma inMonth_blank now r : cellStr r 0 = EmptyString -> inMonth host now r = false.
Proof.
  unfold inMonth, decodeDate, cellAt, cellStr.
  destruct (r !! 0%nat) as [s|]; simpl; [intros ->; reflexivity | reflexivity].
Qed.

Lemma inMonth_spec now r :
  inMonth host now r = true <->
  exists t, decodeDate host (cellAt r 0) = Some (Some t)
            /\ getFullYear host t = getFullYear host now
            /\ getMonth host t = getMonth host now.
Proof.
  unfold inMonth. destruct (decodeDate host (cellAt r 0)) as [[t|]|]; simpl.
  - rewrite andb_true_iff, !Z.eqb_eq. split.
    + intros [H1 H2]. exists t. auto.
    + intros (t' & E & H1 & H2). inversion E; subst. auto.
  - split; [discriminate | intros (t & E & _); discriminate].
  - split; [discriminate | intros (t & E & _); discriminate].
Qed.

Lemma scanFrom_erase {A : Type} now (body : nat -> list string -> A -> A) rows :
  forall i acc,
    scanFrom host now body i (eraseOutside host now rows) acc
    = scanFrom host now body i rows acc.
Proof.
  induction rows as [|r rest IH]; intros i acc; simpl; [reflexivity|].
  destruct (inMonth host now r) eqn:E.
  - rewrite E. apply IH.
  - rewrite inMonth_nil. apply IH.
Qed.

Lemma scanCurrentMonth_erase {A : Type} now (body : nat -> list string -> A -> A)
  rows init :
  scanCurrentMonth host now body (eraseOutside host now rows) init
  = scanCurrentMonth host now body rows init.
Proof.
  unfold scanCurrentMonth, eraseOutside.
  rewrite skipn_map. apply scanFrom_erase.
Qed.

(** An invariant of the accumulator holds at the end when the body keeps it
    on the rows of the current month. *)
Lemma scanFrom_invariant {A : Type} (P : A -> Prop) now
  (body : nat -> list string -> A -> A) rows :
  forall i acc,
    P acc ->
    (forall j r a, rows !! j = Some r -> inMonth host now r = true ->
                   P a -> P (body (i + j)%nat r a)) ->
    P (scanFrom host now body i rows acc).
Proof.
  induction rows as [|r rest IH]; intros i acc Hacc Hstep; simpl; [exact Hacc|].
  apply IH.
  - destruct (inMonth host now r) eqn:E; [|exact Hacc].
    specialize (Hstep 0%nat r acc eq_refl E Hacc).
    rewrite Nat.add_0_r in Hstep. exact Hstep.
  - intros j r' a Hj Hm Ha.
    specialize (Hstep (S j) r' a Hj Hm Ha).
    rewrite Nat.add_succ_r in Hstep. exact Hstep.
Qed.

Lemma scanCurrentMonth_invariant {A : Type} (P : A -> Prop) now
  (body : nat -> list string -> A -> A) rows init :
  P init ->
  (forall i r a, (1 <= i)%nat -> rows !! i = Some r -> inMonth host now r = true ->
                 P a -> P (body i r a)) ->
  P (scanCurrentMonth host now body rows init).
Proof.
  intros Hinit Hstep. unfold scanCurrentMonth.
  apply scanFrom_invariant; [exact Hinit|].
  intros j r a Hj Hm Ha. apply Hstep; [lia | | exact Hm | exact Ha].
  rewrite lookup_drop in Hj. exact Hj.
Qed.

(** A scan that collects indices is a selection. *)
Lemma scanFrom_select now (p : list string -> bool) rows :
  forall i acc,
    scanFrom host now (fun i r acc => if p r then acc ++ [i] else acc) i rows acc
    = acc ++ selectFrom (fun r => inMonth host now r && p r) i rows.
Proof.
  induction rows as [|r rest IH]; intros i acc; simpl.
  - by rewrite app_nil_r.
  - rewrite IH. destruct (inMonth host now r); simpl; [|reflexivity].
    destruct (p r); [|reflexivity].
    by rewrite <- app_assoc.
Qed.

Lemma In_selectFrom (q : list string -> bool) rows :
  forall i j,
    In j (selectFrom q i rows) <->
    (i <= j)%nat /\ exists r, rows !! (j - i)%nat = Some r /\ q r = true.
Proof.
  induction rows as [|r rest IH]; intros i j; simpl.
  - split; [tauto | intros (_ & r & H & _); discriminate].
  - assert (Hrest : In j (selectFrom q (S i) rest) <->
                    (i < j)%nat /\ exists r', (r :: rest) !! (j - i)%nat = Some r' /\ q r' = true).
    { rewrite IH. split.
      - intros (Hle & r' & Hl & Hq). split; [lia|]. exists r'. split; [|exact Hq].
        replace (j - i)%nat with (S (j - S i)) by lia. exact Hl.
      - intros (Hlt & r' & Hl & Hq). split; [lia|]. exists r'. split; [|exact Hq].
        replace (j - i)%nat with (S (j - S i)) in Hl by lia. exact Hl. }
    destruct (q r) eqn:Eq; simpl.
    + rewrite Hrest. split.
      * intros [<- | (Hlt & r' & Hl & Hq)].
        -- split; [lia|]. exists r. rewrite Nat.sub_diag. auto.
        -- split; [lia|]. eauto.
      * intros (Hle & r' & Hl & Hq).
        destruct (decide (i = j)) as [->|Hne]; [left; reflexivity|].
        right. split; [lia|]. eauto.
    + rewrite Hrest. split.
      * intros (Hlt & r' & Hl & Hq). split; [lia|]. eauto.
      * intros (Hle & r' & Hl & Hq).
        destruct (decide (i = j)) as [->|Hne].
        -- rewrite Nat.sub_diag in Hl. simpl in Hl. inversion Hl; subst. congruence.
        -- split; [lia|]. eauto.
Qed.

Lemma rowsOfSerial_select now rows orderSerial :
  rowsOfSerial host now rows orderSerial
  = selectFrom (matchesSerial host now orderSerial) 1 (drop 1 rows).
Proof.
  unfold rowsOfSerial, scanCurrentMonth.
  rewrite (scanFrom_select now (fun r => String.eqb (trim (cellStr r 10)) orderSerial)).
  reflexivity.
Qed.

Lemma In_rowsOfSerial now rows orderSerial i :
  In i (rowsOfSerial host now rows orderSerial) <->
  (1 <= i)%nat /\ exists r, rows !! i = Some r /\ matchesSerial host now orderSerial r = true.
Proof.
  rewrite rowsOfSerial_select, In_selectFrom.
  split; intros (Hle & r & Hl & Hq); (split; [exact Hle|]); exists r; (split; [|exact Hq]).
  - rewrite lookup_drop in Hl. replace (1 + (i - 1))%nat with i in Hl by lia. exact Hl.
  - rewrite lookup_drop. replace (1 + (i - 1))%nat with i by lia. exact Hl.
Qed.

Lemma scan_ext {A : Type} now (b1 b2 : nat -> list string -> A -> A) rows :
  (forall i r a, b1 i r a = b2 i r a) ->
  forall i acc, scanFrom host now b1 i rows acc = scanFrom host now b2 i rows acc.
Proof.
  intros Hext. induction rows as [|r rest IH]; intros i acc; simpl; [reflexivity|].
  rewrite Hext. apply IH.
Qed.

Lemma rowsOfBranch_select now rows branchName :
  rowsOfBranch host now rows branchName
  = selectFrom (fun r => inMonth host now r && strictEqStr (trim (cellStr r 1)) branchName)
               1 (drop 1 rows).
Proof.
  unfold rowsOfBranch, scanCurrentMonth.
  rewrite <- (app_nil_l (selectFrom _ _ _)).
  rewrite <- (scanFrom_select now (fun r => strictEqStr (trim (cellStr r 1)) branchName)).
  apply scan_ext. intros i r a. by destruct (strictEqStr _ _).
Qed.

(** The rows a scan selects are listed in their order. *)
Lemma selectFrom_increasing (q : list string -> bool) rows :
  forall i k k' a b,
    (k < k')%nat ->
    selectFrom q i rows !! k = Some a -> selectFrom q i rows !! k' = Some b ->
    (a < b)%nat.
Proof.
  induction rows as [|r rest IH]; intros i k k' a b Hk Ha Hb; [discriminate|].
  cbn [selectFrom] in Ha, Hb. destruct (q r).
  - destruct k' as [|k']; [lia|]. cbn in Hb.
    destruct k as [|k]; cbn in Ha.
    + inversion Ha; subst.
      assert (Hin : In b (selectFrom q (S a) rest))
        by (apply list_elem_of_In; eapply list_elem_of_lookup_2; exact Hb).
      apply In_selectFrom in Hin. lia.
    + apply (IH (S i) k k' a b); [lia | exact Ha | exact Hb].
  - apply (IH (S i) k k' a b); [lia | exact Ha | exact Hb].
Qed.

Lemma rowsOfSerial_increasing now rows orderSerial k k' a b :
  (k < k')%nat ->
  rowsOfSerial host now rows orderSerial !! k = Some a ->
  rowsOfSerial host now rows orderSerial !! k' = Some b ->
  (a < b)%nat.
Proof. rewrite rowsOfSerial_select. apply selectFrom_increasing. Qed.

Lemma rowsOfBranch_increasing now rows branchName k k' a b :
  (k < k')%nat ->
  rowsOfBranch host now rows branchName !! k = Some a ->
  rowsOfBranch host now rows branchName !! k' = Some b ->
  (a < b)%nat.
Proof. rewrite rowsOfBranch_select. apply selectFrom_increasing. Qed.

End ScanFacts.
Section MonthBoundary.

Variable host : Host.

Lemma indexOfSerial_rows now rows orderSerial code i :
  indexOfSerial host now rows orderSerial !! code = Some i ->
  (1 <= i)%nat /\ exists r, rows !! i = Some r /\ matchesLine host now orderSerial code r = true.
Proof.
  unfold indexOfSerial.
  apply (scanCurrentMonth_invariant host
    (fun index : gmap string nat => index !! code = Some i ->
       (1 <= i)%nat /\ exists r, rows !! i = Some r
                                 /\ matchesLine host now orderSerial code r = true)).
  - rewrite lookup_empty. discriminate.
  - intros j r a Hj Hr Hm IH.
    destruct (String.eqb (trim (cellStr r 10)) orderSerial) eqn:Es; [|exact IH].
    destruct (nonEmpty (cellStr r 3)) eqn:Ec; [|exact IH].
    destruct (decide (cellStr r 3 = code)) as [<-|Hne].
    + rewrite lookup_insert_eq. intros [= <-]. split; [exact Hj|].
      exists r. split; [exact Hr|].
      unfold matchesLine, matchesSerial. rewrite Hm, Es, Ec, String.eqb_refl. reflexivity.
    + rewrite lookup_insert_ne by exact Hne. exact IH.
Qed.

(** C5. A line dated outside the current month is left out of every scan of
    the ledger: a row whose date decodes to another year or month is not of
    the current month; the scans of approve and cancel ([rowsOfSerial]), of
    the branch approval ([rowsOfBranch]), of edit ([indexOfSerial]), of the
    summaries ([approvalsSummaryScan], [summaryProcessSheet]), of the details
    ([approvalDetailsScan], [orderDetailsScan]), of the pending orders
    ([pendingOrdersScan]), of the exports ([exportManyProcessSheet],
    [exportOneProcessSheet]) and of the approved lines ([previousOrdersScan],
    [latestIndexOf]) give the same result on a sheet and on the sheet with
    the rows outside the current month emptied; and the rows approve, cancel
    and edit select are rows of the current month. *)
Theorem month_boundary now rows :
  (forall r t, decodeDate host (cellAt r 0) = Some (Some t) ->
     getFullYear host t <> getFullYear host now \/ getMonth host t <> getMonth host now ->
     inMonth host now r = false)
  /\ (forall s, rowsOfSerial host now (eraseOutside host now rows) s
                = rowsOfSerial host now rows s)
  /\ (forall b, rowsOfBranch host now (eraseOutside host now rows) b
                = rowsOfBranch host now rows b)
  /\ (forall s, indexOfSerial host now (eraseOutside host now rows) s
                = indexOfSerial host now rows s)
  /\ approvalsSummaryScan host now (eraseOutside host now rows)
     = approvalsSummaryScan host now rows
  /\ (forall img b, approvalDetailsScan host now img (eraseOutside host now rows) b
                    = approvalDetailsScan host now img rows b)
  /\ pendingOrdersScan host now (eraseOutside host now rows)
     = pendingOrdersScan host now rows
  /\ (forall img st m, summaryProcessSheet host now img (eraseOutside host now rows) st m
                       = summaryProcessSheet host now img rows st m)
  /\ (forall img b s, orderDetailsScan host now img (eraseOutside host now rows) b s
                      = orderDetailsScan host now img rows b s)
  /\ (forall sel st m, exportManyProcessSheet host now sel (eraseOutside host now rows) st m
                       = exportManyProcessSheet host now sel rows st m)
  /\ (forall s st l, exportOneProcessSheet host now s (eraseOutside host now rows) st l
                     = exportOneProcessSheet host now s rows st l)
  /\ (forall prod b, previousOrdersScan host now prod (eraseOutside host now rows) b
                     = previousOrdersScan host now prod rows b)
  /\ (forall b, latestIndexOf host now (eraseOutside host now rows) b
                = latestIndexOf host now rows b)
  /\ (forall s i, In i (rowsOfSerial host now rows s) ->
        exists r, rows !! i = Some r /\ inMonth host now r = true)
  /\ (forall b i, In i (rowsOfBranch host now rows b) ->
        exists r, rows !! i = Some r /\ inMonth host now r = true)
  /\ (forall s code i, indexOfSerial host now rows s !! code = Some i ->
        exists r, rows !! i = Some r /\ inMonth host now r = true).
Proof.
  split.
  { intros r t Hd Hne.
    destruct (inMonth host now r) eqn:E; [|reflexivity].
    apply inMonth_spec in E. destruct E as (t' & Hd' & Hy & Hm).
    rewrite Hd in Hd'. inversion Hd'; subst. tauto. }
  repeat split; intros; try apply scanCurrentMonth_erase.
  - apply In_rowsOfSerial in H. destruct H as (_ & r & Hr & Hm).
    exists r. split; [exact Hr|].
    unfold matchesSerial in Hm. apply andb_true_iff in Hm. tauto.
  - rewrite rowsOfBranch_select, In_selectFrom in H.
    destruct H as (Hle & r & Hr & Hm).
    rewrite lookup_drop in Hr. replace (1 + (i - 1))%nat with i in Hr by lia.
    exists r. split; [exact Hr|]. apply andb_true_iff in Hm. tauto.
  - apply indexOfSerial_rows in H. destruct H as (_ & r & Hr & Hm).
    exists r. split; [exact Hr|].
    unfold matchesLine, matchesSerial in Hm. rewrite !andb_true_iff in Hm. tauto.
Qed.

End MonthBoundary.
(** ** Running the store calls *)

Lemma bind_run {A B : Type} (m : M A) (f : A -> M B) w a w' :
  m w = (Ok a, w') -> (m ≫= f) w = f a w'.
Proof. intros H. unfold mbind, M_bind. by rewrite H. Qed.

Lemma bind_err {A B : Type} (m : M A) (f : A -> M B) w e w' :
  m w = (Err e, w') -> (m ≫= f) w = (Err e, w').
Proof. intros H. unfold mbind, M_bind. by rewrite H. Qed.

Lemma call_run c w :
  faults w = [] -> call c w = (Ok tt, logged w c).
Proof. intros H. unfold call, logged. by rewrite H. Qed.

Lemma values_get_run id title rg w ss g :
  faults w = [] -> files w !! id = Some ss -> lookupTab ss title = Some g ->
  values_get id title rg w = (Ok (readRange g rg), logged w (CallGet id title rg)).
Proof.
  intros Hf Hs Hg. unfold values_get.
  rewrite (bind_run _ _ _ _ _ (call_run _ _ Hf)).
  unfold mbind, M_bind, getFile. simpl. rewrite Hs, Hg. reflexivity.
Qed.

Lemma spreadsheets_get_run id w ss :
  faults w = [] -> files w !! id = Some ss ->
  spreadsheets_get id w = (Ok (map fst ss), logged w (CallMeta id)).
Proof.
  intros Hf Hs. unfold spreadsheets_get.
  rewrite (bind_run _ _ _ _ _ (call_run _ _ Hf)).
  unfold mbind, M_bind, getFile. simpl. rewrite Hs. reflexivity.
Qed.

Lemma updTab_setTab ss title f g :
  lookupTab ss title = Some g -> updTab ss title f = Some (setTab ss title (f g)).
Proof.
  induction ss as [|[t g0] rest IH]; simpl; [discriminate|].
  destruct (String.eqb t title); [by intros [= ->]|].
  intros H. by rewrite (IH H).
Qed.

Lemma lookupTab_setTab ss title g0 g :
  lookupTab ss title = Some g0 -> lookupTab (setTab ss title g) title = Some g.
Proof.
  induction ss as [|[t g1] rest IH]; simpl; [discriminate|].
  destruct (String.eqb t title) eqn:E; simpl; rewrite E; [reflexivity | exact IH].
Qed.

Lemma lookupTab_setTab_ne ss title title' g :
  title' <> title -> lookupTab (setTab ss title g) title' = lookupTab ss title'.
Proof.
  intros Hne. induction ss as [|[t g1] rest IH]; simpl; [reflexivity|].
  destruct (String.eqb t title) eqn:E; simpl.
  - apply String.eqb_eq in E. subst t.
    destruct (String.eqb title title') eqn:E'; [|reflexivity].
    apply String.eqb_eq in E'. congruence.
  - by rewrite IH.
Qed.

Lemma setTab_setTab ss title g1 g2 :
  setTab (setTab ss title g1) title g2 = setTab ss title g2.
Proof.
  induction ss as [|[t g0] rest IH]; simpl; [reflexivity|].
  destruct (String.eqb t title) eqn:E; simpl; rewrite E; [reflexivity | by rewrite IH].
Qed.

Lemma values_update_run id wr w ss g :
  faults w = [] -> files w !! id = Some ss -> lookupTab ss (wsheet wr) = Some g ->
  values_update id wr w
  = (Ok tt,
     mkWorld (<[id := setTab ss (wsheet wr) (writeBlock g (wrow wr) (wcol wr) (wvalues wr))]>
                (files w))
             (keyFile w) [] (trace w ++ [CallUpdate id wr])).
Proof.
  intros Hf Hs Hg. unfold values_update.
  rewrite (bind_run _ _ _ _ _ (call_run _ _ Hf)).
  unfold mbind, M_bind, getFile, applyWrite, putFile. simpl. rewrite Hs.
  rewrite (updTab_setTab _ _ _ _ Hg). simpl. rewrite Hf. reflexivity.
Qed.

Lemma values_batchUpdate_run id ws w ss ss' :
  faults w = [] -> files w !! id = Some ss -> applyWrites ss ws = Some ss' ->
  values_batchUpdate id ws w
  = (Ok tt, mkWorld (<[id := ss']> (files w)) (keyFile w) [] (trace w ++ [CallBatch id ws])).
Proof.
  intros Hf Hs Hw. unfold values_batchUpdate.
  rewrite (bind_run _ _ _ _ _ (call_run _ _ Hf)).
  unfold mbind, M_bind, getFile, putFile. simpl. rewrite Hs, Hw. simpl.
  rewrite Hf. reflexivity.
Qed.

(** ** Computations that leave the spreadsheets alone *)

Lemma writesOf_app t1 t2 : writesOf (t1 ++ t2) = writesOf t1 ++ writesOf t2.
Proof. unfold writesOf. apply List.filter_app. Qed.

Lemma Quiet_ret {A : Type} (a : A) : Quiet (mret a).
Proof. intros w r w' [= <- <-]. auto. Qed.

Lemma Quiet_throw {A : Type} (e : Error) : Quiet (@throw A e).
Proof. intros w r w' [= <- <-]. auto. Qed.

Lemma Quiet_bind {A B : Type} (m : M A) (f : A -> M B) :
  Quiet m -> (forall a, Quiet (f a)) -> Quiet (m ≫= f).
Proof.
  intros Hm Hf w r w'. unfold mbind, M_bind.
  destruct (m w) as [[a|e] w1] eqn:E.
  - intros H. destruct (Hm _ _ _ E) as (H1 & H2 & H3 & H4).
    destruct (Hf a _ _ _ H) as (H1' & H2' & H3' & H4').
    repeat split; [congruence | congruence | congruence | auto].
  - intros [= <- <-]. exact (Hm _ _ _ E).
Qed.

Lemma Quiet_tryCatch {A : Type} (m : M A) (h : Error -> M A) :
  Quiet m -> (forall e, Quiet (h e)) -> Quiet (tryCatch m h).
Proof.
  intros Hm Hh w r w'. unfold tryCatch.
  destruct (m w) as [[a|e] w1] eqn:E.
  - intros [= <- <-]. exact (Hm _ _ _ E).
  - intros H. destruct (Hm _ _ _ E) as (H1 & H2 & H3 & H4).
    destruct (Hh e _ _ _ H) as (H1' & H2' & H3' & H4').
    repeat split; [congruence | congruence | congruence | auto].
Qed.

Lemma Quiet_call c : isWriteCall c = false -> Quiet (call c).
Proof.
  intros Hc w r w'. unfold call.
  assert (Hw : writesOf (trace w ++ [c]) = writesOf (trace w)).
  { rewrite writesOf_app. unfold writesOf at 2. simpl. rewrite Hc. apply app_nil_r. }
  destruct (faults w) as [|[|] fs] eqn:Ef; intros [= <- <-]; simpl;
    repeat split; auto; discriminate.
Qed.

Lemma Quiet_getFile id : Quiet (getFile id).
Proof.
  intros w r w'. unfold getFile.
  destruct (files w !! id); intros [= <- <-]; auto.
Qed.

Lemma Quiet_getSheetsClient : Quiet getSheetsClient.
Proof.
  intros w r w'. unfold getSheetsClient.
  destruct (keyFile w) eqn:E; intros [= <- <-]; auto.
Qed.

Lemma Quiet_spreadsheets_get id : Quiet (spreadsheets_get id).
Proof.
  unfold spreadsheets_get.
  apply Quiet_bind; [by apply Quiet_call | intros _].
  apply Quiet_bind; [apply Quiet_getFile | intros ss]. apply Quiet_ret.
Qed.

Lemma Quiet_values_get id title rg : Quiet (values_get id title rg).
Proof.
  unfold values_get.
  apply Quiet_bind; [by apply Quiet_call | intros _].
  apply Quiet_bind; [apply Quiet_getFile | intros ss].
  destruct (lookupTab ss title); [apply Quiet_ret | apply Quiet_throw].
Qed.

Lemma Quiet_userOfRow id title r : Quiet (userOfRow id title r).
Proof.
  unfold userOfRow.
  apply Quiet_bind; [apply Quiet_values_get | intros g].
  destruct (nonEmpty _); [apply Quiet_ret | apply Quiet_throw].
Qed.

Lemma Quiet_userScanTabs id username tabs : Quiet (userScanTabs id username tabs).
Proof.
  induction tabs as [|t rest IH]; simpl; [apply Quiet_ret|].
  apply Quiet_bind; [apply Quiet_values_get | intros rows].
  destruct (find _ rows); [|exact IH].
  apply Quiet_bind; [apply Quiet_userOfRow | intros u; apply Quiet_ret].
Qed.

Lemma Quiet_getUserInfoByUsername id username :
  Quiet (getUserInfoByUsername id username).
Proof.
  unfold getUserInfoByUsername.
  apply Quiet_bind; [apply Quiet_spreadsheets_get | intros titles].
  apply Quiet_userScanTabs.
Qed.

Lemma Quiet_loginScanTabs id username password tabs :
  Quiet (loginScanTabs id username password tabs).
Proof.
  induction tabs as [|t rest IH]; simpl; [apply Quiet_ret|].
  apply Quiet_bind; [apply Quiet_values_get | intros rows].
  destruct (find _ rows); [|exact IH].
  apply Quiet_bind; [apply Quiet_userOfRow | intros u; apply Quiet_ret].
Qed.

(** ** Computations that depend on one spreadsheet *)

Lemma DependsOn_ret id {A : Type} (a : A) : DependsOn id (mret a).
Proof. intros w1 w2 H. simpl. auto. Qed.

Lemma DependsOn_throw id {A : Type} (e : Error) : DependsOn id (@throw A e).
Proof. intros w1 w2 H. simpl. auto. Qed.

Lemma DependsOn_bind id {A B : Type} (m : M A) (f : A -> M B) :
  DependsOn id m -> (forall a, DependsOn id (f a)) -> DependsOn id (m ≫= f).
Proof.
  intros Hm Hf w1 w2 H. unfold mbind, M_bind.
  destruct (Hm w1 w2 H) as [E1 E2].
  destruct (m w1) as [[a1|e1] u1], (m w2) as [[a2|e2] u2]; simpl in *;
    try discriminate.
  - inversion E1; subst. apply Hf. exact E2.
  - inversion E1; subst. auto.
Qed.

Lemma DependsOn_call id c : DependsOn id (call c).
Proof.
  intros w1 w2 (H1 & H2 & H3). unfold call. rewrite H2, H3. simpl.
  split; [reflexivity|]. repeat split; auto.
Qed.

Lemma DependsOn_getFile id : DependsOn id (getFile id).
Proof.
  intros w1 w2 (H1 & H2 & H3). unfold getFile. rewrite <- H1.
  destruct (files w1 !! id) eqn:E; simpl; repeat split; auto; congruence.
Qed.

Lemma DependsOn_values_get id title rg : DependsOn id (values_get id title rg).
Proof.
  unfold values_get.
  apply DependsOn_bind; [apply DependsOn_call | intros _].
  apply DependsOn_bind; [apply DependsOn_getFile | intros ss].
  destruct (lookupTab ss title); [apply DependsOn_ret | apply DependsOn_throw].
Qed.

Lemma DependsOn_userOfRow id title r : DependsOn id (userOfRow id title r).
Proof.
  unfold userOfRow.
  apply DependsOn_bind; [apply DependsOn_values_get | intros g].
  destruct (nonEmpty _); [apply DependsOn_ret | apply DependsOn_throw].
Qed.

Lemma DependsOn_getUserInfoByUsername id username :
  DependsOn id (getUserInfoByUsername id username).
Proof.
  unfold getUserInfoByUsername.
  apply DependsOn_bind.
  - unfold spreadsheets_get.
    apply DependsOn_bind; [apply DependsOn_call | intros _].
    apply DependsOn_bind; [apply DependsOn_getFile | intros ss]. apply DependsOn_ret.
  - intros titles. induction (clientTabs titles) as [|t rest IH]; simpl;
      [apply DependsOn_ret|].
    apply DependsOn_bind; [apply DependsOn_values_get | intros rows].
    destruct (find _ rows); [|exact IH].
    apply DependsOn_bind; [apply DependsOn_userOfRow | intros u; apply DependsOn_ret].
Qed.
(** ** Edit of a waiting order *)

Lemma values_get_inv id title rg w rows w' :
  values_get id title rg w = (Ok rows, w') ->
  exists ss g, files w !! id = Some ss /\ lookupTab ss title = Some g
               /\ rows = readRange g rg.
Proof.
  unfold values_get, mbind, M_bind, call, getFile.
  destruct (faults w) as [|[|] fs]; simpl; try discriminate;
    destruct (files w !! id) as [ss|]; simpl; try discriminate;
    destruct (lookupTab ss title) as [g|] eqn:Eg; simpl; try discriminate;
    intros [= <- <-]; eauto.
Qed.

Section Edit.

Variable host : Host.
Variable credentialsSheetId : string.

Lemma editBatch_nil rows (index : gmap string nat) items :
  (forall item, In item items -> truthy (ei_productCode item) = true ->
                index !! toString (ei_productCode item) = None) ->
  editBatch rows index items = None \/ editBatch rows index items = Some [].
Proof.
  induction items as [|item rest IH]; intros H; [by right|].
  assert (Hrest : editBatch rows index rest = None \/ editBatch rows index rest = Some []).
  { apply IH. intros i Hi. apply H. by right. }
  cbn [editBatch]. destruct (truthy (ei_productCode item)) eqn:Et; cbn [negb]; [|exact Hrest].
  unfold readKey. rewrite (H item (or_introl eq_refl) Et).
  destruct (String.eqb _ "__proto__"); [by left|].
  destruct (inherited _); [by left | exact Hrest].
Qed.

Lemma indexOfSerial_none now rows orderSerial code :
  (forall i r, (1 <= i)%nat -> rows !! i = Some r ->
               matchesLine host now orderSerial code r = false) ->
  indexOfSerial host now rows orderSerial !! code = None.
Proof.
  intros H.
  destruct (indexOfSerial host now rows orderSerial !! code) as [i|] eqn:E; [|reflexivity].
  apply indexOfSerial_rows in E. destruct E as (Hi & r & Hr & Hm).
  rewrite (H i r Hi Hr) in Hm. discriminate.
Qed.

(** C10. An edit that names only product codes that no row of the order has
    in 'Waiting for Approval' in the current month answers with a failure,
    leaves every spreadsheet as it was and makes no write call, whatever the
    state of the store and its faults. *)
Theorem updateWaitingOrder_no_match req now w :
  (forall ui w1 ss g,
      getUserInfoByUsername credentialsSheetId (er_username req) w = (Ok (Some ui), w1) ->
      files w !! budgetSheetId ui = Some ss ->
      lookupTab ss "Waiting for Approval" = Some g ->
      forall item, In item (default [] (er_items req)) ->
      forall i r, (1 <= i)%nat -> g !! i = Some r ->
        matchesLine host now
          (orderSerialOf (toString (orElse (er_orderId req) (Str EmptyString))))
          (toString (ei_productCode item)) r = false) ->
  exists resp w',
    updateWaitingOrder host credentialsSheetId req now w = (Ok resp, w')
    /\ isFailure resp = true
    /\ (status resp = 400 \/ status resp = 403 \/ status resp = 500)
    /\ files w' = files w
    /\ writesOf (trace w') = writesOf (trace w).
Proof.
  intros Hno. unfold updateWaitingOrder, tryCatch.
  set (serial := orderSerialOf (toString (orElse (er_orderId req) (Str EmptyString)))) in *.
  destruct (er_items req) as [[|item0 items0]|] eqn:Eitems;
    try (eexists _, _; split; [reflexivity|]; simpl; auto 10; fail).
  destruct (negb (truthy (er_username req)) || negb (nonEmpty serial));
    [eexists _, _; split; [reflexivity|]; simpl; auto 10|].
  destruct (negb (String.eqb (statusOf _) "waiting"));
    [eexists _, _; split; [reflexivity|]; simpl; auto 10|].
  unfold mbind at 1, M_bind at 1.
  destruct (getSheetsClient w) as [[[]|e] w0] eqn:Ec;
    destruct (Quiet_getSheetsClient _ _ _ Ec) as (Hf0 & Hk0 & Ht0 & _);
    [|eexists _, _; split; [reflexivity|]; simpl; auto 10].
  assert (w0 = w) as ->.
  { unfold getSheetsClient in Ec. destruct (keyFile w); by inversion Ec. }
  unfold mbind at 1, M_bind at 1.
  destruct (getUserInfoByUsername credentialsSheetId (er_username req) w)
    as [[[ui|]|e] w1] eqn:Eu;
    destruct (Quiet_getUserInfoByUsername _ _ _ _ _ Eu) as (Hf1 & Hk1 & Ht1 & _);
    try (eexists _, _; split; [reflexivity|]; simpl; auto 10; fail).
  destruct (negb (String.eqb (toUpperCase (level ui)) "L2"));
    [eexists _, _; split; [reflexivity|]; simpl; auto 10|].
  unfold mbind at 1, M_bind at 1.
  destruct (values_get (budgetSheetId ui) "Waiting for Approval" Whole w1)
    as [[rows|e] w2] eqn:Eg;
    destruct (Quiet_values_get _ _ _ _ _ _ Eg) as (Hf2 & Hk2 & Ht2 & _);
    [|eexists _, _; split; [reflexivity|]; simpl; split; [reflexivity|];
      split; [auto|]; split; congruence].
  apply values_get_inv in Eg. destruct Eg as (ss & g & Hss & Hg & ->).
  change (readRange g Whole) with g. rewrite Hf1 in Hss. cbv zeta.
  destruct (editBatch_nil g (indexOfSerial host now g serial) (item0 :: items0))
    as [E|E].
  - intros item Hin Htr. apply indexOfSerial_none. intros i r Hi Hr.
    apply (Hno ui w1 ss g eq_refl Hss Hg item) with (i := i); [|exact Hi|exact Hr].
    exact Hin.
  - rewrite E. eexists _, _. split; [reflexivity|]. simpl.
    split; [reflexivity|]. split; [auto|]. split; congruence.
  - rewrite E. eexists _, _. split; [reflexivity|]. simpl.
    split; [reflexivity|]. split; [auto|]. split; congruence.
Qed.

End Edit.
(** ** Login *)

Lemma lookupTab_titles ss t :
  In t (map fst ss) -> exists g, lookupTab ss t = Some g.
Proof.
  induction ss as [|[t0 g0] rest IH]; simpl; [tauto|].
  destruct (String.eqb t0 t) eqn:E; [eauto|].
  intros [->|H]; [|auto]. rewrite String.eqb_refl in E. discriminate.
Qed.

Lemma clientTabs_titles titles t :
  In t (clientTabs titles) ->
  In t titles /\ t <> "Config"%string /\ t <> "Readme"%string.
Proof.
  unfold clientTabs. rewrite !filter_In.
  intros ((Hin & _) & H). split; [exact Hin|].
  apply negb_true_iff, orb_false_iff in H. destruct H as [H1 H2].
  apply String.eqb_neq in H1, H2. auto.
Qed.

Lemma userOfRow_run id title r w ss g :
  faults w = [] -> files w !! id = Some ss -> lookupTab ss title = Some g ->
  userOfRow id title r w
  = (let f2 := trim (cellStr (default [] (head (readRange g rangeF2))) 0) in
     if nonEmpty f2
     then Ok (mkUserInfo title (trim (cellStr r 2))
                (String.eqb (toUpperCase (trim (cellStr r 3))) "Y")
                (levelOfRow r)
                (String.eqb (toUpperCase (trim (cellStr r 25))) "Y") f2)
     else Err (BudgetSheetIdMissing title),
     mkWorld (files w) (keyFile w) [] (trace w ++ [CallGet id title rangeF2])).
Proof.
  intros Hf Hs Hg. unfold userOfRow.
  rewrite (bind_run _ _ _ _ _ (values_get_run _ _ _ _ _ _ Hf Hs Hg)).
  unfold logged. rewrite Hf. simpl.
  destruct (nonEmpty _); reflexivity.
Qed.

Lemma loginScanTabs_run id username password ss T g r post pre :
  lookupTab ss T = Some g ->
  find (loginRowMatches username password) (readRange g rangeA2Z) = Some r ->
  (forall T', In T' pre -> exists g', lookupTab ss T' = Some g'
      /\ find (loginRowMatches username password) (readRange g' rangeA2Z) = None) ->
  forall w, faults w = [] -> files w !! id = Some ss ->
  loginScanTabs id username password (pre ++ T :: post) w
  = (let f2 := trim (cellStr (default [] (head (readRange g rangeF2))) 0) in
     if nonEmpty f2
     then Ok (Some (mkUserInfo T (trim (cellStr r 2))
                (String.eqb (toUpperCase (trim (cellStr r 3))) "Y")
                (levelOfRow r)
                (String.eqb (toUpperCase (trim (cellStr r 25))) "Y") f2))
     else Err (BudgetSheetIdMissing T),
     mkWorld (files w) (keyFile w) []
       (trace w ++ map (fun t => CallGet id t rangeA2Z) (pre ++ [T])
                ++ [CallGet id T rangeF2])).
Proof.
  intros Hg Hr. induction pre as [|t pre IH]; intros Hpre w Hf Hs; simpl.
  - rewrite (bind_run _ _ _ _ _ (values_get_run _ _ _ _ _ _ Hf Hs Hg)).
    rewrite Hr.
    assert (Hf' : faults (logged w (CallGet id T rangeA2Z)) = []) by (simpl; by rewrite Hf).
    unfold mbind, M_bind.
    rewrite (userOfRow_run id T r _ ss g Hf' Hs Hg). simpl.
    rewrite <- app_assoc. simpl.
    destruct (nonEmpty _); reflexivity.
  - destruct (Hpre t (or_introl eq_refl)) as (g' & Hg' & Hnone).
    rewrite (bind_run _ _ _ _ _ (values_get_run _ _ _ _ _ _ Hf Hs Hg')).
    rewrite Hnone.
    rewrite IH; [| intros T' HT'; apply Hpre; by right | simpl; by rewrite Hf | exact Hs].
    simpl. rewrite <- app_assoc. reflexivity.
Qed.

Lemma readRange_F2 (g : list (list string)) :
  cellStr (default [] (head (readRange g rangeF2))) 0
  = cellStr (default [] (g !! 1%nat)) 5.
Proof.
  destruct g as [|r0 [|r1 g]]; try reflexivity.
  destruct r1 as [|c0 [|c1 [|c2 [|c3 [|c4 [|c5 r1]]]]]]; reflexivity.
Qed.

Lemma readRange_A2Z_lookup (g : list (list string)) k :
  readRange g rangeA2Z !! k = take 26 <$> g !! S k.
Proof.
  unfold readRange, rangeA2Z. rewrite list_lookup_fmap, lookup_drop.
  change (1 + k)%nat with (S k). by destruct (g !! S k).
Qed.

Lemma cellStr_take (r : list string) n c : (c < n)%nat -> cellStr (take n r) c = cellStr r c.
Proof. intros H. unfold cellStr. by rewrite lookup_take_lt. Qed.

Lemma find_first {A : Type} (f : A -> bool) (l : list A) k x :
  l !! k = Some x -> f x = true ->
  (forall j y, (j < k)%nat -> l !! j = Some y -> f y = false) ->
  find f l = Some x.
Proof.
  revert k. induction l as [|a l IH]; intros k Hk Hx Hbefore; [discriminate|].
  cbn [find]. destruct k as [|k].
  - inversion Hk; subst. by rewrite Hx.
  - rewrite (Hbefore 0%nat a ltac:(lia) eq_refl).
    apply (IH k Hk Hx). intros j y Hj Hy. apply (Hbefore (S j) y); [lia | exact Hy].
Qed.

Lemma find_none {A : Type} (f : A -> bool) (l : list A) :
  (forall j y, l !! j = Some y -> f y = false) -> find f l = None.
Proof.
  induction l as [|a l IH]; intros H; [reflexivity|].
  cbn [find]. rewrite (H 0%nat a eq_refl). apply IH.
  intros j y Hy. exact (H (S j) y Hy).
Qed.

(** The test of a credential row at login, for a pair of texts that are not
    both empty: the trimmed column A is the user name and column B the
    password. *)
Lemma loginRowMatches_pair (u p : string) (r : list string) :
  u <> EmptyString \/ p <> EmptyString ->
  loginRowMatches (Str u) (Str p) (take 26 r) = true
  <-> trim (cellStr r 0) = u /\ cellStr r 1 = p.
Proof.
  intros Hne. unfold loginRowMatches, strictEqStr.
  rewrite !cellStr_take by lia.
  set (a := trim (cellStr r 0)). set (b := cellStr r 1). split.
  - intros H. destruct (negb (nonEmpty a) && negb (nonEmpty b)); [discriminate|].
    apply andb_true_iff in H. destruct H as [H1 H2].
    apply String.eqb_eq in H1, H2. auto.
  - intros [<- <-]. rewrite !String.eqb_refl.
    destruct (negb (nonEmpty a) && negb (nonEmpty b)) eqn:E; [|reflexivity].
    apply andb_true_iff in E. destruct E as [E1 E2]. unfold nonEmpty in E1, E2.
    rewrite negb_involutive in E1, E2. apply String.eqb_eq in E1, E2.
    destruct Hne; congruence.
Qed.

Lemma clientTabs_app l1 l2 : clientTabs (l1 ++ l2) = clientTabs l1 ++ clientTabs l2.
Proof. unfold clientTabs. by rewrite !List.filter_app. Qed.

Lemma clientTabs_filter l :
  clientTabs l
  = List.filter (fun t => negb (String.eqb t "" || String.eqb t "Config"
                                || String.eqb t "Readme")) l.
Proof.
  unfold clientTabs, nonEmpty. induction l as [|t l IH]; [reflexivity|].
  cbn [List.filter]. destruct (String.eqb t ""); cbn [negb orb]; [exact IH|].
  cbn [List.filter]. destruct (String.eqb t "Config" || String.eqb t "Readme");
    cbn [negb]; by rewrite IH.
Qed.

Section Login.

Variable credentialsSheetId : string.

(** C9. A user name and a password, not both empty, that a credential row
    of exactly one client tab carries, its column A trimmed: the tabs are
    read in their order, those without a title, [Config] and [Readme] left
    out, up to that tab and no further; the first row of the tab that
    carries the pair gives the branch (column C, trimmed) and the level
    (column E, trimmed and in upper case, [L1] when it is empty), the cell
    [F2] of the tab, trimmed, the budget sheet; when that cell is blank the
    lookup throws instead of returning a user. *)
Theorem login_first_match (u p : string) w ss before T after g i r :
  faults w = [] ->
  files w !! credentialsSheetId = Some ss ->
  map fst ss = before ++ T :: after ->
  ~ In T before ->
  T <> EmptyString -> T <> "Config"%string -> T <> "Readme"%string ->
  lookupTab ss T = Some g ->
  (1 <= i)%nat -> g !! i = Some r ->
  trim (cellStr r 0) = u -> cellStr r 1 = p ->
  u <> EmptyString \/ p <> EmptyString ->
  (forall j r', (1 <= j < i)%nat -> g !! j = Some r' ->
     ~ (trim (cellStr r' 0) = u /\ cellStr r' 1 = p)) ->
  (forall T' g' j r',
     In T' (map fst ss) -> T' <> T -> T' <> "Config"%string -> T' <> "Readme"%string ->
     lookupTab ss T' = Some g' -> (1 <= j)%nat -> g' !! j = Some r' ->
     ~ (trim (cellStr r' 0) = u /\ cellStr r' 1 = p)) ->
  let tabsRead :=
    List.filter (fun t => negb (String.eqb t "" || String.eqb t "Config"
                                || String.eqb t "Readme")) before ++ [T] in
  let f2 := trim (cellStr (default [] (g !! 1%nat)) 5) in
  let level := toUpperCase (trim (cellStr r 4)) in
  findClientTabAndSheetIdByUser credentialsSheetId (Str u) (Str p) w
  = (if String.eqb f2 EmptyString
     then Err (BudgetSheetIdMissing T)
     else Ok (Some (mkUserInfo T (trim (cellStr r 2))
                      (String.eqb (toUpperCase (trim (cellStr r 3))) "Y")
                      (if String.eqb level EmptyString then "L1"%string else level)
                      (String.eqb (toUpperCase (trim (cellStr r 25))) "Y") f2)),
     mkWorld (files w) (keyFile w) []
       (trace w ++ CallMeta credentialsSheetId
          :: map (fun t => CallGet credentialsSheetId t rangeA2Z) tabsRead
          ++ [CallGet credentialsSheetId T rangeF2])).
Proof.
  intros Hf Hs Htabs Hnot HT0 HT1 HT2 Hg Hi Hr Hu Hp Hne Hfirst Hothers tabsRead f2 level.
  assert (Hrow : find (loginRowMatches (Str u) (Str p)) (readRange g rangeA2Z)
                 = Some (take 26 r)).
  { apply (find_first _ _ (i - 1)%nat).
    - rewrite readRange_A2Z_lookup. replace (S (i - 1)) with i by lia. by rewrite Hr.
    - by apply loginRowMatches_pair.
    - intros j y Hj Hy. rewrite readRange_A2Z_lookup in Hy.
      destruct (g !! S j) as [r'|] eqn:Er'; [|discriminate]. inversion Hy; subst y.
      destruct (loginRowMatches (Str u) (Str p) (take 26 r')) eqn:E; [|reflexivity].
      apply (loginRowMatches_pair u p r' Hne) in E.
      destruct (Hfirst (S j) r' ltac:(lia) Er' E). }
  assert (Hsplit : clientTabs (map fst ss) = clientTabs before ++ T :: clientTabs after).
  { rewrite Htabs, clientTabs_app. f_equal.
    change (T :: after) with ([T] ++ after). rewrite clientTabs_app. f_equal.
    rewrite clientTabs_filter. cbn [List.filter].
    apply String.eqb_neq in HT0, HT1, HT2. by rewrite HT0, HT1, HT2. }
  unfold findClientTabAndSheetIdByUser.
  rewrite (bind_run _ _ _ _ _ (spreadsheets_get_run _ _ _ Hf Hs)).
  rewrite Hsplit.
  rewrite (loginScanTabs_run _ (Str u) (Str p) ss T g (take 26 r)
             (clientTabs after) (clientTabs before) Hg Hrow).
  - cbv zeta. rewrite readRange_F2. fold f2.
    unfold levelOfRow, nonEmpty. rewrite !cellStr_take by lia. fold level.
    subst tabsRead. rewrite <- clientTabs_filter.
    cbn [trace logged]. rewrite <- app_assoc. cbn [app].
    destruct (String.eqb f2 EmptyString), (String.eqb level EmptyString); reflexivity.
  - intros T' HT'.
    destruct (clientTabs_titles _ _ HT') as (Hin & Hc & Hrd).
    assert (Hin' : In T' (map fst ss)) by (rewrite Htabs; apply in_app_iff; by left).
    destruct (lookupTab_titles ss T' Hin') as [g' Hg'].
    exists g'. split; [exact Hg'|].
    apply find_none. intros j y Hy. rewrite readRange_A2Z_lookup in Hy.
    destruct (g' !! S j) as [r'|] eqn:Er'; [|discriminate]. inversion Hy; subst y.
    destruct (loginRowMatches (Str u) (Str p) (take 26 r')) eqn:E; [|reflexivity].
    apply (loginRowMatches_pair u p r' Hne) in E.
    destruct (Hothers T' g' (S j) r' Hin' ltac:(congruence) Hc Hrd Hg' ltac:(lia) Er' E).
  - simpl. by rewrite Hf.
  - exact Hs.
Qed.

End Login.
(** ** The serial generator *)

Lemma of_uint_acc_digitsAfter d : forall p,
  Z.pos (Pos.of_uint_acc d p) = digitsAfter d (Z.pos p).
Proof.
  induction d; intros p; simpl; try reflexivity; rewrite IHd; f_equal; lia.
Qed.

Lemma of_uint_digitsAfter d : Z.of_N (N.of_uint d) = digitsAfter d 0.
Proof.
  unfold N.of_uint.
  induction d; simpl; try reflexivity; try exact IHd;
    rewrite of_uint_acc_digitsAfter; reflexivity.
Qed.

Lemma takeRadix_digits d : forall a,
  0 <= a ->
  takeRadix 10 (Some a) (NilEmpty.string_of_uint d) = (Some (digitsAfter d a), EmptyString).
Proof.
  induction d; intros a Ha; simpl; try reflexivity;
    (rewrite IHd by lia; reflexivity).
Qed.

Lemma to_uint_not_nil n : N.to_uint n <> Decimal.Nil.
Proof.
  destruct n as [|p]; simpl; [discriminate|].
  intros H. pose proof (DecimalPos.Unsigned.of_to p) as E.
  rewrite H in E. discriminate.
Qed.

Lemma takeRadix_showN n :
  takeRadix 10 None (showN n) = (Some (Z.of_N n), EmptyString).
Proof.
  unfold showN. rewrite <- (DecimalN.Unsigned.of_to n) at 2.
  rewrite of_uint_digitsAfter.
  pose proof (to_uint_not_nil n) as Hn.
  destruct (N.to_uint n) as [|d|d|d|d|d|d|d|d|d|d]; [congruence| ..];
    simpl; rewrite takeRadix_digits by lia; reflexivity.
Qed.

Lemma allDigits_string_of_uint d : allDigits (NilEmpty.string_of_uint d) = true.
Proof. induction d; simpl; auto. Qed.

Lemma allDigits_showN n : allDigits (showN n) = true.
Proof. apply allDigits_string_of_uint. Qed.

Lemma digit_facts c f :
  digitOf c = Some f -> isWhiteSpace c = false /\ upperChar c = c /\ c <> "-"%char /\ c <> "+"%char.
Proof.
  destruct c as [[|] [|] [|] [|] [|] [|] [|] [|]]; simpl; try discriminate;
    intros _; repeat split; try reflexivity; discriminate.
Qed.

Lemma allDigits_trimStart s : allDigits s = true -> trimStart s = s.
Proof.
  destruct s as [|c r]; simpl; [reflexivity|].
  destruct (digitOf c) eqn:E; [|discriminate].
  intros _. by rewrite (proj1 (digit_facts _ _ E)).
Qed.

Lemma allDigits_trimEnd s : allDigits s = true -> trimEnd s = s.
Proof.
  induction s as [|c r IH]; simpl; [reflexivity|].
  destruct (digitOf c) eqn:E; [|discriminate].
  intros H. rewrite (IH H). destruct r; [|reflexivity].
  by rewrite (proj1 (digit_facts _ _ E)).
Qed.

Lemma allDigits_trim s : allDigits s = true -> trim s = s.
Proof.
  intros H. unfold trim. rewrite (allDigits_trimStart _ H). by apply allDigits_trimEnd.
Qed.

Lemma allDigits_toUpperCase s : allDigits s = true -> toUpperCase s = s.
Proof.
  unfold toUpperCase. induction s as [|c r IH]; simpl; [reflexivity|].
  destruct (digitOf c) eqn:E; [|discriminate].
  intros H. rewrite (IH H). f_equal. apply (digit_facts _ _ E).
Qed.

Lemma allDigits_takeSign s : allDigits s = true -> takeSign s = (false, s).
Proof.
  destruct s as [|c r]; simpl; [reflexivity|].
  destruct (digitOf c) eqn:E; [|discriminate]. intros _.
  destruct (digit_facts _ _ E) as (_ & _ & Hm & Hp).
  destruct c as [[|] [|] [|] [|] [|] [|] [|] [|]]; try reflexivity; congruence.
Qed.

Lemma parseInt_showN n : parseIntStr true (showN n) = ofZ (Z.of_N n).
Proof.
  unfold parseIntStr.
  rewrite (allDigits_trimStart _ (allDigits_showN n)).
  rewrite (allDigits_takeSign _ (allDigits_showN n)). simpl.
  rewrite takeRadix_showN. reflexivity.
Qed.

Lemma numToString_nat n :
  (0 < n)%N -> Z.of_N n < 10 ^ 21 -> numToString (ofZ (Z.of_N n)) = showN n.
Proof.
  intros Hpos Hlt. unfold numToString, ofZ, stripZeros.
  destruct (Z.eqb_spec (Z.of_N n) 0) as [E|_]; [lia|].
  destruct (Z.ltb_spec (Z.of_N n) 0) as [E|_]; [lia|].
  rewrite Z.abs_eq by lia.
  destruct (Z.ltb_spec (Z.of_N n) (10 ^ 21)) as [_|E]; [|lia].
  unfold showZabs. rewrite Zabs2N.id. reflexivity.
Qed.

Lemma currentNumOf_serial n :
  currentNumOf ("AA" +:+ showN n) = ofZ (Z.of_N n).
Proof.
  unfold currentNumOf.
  change (toUpperCase ("AA" +:+ showN n)) with (String "A" (String "A" (toUpperCase (showN n)))).
  rewrite (allDigits_toUpperCase _ (allDigits_showN n)).
  simpl. rewrite (allDigits_trim _ (allDigits_showN n)), parseInt_showN.
  simpl. unfold nge, ncompare, ofZ, pow10, startsWith. simpl.
  change (Z.of_nat 0) with 0. rewrite Z.pow_0_r.
  replace (String.prefix "" (showN n)) with true by (by destruct (showN n)).
  destruct (Z.compare_spec (Z.of_N n * 1) (0 * 1)) as [E|E|E]; try reflexivity. lia.
Qed.

Lemma nadd_ofZ a b : nadd (ofZ a) (ofZ b) = ofZ (a + b).
Proof.
  unfold nadd, ofZ, pow10. change (Z.of_nat (0 - 0)) with 0.
  rewrite Z.pow_0_r. f_equal. lia.
Qed.

Lemma newSerialOf_serial n :
  Z.of_N n < 2 ^ 53 -> newSerialOf ("AA" +:+ showN n) = "AA" +:+ showN (n + 1).
Proof.
  intros Hn. unfold newSerialOf. rewrite currentNumOf_serial, nadd_ofZ.
  replace (Z.of_N n + 1) with (Z.of_N (n + 1)) by lia.
  rewrite (numToString_nat (n + 1)); [reflexivity | lia | lia].
Qed.

Lemma newSerialOf_no_prefix s :
  startsWith "AA" (toUpperCase s) = false -> newSerialOf s = "AA1"%string.
Proof.
  intros H. unfold newSerialOf, currentNumOf. rewrite H, andb_false_r. reflexivity.
Qed.

Lemma readRange_B2 (g : list (list string)) :
  cellStr (default [] (head (readRange g rangeB2))) 0
  = cellStr (default [] (g !! 1%nat)) 1.
Proof.
  destruct g as [|r0 [|r1 g]]; try reflexivity.
  destruct r1 as [|c0 [|c1 r1]]; reflexivity.
Qed.

Lemma updRow_lookup (g : list (list string)) f : forall i,
  updRow g i f !! i = Some (f (default [] (g !! i))).
Proof.
  induction g as [|r g IH]; intros i.
  - induction i as [|i IHi]; simpl; [reflexivity|]. exact IHi.
  - destruct i as [|i]; simpl; [reflexivity|]. apply IH.
Qed.

Lemma setCell_lookup (r : list string) t : forall c,
  setCell r c t !! c = Some t.
Proof.
  induction r as [|x r IH]; intros c.
  - induction c as [|c IHc]; simpl; [reflexivity|]. exact IHc.
  - destruct c as [|c]; simpl; [reflexivity|]. apply IH.
Qed.

Lemma counter_cell (g : list (list string)) s :
  cellStr (default [] (writeBlock g 1 1 [[Str s]] !! 1%nat)) 1 = s.
Proof.
  unfold writeBlock. rewrite updRow_lookup.
  cbn [from_option writeCells cellText]. unfold cellStr, Datatypes.id.
  rewrite setCell_lookup. reflexivity.
Qed.

Lemma getNextOrderSerial_run id w ss g (readFails : bool) :
  files w !! id = Some ss ->
  lookupTab ss "Serial Numbers" = Some g ->
  faults w = (if readFails then [true] else []) ->
  let cur := if readFails then EmptyString
             else trim (cellStr (default [] (g !! 1%nat)) 1) in
  let wr := mkWrite "Serial Numbers" 1 1 [[Str (newSerialOf cur)]] in
  getNextOrderSerial id w
  = (Ok (newSerialOf cur),
     mkWorld (<[id := setTab ss "Serial Numbers" (writeBlock g 1 1 [[Str (newSerialOf cur)]])]>
                (files w))
             (keyFile w) []
             (trace w ++ [CallGet id "Serial Numbers" rangeB2; CallUpdate id wr])).
Proof.
  intros Hs Hg Hf cur wr. unfold getNextOrderSerial.
  assert (Hread :
    tryCatch
      (resp ← values_get id "Serial Numbers" rangeB2;
       mret (trim (cellStr (default [] (head resp)) 0)))
      (fun _ => mret EmptyString) w
    = (Ok cur, mkWorld (files w) (keyFile w) []
                       (trace w ++ [CallGet id "Serial Numbers" rangeB2]))).
  { unfold tryCatch. destruct readFails.
    - unfold values_get, mbind, M_bind, call. rewrite Hf. reflexivity.
    - rewrite (bind_run _ _ _ _ _ (values_get_run _ _ _ _ _ _ Hf Hs Hg)).
      cbv beta. rewrite readRange_B2. unfold logged. rewrite Hf. reflexivity. }
  rewrite (bind_run _ _ _ _ _ Hread).
  erewrite bind_run; [| apply (values_update_run id wr _ ss g); [reflexivity | exact Hs | exact Hg]].
  simpl. rewrite <- app_assoc. reflexivity.
Qed.

Ltac by_chars c :=
  destruct c as [[|] [|] [|] [|] [|] [|] [|] [|]]; try reflexivity; try discriminate.

Lemma upperChar_A c : Ascii.eqb (upperChar c) "A" = isLetterA c.
Proof. by_chars c. Qed.

Lemma radixDigit_upper c : radixDigit 10 (upperChar c) = radixDigit 10 c.
Proof. by_chars c. Qed.

Lemma isWhiteSpace_upper c : isWhiteSpace (upperChar c) = isWhiteSpace c.
Proof. by_chars c. Qed.

Lemma radixDigit_decimal c :
  radixDigit 10 c
  = let n := N_of_ascii c in
    if (N.leb 48 n && N.leb n 57)%N then Some (Z.of_N (n - 48)) else None.
Proof. by_chars c. Qed.

Lemma radixDigit_space c : isWhiteSpace c = true -> radixDigit 10 c = None.
Proof. by_chars c. Qed.

Lemma upperChar_sign c :
  (Ascii.eqb (upperChar c) "-" = Ascii.eqb c "-")
  /\ (Ascii.eqb (upperChar c) "+" = Ascii.eqb c "+").
Proof. by_chars c; split; reflexivity. Qed.

Lemma trimStart_upper s : trimStart (toUpperCase s) = toUpperCase (trimStart s).
Proof.
  unfold toUpperCase. induction s as [|c r IH]; [reflexivity|].
  cbn [mapChars trimStart]. rewrite isWhiteSpace_upper.
  destruct (isWhiteSpace c); [exact IH | reflexivity].
Qed.

Lemma trimStart_head_char s :
  match trimStart s with
  | EmptyString => True
  | String c _ => isWhiteSpace c = false
  end.
Proof.
  induction s as [|c r IH]; [exact I|].
  cbn [trimStart]. destruct (isWhiteSpace c) eqn:E; [exact IH | exact E].
Qed.

Lemma trimEnd_cons c r : isWhiteSpace c = false -> trimEnd (String c r) = String c (trimEnd r).
Proof.
  intros H. cbn [trimEnd]. destruct (trimEnd r); [by rewrite H | reflexivity].
Qed.

Lemma takeRadix_trimEnd s : forall acc,
  fst (takeRadix 10 acc (trimEnd s)) = fst (takeRadix 10 acc s).
Proof.
  induction s as [|c r IH]; intros acc; [reflexivity|].
  destruct (isWhiteSpace c) eqn:Ews.
  - pose proof (radixDigit_space c Ews) as Hd.
    cbn [trimEnd takeRadix]. rewrite Hd, Ews.
    destruct (trimEnd r); [reflexivity|]. cbn [takeRadix]. by rewrite Hd.
  - rewrite (trimEnd_cons c r Ews). cbn [takeRadix].
    destruct (radixDigit 10 c); [apply IH | reflexivity].
Qed.

Lemma takeRadix_upper s : forall acc,
  fst (takeRadix 10 acc (toUpperCase s)) = fst (takeRadix 10 acc s).
Proof.
  unfold toUpperCase. induction s as [|c r IH]; intros acc; [reflexivity|].
  cbn [mapChars takeRadix]. rewrite radixDigit_upper.
  destruct (radixDigit 10 c); [apply IH | reflexivity].
Qed.

(** The value [parseInt] reads off a run of digits is the value of the run;
    without digits it reads nothing, and the run counts as 0. *)
Lemma takeRadix_digitsValue s : forall acc,
  0 <= default 0 acc ->
  default 0 (fst (takeRadix 10 acc s))
  = Z.of_N (digitsValue (Z.to_N (default 0 acc)) s)
  /\ 0 <= default 0 (fst (takeRadix 10 acc s)).
Proof.
  induction s as [|c r IH]; intros acc Hacc.
  - cbn [takeRadix digitsValue fst]. split; [lia | exact Hacc].
  - cbn [takeRadix digitsValue]. rewrite radixDigit_decimal. cbv zeta.
    destruct (N.leb 48 (N_of_ascii c) && N.leb (N_of_ascii c) 57)%N eqn:E.
    + set (a := default 0 acc) in *.
      assert (Ha : 0 <= default 0 (Some (a * 10 + Z.of_N (N_of_ascii c - 48)))).
      { change (0 <= a * 10 + Z.of_N (N_of_ascii c - 48)). lia. }
      destruct (IH _ Ha) as (H1 & H2).
      split; [|exact H2]. rewrite H1.
      change (default 0 (Some (a * 10 + Z.of_N (N_of_ascii c - 48))))
        with (a * 10 + Z.of_N (N_of_ascii c - 48)).
      replace (Z.to_N (a * 10 + Z.of_N (N_of_ascii c - 48)))
        with (10 * Z.to_N a + (N_of_ascii c - 48))%N by lia.
      reflexivity.
    + cbn [fst]. split; [lia | exact Hacc].
Qed.

Lemma parsed_digitsValue (neg : bool) s :
  let parsed :=
    match fst (takeRadix 10 None s) with
    | None => NaN
    | Some v => ofZ (if neg then - v else v)
    end in
  (if negb (isNaNnum parsed) && nge parsed (ofZ 0) then parsed else ofZ 0)
  = ofZ (if neg then 0 else Z.of_N (digitsValue 0 s)).
Proof.
  destruct (takeRadix_digitsValue s None ltac:(simpl; lia)) as (H1 & H2).
  change (Z.to_N (default 0 None)) with 0%N in H1.
  destruct (fst (takeRadix 10 None s)) as [v|].
  - change (default 0 (Some v)) with v in H1, H2.
    cbv zeta. cbn [isNaNnum negb andb ofZ].
    unfold nge, ncompare, ofZ, pow10. change (Z.of_nat 0) with 0.
    rewrite Z.pow_0_r, !Z.mul_1_r.
    destruct neg.
    + destruct (Z.compare_spec (- v) 0) as [E|E|E];
        first [reflexivity | f_equal; lia | lia].
    + rewrite <- H1.
      destruct (Z.compare_spec v 0) as [E|E|E];
        first [reflexivity | f_equal; lia | lia].
  - change (default 0 None) with 0 in H1.
    cbv zeta. cbn [isNaNnum negb andb]. destruct neg; [reflexivity|]. by rewrite <- H1.
Qed.

Lemma trimStart_trimEnd s :
  match s with String c _ => isWhiteSpace c = false | EmptyString => True end ->
  trimStart (trimEnd s) = trimEnd s.
Proof.
  destruct s as [|c r]; [reflexivity|]. intros H.
  rewrite (trimEnd_cons c r H). cbn [trimStart]. by rewrite H.
Qed.

(** The number the generator reads off a counter cell is the number after
    the prefix. *)
Lemma currentNumOf_prefixed s :
  currentNumOf s = ofZ (Z.of_N (prefixedNumberOf s)).
Proof.
  unfold currentNumOf, prefixedNumberOf.
  destruct s as [|a [|b rest]]; [reflexivity | |].
  - unfold toUpperCase, startsWith. cbn [mapChars String.prefix].
    destruct (ascii_dec "A" (upperChar a)); [|by rewrite andb_false_r].
    by rewrite andb_false_r.
  - unfold toUpperCase, startsWith, nonEmpty. cbn [mapChars String.prefix String.eqb].
    fold (toUpperCase rest).
    assert (Ha : forall c, (if ascii_dec "A" (upperChar c) then true else false) = isLetterA c).
    { intros c. rewrite <- upperChar_A.
      destruct (ascii_dec "A" (upperChar c)) as [<-|Hn]; [reflexivity|].
      symmetry. apply Ascii.eqb_neq. congruence. }
    assert (Hp : (if ascii_dec "A" (upperChar a)
                  then if ascii_dec "A" (upperChar b)
                       then String.prefix "" (toUpperCase rest) else false
                  else false) = isLetterA a && isLetterA b).
    { rewrite <- (Ha a), <- (Ha b).
      destruct (ascii_dec "A" (upperChar a)), (ascii_dec "A" (upperChar b));
        try reflexivity. by destruct (toUpperCase rest). }
    rewrite Hp. cbn [negb andb].
    destruct (isLetterA a && isLetterA b); [|reflexivity].
    cbn [slice]. unfold parseIntStr, trim.
    rewrite trimStart_upper.
    pose proof (trimStart_head_char rest) as Hhead.
    set (z := trimStart rest) in *.
    assert (Hz : match toUpperCase z with
                 | String c _ => isWhiteSpace c = false | EmptyString => True end).
    { destruct z as [|c r]; [exact I|]. unfold toUpperCase. cbn [mapChars].
      by rewrite isWhiteSpace_upper. }
    rewrite (trimStart_trimEnd _ Hz).
    destruct z as [|c r].
    + reflexivity.
    + unfold toUpperCase in *. cbn [mapChars] in *. fold (toUpperCase r) in *.
      rewrite (trimEnd_cons _ _ Hz).
      destruct (upperChar_sign c) as (Hm & Hpl).
      destruct (Ascii.eqb c "-") eqn:Em.
      * apply Ascii.eqb_eq in Em. subst c. cbn [upperChar takeSign].
        change (upperChar "-") with "-"%char. cbn [takeSign negb andb].
        rewrite takeRadix_trimEnd, takeRadix_upper.
        rewrite (parsed_digitsValue true r). reflexivity.
      * destruct (Ascii.eqb c "+") eqn:Ep.
        -- apply Ascii.eqb_eq in Ep. subst c.
           change (upperChar "+") with "+"%char. cbn [takeSign negb andb].
           rewrite takeRadix_trimEnd, takeRadix_upper.
           rewrite (parsed_digitsValue false r). reflexivity.
        -- assert (Hs : takeSign (String (upperChar c) (trimEnd (toUpperCase r)))
                        = (false, String (upperChar c) (trimEnd (toUpperCase r)))).
           { apply Ascii.eqb_neq in Hm, Hpl.
             destruct (upperChar c) as [[|] [|] [|] [|] [|] [|] [|] [|]];
               try reflexivity; congruence. }
           rewrite Hs. cbn [negb andb].
           rewrite <- (trimEnd_cons _ _ Hz), takeRadix_trimEnd.
           change (String (upperChar c) (toUpperCase r)) with (toUpperCase (String c r)).
           rewrite takeRadix_upper.
           rewrite (parsed_digitsValue false (String c r)).
           apply Ascii.eqb_neq in Em, Ep.
           destruct c as [[|] [|] [|] [|] [|] [|] [|] [|]]; try reflexivity; congruence.
Qed.

Lemma newSerialOf_prefixed s :
  Z.of_N (prefixedNumberOf s) < 2 ^ 53 -> newSerialOf s = prefixedNewSerialOf s.
Proof.
  intros Hn. unfold newSerialOf, prefixedNewSerialOf.
  rewrite currentNumOf_prefixed, nadd_ofZ.
  replace (Z.of_N (prefixedNumberOf s) + 1) with (Z.of_N (prefixedNumberOf s + 1)) by lia.
  rewrite (numToString_nat (prefixedNumberOf s + 1)); [reflexivity | lia | lia].
Qed.

Lemma prefixedNumberOf_case a b rest :
  isLetterA a = true -> isLetterA b = true ->
  prefixedNumberOf (String a (String b rest)) = prefixedNumberOf ("AA" +:+ rest).
Proof. intros Ha Hb. cbn [prefixedNumberOf append]. by rewrite Ha, Hb. Qed.

Lemma prefixedNumberOf_serial n : prefixedNumberOf ("AA" +:+ showN n) = n.
Proof.
  pose proof (currentNumOf_serial n) as H.
  rewrite currentNumOf_prefixed in H. unfold ofZ in H.
  assert (E : Z.of_N (prefixedNumberOf ("AA" +:+ showN n)) = Z.of_N n) by congruence.
  lia.
Qed.

Lemma prefixedNumberOf_other c r :
  (N.leb 48 (N_of_ascii c) && N.leb (N_of_ascii c) 57)%N = false ->
  c <> "+"%char -> isWhiteSpace c = false ->
  prefixedNumberOf ("AA" +:+ String c r) = 0%N.
Proof.
  intros Hd Hp Hw.
  assert (E : digitsValue 0 (String c r) = 0%N) by (cbn [digitsValue]; by rewrite Hd).
  change (prefixedNumberOf ("AA" +:+ String c r))
    with (match trimStart (String c r) with
          | String "+" r' => digitsValue 0 r'
          | r' => digitsValue 0 r'
          end).
  assert (Ht : trimStart (String c r) = String c r) by (cbn [trimStart]; by rewrite Hw).
  rewrite Ht.
  destruct c as [[|] [|] [|] [|] [|] [|] [|] [|]]; try exact E. congruence.
Qed.

(** C1, as amended. The serial generator reads the counter cell
    ['Serial Numbers'!B2], taking it as empty when the read fails; it writes
    the new serial back to that cell and returns it, and the other sheets
    are as they were.  The new serial is [AA] followed by the number after
    the prefix plus one (for a number below [2^53]): the number is the run of
    digits that follows the letters [AA], which count in either case, and is
    0 for every other content.  So an empty cell gives [AA1]; [AA], [aa],
    [Aa] or [aA] followed by the decimal text of [n] give [AA] followed by
    [n + 1]; a cell that does not start with these letters, a bare number
    among them, gives [AA1]; and so does a cell where the letters are
    followed by something that is neither a digit, nor white space, nor
    [+]. *)
Theorem nextSerial_prefix_required id w ss g (readFails : bool) :
  files w !! id = Some ss ->
  lookupTab ss "Serial Numbers" = Some g ->
  faults w = (if readFails then [true] else []) ->
  let cur := if readFails then EmptyString
             else trim (cellStr (default [] (g !! 1%nat)) 1) in
  (exists w' serial,
      getNextOrderSerial id w = (Ok serial, w')
      /\ (Z.of_N (prefixedNumberOf cur) < 2 ^ 53 -> serial = prefixedNewSerialOf cur)
      /\ (exists ss' g', files w' = <[id := ss']> (files w)
                         /\ lookupTab ss' "Serial Numbers" = Some g'
                         /\ cellStr (default [] (g' !! 1%nat)) 1 = serial
                         /\ forall t, t <> "Serial Numbers"%string ->
                                      lookupTab ss' t = lookupTab ss t))
  /\ newSerialOf EmptyString = "AA1"%string
  /\ (forall n, Z.of_N n < 2 ^ 53 ->
        newSerialOf ("AA" +:+ showN n) = "AA" +:+ showN (n + 1))
  /\ (forall a b n, isLetterA a = true -> isLetterA b = true -> Z.of_N n < 2 ^ 53 ->
        newSerialOf (String a (String b (showN n))) = "AA" +:+ showN (n + 1))
  /\ (forall s, startsWith "AA" (toUpperCase s) = false ->
        newSerialOf s = "AA1"%string)
  /\ (forall a b c r, isLetterA a = true -> isLetterA b = true ->
        (N.leb 48 (N_of_ascii c) && N.leb (N_of_ascii c) 57)%N = false ->
        c <> "+"%char -> isWhiteSpace c = false ->
        newSerialOf (String a (String b (String c r))) = "AA1"%string).
Proof.
  intros Hs Hg Hf cur.
  split; [|split; [reflexivity|split; [|split; [|split]]]].
  - eexists _, (newSerialOf cur).
    split; [apply (getNextOrderSerial_run id w ss g readFails Hs Hg Hf)|].
    split; [apply newSerialOf_prefixed|].
    eexists _, _. split; [reflexivity|].
    split; [apply (lookupTab_setTab _ _ _ _ Hg)|].
    split.
    + apply counter_cell.
    + intros t Ht. by apply lookupTab_setTab_ne.
  - intros n Hn. by apply newSerialOf_serial.
  - intros a b n Ha Hb Hn.
    rewrite newSerialOf_prefixed;
      unfold prefixedNewSerialOf;
      rewrite (prefixedNumberOf_case a b _ Ha Hb), prefixedNumberOf_serial;
      [reflexivity | exact Hn].
  - intros s H. by apply newSerialOf_no_prefix.
  - intros a b c r Ha Hb Hd Hp Hw.
    rewrite newSerialOf_prefixed;
      unfold prefixedNewSerialOf;
      rewrite (prefixedNumberOf_case a b _ Ha Hb), (prefixedNumberOf_other c r Hd Hp Hw);
      [reflexivity | reflexivity].
Qed.

(** C1, as stated, fails: a counter cell that holds [7], a number without
    the prefix, gives [AA1], where reading the suffix would give [AA8]. *)
Lemma nextSerial_bare_number_restarts :
  fst (getNextOrderSerial "budget-acme" sampleWorldBareCounter) = Ok "AA1"%string
  /\ specNewSerialOf "7" = "AA8"%string
  /\ newSerialOf "7" <> specNewSerialOf "7".
Proof. vm_compute. repeat split; discriminate. Qed.
(** ** Writing to a sheet *)

Lemma updRow_lookup_ne (g : list (list string)) f : forall i j,
  i <> j -> (i < length g)%nat -> updRow g i f !! j = g !! j.
Proof.
  induction g as [|r g IH]; intros i j Hne Hi; simpl in Hi; [lia|].
  destruct i as [|i], j as [|j]; simpl; try reflexivity; try congruence.
  apply IH; [congruence | lia].
Qed.

Lemma updRow_length (g : list (list string)) f : forall i,
  (i < length g)%nat -> length (updRow g i f) = length g.
Proof.
  induction g as [|r g IH]; intros i Hi; simpl in Hi; [lia|].
  destruct i as [|i]; simpl; [reflexivity|]. rewrite IH; [reflexivity | lia].
Qed.

Lemma updRow_length_le (g : list (list string)) f : forall i,
  (i <= length g)%nat -> (length g <= length (updRow g i f))%nat.
Proof.
  induction g as [|r g IH]; intros i Hi; simpl in *.
  - destruct i; simpl; lia.
  - destruct i as [|i]; simpl; [lia|]. specialize (IH i). lia.
Qed.

Lemma updRow_lookup_lt (g : list (list string)) f : forall i j,
  (j < i)%nat -> (i <= length g)%nat -> updRow g i f !! j = g !! j.
Proof.
  induction g as [|r g IH]; intros i j Hj Hi; simpl in Hi; [lia|].
  destruct i as [|i]; [lia|]. destruct j as [|j]; simpl; [reflexivity|].
  apply IH; lia.
Qed.

Lemma writeCells_texts (l : list string) : forall (pre r : list string),
  writeCells (pre ++ r) (length pre) (map Str l) = pre ++ l ++ drop (length l) r.
Proof.
  induction l as [|t l IH]; intros pre r; simpl.
  - by rewrite drop_0.
  - assert (Hset : setCell (pre ++ r) (length pre) t = (pre ++ [t]) ++ drop 1 r).
    { induction pre as [|x pre IHp]; simpl.
      - destruct r; reflexivity.
      - by rewrite IHp. }
    rewrite Hset.
    replace (S (length pre)) with (length (pre ++ [t])) by (rewrite length_app; simpl; lia).
    rewrite IH, <- app_assoc. simpl. rewrite drop_drop.
    replace (1 + length l)%nat with (S (length l)) by lia. reflexivity.
Qed.

Lemma writeCells_row (l r : list string) :
  writeCells r 0 (map Str l) = l ++ drop (length l) r.
Proof. exact (writeCells_texts l [] r). Qed.

Lemma writeCells_clear (r : list string) :
  writeCells r 0 (repeat (Str EmptyString) 11) = clearedRow r.
Proof. exact (writeCells_row (repeat EmptyString 11) r). Qed.

Lemma copyAtoK_texts (r : list string) :
  copyAtoK r = map Str (map (cellStr r) (seq 0 11)).
Proof. unfold copyAtoK. by rewrite map_map. Qed.

Lemma clearedRow_blank (r : list string) : cellStr (clearedRow r) 0 = EmptyString.
Proof. reflexivity. Qed.

Lemma clearedRow_idem (r : list string) : clearedRow (clearedRow r) = clearedRow r.
Proof. reflexivity. Qed.

Lemma clearRows_length idxs : forall (g : list (list string)),
  (forall i, In i idxs -> (i < length g)%nat) ->
  length (clearRows g idxs) = length g.
Proof.
  unfold clearRows. induction idxs as [|i idxs IH]; intros g H; simpl; [reflexivity|].
  rewrite IH.
  - apply updRow_length. apply H. by left.
  - intros j Hj. rewrite updRow_length; [|apply H; by left]. apply H. by right.
Qed.

Lemma clearRows_lookup idxs : forall (g : list (list string)) j r,
  (forall i, In i idxs -> (i < length g)%nat) ->
  g !! j = Some r ->
  clearRows g idxs !! j
  = Some (if existsb (Nat.eqb j) idxs then clearedRow r else r).
Proof.
  unfold clearRows. induction idxs as [|i idxs IH]; intros g j r H Hj; simpl.
  - exact Hj.
  - assert (Hi : (i < length g)%nat) by (apply H; by left).
    assert (H' : forall k, In k idxs -> (k < length (updRow g i clearedRow))%nat).
    { intros k Hk. rewrite updRow_length by exact Hi. apply H. by right. }
    destruct (Nat.eqb_spec j i) as [->|Hne]; simpl.
    + assert (Hl : updRow g i clearedRow !! i = Some (clearedRow r)).
      { rewrite updRow_lookup, Hj. reflexivity. }
      rewrite (IH _ _ _ H' Hl), clearedRow_idem. by destruct (existsb _ idxs).
    + assert (Hl : updRow g i clearedRow !! j = Some r).
      { rewrite updRow_lookup_ne by congruence. exact Hj. }
      exact (IH _ _ _ H' Hl).
Qed.

Lemma updRow_lookup_other (g : list (list string)) f : forall i j,
  i <> j -> (i <= length g)%nat -> updRow g i f !! j = g !! j.
Proof.
  induction g as [|r g IH]; intros i j Hne Hi; simpl in Hi.
  - assert (i = 0)%nat as -> by lia. destruct j; [congruence | reflexivity].
  - destruct i as [|i], j as [|j]; simpl; try reflexivity; try congruence.
    apply IH; [congruence | lia].
Qed.

Lemma updRow_length_succ (g : list (list string)) f : forall i,
  (i <= length g)%nat -> (S i <= length (updRow g i f))%nat.
Proof.
  induction g as [|r g IH]; intros i Hi; simpl in *.
  - assert (i = 0)%nat as -> by lia. simpl. lia.
  - destruct i as [|i]; simpl; [lia|]. specialize (IH i). lia.
Qed.

Lemma writeBlock_lookup_lt c vals : forall (g : list (list string)) i j,
  (j < i)%nat -> (i <= length g)%nat -> writeBlock g i c vals !! j = g !! j.
Proof.
  induction vals as [|vs rest IH]; intros g i j Hj Hi; simpl; [reflexivity|].
  rewrite IH; [| lia | by apply updRow_length_succ].
  apply updRow_lookup_other; [lia | exact Hi].
Qed.

Lemma writeBlock_lookup_row c vals : forall (g : list (list string)) i k vs,
  (i <= length g)%nat -> vals !! k = Some vs ->
  writeBlock g i c vals !! (i + k)%nat
  = Some (writeCells (default [] (g !! (i + k)%nat)) c vs).
Proof.
  induction vals as [|v rest IH]; intros g i k vs Hi Hk; [discriminate|].
  simpl. destruct k as [|k]; simpl in Hk.
  - inversion Hk; subst. rewrite Nat.add_0_r.
    rewrite writeBlock_lookup_lt; [| lia | by apply updRow_length_succ].
    apply updRow_lookup.
  - replace (i + S k)%nat with (S i + k)%nat by lia.
    rewrite (IH _ _ _ vs); [| by apply updRow_length_succ | exact Hk].
    rewrite updRow_lookup_other; [reflexivity | lia | exact Hi].
Qed.

Lemma lastRowOf_le (colA : list (list string)) : (lastRowOf colA <= length colA)%nat.
Proof.
  induction colA as [|r rest IH]; simpl; [lia|].
  destruct (lastRowOf rest); [destruct (nonBlankA r); lia | lia].
Qed.

Lemma readRange_AA_length (g : list (list string)) :
  length (readRange g rangeAA) = length g.
Proof. unfold readRange, rangeAA. rewrite drop_0. apply length_map. Qed.

Lemma setTab_id ss title (g : list (list string)) :
  lookupTab ss title = Some g -> setTab ss title g = ss.
Proof.
  induction ss as [|[t g0] rest IH]; simpl; [reflexivity|].
  destruct (String.eqb t title); [by intros [= ->] | intros H; by rewrite IH].
Qed.

Lemma updRow_ext (f f' : list string -> list string) :
  (forall r, f r = f' r) ->
  forall (g : list (list string)) i, updRow g i f = updRow g i f'.
Proof.
  intros H g. induction g as [|r g IH]; intros i.
  - induction i as [|i IHi]; simpl; [by rewrite H | by rewrite IHi].
  - destruct i as [|i]; simpl; [by rewrite H | by rewrite IH].
Qed.

Lemma applyWrites_clear ws : forall ss (g : list (list string)),
  lookupTab ss "Waiting for Approval" = Some g ->
  applyWrites ss (clearDataOf ws)
  = Some (setTab ss "Waiting for Approval" (clearRows g ws)).
Proof.
  unfold clearRows. induction ws as [|i ws IH]; intros ss g Hg; simpl.
  - by rewrite (setTab_id _ _ _ Hg).
  - unfold applyWrite. simpl wsheet. rewrite (updTab_setTab _ _ _ _ Hg).
    simpl wrow. simpl wcol. simpl wvalues.
    rewrite (IH _ _ (lookupTab_setTab _ _ _ _ Hg)).
    rewrite setTab_setTab. simpl writeBlock.
    by rewrite (updRow_ext _ clearedRow writeCells_clear).
Qed.

(** ** Where rows are appended *)

Lemma lastRowOf_blank_after (colA : list (list string)) : forall j r,
  (lastRowOf colA <= j)%nat -> colA !! j = Some r -> nonBlankA r = false.
Proof.
  induction colA as [|r0 rest IH]; intros j r Hj Hr; [discriminate|].
  simpl in Hj. destruct (lastRowOf rest) as [|n] eqn:E.
  - destruct j as [|j]; simpl in Hr.
    + inversion Hr; subst. destruct (nonBlankA r); [simpl in Hj; lia | reflexivity].
    + apply (IH j r); [lia | exact Hr].
  - destruct j as [|j]; [lia|]. simpl in Hr. apply (IH j r); [lia | exact Hr].
Qed.

Lemma lastRowOf_text (colA : list (list string)) :
  (0 < lastRowOf colA)%nat ->
  exists r, colA !! (lastRowOf colA - 1)%nat = Some r /\ nonBlankA r = true.
Proof.
  induction colA as [|r0 rest IH]; simpl; [lia|].
  destruct (lastRowOf rest) as [|n] eqn:E.
  - destruct (nonBlankA r0) eqn:E0; [|lia]. intros _. exists r0. auto.
  - intros _. destruct IH as (r & Hr & Hb); [lia|].
    exists r. split; [|exact Hb].
    replace (S (S n) - 1)%nat with (S (S n - 1)) by lia. exact Hr.
Qed.

Lemma lastRowOf_unique (colA : list (list string)) n :
  (n <= length colA)%nat ->
  (forall j r, (n <= j)%nat -> colA !! j = Some r -> nonBlankA r = false) ->
  ((0 < n)%nat -> exists r, colA !! (n - 1)%nat = Some r /\ nonBlankA r = true) ->
  lastRowOf colA = n.
Proof.
  intros Hn Hafter Hbefore.
  destruct (Nat.lt_trichotomy (lastRowOf colA) n) as [Hlt|[Heq|Hgt]]; [|exact Heq|].
  - destruct Hbefore as (r & Hr & Hb); [lia|].
    rewrite (lastRowOf_blank_after colA (n - 1) r) in Hb; [discriminate | lia | exact Hr].
  - destruct (lastRowOf_text colA) as (r & Hr & Hb); [lia|].
    rewrite (Hafter (lastRowOf colA - 1)%nat r) in Hb; [discriminate | lia | exact Hr].
Qed.

Lemma lastRowOf_map (f : list string -> list string) (g : list (list string)) :
  (forall r, nonBlankA (f r) = nonBlankA r) -> lastRowOf (map f g) = lastRowOf g.
Proof.
  intros H. induction g as [|r g IH]; [reflexivity|].
  cbn [map lastRowOf]. by rewrite IH, H.
Qed.

Lemma lastRowOf_columnA (g : list (list string)) :
  lastRowOf (readRange g rangeAA) = lastRowOf g.
Proof.
  unfold readRange, rangeAA. rewrite drop_0. apply lastRowOf_map.
  intros r. by destruct r.
Qed.

Lemma updRow_length_max (g : list (list string)) f : forall i,
  (i <= length g)%nat -> length (updRow g i f) = Nat.max (length g) (S i).
Proof.
  induction g as [|r g IH]; intros i Hi; simpl in *.
  - assert (i = 0)%nat as -> by lia. reflexivity.
  - destruct i as [|i]; simpl; [lia|]. rewrite IH by lia. lia.
Qed.

Lemma writeBlock_length c vals : forall (g : list (list string)) i,
  (i <= length g)%nat ->
  length (writeBlock g i c vals) = Nat.max (length g) (i + length vals).
Proof.
  induction vals as [|vs rest IH]; intros g i Hi; simpl; [lia|].
  rewrite IH by (rewrite updRow_length_max by exact Hi; lia).
  rewrite updRow_length_max by exact Hi. lia.
Qed.

Lemma writeBlock_lookup_ge c vals : forall (g : list (list string)) i j,
  (i <= length g)%nat -> (i + length vals <= j)%nat ->
  writeBlock g i c vals !! j = g !! j.
Proof.
  induction vals as [|vs rest IH]; intros g i j Hi Hj; simpl in *; [reflexivity|].
  rewrite IH; [| rewrite updRow_length_max by exact Hi; lia | lia].
  apply updRow_lookup_other; [lia | exact Hi].
Qed.

Lemma nonBlankA_cell (r : list string) : nonBlankA r = nonEmpty (trim (cellStr r 0)).
Proof. unfold nonBlankA, cellStr. by destruct (r !! 0%nat). Qed.

(** Rows written by [appendRowsAtoK] are appended: the row they start at is
    within the sheet, no row from it on has text in column A and the row
    before it has; the rows before and after the block written are as they
    were. *)
Lemma appended_rows (g : list (list string)) (vals : list (list value)) :
  let L := lastRowOf (readRange g rangeAA) in
  let g' := writeBlock g L 0 vals in
  (L <= length g)%nat
  /\ (forall j r, (L <= j)%nat -> g !! j = Some r -> trim (cellStr r 0) = EmptyString)
  /\ ((0 < L)%nat ->
      exists r, g !! (L - 1)%nat = Some r /\ trim (cellStr r 0) <> EmptyString)
  /\ (forall j, (j < L)%nat -> g' !! j = g !! j)
  /\ (forall j, (L + length vals <= j)%nat -> g' !! j = g !! j)
  /\ length g' = Nat.max (length g) (L + length vals).
Proof.
  intros L g'. subst L g'. rewrite lastRowOf_columnA.
  pose proof (lastRowOf_le g) as HL.
  split; [exact HL|]. split; [|split; [|split; [|split]]].
  - intros j r Hj Hr. pose proof (lastRowOf_blank_after g j r Hj Hr) as H.
    rewrite nonBlankA_cell in H. unfold nonEmpty in H.
    apply negb_false_iff, String.eqb_eq in H. exact H.
  - intros Hpos. destruct (lastRowOf_text g Hpos) as (r & Hr & H).
    exists r. split; [exact Hr|]. rewrite nonBlankA_cell in H. unfold nonEmpty in H.
    apply negb_true_iff, String.eqb_neq in H. exact H.
  - intros j Hj. by apply writeBlock_lookup_lt.
  - intros j Hj. by apply writeBlock_lookup_ge.
  - by apply writeBlock_length.
Qed.
(** ** Approval of an order *)

Lemma getSheetsClient_run w : keyFile w = true -> getSheetsClient w = (Ok tt, w).
Proof. intros H. unfold getSheetsClient. by rewrite H. Qed.

Lemma appendRowsAtoK_run id sheetName vals w ss g :
  vals <> [] ->
  faults w = [] -> files w !! id = Some ss -> lookupTab ss sheetName = Some g ->
  let wr := mkWrite sheetName (lastRowOf (readRange g rangeAA)) 0 vals in
  appendRowsAtoK id sheetName vals w
  = (Ok tt,
     mkWorld (<[id := setTab ss sheetName
                        (writeBlock g (lastRowOf (readRange g rangeAA)) 0 vals)]> (files w))
             (keyFile w) []
             (trace w ++ [CallGet id sheetName rangeAA; CallUpdate id wr])).
Proof.
  intros Hv Hf Hs Hg wr. unfold appendRowsAtoK.
  destruct vals as [|v vals]; [congruence|].
  rewrite (bind_run _ _ _ _ _ (values_get_run _ _ _ _ _ _ Hf Hs Hg)).
  rewrite (values_update_run id _ _ ss g); [| by (simpl; rewrite Hf) | exact Hs | exact Hg].
  simpl. rewrite <- app_assoc. reflexivity.
Qed.

Lemma match_nonempty {A B : Type} (l : list A) (x y : B) :
  l <> [] -> match l with [] => x | _ :: _ => y end = y.
Proof. destruct l; [congruence | reflexivity]. Qed.

Section Approve.

Variable host : Host.
Variable credentialsSheetId : string.

Lemma approveOrder_run req now w ui w1 ss waiting final :
  let composite :=
    toString (orElse (orElse (or_orderId req) (or_serial req)) (Str EmptyString)) in
  let serial := orderSerialOf composite in
  let moved := rowsOfSerial host now waiting serial in
  let L := lastRowOf (readRange final rangeAA) in
  let vals := appendValuesOf waiting moved in
  keyFile w = true -> faults w = [] ->
  truthy (or_username req) = true ->
  nonEmpty serial = true ->
  statusOf composite = "waiting"%string ->
  getUserInfoByUsername credentialsSheetId (or_username req) w = (Ok (Some ui), w1) ->
  toUpperCase (level ui) = "L2"%string ->
  files w !! budgetSheetId ui = Some ss ->
  lookupTab ss "Waiting for Approval" = Some waiting ->
  lookupTab ss "Final Orders" = Some final ->
  moved <> [] ->
  approveOrder host credentialsSheetId req now w
  = (Ok (json Success),
     mkWorld (<[budgetSheetId ui :=
                 setTab (setTab ss "Final Orders" (writeBlock final L 0 vals))
                        "Waiting for Approval" (clearRows waiting moved)]> (files w))
             (keyFile w) []
             (trace w1 ++
              [CallGet (budgetSheetId ui) "Waiting for Approval" Whole;
               CallGet (budgetSheetId ui) "Final Orders" rangeAA;
               CallUpdate (budgetSheetId ui) (mkWrite "Final Orders" L 0 vals);
               CallBatch (budgetSheetId ui) (clearDataOf moved)])).
Proof.
  intros composite serial moved L vals Hk Hf Hu Hserial Hstatus Hui Hlevel Hss Hw Hfin Hmoved.
  destruct (Quiet_getUserInfoByUsername _ _ _ _ _ Hui) as (Hf1 & Hk1 & _ & Hq1).
  specialize (Hq1 Hf).
  unfold approveOrder, tryCatch.
  fold composite. fold serial. rewrite Hu, Hserial, Hstatus, String.eqb_refl.
  cbn [negb orb].
  rewrite (bind_run _ _ _ _ _ (getSheetsClient_run _ Hk)).
  rewrite (bind_run _ _ _ _ _ Hui).
  cbv beta iota. rewrite Hlevel, String.eqb_refl. cbn [negb].
  assert (Hss1 : files w1 !! budgetSheetId ui = Some ss) by (by rewrite Hf1).
  rewrite (bind_run _ _ _ _ _ (values_get_run _ _ Whole _ _ _ Hq1 Hss1 Hw)).
  change (readRange waiting Whole) with waiting. fold moved. fold vals.
  assert (Hvals : vals <> []).
  { subst vals. unfold appendValuesOf. destruct moved; [congruence | discriminate]. }
  rewrite (match_nonempty moved _ _ Hmoved).
  set (w2 := logged w1 (CallGet (budgetSheetId ui) "Waiting for Approval" Whole)).
  assert (Hf2 : faults w2 = []) by (subst w2; simpl; by rewrite Hq1).
  assert (Hss2 : files w2 !! budgetSheetId ui = Some ss) by exact Hss1.
  rewrite (bind_run _ _ _ _ _
            (appendRowsAtoK_run _ _ _ _ _ _ Hvals Hf2 Hss2 Hfin)).
  fold L.
  erewrite bind_run;
    [| apply (values_batchUpdate_run _ _ _
                (setTab ss "Final Orders" (writeBlock final L 0 vals)));
       [ reflexivity
       | simpl; apply lookup_insert_eq
       | apply applyWrites_clear; rewrite lookupTab_setTab_ne by discriminate; exact Hw ] ].
  unfold mret, M_ret. simpl. rewrite insert_insert_eq, Hf1, Hk1.
  rewrite <- !app_assoc. reflexivity.
Qed.

Lemma moved_nonempty now waiting serial :
  (exists i r, (1 <= i)%nat /\ waiting !! i = Some r
               /\ matchesSerial host now serial r = true) ->
  rowsOfSerial host now waiting serial <> [].
Proof.
  intros (i & r & Hi & Hr & Hm) E.
  assert (Hin : In i (rowsOfSerial host now waiting serial)).
  { apply In_rowsOfSerial. eauto. }
  rewrite E in Hin. exact Hin.
Qed.

Lemma moved_bound now (waiting : list (list string)) serial i :
  In i (rowsOfSerial host now waiting serial) -> (i < length waiting)%nat.
Proof.
  intros H. apply In_rowsOfSerial in H. destruct H as (_ & r & Hr & _).
  by apply lookup_lt_Some in Hr.
Qed.

Lemma moved_test now (waiting : list (list string)) serial i r :
  waiting !! i = Some r ->
  existsb (Nat.eqb i) (rowsOfSerial host now waiting serial)
  = (1 <=? i)%nat && matchesSerial host now serial r.
Proof.
  intros Hr. apply eq_true_iff_eq.
  rewrite existsb_exists, andb_true_iff, Nat.leb_le. split.
  - intros (j & Hj & E). apply Nat.eqb_eq in E. subst j.
    apply In_rowsOfSerial in Hj. destruct Hj as (Hi & r' & Hr' & Hm).
    rewrite Hr in Hr'. inversion Hr'; subst. auto.
  - intros (Hi & Hm). exists i. split; [|apply Nat.eqb_refl].
    apply In_rowsOfSerial. eauto.
Qed.

(** C3. An approval by an L2 user, on a store without faults.  The rows
    moved are the rows below the header of 'Waiting for Approval' that are
    of the current month and carry the serial, in the order of the sheet.
    They are appended to 'Final Orders': written from the row [L] on, where
    [L] is within the sheet, no row from [L] on has text in column A and the
    row before [L] has; each with its columns A to K cell for cell (a
    missing cell as the empty string); the rows before [L] and the rows
    after the rows written are as they were.  Each row moved then has its
    columns A to K overwritten with eleven empty strings where it stands;
    every other row of 'Waiting for Approval' is as it was and the sheet
    keeps its length; the other sheets are as they were. *)
Theorem approve_moves_and_clears req now w ui w1 ss waiting final :
  let composite :=
    toString (orElse (orElse (or_orderId req) (or_serial req)) (Str EmptyString)) in
  let serial := orderSerialOf composite in
  let moved := rowsOfSerial host now waiting serial in
  let L := lastRowOf (readRange final rangeAA) in
  keyFile w = true -> faults w = [] ->
  truthy (or_username req) = true ->
  nonEmpty serial = true ->
  statusOf composite = "waiting"%string ->
  getUserInfoByUsername credentialsSheetId (or_username req) w = (Ok (Some ui), w1) ->
  toUpperCase (level ui) = "L2"%string ->
  files w !! budgetSheetId ui = Some ss ->
  lookupTab ss "Waiting for Approval" = Some waiting ->
  lookupTab ss "Final Orders" = Some final ->
  (exists i r, (1 <= i)%nat /\ waiting !! i = Some r
               /\ matchesSerial host now serial r = true) ->
  exists w' ss' waiting' final',
    approveOrder host credentialsSheetId req now w = (Ok (json Success), w')
    /\ files w' = <[budgetSheetId ui := ss']> (files w)
    /\ lookupTab ss' "Waiting for Approval" = Some waiting'
    /\ lookupTab ss' "Final Orders" = Some final'
    /\ (forall t, t <> "Waiting for Approval"%string -> t <> "Final Orders"%string ->
                  lookupTab ss' t = lookupTab ss t)
    /\ length waiting' = length waiting
    /\ (forall i r, waiting !! i = Some r ->
          waiting' !! i
          = Some (if (1 <=? i)%nat && matchesSerial host now serial r
                  then clearedRow r else r))
    /\ (forall i, In i moved <->
          (1 <= i)%nat /\ exists r, waiting !! i = Some r
                                    /\ matchesSerial host now serial r = true)
    /\ (forall k k' i i', (k < k')%nat ->
          moved !! k = Some i -> moved !! k' = Some i' -> (i < i')%nat)
    /\ (forall k i r, moved !! k = Some i -> waiting !! i = Some r ->
          exists r', final' !! (L + k)%nat = Some r'
                     /\ take 11 r' = map (cellStr r) (seq 0 11))
    /\ (L <= length final)%nat
    /\ (forall j r, (L <= j)%nat -> final !! j = Some r ->
          trim (cellStr r 0) = EmptyString)
    /\ ((0 < L)%nat ->
        exists r, final !! (L - 1)%nat = Some r /\ trim (cellStr r 0) <> EmptyString)
    /\ (forall j, (j < L)%nat -> final' !! j = final !! j)
    /\ (forall j, (L + length moved <= j)%nat -> final' !! j = final !! j)
    /\ length final' = Nat.max (length final) (L + length moved).
Proof.
  intros composite serial moved L Hk Hf Hu Hserial Hstatus Hui Hlevel Hss Hw Hfin Hex.
  pose proof (moved_nonempty now waiting serial Hex) as Hmoved.
  eexists _, _, (clearRows waiting moved),
    (writeBlock final L 0 (appendValuesOf waiting moved)).
  split; [exact (approveOrder_run req now w ui w1 ss waiting final
                   Hk Hf Hu Hserial Hstatus Hui Hlevel Hss Hw Hfin Hmoved)|].
  split; [reflexivity|].
  split; [apply (lookupTab_setTab _ _ waiting);
          rewrite lookupTab_setTab_ne by discriminate; exact Hw|].
  split; [rewrite lookupTab_setTab_ne by discriminate;
          apply (lookupTab_setTab _ _ final); exact Hfin|].
  split; [intros t Ht1 Ht2; by rewrite !lookupTab_setTab_ne by congruence|].
  split; [apply clearRows_length; intros i; apply moved_bound|].
  split.
  { intros i r Hr. rewrite (clearRows_lookup _ _ _ r); [| intros j; apply moved_bound | exact Hr].
    unfold moved. by rewrite (moved_test now waiting serial i r Hr). }
  split; [intros i; apply In_rowsOfSerial|].
  split; [intros k k' i i'; apply rowsOfSerial_increasing|].
  destruct (appended_rows final (appendValuesOf waiting moved))
    as (HL & Hafter & Hbefore & Hlt & Hge & Hlen).
  fold L in HL, Hafter, Hbefore, Hlt, Hge, Hlen.
  assert (Hn : length (appendValuesOf waiting moved) = length moved)
    by apply length_map.
  rewrite Hn in Hge, Hlen.
  split.
  { intros k i r Hk' Hr.
    assert (Hv : appendValuesOf waiting moved !! k = Some (copyAtoK r)).
    { unfold appendValuesOf. rewrite list_lookup_fmap, Hk'. simpl. by rewrite Hr. }
    rewrite (writeBlock_lookup_row 0 _ final L k _ HL Hv).
    eexists. split; [reflexivity|].
    rewrite copyAtoK_texts, writeCells_row.
    rewrite take_app_length'; [reflexivity | by rewrite length_map, length_seq]. }
  auto 10.
Qed.

Lemma approveOrder_none req now w ui w1 ss waiting :
  let composite :=
    toString (orElse (orElse (or_orderId req) (or_serial req)) (Str EmptyString)) in
  let serial := orderSerialOf composite in
  keyFile w = true -> faults w = [] ->
  truthy (or_username req) = true ->
  nonEmpty serial = true ->
  statusOf composite = "waiting"%string ->
  getUserInfoByUsername credentialsSheetId (or_username req) w = (Ok (Some ui), w1) ->
  toUpperCase (level ui) = "L2"%string ->
  files w !! budgetSheetId ui = Some ss ->
  lookupTab ss "Waiting for Approval" = Some waiting ->
  rowsOfSerial host now waiting serial = [] ->
  approveOrder host credentialsSheetId req now w
  = (Ok (mkResponse 400 (Failure MsgNoWaitingForSerial)),
     logged w1 (CallGet (budgetSheetId ui) "Waiting for Approval" Whole)).
Proof.
  intros composite serial Hk Hf Hu Hserial Hstatus Hui Hlevel Hss Hw Hnone.
  destruct (Quiet_getUserInfoByUsername _ _ _ _ _ Hui) as (Hf1 & Hk1 & _ & Hq1).
  specialize (Hq1 Hf).
  unfold approveOrder, tryCatch.
  fold composite. fold serial. rewrite Hu, Hserial, Hstatus, String.eqb_refl.
  cbn [negb orb].
  rewrite (bind_run _ _ _ _ _ (getSheetsClient_run _ Hk)).
  rewrite (bind_run _ _ _ _ _ Hui).
  cbv beta iota. rewrite Hlevel, String.eqb_refl. cbn [negb].
  assert (Hss1 : files w1 !! budgetSheetId ui = Some ss) by (by rewrite Hf1).
  rewrite (bind_run _ _ _ _ _ (values_get_run _ _ Whole _ _ _ Hq1 Hss1 Hw)).
  change (readRange waiting Whole) with waiting. rewrite Hnone. reflexivity.
Qed.

Lemma inMonth_same_month now now2 r :
  getFullYear host now2 = getFullYear host now ->
  getMonth host now2 = getMonth host now ->
  inMonth host now2 r = inMonth host now r.
Proof.
  intros Hy Hm. unfold inMonth, isSameMonth. by rewrite Hy, Hm.
Qed.

Lemma existsb_eqb_In i l : existsb (Nat.eqb i) l = true <-> In i l.
Proof.
  rewrite existsb_exists. split.
  - intros (j & Hj & E). apply Nat.eqb_eq in E. by subst.
  - intros H. exists i. split; [exact H | apply Nat.eqb_refl].
Qed.

(** C4. Two approvals of the same serial in succession, in the same month
    and on a store without faults, where the order data is not kept in the
    master sheet: the first succeeds and the second answers 400, no waiting
    row for the serial, because the rows the first one found are cleared;
    the second changes no spreadsheet. *)
Theorem approve_twice req now now2 w ui w1 ss waiting final :
  let composite :=
    toString (orElse (orElse (or_orderId req) (or_serial req)) (Str EmptyString)) in
  let serial := orderSerialOf composite in
  keyFile w = true -> faults w = [] ->
  truthy (or_username req) = true ->
  nonEmpty serial = true ->
  statusOf composite = "waiting"%string ->
  getUserInfoByUsername credentialsSheetId (or_username req) w = (Ok (Some ui), w1) ->
  toUpperCase (level ui) = "L2"%string ->
  budgetSheetId ui <> credentialsSheetId ->
  files w !! budgetSheetId ui = Some ss ->
  lookupTab ss "Waiting for Approval" = Some waiting ->
  lookupTab ss "Final Orders" = Some final ->
  (exists i r, (1 <= i)%nat /\ waiting !! i = Some r
               /\ matchesSerial host now serial r = true) ->
  getFullYear host now2 = getFullYear host now ->
  getMonth host now2 = getMonth host now ->
  exists w' w'',
    approveOrder host credentialsSheetId req now w = (Ok (json Success), w')
    /\ approveOrder host credentialsSheetId req now2 w'
       = (Ok (mkResponse 400 (Failure MsgNoWaitingForSerial)), w'')
    /\ files w'' = files w'.
Proof.
  intros composite serial Hk Hf Hu Hserial Hstatus Hui Hlevel Hne Hss Hw Hfin Hex Hy Hm.
  pose proof (moved_nonempty now waiting serial Hex) as Hmoved.
  pose proof (approveOrder_run req now w ui w1 ss waiting final
                Hk Hf Hu Hserial Hstatus Hui Hlevel Hss Hw Hfin Hmoved) as Hrun.
  cbv zeta in Hrun. fold composite in Hrun. fold serial in Hrun.
  set (moved := rowsOfSerial host now waiting serial) in *.
  set (ss' := setTab _ "Waiting for Approval" (clearRows waiting moved)) in Hrun.
  set (w' := mkWorld _ _ _ _) in Hrun.
  assert (Hsame : sameFile credentialsSheetId w w').
  { split; [| split; [exact Hf | reflexivity]].
    subst w'. simpl. by rewrite lookup_insert_ne. }
  destruct (DependsOn_getUserInfoByUsername credentialsSheetId (or_username req)
              w w' Hsame) as [Hres _].
  rewrite Hui in Hres. simpl in Hres.
  destruct (getUserInfoByUsername credentialsSheetId (or_username req) w')
    as [res w1'] eqn:Hui'.
  simpl in Hres. subst res.
  destruct (Quiet_getUserInfoByUsername _ _ _ _ _ Hui') as (Hf1' & _).
  assert (Hw' : lookupTab ss' "Waiting for Approval" = Some (clearRows waiting moved)).
  { subst ss'. apply (lookupTab_setTab _ _ waiting).
    rewrite lookupTab_setTab_ne by discriminate. exact Hw. }
  assert (Hnone : rowsOfSerial host now2 (clearRows waiting moved) serial = []).
  { destruct (rowsOfSerial host now2 (clearRows waiting moved) serial) as [|i l] eqn:E;
      [reflexivity|exfalso].
    assert (Hin : In i (rowsOfSerial host now2 (clearRows waiting moved) serial))
      by (rewrite E; by left).
    apply In_rowsOfSerial in Hin. destruct Hin as (Hi & r' & Hr' & Hmatch).
    assert (Hlen : (i < length waiting)%nat).
    { apply lookup_lt_Some in Hr'.
      rewrite clearRows_length in Hr'; [exact Hr' | intros j; apply moved_bound]. }
    destruct (lookup_lt_is_Some_2 _ _ Hlen) as [r Hr].
    rewrite (clearRows_lookup _ _ _ r) in Hr'; [| intros j; apply moved_bound | exact Hr].
    inversion Hr'; subst r'; clear Hr'.
    unfold matchesSerial in Hmatch.
    destruct (existsb (Nat.eqb i) moved) eqn:Ein.
    - rewrite (inMonth_blank host now2 _ (clearedRow_blank r)) in Hmatch. discriminate.
    - rewrite (inMonth_same_month now now2 r Hy Hm) in Hmatch.
      subst moved. rewrite (moved_test now waiting serial i r Hr) in Ein.
      unfold matchesSerial in Ein.
      apply Nat.leb_le in Hi. rewrite Hi in Ein. simpl in Ein. congruence. }
  exists w', (logged w1' (CallGet (budgetSheetId ui) "Waiting for Approval" Whole)).
  split; [exact Hrun|]. split.
  - apply (approveOrder_none req now2 w' ui w1' ss' (clearRows waiting moved));
      try assumption; try reflexivity.
    subst w'. simpl. apply lookup_insert_eq.
  - simpl. exact Hf1'.
Qed.

End Approve.
(** ** Edit of a waiting order: the cells written *)

Lemma applyWrites_tab title ws : forall ss (g : list (list string)),
  (forall w, In w ws -> wsheet w = title) ->
  lookupTab ss title = Some g ->
  applyWrites ss ws = Some (setTab ss title (applyAll g ws)).
Proof.
  unfold applyAll. induction ws as [|w ws IH]; intros ss g Hall Hg; simpl.
  - by rewrite (setTab_id _ _ _ Hg).
  - unfold applyWrite. rewrite (Hall w (or_introl eq_refl)).
    rewrite (updTab_setTab _ _ _ _ Hg).
    rewrite (IH _ _ (fun w' Hw' => Hall w' (or_intror Hw')) (lookupTab_setTab _ _ _ _ Hg)).
    by rewrite setTab_setTab.
Qed.


Lemma cellStr_setCell (r : list string) t : forall c c',
  cellStr (setCell r c t) c' = if Nat.eqb c c' then t else cellStr r c'.
Proof.
  unfold cellStr. induction r as [|x r IH]; intros c c'.
  - revert c'. induction c as [|c IHc]; intros [|c']; simpl; try reflexivity.
    rewrite IHc. by destruct (Nat.eqb c c').
  - destruct c as [|c], c' as [|c']; simpl; try reflexivity. apply IH.
Qed.



(** The row at [idx] after the two writes of an item. *)
Lemma editWrites_effect rows idx item (g : list (list string)) :
  (idx < length g)%nat ->
  let r0 := default [] (rows !! idx) in
  let qty := mathMax (ofZ 0) (orZero (parseInt (ei_quantity item))) in
  let subtotal := nmul (orZero (parseFloat (cellAt r0 5))) qty in
  length (applyAll g (editWrites rows idx item)) = length g
  /\ (forall j, j <> idx -> applyAll g (editWrites rows idx item) !! j = g !! j)
  /\ applyAll g (editWrites rows idx item) !! idx
     = Some (writeCells (writeCells (default [] (g !! idx)) 8 [Num qty]) 6 [Num subtotal]).
Proof.
  intros Hidx r0 qty subtotal. unfold applyAll, editWrites. cbn [fold_left].
  fold r0. fold qty. fold subtotal. cbn [wrow wcol wvalues writeBlock].
  set (f8 := fun r : list string => writeCells r 8 [Num qty]).
  set (f6 := fun r : list string => writeCells r 6 [Num subtotal]).
  assert (Hl8 : length (updRow g idx f8) = length g) by (by apply updRow_length).
  split; [rewrite updRow_length; [exact Hl8 | by rewrite Hl8]|].
  split.
  - intros j Hj. rewrite updRow_lookup_ne; [| congruence | by rewrite Hl8].
    apply updRow_lookup_ne; [congruence | exact Hidx].
  - rewrite updRow_lookup, updRow_lookup. reflexivity.
Qed.






Lemma parseIntStr_cases b s : parseIntStr b s = NaN \/ exists z, parseIntStr b s = ofZ z.
Proof.
  unfold parseIntStr. destruct (takeSign (trimStart s)) as [neg s1].
  destruct (if negb b && hasHexPrefix s1 then _ else _) as [radix s2].
  destruct (fst (takeRadix radix None s2)); eauto.
Qed.




Section EditCells.

Variable host : Host.
Variable credentialsSheetId : string.








Lemma readKey_plain {A : Type} (m : gmap string A) key :
  inherited key = false ->
  readKey m key = match m !! key with Some a => Own a | None => Absent end.
Proof.
  intros H. unfold readKey.
  destruct (String.eqb_spec key "__proto__") as [->|_]; [discriminate|].
  destruct (m !! key); [reflexivity | by rewrite H].
Qed.


(** An item that names an inherited property makes the loop throw. *)
Lemma editBatch_inherited rows (index : gmap string nat) items item :
  In item items -> truthy (ei_productCode item) = true ->
  readKey index (toString (ei_productCode item)) = Inherited ->
  editBatch rows index items = None.
Proof.
  intros Hin Ht Hk. induction items as [|it rest IH]; [destruct Hin|].
  cbn [editBatch]. destruct Hin as [->|Hin].
  - by rewrite Ht, Hk.
  - rewrite (IH Hin). destruct (negb (truthy (ei_productCode it))); [reflexivity|].
    by destruct (readKey index (toString (ei_productCode it))).
Qed.



End EditCells.


(** An edit of [P1] and of [constructor]: no row of the order carries the
    second code, [index['constructor']] is the inherited function, the loop
    throws, the answer is 500 and nothing is written, the quantity of [P1]
    included. *)
Lemma edit_inherited_code_answers_500 :
  let req := mkEditRequest (Str "mona") (Str "AA1")
               (Some [ mkEditItem (Str "P1") (Num (ofZ 5));
                       mkEditItem (Str "constructor") (Num (ofZ 1)) ]) in
  let run := updateWaitingOrder sampleHost "master" req sampleNow sampleWorld in
  fst run = Ok (mkResponse 500 (Failure MsgEditError))
  /\ sheetOf (snd run) "budget-acme" "Waiting for Approval" = sampleWaiting
  /\ writesOf (trace (snd run)) = [].
Proof. vm_compute. repeat split; reflexivity. Qed.
(** ** Submission of an order *)

Lemma writeCells_before vs : forall (r : list string) c c',
  (c' < c)%nat -> cellStr (writeCells r c vs) c' = cellStr r c'.
Proof.
  induction vs as [|v vs IH]; intros r c c' Hc; simpl; [reflexivity|].
  rewrite IH by lia. destruct (cellText v); [|reflexivity].
  rewrite cellStr_setCell. destruct (Nat.eqb_spec c c'); [lia | reflexivity].
Qed.

Lemma writeCells_cell vs : forall (r : list string) c k v t,
  vs !! k = Some v -> cellText v = Some t ->
  cellStr (writeCells r c vs) (c + k)%nat = t.
Proof.
  induction vs as [|v0 vs IH]; intros r c k v t Hk Ht; [discriminate|].
  destruct k as [|k]; simpl in Hk.
  - inversion Hk; subst v0. simpl. rewrite Ht, Nat.add_0_r.
    rewrite writeCells_before by lia. rewrite cellStr_setCell. by rewrite Nat.eqb_refl.
  - simpl. replace (c + S k)%nat with (S c + k)%nat by lia. by apply (IH _ _ _ v).
Qed.

Section Submit.

Variable host : Host.
Variable credentialsSheetId : string.

Lemma submitOrder_run req now w ui w1 ss counter target items :
  let userLevel := toUpperCase (if nonEmpty (level ui) then level ui else "L1") in
  let targetSheet :=
    if String.eqb userLevel "L2" then "Final Orders"%string
    else "Waiting for Approval"%string in
  let orderSerial := newSerialOf (trim (cellStr (default [] (counter !! 1%nat)) 1)) in
  let dateString := replaceChar "T" " " (toLocaleStringCairo host now) in
  let rows := map (submitRow dateString (sr_branchName req) (sr_username req) orderSerial)
                  items in
  let L := lastRowOf (readRange target rangeAA) in
  sr_orderItems req = Some items -> items <> [] ->
  truthy (sr_branchName req) = true ->
  keyFile w = true -> faults w = [] ->
  getUserInfoByUsername credentialsSheetId (sr_username req) w = (Ok (Some ui), w1) ->
  negb (String.eqb userLevel "L2") && nonEmpty (trim (branch ui))
    && negb (strictEqStr (trim (branch ui)) (sr_branchName req)) = false ->
  files w !! budgetSheetId ui = Some ss ->
  lookupTab ss "Serial Numbers" = Some counter ->
  lookupTab ss targetSheet = Some target ->
  submitOrder host credentialsSheetId req now w
  = (Ok (json (SuccessSerial orderSerial)),
     mkWorld (<[budgetSheetId ui :=
                 setTab (setTab ss "Serial Numbers"
                           (writeBlock counter 1 1 [[Str orderSerial]]))
                        targetSheet (writeBlock target L 0 rows)]> (files w))
             (keyFile w) []
             (trace w1 ++
              [CallGet (budgetSheetId ui) "Serial Numbers" rangeB2;
               CallUpdate (budgetSheetId ui)
                 (mkWrite "Serial Numbers" 1 1 [[Str orderSerial]]);
               CallGet (budgetSheetId ui) targetSheet rangeAA;
               CallUpdate (budgetSheetId ui) (mkWrite targetSheet L 0 rows)])).
Proof.
  intros userLevel targetSheet orderSerial dateString rows L
         Hitems Hne Hbranch Hk Hf Hui Hallowed Hss Hcounter Htarget.
  destruct (Quiet_getUserInfoByUsername _ _ _ _ _ Hui) as (Hf1 & Hk1 & _ & Hq1).
  specialize (Hq1 Hf).
  assert (Hts : targetSheet <> "Serial Numbers"%string).
  { subst targetSheet. destruct (String.eqb userLevel "L2"); discriminate. }
  destruct items as [|item0 items0]; [congruence|].
  unfold submitOrder, tryCatch. rewrite Hitems, Hbranch. cbn [negb].
  rewrite (bind_run _ _ _ _ _ (getSheetsClient_run _ Hk)).
  rewrite (bind_run _ _ _ _ _ Hui).
  cbv beta iota zeta. fold userLevel. rewrite Hallowed. fold targetSheet.
  assert (Hss1 : files w1 !! budgetSheetId ui = Some ss) by (by rewrite Hf1).
  rewrite (bind_run _ _ _ _ _
            (getNextOrderSerial_run _ _ _ _ false Hss1 Hcounter Hq1)).
  fold orderSerial. fold dateString.
  erewrite bind_run;
    [| apply (appendRowsAtoK_run _ targetSheet _ _
                (setTab ss "Serial Numbers" (writeBlock counter 1 1 [[Str orderSerial]]))
                target);
       [ discriminate
       | reflexivity
       | simpl; apply lookup_insert_eq
       | rewrite lookupTab_setTab_ne by exact Hts; exact Htarget ] ].
  unfold mret, M_ret. simpl. rewrite insert_insert_eq, Hf1, Hk1, <- app_assoc.
  reflexivity.
Qed.

(** C8. A submission with at least one item and a branch, by a user the
    master sheet knows and who may order for the branch, on a store without
    faults: the rows go to 'Final Orders' for an L2 user and to 'Waiting for
    Approval' for any other; one row per item is appended: written from the
    row [L] on, where [L] is within the sheet, no row from [L] on has text
    in column A and the row before [L] has, the rows before [L] and after
    the rows written being as they were; every row is
    [[date, branch, username, productCode, productName, unitPrice, subtotal,
      category, quantity, "", serial]], the subtotal the one the item
    supplies as a number and else the unit price times the quantity; each
    cell that carries text is then in the sheet; the other order sheets are
    as they were.  The serial is new: [AA] followed by the number after the
    prefix in the counter cell plus one (a number below [2^53]), which is
    not what the cell held; the counter cell holds it afterwards, and the
    response carries it. *)
Theorem submit_appends_rows req now w ui w1 ss counter target items :
  let userLevel := toUpperCase (if nonEmpty (level ui) then level ui else "L1") in
  let targetSheet :=
    if String.eqb userLevel "L2" then "Final Orders"%string
    else "Waiting for Approval"%string in
  let orderSerial := newSerialOf (trim (cellStr (default [] (counter !! 1%nat)) 1)) in
  let dateString := replaceChar "T" " " (toLocaleStringCairo host now) in
  let L := lastRowOf (readRange target rangeAA) in
  sr_orderItems req = Some items -> items <> [] ->
  truthy (sr_branchName req) = true ->
  keyFile w = true -> faults w = [] ->
  getUserInfoByUsername credentialsSheetId (sr_username req) w = (Ok (Some ui), w1) ->
  negb (String.eqb userLevel "L2") && nonEmpty (trim (branch ui))
    && negb (strictEqStr (trim (branch ui)) (sr_branchName req)) = false ->
  files w !! budgetSheetId ui = Some ss ->
  lookupTab ss "Serial Numbers" = Some counter ->
  lookupTab ss targetSheet = Some target ->
  exists w' ss' target' rows,
    submitOrder host credentialsSheetId req now w
    = (Ok (json (SuccessSerial orderSerial)), w')
    /\ files w' = <[budgetSheetId ui := ss']> (files w)
    /\ In (CallUpdate (budgetSheetId ui) (mkWrite targetSheet L 0 rows)) (trace w')
    /\ length rows = length items
    /\ (forall k i, items !! k = Some i ->
          let price := orZero (toNumber (oi_unitPrice i)) in
          let qty := orZero (toNumber (oi_quantity i)) in
          rows !! k
          = Some [ Str dateString; sr_branchName req; sr_username req;
                   oi_productCode i; oi_productName i; Num price;
                   Num (match oi_subtotal i with Num n => n | _ => nmul price qty end);
                   orElse (oi_category i) (Str EmptyString); Num qty;
                   Str EmptyString; Str orderSerial ])
    /\ lookupTab ss' targetSheet = Some target'
    /\ (forall t, t <> targetSheet -> t <> "Serial Numbers"%string ->
                  lookupTab ss' t = lookupTab ss t)
    /\ (forall j, (j < L)%nat -> target' !! j = target !! j)
    /\ (forall k vs c v t, rows !! k = Some vs -> vs !! c = Some v ->
          cellText v = Some t ->
          exists r', target' !! (L + k)%nat = Some r' /\ cellStr r' c = t)
    /\ (exists counter', lookupTab ss' "Serial Numbers" = Some counter'
                          /\ cellStr (default [] (counter' !! 1%nat)) 1 = orderSerial)
    /\ (L <= length target)%nat
    /\ (forall j r, (L <= j)%nat -> target !! j = Some r ->
          trim (cellStr r 0) = EmptyString)
    /\ ((0 < L)%nat ->
        exists r, target !! (L - 1)%nat = Some r /\ trim (cellStr r 0) <> EmptyString)
    /\ (forall j, (L + length items <= j)%nat -> target' !! j = target !! j)
    /\ length target' = Nat.max (length target) (L + length items)
    /\ (let cell := trim (cellStr (default [] (counter !! 1%nat)) 1) in
        Z.of_N (prefixedNumberOf cell) < 2 ^ 53 ->
        orderSerial = "AA" +:+ showN (prefixedNumberOf cell + 1)
        /\ orderSerial <> cell).
Proof.
  intros userLevel targetSheet orderSerial dateString L
         Hitems Hne Hbranch Hk Hf Hui Hallowed Hss Hcounter Htarget.
  pose proof (submitOrder_run req now w ui w1 ss counter target items
                Hitems Hne Hbranch Hk Hf Hui Hallowed Hss Hcounter Htarget) as Hrun.
  cbv zeta in Hrun. fold userLevel targetSheet orderSerial dateString L in Hrun.
  set (rows := map (submitRow dateString (sr_branchName req) (sr_username req) orderSerial)
                   items) in *.
  assert (Hts : targetSheet <> "Serial Numbers"%string).
  { subst targetSheet. destruct (String.eqb userLevel "L2"); discriminate. }
  destruct (appended_rows target rows) as (HL & Hafter & Hbefore & _ & Hge & Hlen).
  fold L in HL, Hafter, Hbefore, Hge, Hlen.
  assert (Hn : length rows = length items) by (subst rows; apply length_map).
  rewrite Hn in Hge, Hlen.
  eexists _, _, (writeBlock target L 0 rows), rows.
  split; [exact Hrun|]. split; [reflexivity|].
  split; [simpl; rewrite in_app_iff; right; simpl; auto 6|].
  split; [subst rows; apply length_map|].
  split.
  { intros k i Hi. subst rows. rewrite list_lookup_fmap, Hi. reflexivity. }
  split.
  { apply (lookupTab_setTab _ _ target).
    rewrite lookupTab_setTab_ne by exact Hts. exact Htarget. }
  split.
  { intros t Ht1 Ht2. by rewrite !lookupTab_setTab_ne by congruence. }
  split.
  { intros j Hj. by apply writeBlock_lookup_lt. }
  split.
  { intros k vs c v t Hvs Hv Ht.
    rewrite (writeBlock_lookup_row 0 _ target L k vs HL Hvs).
    eexists. split; [reflexivity|].
    exact (writeCells_cell vs _ 0 c v t Hv Ht). }
  split.
  { eexists. split; [|apply counter_cell].
    rewrite lookupTab_setTab_ne by congruence.
    apply (lookupTab_setTab _ _ counter). exact Hcounter. }
  do 5 (split; [assumption|]).
  intros cell Hcell.
  assert (E : orderSerial = "AA" +:+ showN (prefixedNumberOf cell + 1))
    by (apply (newSerialOf_prefixed cell Hcell)).
  split; [exact E|]. intros Heq.
  pose proof (prefixedNumberOf_serial (prefixedNumberOf cell + 1)) as Hs.
  rewrite <- E, Heq in Hs. lia.
Qed.

End Submit.
(** ** Subtotals *)

Lemma stripZeros_zero k : stripZeros 0 k = (0, 0%nat).
Proof. induction k as [|k IH]; simpl; [reflexivity | exact IH]. Qed.

Lemma numToString_zero n : isZero n = true -> cellText (Num n) = Some "0"%string.
Proof.
  destruct n as [| |m k]; try discriminate. simpl isZero. intros H.
  apply Z.eqb_eq in H. subst m. unfold cellText, numToString.
  by rewrite stripZeros_zero.
Qed.

Lemma nmul_zero p q : isFinite p = true -> isZero q = true -> isZero (nmul p q) = true.
Proof.
  destruct p as [| |m k]; try discriminate. destruct q as [| |m' k']; try discriminate.
  simpl. intros _ H. apply Z.eqb_eq in H. subst m'. apply Z.eqb_eq. lia.
Qed.

(** C6, as amended. With quantity 0 the subtotal is 0 where the code computes
    it: a submitted item that supplies no numeric subtotal and whose unit
    price is finite is stored with a subtotal that is zero and is written as
    [0]; a stored row whose subtotal cell reads as no number or as zero, with
    a finite unit price, is reported with subtotal zero.  A subtotal the item
    supplies as a number, and a stored subtotal cell that reads as a number
    other than zero, are kept as they are whatever the quantity. *)
Theorem zero_quantity_subtotal :
  (forall d b u s i,
      isZero (orZero (toNumber (oi_quantity i))) = true ->
      (forall n, oi_subtotal i <> Num n) ->
      isFinite (orZero (toNumber (oi_unitPrice i))) = true ->
      exists n, submitRow d b u s i !! 6%nat = Some (Num n)
                /\ isZero n = true /\ cellText (Num n) = Some "0"%string)
  /\ (forall r,
        isZero (ln_quantity (lineOf r)) = true ->
        truthyNum (parseFloat (cellAt r 6)) = false ->
        isFinite (ln_unitPrice (lineOf r)) = true ->
        isZero (ln_subtotal (lineOf r)) = true)
  /\ (forall d b u s i n,
        oi_subtotal i = Num n -> submitRow d b u s i !! 6%nat = Some (Num n))
  /\ (forall r,
        truthyNum (parseFloat (cellAt r 6)) = true ->
        ln_subtotal (lineOf r) = parseFloat (cellAt r 6)).
Proof.
  split; [|split; [|split]].
  - intros d b u s i Hq Hs Hp.
    exists (nmul (orZero (toNumber (oi_unitPrice i))) (orZero (toNumber (oi_quantity i)))).
    split.
    + unfold submitRow. simpl. destruct (oi_subtotal i) as [| | | n |] eqn:E;
        try reflexivity. exfalso. exact (Hs n eq_refl).
    + pose proof (nmul_zero _ _ Hp Hq) as Hz. split; [exact Hz|].
      by apply numToString_zero.
  - intros r Hq Hs Hp. unfold lineOf in *. simpl in *. rewrite Hs.
    by apply nmul_zero.
  - intros d b u s i n E. unfold submitRow. simpl. by rewrite E.
  - intros r H. unfold lineOf. simpl. by rewrite H.
Qed.

(** C6, as stated, fails: an item with quantity 0 that supplies the subtotal
    7 is stored with subtotal 7, and a stored row with quantity 0 and
    subtotal 7 is reported with subtotal 7. *)
Lemma zero_quantity_subtotal_kept :
  let item := mkOrderItem (Str "P1") (Str "Juice") (Num (ofZ 10)) (Num (ofZ 0))
                          (Num (ofZ 7)) (Str "Drinks") in
  let req := mkSubmitRequest (Str "Maadi") (Some [item]) (Str "amr") in
  let run := submitOrder sampleHost "master" req sampleNow sampleWorldFresh in
  let after := sheetOf (snd run) "budget-acme" "Waiting for Approval" in
  let r := ["2025-01-10 09:00:00"; "Maadi"; "amr"; "P1"; "Juice"; "10"; "7";
            "Drinks"; "0"; ""; "AA1"]%string in
  fst run = Ok (json (SuccessSerial "AA1"))
  /\ cellStr (default [] (after !! 1%nat)) 8 = "0"%string
  /\ cellStr (default [] (after !! 1%nat)) 6 = "7"%string
  /\ ln_quantity (lineOf r) = ofZ 0
  /\ ln_subtotal (lineOf r) = ofZ 7
  /\ bs_totalAmount <$> (approvalsSummaryScan sampleHost sampleNow [sampleHeader; r]
                           !! "Maadi") = Some (ofZ 7).
Proof. vm_compute. repeat split; reflexivity. Qed.

(** ** The status of a failed login *)

(** C2. A login with a wrong password is answered with
    [{success: false, message}] under status 200: [res.json] is called
    without [res.status].  The other handlers answer a user they do not find
    with status 400, and a user of the wrong level with 403. *)
Lemma login_wrong_password_status_200 :
  fst (validateLogin "master" (mkLoginRequest (Str "amr") (Str "wrong")) sampleWorld)
  = Ok (mkResponse 200 (Failure MsgBadLogin))
  /\ fst (approveOrder sampleHost "master"
            (mkOrderRequest (Str "nobody") (Str "AA1") Undefined) sampleNow sampleWorld)
     = Ok (mkResponse 400 (Failure MsgUserNotFound))
  /\ fst (submitOrder sampleHost "master"
            (mkSubmitRequest (Str "Maadi")
               (Some [mkOrderItem (Str "P1") (Str "Juice") (Num (ofZ 10)) (Num (ofZ 3))
                                  Undefined (Str "Drinks")])
               (Str "nobody")) sampleNow sampleWorld)
     = Ok (mkResponse 400 (Failure MsgBadUser))
  /\ fst (approveOrder sampleHost "master"
            (mkOrderRequest (Str "amr") (Str "AA1") Undefined) sampleNow sampleWorld)
     = Ok (mkResponse 403 (Failure MsgApproveForbidden)).
Proof. vm_compute. repeat split; reflexivity. Qed.

(** ** The theorems at work on the sample store *)

(** The generator on stores whose counter cell holds [AA2], [aa5], [AAx],
    [AA-3] and [7]. *)
Lemma nextSerial_prefix_required_witness :
  (exists w', getNextOrderSerial "budget-acme" (sampleWorldCounter "AA2")
              = (Ok "AA3"%string, w'))
  /\ (exists w', getNextOrderSerial "budget-acme" (sampleWorldCounter "aa5")
                 = (Ok "AA6"%string, w'))
  /\ (exists w', getNextOrderSerial "budget-acme" (sampleWorldCounter "AAx")
                 = (Ok "AA1"%string, w'))
  /\ (exists w', getNextOrderSerial "budget-acme" (sampleWorldCounter "AA-3")
                 = (Ok "AA1"%string, w'))
  /\ (exists w', getNextOrderSerial "budget-acme" (sampleWorldCounter "7")
                 = (Ok "AA1"%string, w')).
Proof.
  assert (H : forall cell serial,
             Z.of_N (prefixedNumberOf (trim cell)) < 2 ^ 53 ->
             prefixedNewSerialOf (trim cell) = serial ->
             exists w', getNextOrderSerial "budget-acme" (sampleWorldCounter cell)
                        = (Ok serial, w')).
  { intros cell serial Hlt Hs.
    destruct (nextSerial_prefix_required "budget-acme" (sampleWorldCounter cell)
                [("Serial Numbers", [["Name"; "Last"]; ["orders"; cell]])]%string
                [["Name"; "Last"]; ["orders"; cell]]%string false
                (lookup_insert_eq _ _ _) eq_refl eq_refl)
      as ((w' & s & Hrun & Hpin & _) & _).
    exists w'. rewrite Hrun. do 2 f_equal.
    exact (eq_trans (Hpin Hlt) Hs). }
  repeat split; apply H; vm_compute; reflexivity.
Defined.

(** The approval of [AA1] by the L2 user of the sample store: rows 1 and 3
    move, row 2, dated in December, stays. *)
Lemma approve_moves_and_clears_witness :
  let req := mkOrderRequest (Str "mona") (Str "AA1__waiting") Undefined in
  getUserInfoByUsername "master" (or_username req) sampleWorld
  = (Ok (Some sampleMona), snd (getUserInfoByUsername "master" (Str "mona") sampleWorld))
  /\ matchesSerial sampleHost sampleNow "AA1" (default [] (sampleWaiting !! 1%nat)) = true
  /\ exists w' ss' waiting' final',
       approveOrder sampleHost "master" req sampleNow sampleWorld = (Ok (json Success), w')
       /\ lookupTab ss' "Waiting for Approval" = Some waiting'
       /\ lookupTab ss' "Final Orders" = Some final'
       /\ waiting' !! 1%nat = Some (repeat EmptyString 11)
       /\ waiting' !! 2%nat = sampleWaiting !! 2%nat
       /\ (exists r', final' !! 1%nat = Some r'
                      /\ Some (take 11 r') = sampleWaiting !! 1%nat).
Proof.
  intros req.
  assert (Hu : getUserInfoByUsername "master" (or_username req) sampleWorld
               = (Ok (Some sampleMona),
                  snd (getUserInfoByUsername "master" (Str "mona") sampleWorld)))
    by (vm_compute; reflexivity).
  assert (Hm : matchesSerial sampleHost sampleNow "AA1"
                 (default [] (sampleWaiting !! 1%nat)) = true)
    by (vm_compute; reflexivity).
  split; [exact Hu|]. split; [exact Hm|].
  destruct (approve_moves_and_clears sampleHost "master" req sampleNow sampleWorld
              sampleMona _ sampleBudget sampleWaiting [sampleHeader]
              eq_refl eq_refl eq_refl eq_refl eq_refl Hu eq_refl eq_refl eq_refl eq_refl
              (ex_intro _ 1%nat (ex_intro _ _ (conj (le_n 1) (conj eq_refl Hm)))))
    as (w' & ss' & waiting' & final' & Hrun & _ & Hw & Hf & _ & _ & Hrows & _ & _ & Hfin & _).
  exists w', ss', waiting', final'.
  split; [exact Hrun|]. split; [exact Hw|]. split; [exact Hf|].
  split; [exact (Hrows 1%nat _ eq_refl)|].
  split; [exact (Hrows 2%nat _ eq_refl)|].
  destruct (Hfin 0%nat 1%nat _ eq_refl eq_refl) as (r' & Hr' & Htake).
  exists r'. split; [exact Hr'|]. rewrite Htake. reflexivity.
Defined.

(** The approval of [AA1] on the sample store, twice. *)
Lemma approve_twice_witness :
  let req := mkOrderRequest (Str "mona") (Str "AA1__waiting") Undefined in
  budgetSheetId sampleMona <> "master"%string
  /\ exists w' w'',
       approveOrder sampleHost "master" req sampleNow sampleWorld = (Ok (json Success), w')
       /\ approveOrder sampleHost "master" req sampleNow w'
          = (Ok (mkResponse 400 (Failure MsgNoWaitingForSerial)), w'').
Proof.
  intros req.
  assert (Hne : budgetSheetId sampleMona <> "master"%string) by discriminate.
  assert (Hu : getUserInfoByUsername "master" (or_username req) sampleWorld
               = (Ok (Some sampleMona),
                  snd (getUserInfoByUsername "master" (Str "mona") sampleWorld)))
    by (vm_compute; reflexivity).
  assert (Hm : matchesSerial sampleHost sampleNow "AA1"
                 (default [] (sampleWaiting !! 1%nat)) = true)
    by (vm_compute; reflexivity).
  split; [exact Hne|].
  destruct (approve_twice sampleHost "master" req sampleNow sampleNow sampleWorld
              sampleMona _ sampleBudget sampleWaiting [sampleHeader]
              eq_refl eq_refl eq_refl eq_refl eq_refl Hu eq_refl Hne eq_refl eq_refl eq_refl
              (ex_intro _ 1%nat (ex_intro _ _ (conj (le_n 1) (conj eq_refl Hm))))
              eq_refl eq_refl)
    as (w' & w'' & H1 & H2 & _).
  exists w', w''. split; [exact H1 | exact H2].
Defined.


(** The submission of one item, price 10 and quantity 3, by an L1 user on a
    store with an empty counter. *)
Lemma submit_appends_rows_witness :
  let item := mkOrderItem (Str "P1") (Str "Juice") (Num (ofZ 10)) (Num (ofZ 3))
                          Undefined (Str "Drinks") in
  let req := mkSubmitRequest (Str "Maadi") (Some [item]) (Str "amr") in
  getUserInfoByUsername "master" (sr_username req) sampleWorldFresh
  = (Ok (Some sampleAmr), snd (getUserInfoByUsername "master" (Str "amr") sampleWorldFresh))
  /\ exists w' ss' (target' : list (list string)) (rows : list (list value)),
       submitOrder sampleHost "master" req sampleNow sampleWorldFresh
       = (Ok (json (SuccessSerial "AA1")), w')
       /\ rows !! 0%nat
          = Some [ Str "2025-01-15 12:00:00"; Str "Maadi"; Str "amr"; Str "P1";
                   Str "Juice"; Num (ofZ 10); Num (Fin 30 0); Str "Drinks";
                   Num (ofZ 3); Str ""; Str "AA1" ]
       /\ lookupTab ss' "Waiting for Approval" = Some target'
       /\ lookupTab ss' "Final Orders" = Some [sampleHeader]
       /\ (exists r', target' !! 1%nat = Some r' /\ cellStr r' 6 = "30"%string)
       /\ (exists r', target' !! 1%nat = Some r' /\ cellStr r' 10 = "AA1"%string).
Proof.
  intros item req.
  assert (Hu : getUserInfoByUsername "master" (sr_username req) sampleWorldFresh
               = (Ok (Some sampleAmr),
                  snd (getUserInfoByUsername "master" (Str "amr") sampleWorldFresh)))
    by (vm_compute; reflexivity).
  split; [exact Hu|].
  destruct (submit_appends_rows sampleHost "master" req sampleNow sampleWorldFresh
              sampleAmr _
              [ ("Waiting for Approval", [sampleHeader]);
                ("Final Orders", [sampleHeader]);
                ("Serial Numbers", [["Name"; "Last"]]) ]%string
              [["Name"; "Last"]]%string [sampleHeader] [item]
              eq_refl ltac:(discriminate) eq_refl eq_refl eq_refl Hu eq_refl
              eq_refl eq_refl eq_refl)
    as (w' & ss' & target' & rows & Hrun & _ & _ & _ & Hshape & Ht & Hothers & _
        & Hcells & _).
  pose proof (Hshape 0%nat item eq_refl) as Hrow.
  exists w', ss', target', rows.
  split; [exact Hrun|]. split; [exact Hrow|]. split; [exact Ht|].
  split; [rewrite Hothers by discriminate; reflexivity|].
  split.
  - exact (Hcells 0%nat _ 6%nat _ _ Hrow eq_refl eq_refl).
  - exact (Hcells 0%nat _ 10%nat _ _ Hrow eq_refl eq_refl).
Defined.

(** The login of the second user of the first client tab of the sample
    master sheet, whose level cell holds [l2]: the tab [Config], which comes
    first, is not read. *)
Lemma login_first_match_witness :
  exists w',
    findClientTabAndSheetIdByUser "master" (Str "mona") (Str "pass2") sampleWorld
    = (Ok (Some sampleMona), w')
    /\ trace w' = [ CallMeta "master"; CallGet "master" "Acme" rangeA2Z;
                    CallGet "master" "Acme" rangeF2 ].
Proof.
  set (g := [ ["username"; "password"; "branch"; "restricted"; "level"; "sheet"];
              ["amr"; "secret"; "Maadi"; "N"; "L1"; "budget-acme"];
              ["mona"; "pass2"; ""; "N"; "l2"] ]%string).
  assert (H1 : ~ In "Acme"%string ["Config"]%string) by (intros [H|[]]; discriminate).
  assert (H2 : forall j r', (1 <= j < 2)%nat -> g !! j = Some r' ->
                 ~ (trim (cellStr r' 0) = "mona"%string /\ cellStr r' 1 = "pass2"%string)).
  { intros j r' Hj Hr'. assert (j = 1%nat) as -> by lia.
    inversion Hr'; subst r'. intros [H _]. vm_compute in H. discriminate. }
  assert (H3 : forall T' g' j r',
                 In T' (map fst sampleMaster) -> T' <> "Acme"%string ->
                 T' <> "Config"%string -> T' <> "Readme"%string ->
                 lookupTab sampleMaster T' = Some g' -> (1 <= j)%nat -> g' !! j = Some r' ->
                 ~ (trim (cellStr r' 0) = "mona"%string /\ cellStr r' 1 = "pass2"%string)).
  { intros T' g' j r' HT' Hne Hc Hrd Hg' Hj Hr'.
    cbn [map fst In sampleMaster] in HT'.
    destruct HT' as [<-|[<-|[<-|[]]]];
      [destruct (Hc eq_refl) | destruct (Hne eq_refl) |].
    vm_compute in Hg'. inversion Hg'; subst g'.
    destruct j as [|[|j]]; [lia | | destruct j; discriminate].
    inversion Hr'; subst r'. intros [H _]. vm_compute in H. discriminate. }
  assert (Hne : "mona"%string <> EmptyString \/ "pass2"%string <> EmptyString)
    by (left; discriminate).
  pose proof (login_first_match "master" "mona" "pass2" sampleWorld sampleMaster
                ["Config"]%string "Acme" ["Zeta"]%string g 2%nat
                ["mona"; "pass2"; ""; "N"; "l2"]%string
                eq_refl eq_refl eq_refl H1 ltac:(discriminate) ltac:(discriminate)
                ltac:(discriminate) eq_refl (le_S 1 1 (le_n 1)) eq_refl eq_refl eq_refl
                Hne H2 H3) as Hrun.
  eexists. split; [exact Hrun | reflexivity].
Defined.

(** The edit of a product code that the order [AA1] does not have. *)
Lemma updateWaitingOrder_no_match_witness :
  let req := mkEditRequest (Str "mona") (Str "AA1")
               (Some [mkEditItem (Str "P9") (Num (ofZ 5))]) in
  exists resp w',
    updateWaitingOrder sampleHost "master" req sampleNow sampleWorld = (Ok resp, w')
    /\ resp = mkResponse 400 (Failure MsgNoLinesToEdit)
    /\ files w' = files sampleWorld
    /\ writesOf (trace w') = [].
Proof.
  intros req.
  destruct (updateWaitingOrder_no_match sampleHost "master" req sampleNow sampleWorld)
    as (resp & w' & Hrun & _ & _ & Hfiles & Hwrites).
  - intros ui w1 ss g Hu Hs Hg item Hin i r Hi Hr.
    vm_compute in Hu. inversion Hu; subst ui w1. clear Hu.
    vm_compute in Hs. inversion Hs; subst ss. clear Hs.
    vm_compute in Hg. inversion Hg; subst g. clear Hg.
    destruct Hin as [<-|[]].
    destruct i as [|[|[|[|[|i]]]]]; simpl in Hr; try discriminate; try lia;
      inversion Hr; subst r; vm_compute; reflexivity.
  - exists resp, w'. split; [exact Hrun|]. split; [|split; [exact Hfiles | exact Hwrites]].
    assert (E : fst (updateWaitingOrder sampleHost "master" req sampleNow sampleWorld)
                = Ok (mkResponse 400 (Failure MsgNoLinesToEdit)))
      by (vm_compute; reflexivity).
    rewrite Hrun in E. simpl in E. congruence.
Defined.

(** ** The two lookups of a user *)

(** Two worlds that differ in the calls recorded only. *)
Lemma call_same_store c1 c2 w1 w2 :
  files w1 = files w2 -> keyFile w1 = keyFile w2 -> faults w1 = faults w2 ->
  fst (call c1 w1) = fst (call c2 w2)
  /\ files (snd (call c1 w1)) = files (snd (call c2 w2))
  /\ keyFile (snd (call c1 w1)) = keyFile (snd (call c2 w2))
  /\ faults (snd (call c1 w1)) = faults (snd (call c2 w2)).
Proof.
  intros Hf Hk Hq. unfold call. rewrite Hq.
  destruct (faults w2) as [|[|] fs]; simpl; auto.
Qed.

Lemma values_get_same_store id title rg1 rg2 w1 w2 :
  files w1 = files w2 -> keyFile w1 = keyFile w2 -> faults w1 = faults w2 ->
  let a := values_get id title rg1 w1 in
  let b := values_get id title rg2 w2 in
  files (snd a) = files (snd b) /\ keyFile (snd a) = keyFile (snd b)
  /\ faults (snd a) = faults (snd b)
  /\ match fst a, fst b with
     | Ok r1, Ok r2 => exists g, r1 = readRange g rg1 /\ r2 = readRange g rg2
     | Err e1, Err e2 => e1 = e2
     | _, _ => False
     end.
Proof.
  intros Hf Hk Hq. unfold values_get, mbind, M_bind.
  destruct (call_same_store (CallGet id title rg1) (CallGet id title rg2) w1 w2 Hf Hk Hq)
    as (Hr & Hf' & Hk' & Hq').
  destruct (call (CallGet id title rg1) w1) as [[[]|e1] u1],
           (call (CallGet id title rg2) w2) as [[[]|e2] u2]; simpl in *;
    try discriminate.
  - unfold getFile. rewrite Hf'.
    destruct (files u2 !! id) as [ss|]; simpl; [|auto].
    destruct (lookupTab ss title) as [g|]; simpl; [|auto].
    repeat split; auto. by exists g.
  - inversion Hr; subst. auto.
Qed.

Lemma find_some_map {A B : Type} (p : B -> bool) (f : A -> B) (q : A -> bool) l :
  (forall x, p (f x) = q x) ->
  find p (map f l) = f <$> find q l.
Proof.
  intros H. induction l as [|x l IH]; simpl; [reflexivity|].
  rewrite H. destruct (q x); [reflexivity | exact IH].
Qed.

Lemma userRowMatches_take username (r : list string) n :
  userRowMatches username (take (S n) (drop 0 r)) = userRowMatches username r.
Proof.
  unfold userRowMatches, cellStr. rewrite drop_0.
  destruct r; reflexivity.
Qed.

(** The column of the user names decides whether a tab knows the user. *)
Lemma find_user_ranges username (g : list (list string)) :
  match find (userRowMatches username) (readRange g rangeA2A),
        find (userRowMatches username) (readRange g rangeA2Z) with
  | Some _, Some _ | None, None => True
  | _, _ => False
  end.
Proof.
  unfold readRange, rangeA2A, rangeA2Z.
  rewrite (find_some_map _ _ (userRowMatches username) _
             (fun r => userRowMatches_take username r 0)).
  rewrite (find_some_map _ _ (userRowMatches username) _
             (fun r => userRowMatches_take username r 25)).
  by destruct (find _ _).
Qed.


Lemma budgetScanTabs_agrees masterSheetId username tabs :
  forall w1 w2,
    files w1 = files w2 -> keyFile w1 = keyFile w2 -> faults w1 = faults w2 ->
    fst (budgetScanTabs masterSheetId username tabs w1)
    = match fst (userScanTabs masterSheetId username tabs w2) with
      | Ok (Some ui) => Ok (budgetSheetId ui)
      | Ok None => Err UserNotFoundInAnyTab
      | Err e => Err e
      end.
Proof.
  induction tabs as [|t rest IH]; intros w1 w2 Hf Hk Hq; [reflexivity|].
  cbn [budgetScanTabs userScanTabs]. unfold mbind, M_bind.
  destruct (values_get_same_store masterSheetId t rangeA2A rangeA2Z w1 w2 Hf Hk Hq)
    as (Hf' & Hk' & Hq' & Hr).
  destruct (values_get masterSheetId t rangeA2A w1) as [[r1|e1] u1],
           (values_get masterSheetId t rangeA2Z w2) as [[r2|e2] u2];
    cbn [fst snd] in *; try contradiction; [|by subst].
  destruct Hr as (g & -> & ->).
  pose proof (find_user_ranges username g) as Hfind.
  destruct (find (userRowMatches username) (readRange g rangeA2A)) as [x|],
           (find (userRowMatches username) (readRange g rangeA2Z)) as [y|];
    try contradiction; [|by apply IH].
  unfold userOfRow, mbind, M_bind.
  destruct (values_get_same_store masterSheetId t rangeF2 rangeF2 u1 u2 Hf' Hk' Hq')
    as (_ & _ & _ & Hr2).
  destruct (values_get masterSheetId t rangeF2 u1) as [[c1|e1] v1],
           (values_get masterSheetId t rangeF2 u2) as [[c2|e2] v2];
    cbn [fst snd] in *; try contradiction; [|by subst].
  destruct Hr2 as (g2 & -> & ->).
  destruct (nonEmpty (trim (cellStr (default [] (head (readRange g2 rangeF2))) 0)));
    reflexivity.
Qed.

(** X1. The lookup of the budget sheet by user name gives what the lookup of
    the user gives, in every store and under every schedule of faults: the
    budget sheet of the user that lookup finds, the same exception when it
    throws, and the exception [User not found in any client tab] where it
    returns [null]. *)
Theorem resolveBudgetSheetId_agrees masterSheetId username w :
  fst (resolveBudgetSheetIdFromF2ByUsername masterSheetId username w)
  = match fst (getUserInfoByUsername masterSheetId username w) with
    | Ok (Some ui) => Ok (budgetSheetId ui)
    | Ok None => Err UserNotFoundInAnyTab
    | Err e => Err e
    end.
Proof.
  unfold resolveBudgetSheetIdFromF2ByUsername, getUserInfoByUsername, mbind, M_bind.
  destruct (spreadsheets_get masterSheetId w) as [[titles|e] w1]; [|reflexivity].
  by apply budgetScanTabs_agrees.
Qed.


(** ** Trimmed and upper-case text *)

Lemma trimStart_head s c r : trimStart s = String c r -> isWhiteSpace c = false.
Proof.
  induction s as [|x s IH]; simpl; [discriminate|].
  destruct (isWhiteSpace x) eqn:E; [exact IH | intros [= <- _]; exact E].
Qed.

Lemma trimEnd_idem s : trimEnd (trimEnd s) = trimEnd s.
Proof.
  induction s as [|c s IH]; simpl; [reflexivity|].
  destruct (trimEnd s) as [|d t] eqn:E.
  - destruct (isWhiteSpace c) eqn:Ec; simpl; [reflexivity | by rewrite Ec].
  - simpl in *. by rewrite IH.
Qed.

Lemma trimEnd_head c r :
  isWhiteSpace c = false -> exists r', trimEnd (String c r) = String c r'.
Proof.
  intros H. simpl. destruct (trimEnd r); [rewrite H|]; eauto.
Qed.

Lemma trim_idem s : trim (trim s) = trim s.
Proof.
  unfold trim. destruct (trimStart s) as [|c r] eqn:E; [reflexivity|].
  destruct (trimEnd_head c r (trimStart_head _ _ _ E)) as [r' Hr'].
  rewrite Hr'. simpl trimStart. rewrite (trimStart_head _ _ _ E).
  rewrite <- Hr'. apply trimEnd_idem.
Qed.

Lemma upperChar_idem c : upperChar (upperChar c) = upperChar c.
Proof. destruct c as [[] [] [] [] [] [] [] []]; reflexivity. Qed.

Lemma toUpperCase_idem s : toUpperCase (toUpperCase s) = toUpperCase s.
Proof.
  unfold toUpperCase. induction s as [|c s IH]; simpl; [reflexivity|].
  by rewrite upperChar_idem, IH.
Qed.

Lemma levelOfRow_normal (r : list string) :
  nonEmpty (levelOfRow r) = true /\ toUpperCase (levelOfRow r) = levelOfRow r.
Proof.
  unfold levelOfRow.
  destruct (nonEmpty (toUpperCase (trim (cellStr r 4)))) eqn:E.
  - split; [exact E | apply toUpperCase_idem].
  - split; reflexivity.
Qed.

(** ** The user a lookup returns *)

Lemma strictEqStr_true s v : strictEqStr s v = true -> v = Str s.
Proof.
  destruct v as [| |b|n|t]; simpl; try discriminate.
  intros H. apply String.eqb_eq in H. by subst.
Qed.

Lemma userRowMatches_name username (r : list string) :
  userRowMatches username r = true ->
  username = Str (trim (cellStr r 0)) /\ nonEmpty (trim (cellStr r 0)) = true.
Proof.
  unfold userRowMatches.
  destruct (nonEmpty (trim (cellStr r 0))); simpl; [|discriminate].
  intros H. split; [by apply strictEqStr_true | reflexivity].
Qed.

Lemma loginRow_userRow username password (r : list string) :
  truthy username = true ->
  loginRowMatches username password r = true -> userRowMatches username r = true.
Proof.
  intros Ht. unfold loginRowMatches, userRowMatches.
  destruct (nonEmpty (trim (cellStr r 0))) eqn:Eu; simpl.
  - intros H. by apply andb_true_iff in H as [H _].
  - destruct (nonEmpty (cellStr r 1)); simpl; [|discriminate].
    intros H. apply andb_true_iff in H as [H _].
    apply strictEqStr_true in H. subst username. simpl in Ht.
    unfold nonEmpty in Eu. by rewrite Ht in Eu.
Qed.

Lemma find_implies {A : Type} (p q : A -> bool) l x :
  (forall y, p y = true -> q y = true) ->
  find p l = Some x -> exists y, find q l = Some y.
Proof.
  intros H. induction l as [|a l IH]; simpl; [discriminate|].
  destruct (q a) eqn:Eq; [eauto|].
  destruct (p a) eqn:Ep; [|exact IH].
  rewrite (H a Ep) in Eq. discriminate.
Qed.

Lemma userOfRow_fields id title r w ui w' :
  userOfRow id title r w = (Ok ui, w') ->
  tab ui = title /\ branch ui = trim (cellStr r 2) /\ level ui = levelOfRow r
  /\ nonEmpty (budgetSheetId ui) = true
  /\ trim (budgetSheetId ui) = budgetSheetId ui.
Proof.
  unfold userOfRow, mbind, M_bind.
  destruct (values_get id title rangeF2 w) as [[g|e] w1]; [|discriminate].
  destruct (nonEmpty (trim (cellStr (default [] (head g)) 0))) eqn:E;
    [|discriminate].
  intros [= <- <-]. simpl. repeat split; [exact E | apply trim_idem].
Qed.

Lemma userOfRow_not_none id title r w :
  fst ((userOfRow id title r ≫= fun u => mret (Some u)) w) <> Ok None.
Proof.
  unfold mbind, M_bind.
  destruct (userOfRow id title r w) as [[u|e] w1]; simpl; discriminate.
Qed.

Lemma userScanTabs_fields id username tabs :
  forall w ui w',
    userScanTabs id username tabs w = (Ok (Some ui), w') ->
    In (tab ui) tabs
    /\ (exists s, username = Str s /\ nonEmpty s = true /\ trim s = s)
    /\ trim (branch ui) = branch ui
    /\ nonEmpty (level ui) = true /\ toUpperCase (level ui) = level ui
    /\ nonEmpty (budgetSheetId ui) = true
    /\ trim (budgetSheetId ui) = budgetSheetId ui.
Proof.
  induction tabs as [|t rest IH]; intros w ui w'; simpl; [discriminate|].
  unfold mbind, M_bind.
  destruct (values_get id t rangeA2Z w) as [[rows|e] w1]; [|discriminate].
  destruct (find (userRowMatches username) rows) as [r|] eqn:Efind.
  - destruct (userOfRow id t r w1) as [[u|e] w2] eqn:Eu; [|discriminate].
    intros [= <- <-].
    destruct (userOfRow_fields _ _ _ _ _ _ Eu) as (Ht & Hb & Hl & Hn & Hi).
    apply find_some in Efind. destruct Efind as [_ Hm].
    apply userRowMatches_name in Hm. destruct Hm as [Hname Hne].
    split; [left; by rewrite Ht|].
    split; [exists (trim (cellStr r 0)); repeat split; [exact Hname | exact Hne | apply trim_idem]|].
    split; [rewrite Hb; apply trim_idem|].
    rewrite Hl. destruct (levelOfRow_normal r). auto.
  - intros H. destruct (IH _ _ _ H) as (Hin & Hrest). split; [by right | exact Hrest].
Qed.

(** X2. A login that succeeds under a user name that is not empty: the
    lookup by user name the other handlers make, on the same store, does not
    return [null]: the row of the login carries that name, so that no other
    handler answers such a user with user not found. *)
Theorem login_user_is_known masterSheetId username password w ui :
  truthy username = true ->
  fst (findClientTabAndSheetIdByUser masterSheetId username password w) = Ok (Some ui) ->
  fst (getUserInfoByUsername masterSheetId username w) <> Ok None.
Proof.
  intros Ht. unfold findClientTabAndSheetIdByUser, getUserInfoByUsername, mbind, M_bind.
  destruct (spreadsheets_get masterSheetId w) as [[titles|e] w1]; [|discriminate].
  generalize (clientTabs titles) w1. clear w w1 titles.
  intros tabs. induction tabs as [|t rest IH]; intros w; simpl; [discriminate|].
  unfold mbind, M_bind.
  destruct (values_get masterSheetId t rangeA2Z w) as [[rows|e] w1]; [|discriminate].
  destruct (find (loginRowMatches username password) rows) as [r|] eqn:El.
  - intros _.
    destruct (find_implies _ (userRowMatches username) _ _
                (fun y => loginRow_userRow username password y Ht) El) as [y Hy].
    rewrite Hy. apply userOfRow_not_none.
  - intros H. destruct (find (userRowMatches username) rows) as [y|].
    + apply userOfRow_not_none.
    + by apply IH.
Qed.

Lemma getUserInfo_fields masterSheetId username w ui w' :
  getUserInfoByUsername masterSheetId username w = (Ok (Some ui), w') ->
  tab ui <> "Config"%string /\ tab ui <> "Readme"%string
  /\ (exists s, username = Str s /\ nonEmpty s = true /\ trim s = s)
  /\ trim (branch ui) = branch ui
  /\ nonEmpty (level ui) = true /\ toUpperCase (level ui) = level ui
  /\ nonEmpty (budgetSheetId ui) = true
  /\ trim (budgetSheetId ui) = budgetSheetId ui.
Proof.
  unfold getUserInfoByUsername, mbind, M_bind.
  destruct (spreadsheets_get masterSheetId w) as [[titles|e] w1]; [|discriminate].
  intros H. destruct (userScanTabs_fields _ _ _ _ _ _ H) as (Hin & Hrest).
  apply clientTabs_titles in Hin. destruct Hin as (_ & H1 & H2).
  split; [exact H1|]. split; [exact H2|]. exact Hrest.
Qed.

(** X3. The user the lookup by name returns, in any store: the tab is a
    client tab, neither [Config] nor [Readme]; the name asked for is a text
    that is not empty and has no white space around it; the branch and the
    budget sheet identifier are trimmed and the identifier is not empty; the
    level is not empty and is in upper case. *)
Theorem resolver_fields_normal masterSheetId username w ui w' :
  getUserInfoByUsername masterSheetId username w = (Ok (Some ui), w') ->
  tab ui <> "Config"%string /\ tab ui <> "Readme"%string
  /\ (exists s, username = Str s /\ nonEmpty s = true /\ trim s = s)
  /\ trim (branch ui) = branch ui
  /\ nonEmpty (level ui) = true /\ toUpperCase (level ui) = level ui
  /\ nonEmpty (budgetSheetId ui) = true
  /\ trim (budgetSheetId ui) = budgetSheetId ui.
Proof. apply getUserInfo_fields. Qed.

(** ** The serial generator, for any content of the counter *)

Lemma nge_ofZ a b : nge (ofZ a) (ofZ b) = (b <=? a).
Proof.
  unfold nge, ncompare, ofZ, pow10. change (Z.of_nat 0) with 0.
  rewrite Z.pow_0_r, !Z.mul_1_r.
  destruct (Z.compare_spec a b), (Z.leb_spec b a); try reflexivity; lia.
Qed.

Lemma currentNumOf_cases s : exists m, 0 <= m /\ currentNumOf s = ofZ m.
Proof.
  unfold currentNumOf.
  destruct (nonEmpty (toUpperCase s) && startsWith "AA" (toUpperCase s));
    [| exists 0; split; [lia | reflexivity]].
  destruct (parseIntStr_cases true (trim (slice 2 (toUpperCase s)))) as [E|[z E]];
    rewrite E; simpl.
  - exists 0. split; [lia | reflexivity].
  - rewrite nge_ofZ. destruct (Z.leb_spec 0 z).
    + exists z. split; [lia | reflexivity].
    + exists 0. split; [lia | reflexivity].
Qed.

Lemma ofZ_inj a b : ofZ a = ofZ b -> a = b.
Proof. by intros [= ->]. Qed.

Lemma newSerialOf_number s m :
  currentNumOf s = ofZ m -> 0 <= m -> m + 1 < 10 ^ 21 ->
  newSerialOf s = "AA" +:+ showN (Z.to_N (m + 1)).
Proof.
  intros E Hm Hlt. unfold newSerialOf. rewrite E, nadd_ofZ.
  rewrite <- (Z2N.id (m + 1)) at 1 by lia.
  rewrite numToString_nat; [reflexivity | lia | rewrite Z2N.id; lia].
Qed.

Lemma trim_serial n : trim ("AA" +:+ showN n) = "AA" +:+ showN n.
Proof.
  change ("AA" +:+ showN n) with (String "A" (String "A" (showN n))).
  generalize (allDigits_trimEnd _ (allDigits_showN n)). generalize (showN n).
  intros d Hd. unfold trim.
  change (trimStart (String "A" (String "A" d))) with (String "A" (String "A" d)).
  cbn [trimEnd]. rewrite Hd. by destruct d.
Qed.

Lemma digitsValue_bound s : forall acc,
  Z.of_N (digitsValue acc s) + 1 <= (Z.of_N acc + 1) * 10 ^ Z.of_nat (String.length s).
Proof.
  induction s as [|c r IH]; intros acc.
  - cbn [digitsValue String.length]. change (Z.of_nat 0) with 0. lia.
  - cbn [digitsValue String.length]. cbv zeta.
    rewrite Nat2Z.inj_succ, Z.pow_succ_r by lia.
    assert (Hp : 0 < 10 ^ Z.of_nat (String.length r)) by (apply Z.pow_pos_nonneg; lia).
    destruct (N.leb 48 (N_of_ascii c) && N.leb (N_of_ascii c) 57)%N eqn:E.
    + apply andb_true_iff in E. destruct E as [E1 E2].
      apply N.leb_le in E1, E2. specialize (IH (10 * acc + (N_of_ascii c - 48))%N).
      nia.
    + nia.
Qed.

Lemma trimStart_length s : (String.length (trimStart s) <= String.length s)%nat.
Proof.
  induction s as [|c r IH]; [reflexivity|].
  cbn [trimStart]. destruct (isWhiteSpace c); cbn [String.length]; lia.
Qed.

Lemma prefixedNumberOf_bound s :
  Z.of_N (prefixedNumberOf s) + 1 <= 10 ^ Z.of_nat (String.length s - 2).
Proof.
  assert (H1 : forall k : nat, 1 <= 10 ^ Z.of_nat k)
    by (intros k; pose proof (Z.pow_pos_nonneg 10 (Z.of_nat k)); lia).
  destruct s as [|a [|b rest]]; [apply H1 | apply H1 |].
  cbn [prefixedNumberOf String.length]. replace (S (S (String.length rest)) - 2)%nat
    with (String.length rest) by lia.
  destruct (isLetterA a && isLetterA b); [|apply H1].
  pose proof (trimStart_length rest) as Hlen.
  assert (Hmono : forall k : nat, (k <= String.length rest)%nat ->
                    10 ^ Z.of_nat k <= 10 ^ Z.of_nat (String.length rest))
    by (intros k Hk; apply Z.pow_le_mono_r; lia).
  destruct (trimStart rest) as [|c r] eqn:Et.
  - apply H1.
  - assert (Hplus : Z.of_N (digitsValue 0 r) + 1 <= 10 ^ Z.of_nat (String.length rest)).
    { pose proof (digitsValue_bound r 0) as Hb. cbn [String.length] in Hlen.
      specialize (Hmono (String.length r) ltac:(lia)). change (Z.of_N 0) with 0 in Hb. lia. }
    assert (Hall : Z.of_N (digitsValue 0 (String c r)) + 1
                   <= 10 ^ Z.of_nat (String.length rest)).
    { pose proof (digitsValue_bound (String c r) 0) as Hb.
      specialize (Hmono _ Hlen). change (Z.of_N 0) with 0 in Hb. lia. }
    destruct c as [[|] [|] [|] [|] [|] [|] [|] [|]]; first [exact Hall | exact Hplus].
Qed.

(** X4. Whatever a counter cell of at most 17 characters holds, the number
    read off it is a whole number that is not negative and has at most 15
    digits, and the new serial is [AA] followed by the decimal digits of that
    number plus one. *)
Theorem newSerial_wellformed currentSerial :
  (String.length currentSerial <= 17)%nat ->
  exists n : N,
    (0 < n)%N /\ Z.of_N n <= 10 ^ 15
    /\ currentNumOf currentSerial = ofZ (Z.of_N n - 1)
    /\ newSerialOf currentSerial = "AA" +:+ showN n.
Proof.
  intros Hlen.
  pose proof (prefixedNumberOf_bound currentSerial) as Hb.
  assert (Hle : 10 ^ Z.of_nat (String.length currentSerial - 2) <= 10 ^ 15)
    by (apply Z.pow_le_mono_r; lia).
  exists (prefixedNumberOf currentSerial + 1)%N.
  split; [lia|]. split; [lia|]. split.
  - rewrite currentNumOf_prefixed. f_equal. lia.
  - apply newSerialOf_prefixed.
    assert (10 ^ 15 < 2 ^ 53) by reflexivity. lia.
Qed.

(** X5. Two serials issued one after the other on a store without faults
    are consecutive: the second call reads the cell the first one wrote. *)
Theorem nextSerial_consecutive id w ss g m :
  files w !! id = Some ss ->
  lookupTab ss "Serial Numbers" = Some g ->
  faults w = [] ->
  currentNumOf (trim (cellStr (default [] (g !! 1%nat)) 1)) = ofZ m ->
  m + 2 < 2 ^ 53 ->
  exists w1 w2,
    getNextOrderSerial id w = (Ok ("AA" +:+ showN (Z.to_N (m + 1))), w1)
    /\ getNextOrderSerial id w1 = (Ok ("AA" +:+ showN (Z.to_N (m + 2))), w2).
Proof.
  intros Hs Hg Hf Hcur Hlt.
  destruct (currentNumOf_cases (trim (cellStr (default [] (g !! 1%nat)) 1)))
    as (m' & Hm' & E').
  rewrite Hcur in E'. apply ofZ_inj in E'. subst m'.
  pose proof (getNextOrderSerial_run id w ss g false Hs Hg Hf) as Hrun1.
  cbv beta iota zeta in Hrun1.
  rewrite (newSerialOf_number _ m Hcur Hm') in Hrun1 by lia.
  set (s1 := "AA" +:+ showN (Z.to_N (m + 1))) in *.
  set (g1 := writeBlock g 1 1 [[Str s1]]) in *.
  set (w1 := mkWorld _ _ _ _) in Hrun1.
  assert (Hs1 : files w1 !! id = Some (setTab ss "Serial Numbers" g1))
    by (subst w1; simpl; apply lookup_insert_eq).
  pose proof (getNextOrderSerial_run id w1 _ g1 false Hs1
                (lookupTab_setTab _ _ _ _ Hg) eq_refl) as Hrun2.
  cbv beta iota zeta in Hrun2. subst g1. rewrite counter_cell in Hrun2.
  subst s1. rewrite trim_serial in Hrun2.
  rewrite newSerialOf_serial in Hrun2 by (rewrite Z2N.id; lia).
  replace (Z.to_N (m + 1) + 1)%N with (Z.to_N (m + 2)) in Hrun2 by lia.
  eauto.
Qed.

(** ** The row that rows are appended below *)

(** X6. The row [appendRowsAtoK] starts below: [lastRow] is within the
    sheet, no row from it on has text in column A, and the row just before
    it, when there is one, has. *)
Theorem lastRowOf_spec (colA : list (list string)) :
  (lastRowOf colA <= length colA)%nat
  /\ (forall j r, (lastRowOf colA <= j)%nat -> colA !! j = Some r ->
                  nonBlankA r = false)
  /\ ((0 < lastRowOf colA)%nat ->
      exists r, colA !! (lastRowOf colA - 1)%nat = Some r /\ nonBlankA r = true).
Proof.
  split; [apply lastRowOf_le|]. split; [apply lastRowOf_blank_after | apply lastRowOf_text].
Qed.

Lemma writesColumnA_text vs (r : list string) :
  writesColumnA vs = true -> nonBlankA (writeCells r 0 vs) = true.
Proof.
  destruct vs as [|v vs]; [discriminate|].
  cbn [writesColumnA writeCells].
  destruct (cellText v) as [t|] eqn:Et; [|discriminate]. intros Ht.
  pose proof (writeCells_before vs (setCell r 0 t) 1 0 ltac:(lia)) as H.
  rewrite cellStr_setCell in H. change (Nat.eqb 0 0) with true in H. cbv iota in H.
  unfold nonBlankA. unfold cellStr in H.
  destruct (writeCells (setCell r 0 t) 1 vs !! 0%nat) as [x|]; simpl in H.
  - by subst.
  - subst t. discriminate.
Qed.

(** The rows appended are the last rows with text in column A when the last
    of them puts text there. *)
Lemma lastRowOf_appended (g : list (list string)) vals vs :
  last vals = Some vs -> writesColumnA vs = true ->
  lastRowOf (writeBlock g (lastRowOf g) 0 vals) = (lastRowOf g + length vals)%nat.
Proof.
  intros Hlast Hvs.
  pose proof (lastRowOf_le g) as HL.
  assert (Hlen : (0 < length vals)%nat) by (destruct vals; [discriminate | simpl; lia]).
  apply lastRowOf_unique.
  - rewrite writeBlock_length by exact HL. lia.
  - intros j r Hj Hr. rewrite writeBlock_lookup_ge in Hr by (exact HL || exact Hj).
    apply (lastRowOf_blank_after g j r); [lia | exact Hr].
  - intros _.
    assert (Hk : vals !! (length vals - 1)%nat = Some vs).
    { rewrite <- Hlast. rewrite last_lookup. f_equal. lia. }
    replace (lastRowOf g + length vals - 1)%nat
      with (lastRowOf g + (length vals - 1))%nat by lia.
    rewrite (writeBlock_lookup_row 0 vals g _ _ vs HL Hk).
    eexists. split; [reflexivity|]. by apply writesColumnA_text.
Qed.

Lemma writesOf_reads_update t id sheetName rg wr :
  writesOf (t ++ [CallGet id sheetName rg; CallUpdate id wr])
  = writesOf t ++ [CallUpdate id wr].
Proof. by rewrite writesOf_app. Qed.

(** X7. Two appends to a sheet in succession, on a store without faults:
    when the last row of the first puts text in column A, the second is
    written below the rows of the first and leaves them as the first wrote
    them. *)
Theorem append_twice_stacks id sheetName vals1 vals2 w ss (g : list (list string)) :
  faults w = [] -> files w !! id = Some ss -> lookupTab ss sheetName = Some g ->
  vals2 <> [] ->
  (exists vs, last vals1 = Some vs /\ writesColumnA vs = true) ->
  let L := lastRowOf (readRange g rangeAA) in
  exists w1 w2,
    appendRowsAtoK id sheetName vals1 w = (Ok tt, w1)
    /\ appendRowsAtoK id sheetName vals2 w1 = (Ok tt, w2)
    /\ writesOf (trace w2)
       = writesOf (trace w)
         ++ [CallUpdate id (mkWrite sheetName L 0 vals1);
             CallUpdate id (mkWrite sheetName (L + length vals1) 0 vals2)]
    /\ (forall j, (j < L + length vals1)%nat ->
          sheetOf w2 id sheetName !! j = sheetOf w1 id sheetName !! j).
Proof.
  intros Hf Hs Hg Hv2 (vs & Hlast & Hvs) L.
  assert (Hv1 : vals1 <> []) by (intros ->; discriminate).
  pose proof (appendRowsAtoK_run id sheetName vals1 w ss g Hv1 Hf Hs Hg) as Hrun1.
  cbv zeta in Hrun1. fold L in Hrun1.
  set (g1 := writeBlock g L 0 vals1) in *.
  set (w1 := mkWorld _ _ _ _) in Hrun1.
  assert (Hs1 : files w1 !! id = Some (setTab ss sheetName g1))
    by (subst w1; simpl; apply lookup_insert_eq).
  pose proof (lookupTab_setTab _ _ _ g1 Hg) as Hg1.
  pose proof (appendRowsAtoK_run id sheetName vals2 w1 _ g1 Hv2 eq_refl Hs1 Hg1) as Hrun2.
  cbv zeta in Hrun2.
  assert (HL1 : lastRowOf (readRange g1 rangeAA) = (L + length vals1)%nat).
  { rewrite lastRowOf_columnA. subst g1 L. rewrite lastRowOf_columnA.
    by apply (lastRowOf_appended g vals1 vs). }
  rewrite HL1 in Hrun2.
  set (w2 := mkWorld _ _ _ _) in Hrun2.
  exists w1, w2. split; [exact Hrun1|]. split; [exact Hrun2|]. split.
  - subst w2 w1. cbn [trace]. rewrite !writesOf_reads_update, <- app_assoc. reflexivity.
  - intros j Hj. unfold sheetOf. subst w2. cbn [files].
    rewrite lookup_insert_eq, Hs1. cbn [mbind option_bind].
    rewrite (lookupTab_setTab _ _ _ _ Hg1), Hg1. cbn [default].
    apply writeBlock_lookup_lt; [exact Hj|].
    unfold Datatypes.id. subst g1. rewrite writeBlock_length; [lia|].
    subst L. rewrite lastRowOf_columnA. apply lastRowOf_le.
Qed.

(** ** Moving rows out of the waiting sheet *)

(** The two sheets after the rows [idxs] of the waiting sheet were appended
    to the sheet [final] and cleared where they stood. *)
Lemma move_rows_effect (waiting final : list (list string)) idxs :
  (forall i, In i idxs -> (i < length waiting)%nat) ->
  let L := lastRowOf (readRange final rangeAA) in
  let waiting' := clearRows waiting idxs in
  let final' := writeBlock final L 0 (appendValuesOf waiting idxs) in
  length waiting' = length waiting
  /\ (forall i r, waiting !! i = Some r ->
        waiting' !! i = Some (if existsb (Nat.eqb i) idxs then clearedRow r else r))
  /\ (forall k i r, idxs !! k = Some i -> waiting !! i = Some r ->
        exists r', final' !! (L + k)%nat = Some r'
                   /\ take 11 r' = map (cellStr r) (seq 0 11))
  /\ (forall j, (j < L)%nat -> final' !! j = final !! j).
Proof.
  intros Hb L waiting' final'.
  assert (HL : (L <= length final)%nat).
  { subst L. rewrite <- (readRange_AA_length final). apply lastRowOf_le. }
  split; [by apply clearRows_length|].
  split; [intros i r Hr; by apply clearRows_lookup|].
  split.
  - intros k i r Hk Hr.
    assert (Hv : appendValuesOf waiting idxs !! k = Some (copyAtoK r)).
    { unfold appendValuesOf. rewrite list_lookup_fmap, Hk. simpl. by rewrite Hr. }
    subst final'. rewrite (writeBlock_lookup_row 0 _ final L k _ HL Hv).
    eexists. split; [reflexivity|].
    rewrite copyAtoK_texts, writeCells_row.
    rewrite take_app_length'; [reflexivity | by rewrite length_map, length_seq].
  - intros j Hj. by apply writeBlock_lookup_lt.
Qed.

Lemma sheetOf_after w id ss title (g : list (list string)) :
  files w !! id = Some ss -> lookupTab ss title = Some g -> sheetOf w id title = g.
Proof. intros Hs Hg. unfold sheetOf. rewrite Hs. simpl. by rewrite Hg. Qed.

Lemma sheetOf_files w w' id title :
  files w' !! id = files w !! id -> sheetOf w' id title = sheetOf w id title.
Proof. intros H. unfold sheetOf. by rewrite H. Qed.

Lemma sheetOf_lookup w id ss title :
  files w !! id = Some ss -> sheetOf w id title = default [] (lookupTab ss title).
Proof. intros H. unfold sheetOf. by rewrite H. Qed.

Section MoveRows.

Variable host : Host.
Variable credentialsSheetId : string.

Lemma In_rowsOfBranch now rows branchName i :
  In i (rowsOfBranch host now rows branchName) <->
  (1 <= i)%nat /\ exists r, rows !! i = Some r
      /\ inMonth host now r && strictEqStr (trim (cellStr r 1)) branchName = true.
Proof.
  rewrite rowsOfBranch_select, In_selectFrom.
  split; intros (Hle & r & Hl & Hq); (split; [exact Hle|]); exists r; (split; [|exact Hq]).
  - rewrite lookup_drop in Hl. replace (1 + (i - 1))%nat with i in Hl by lia. exact Hl.
  - rewrite lookup_drop. replace (1 + (i - 1))%nat with i by lia. exact Hl.
Qed.

Lemma rowsOfBranch_bound now (rows : list (list string)) branchName i :
  In i (rowsOfBranch host now rows branchName) -> (i < length rows)%nat.
Proof.
  intros H. apply In_rowsOfBranch in H. destruct H as (_ & r & Hr & _).
  by apply lookup_lt_Some in Hr.
Qed.

(** The rows of a serial are gone once they are cleared. *)
Lemma rowsOfSerial_cleared now now2 (waiting : list (list string)) serial :
  getFullYear host now2 = getFullYear host now ->
  getMonth host now2 = getMonth host now ->
  rowsOfSerial host now2
    (clearRows waiting (rowsOfSerial host now waiting serial)) serial = [].
Proof.
  intros Hy Hm. set (moved := rowsOfSerial host now waiting serial).
  destruct (rowsOfSerial host now2 (clearRows waiting moved) serial) as [|i l] eqn:E;
    [reflexivity|exfalso].
  assert (Hin : In i (rowsOfSerial host now2 (clearRows waiting moved) serial))
    by (rewrite E; by left).
  apply In_rowsOfSerial in Hin. destruct Hin as (Hi & r' & Hr' & Hmatch).
  assert (Hlen : (i < length waiting)%nat).
  { apply lookup_lt_Some in Hr'.
    rewrite clearRows_length in Hr'; [exact Hr' | intros j; apply moved_bound]. }
  destruct (lookup_lt_is_Some_2 _ _ Hlen) as [r Hr].
  rewrite (clearRows_lookup _ _ _ r) in Hr'; [| intros j; apply moved_bound | exact Hr].
  inversion Hr'; subst r'; clear Hr'.
  unfold matchesSerial in Hmatch.
  destruct (existsb (Nat.eqb i) moved) eqn:Ein.
  - rewrite (inMonth_blank host now2 _ (clearedRow_blank r)) in Hmatch. discriminate.
  - rewrite (inMonth_same_month host now now2 r Hy Hm) in Hmatch.
    subst moved. rewrite (moved_test host now waiting serial i r Hr) in Ein.
    unfold matchesSerial in Ein.
    apply Nat.leb_le in Hi. rewrite Hi in Ein. simpl in Ein. congruence.
Qed.

Lemma cancelOrder_run req now w ui w1 ss waiting cancelled :
  let composite := toString (orElse (or_orderId req) (Str EmptyString)) in
  let serial := orderSerialOf composite in
  let moved := rowsOfSerial host now waiting serial in
  let L := lastRowOf (readRange cancelled rangeAA) in
  let vals := appendValuesOf waiting moved in
  keyFile w = true -> faults w = [] ->
  truthy (or_username req) = true ->
  nonEmpty serial = true ->
  statusOf composite = "waiting"%string ->
  getUserInfoByUsername credentialsSheetId (or_username req) w = (Ok (Some ui), w1) ->
  toUpperCase (level ui) = "L2"%string ->
  files w !! budgetSheetId ui = Some ss ->
  lookupTab ss "Waiting for Approval" = Some waiting ->
  lookupTab ss "Cancelled Orders" = Some cancelled ->
  moved <> [] ->
  cancelOrder host credentialsSheetId req now w
  = (Ok (json Success),
     mkWorld (<[budgetSheetId ui :=
                 setTab (setTab ss "Cancelled Orders" (writeBlock cancelled L 0 vals))
                        "Waiting for Approval" (clearRows waiting moved)]> (files w))
             (keyFile w) []
             (trace w1 ++
              [CallGet (budgetSheetId ui) "Waiting for Approval" Whole;
               CallGet (budgetSheetId ui) "Cancelled Orders" rangeAA;
               CallUpdate (budgetSheetId ui) (mkWrite "Cancelled Orders" L 0 vals);
               CallBatch (budgetSheetId ui) (clearDataOf moved)])).
Proof.
  intros composite serial moved L vals Hk Hf Hu Hserial Hstatus Hui Hlevel Hss Hw Hc Hmoved.
  destruct (Quiet_getUserInfoByUsername _ _ _ _ _ Hui) as (Hf1 & Hk1 & _ & Hq1).
  specialize (Hq1 Hf).
  unfold cancelOrder, tryCatch.
  fold composite. fold serial. rewrite Hu, Hserial, Hstatus, String.eqb_refl.
  cbn [negb orb].
  rewrite (bind_run _ _ _ _ _ (getSheetsClient_run _ Hk)).
  rewrite (bind_run _ _ _ _ _ Hui).
  cbv beta iota. rewrite Hlevel, String.eqb_refl. cbn [negb].
  assert (Hss1 : files w1 !! budgetSheetId ui = Some ss) by (by rewrite Hf1).
  rewrite (bind_run _ _ _ _ _ (values_get_run _ _ Whole _ _ _ Hq1 Hss1 Hw)).
  change (readRange waiting Whole) with waiting. fold moved. fold vals.
  assert (Hvals : vals <> []).
  { subst vals. unfold appendValuesOf. destruct moved; [congruence | discriminate]. }
  rewrite (match_nonempty moved _ _ Hmoved).
  set (w2 := logged w1 (CallGet (budgetSheetId ui) "Waiting for Approval" Whole)).
  assert (Hf2 : faults w2 = []) by (subst w2; simpl; by rewrite Hq1).
  assert (Hss2 : files w2 !! budgetSheetId ui = Some ss) by exact Hss1.
  rewrite (bind_run _ _ _ _ _
            (appendRowsAtoK_run _ _ _ _ _ _ Hvals Hf2 Hss2 Hc)).
  fold L.
  erewrite bind_run;
    [| apply (values_batchUpdate_run _ _ _
                (setTab ss "Cancelled Orders" (writeBlock cancelled L 0 vals)));
       [ reflexivity
       | simpl; apply lookup_insert_eq
       | apply applyWrites_clear; rewrite lookupTab_setTab_ne by discriminate; exact Hw ] ].
  unfold mret, M_ret. simpl. rewrite insert_insert_eq, Hf1, Hk1.
  rewrite <- !app_assoc. reflexivity.
Qed.

(** X8. A cancellation by an L2 user, on a store without faults, of a
    serial that has rows of the current month in 'Waiting for Approval'.
    The rows moved are the rows below the header that are of the current
    month and carry the serial, in the order of the sheet.  They are appended
    to 'Cancelled Orders': written from the row [L] on, where [L] is within
    the sheet, no row from [L] on has text in column A and the row before
    [L] has, columns A to K cell for cell; the rows before [L] and the rows
    after the rows written are as they were.  Each row moved has its columns
    A to K emptied where it stands and every other row of the waiting sheet
    is as it was; no other sheet changes, 'Final Orders' among them. *)
Theorem cancel_moves_and_clears req now w ui w1 ss waiting cancelled :
  let composite := toString (orElse (or_orderId req) (Str EmptyString)) in
  let serial := orderSerialOf composite in
  let moved := rowsOfSerial host now waiting serial in
  let L := lastRowOf (readRange cancelled rangeAA) in
  let id := budgetSheetId ui in
  keyFile w = true -> faults w = [] ->
  truthy (or_username req) = true ->
  nonEmpty serial = true ->
  statusOf composite = "waiting"%string ->
  getUserInfoByUsername credentialsSheetId (or_username req) w = (Ok (Some ui), w1) ->
  toUpperCase (level ui) = "L2"%string ->
  files w !! id = Some ss ->
  lookupTab ss "Waiting for Approval" = Some waiting ->
  lookupTab ss "Cancelled Orders" = Some cancelled ->
  moved <> [] ->
  exists w',
    cancelOrder host credentialsSheetId req now w = (Ok (json Success), w')
    /\ length (sheetOf w' id "Waiting for Approval") = length waiting
    /\ (forall i r, waiting !! i = Some r ->
          sheetOf w' id "Waiting for Approval" !! i
          = Some (if (1 <=? i)%nat && matchesSerial host now serial r
                  then clearedRow r else r))
    /\ (forall k i r, moved !! k = Some i -> waiting !! i = Some r ->
          exists r', sheetOf w' id "Cancelled Orders" !! (L + k)%nat = Some r'
                     /\ take 11 r' = map (cellStr r) (seq 0 11))
    /\ (forall j, (j < L)%nat ->
          sheetOf w' id "Cancelled Orders" !! j = cancelled !! j)
    /\ (forall t, t <> "Waiting for Approval"%string -> t <> "Cancelled Orders"%string ->
          sheetOf w' id t = sheetOf w id t)
    /\ (forall i, In i moved <->
          (1 <= i)%nat /\ exists r, waiting !! i = Some r
                                    /\ matchesSerial host now serial r = true)
    /\ (forall k k' i i', (k < k')%nat ->
          moved !! k = Some i -> moved !! k' = Some i' -> (i < i')%nat)
    /\ (L <= length cancelled)%nat
    /\ (forall j r, (L <= j)%nat -> cancelled !! j = Some r ->
          trim (cellStr r 0) = EmptyString)
    /\ ((0 < L)%nat ->
        exists r, cancelled !! (L - 1)%nat = Some r /\ trim (cellStr r 0) <> EmptyString)
    /\ (forall j, (L + length moved <= j)%nat ->
          sheetOf w' id "Cancelled Orders" !! j = cancelled !! j)
    /\ length (sheetOf w' id "Cancelled Orders")
       = Nat.max (length cancelled) (L + length moved).
Proof.
  intros composite serial moved L id Hk Hf Hu Hserial Hstatus Hui Hlevel Hss Hw Hc Hmoved.
  pose proof (cancelOrder_run req now w ui w1 ss waiting cancelled
                Hk Hf Hu Hserial Hstatus Hui Hlevel Hss Hw Hc Hmoved) as Hrun.
  cbv zeta in Hrun. fold composite serial moved L id in Hrun.
  set (ss' := setTab _ "Waiting for Approval" _) in Hrun.
  set (w' := mkWorld _ _ _ _) in Hrun.
  exists w'. split; [exact Hrun|].
  assert (Hfiles : files w' !! id = Some ss') by (subst w'; simpl; apply lookup_insert_eq).
  destruct (move_rows_effect waiting cancelled moved
              (fun i => moved_bound host now waiting serial i)) as (H1 & H2 & H3 & H4).
  assert (Hw' : sheetOf w' id "Waiting for Approval" = clearRows waiting moved).
  { apply (sheetOf_after _ _ ss' _ _ Hfiles). subst ss'.
    apply (lookupTab_setTab _ _ waiting).
    rewrite lookupTab_setTab_ne by discriminate. exact Hw. }
  assert (Hc' : sheetOf w' id "Cancelled Orders"
                = writeBlock cancelled L 0 (appendValuesOf waiting moved)).
  { apply (sheetOf_after _ _ ss' _ _ Hfiles). subst ss'.
    rewrite lookupTab_setTab_ne by discriminate.
    apply (lookupTab_setTab _ _ cancelled). exact Hc. }
  split; [rewrite Hw'; exact H1|].
  split.
  { intros i r Hr. rewrite Hw', (H2 i r Hr).
    unfold moved. by rewrite (moved_test host now waiting serial i r Hr). }
  split; [intros k i r Hk' Hr; rewrite Hc'; by apply (H3 k i r)|].
  split; [intros j Hj; rewrite Hc'; by apply H4|].
  split.
  { intros t Ht1 Ht2. unfold sheetOf. rewrite Hfiles, Hss. cbn [mbind option_bind].
    subst ss'. by rewrite !lookupTab_setTab_ne by congruence. }
  split; [intros i; apply In_rowsOfSerial|].
  split; [intros k k' i i'; apply rowsOfSerial_increasing|].
  destruct (appended_rows cancelled (appendValuesOf waiting moved))
    as (HL & Hafter & Hbefore & _ & Hge & Hlen).
  fold L in HL, Hafter, Hbefore, Hge, Hlen.
  assert (Hn : length (appendValuesOf waiting moved) = length moved) by apply length_map.
  rewrite Hn in Hge, Hlen. rewrite Hc'. auto 10.
Qed.

End MoveRows.

Section BranchApproval.

Variable host : Host.
Variable credentialsSheetId : string.

Lemma withL2User_run {A : Type} username forbidden (k : UserInfo -> M (Reply A))
  w ui w1 :
  keyFile w = true ->
  getUserInfoByUsername credentialsSheetId username w = (Ok (Some ui), w1) ->
  toUpperCase (level ui) = "L2"%string ->
  withL2User credentialsSheetId username forbidden k w = k ui w1.
Proof.
  intros Hk Hui Hlevel. unfold withL2User.
  rewrite (bind_run _ _ _ _ _ (getSheetsClient_run _ Hk)).
  rewrite (bind_run _ _ _ _ _ Hui).
  cbv beta iota. by rewrite Hlevel, String.eqb_refl.
Qed.

Lemma approveBranchOrder_run req now w ui w1 ss waiting final :
  let moved := rowsOfBranch host now waiting (br_branchName req) in
  let L := lastRowOf (readRange final rangeAA) in
  let vals := appendValuesOf waiting moved in
  keyFile w = true -> faults w = [] ->
  truthy (br_username req) = true ->
  truthy (br_branchName req) = true ->
  getUserInfoByUsername credentialsSheetId (br_username req) w = (Ok (Some ui), w1) ->
  toUpperCase (level ui) = "L2"%string ->
  files w !! budgetSheetId ui = Some ss ->
  lookupTab ss "Waiting for Approval" = Some waiting ->
  lookupTab ss "Final Orders" = Some final ->
  moved <> [] ->
  approveBranchOrder host credentialsSheetId req now w
  = (Ok (Sent tt),
     mkWorld (<[budgetSheetId ui :=
                 setTab (setTab ss "Final Orders" (writeBlock final L 0 vals))
                        "Waiting for Approval" (clearRows waiting moved)]> (files w))
             (keyFile w) []
             (trace w1 ++
              [CallGet (budgetSheetId ui) "Waiting for Approval" Whole;
               CallGet (budgetSheetId ui) "Final Orders" rangeAA;
               CallUpdate (budgetSheetId ui) (mkWrite "Final Orders" L 0 vals);
               CallBatch (budgetSheetId ui) (clearDataOf moved)])).
Proof.
  intros moved L vals Hk Hf Hu Hb Hui Hlevel Hss Hw Hfin Hmoved.
  destruct (Quiet_getUserInfoByUsername _ _ _ _ _ Hui) as (Hf1 & Hk1 & _ & Hq1).
  specialize (Hq1 Hf).
  unfold approveBranchOrder, tryCatch. rewrite Hu, Hb. cbn [negb orb].
  rewrite (withL2User_run _ _ _ _ _ _ Hk Hui Hlevel).
  assert (Hss1 : files w1 !! budgetSheetId ui = Some ss) by (by rewrite Hf1).
  rewrite (bind_run _ _ _ _ _ (values_get_run _ _ Whole _ _ _ Hq1 Hss1 Hw)).
  change (readRange waiting Whole) with waiting. fold moved. fold vals.
  assert (Hvals : vals <> []).
  { subst vals. unfold appendValuesOf. destruct moved; [congruence | discriminate]. }
  rewrite (match_nonempty moved _ _ Hmoved).
  set (w2 := logged w1 (CallGet (budgetSheetId ui) "Waiting for Approval" Whole)).
  assert (Hf2 : faults w2 = []) by (subst w2; simpl; by rewrite Hq1).
  assert (Hss2 : files w2 !! budgetSheetId ui = Some ss) by exact Hss1.
  rewrite (bind_run _ _ _ _ _
            (appendRowsAtoK_run _ _ _ _ _ _ Hvals Hf2 Hss2 Hfin)).
  fold L.
  erewrite bind_run;
    [| apply (values_batchUpdate_run _ _ _
                (setTab ss "Final Orders" (writeBlock final L 0 vals)));
       [ reflexivity
       | simpl; apply lookup_insert_eq
       | apply applyWrites_clear; rewrite lookupTab_setTab_ne by discriminate; exact Hw ] ].
  unfold mret, M_ret. simpl. rewrite insert_insert_eq, Hf1, Hk1.
  rewrite <- !app_assoc. reflexivity.
Qed.

(** X9. The approval of a branch by an L2 user, on a store without faults.
    The rows moved are the rows below the header of 'Waiting for Approval'
    that are of the current month and whose trimmed branch is the branch of
    the request, whatever their serial, in the order of the sheet.  They are
    appended to 'Final Orders': written from the row [L] on, where [L] is
    within the sheet, no row from [L] on has text in column A and the row
    before [L] has, columns A to K cell for cell; the rows before [L] and
    the rows after the rows written are as they were.  The rows moved are
    emptied where they stood; every other row of the waiting sheet and every
    other sheet is as it was. *)
Theorem approveBranch_moves_and_clears req now w ui w1 ss waiting final :
  let moved := rowsOfBranch host now waiting (br_branchName req) in
  let L := lastRowOf (readRange final rangeAA) in
  let id := budgetSheetId ui in
  keyFile w = true -> faults w = [] ->
  truthy (br_username req) = true ->
  truthy (br_branchName req) = true ->
  getUserInfoByUsername credentialsSheetId (br_username req) w = (Ok (Some ui), w1) ->
  toUpperCase (level ui) = "L2"%string ->
  files w !! id = Some ss ->
  lookupTab ss "Waiting for Approval" = Some waiting ->
  lookupTab ss "Final Orders" = Some final ->
  moved <> [] ->
  exists w',
    approveBranchOrder host credentialsSheetId req now w = (Ok (Sent tt), w')
    /\ (forall i, In i moved <->
          (1 <= i)%nat /\ exists r, waiting !! i = Some r
             /\ inMonth host now r
                && strictEqStr (trim (cellStr r 1)) (br_branchName req) = true)
    /\ length (sheetOf w' id "Waiting for Approval") = length waiting
    /\ (forall i r, waiting !! i = Some r ->
          sheetOf w' id "Waiting for Approval" !! i
          = Some (if existsb (Nat.eqb i) moved then clearedRow r else r))
    /\ (forall k i r, moved !! k = Some i -> waiting !! i = Some r ->
          exists r', sheetOf w' id "Final Orders" !! (L + k)%nat = Some r'
                     /\ take 11 r' = map (cellStr r) (seq 0 11))
    /\ (forall j, (j < L)%nat -> sheetOf w' id "Final Orders" !! j = final !! j)
    /\ (forall t, t <> "Waiting for Approval"%string -> t <> "Final Orders"%string ->
          sheetOf w' id t = sheetOf w id t)
    /\ (forall k k' i i', (k < k')%nat ->
          moved !! k = Some i -> moved !! k' = Some i' -> (i < i')%nat)
    /\ (L <= length final)%nat
    /\ (forall j r, (L <= j)%nat -> final !! j = Some r ->
          trim (cellStr r 0) = EmptyString)
    /\ ((0 < L)%nat ->
        exists r, final !! (L - 1)%nat = Some r /\ trim (cellStr r 0) <> EmptyString)
    /\ (forall j, (L + length moved <= j)%nat ->
          sheetOf w' id "Final Orders" !! j = final !! j)
    /\ length (sheetOf w' id "Final Orders")
       = Nat.max (length final) (L + length moved).
Proof.
  intros moved L id Hk Hf Hu Hb Hui Hlevel Hss Hw Hfin Hmoved.
  pose proof (approveBranchOrder_run req now w ui w1 ss waiting final
                Hk Hf Hu Hb Hui Hlevel Hss Hw Hfin Hmoved) as Hrun.
  cbv zeta in Hrun. fold moved L id in Hrun.
  set (ss' := setTab _ "Waiting for Approval" _) in Hrun.
  set (w' := mkWorld _ _ _ _) in Hrun.
  exists w'. split; [exact Hrun|].
  split; [intros i; apply In_rowsOfBranch|].
  assert (Hfiles : files w' !! id = Some ss') by (subst w'; simpl; apply lookup_insert_eq).
  destruct (move_rows_effect waiting final moved
              (fun i => rowsOfBranch_bound host now waiting (br_branchName req) i))
    as (H1 & H2 & H3 & H4).
  assert (Hw' : sheetOf w' id "Waiting for Approval" = clearRows waiting moved).
  { apply (sheetOf_after _ _ ss' _ _ Hfiles). subst ss'.
    apply (lookupTab_setTab _ _ waiting).
    rewrite lookupTab_setTab_ne by discriminate. exact Hw. }
  assert (Hc' : sheetOf w' id "Final Orders"
                = writeBlock final L 0 (appendValuesOf waiting moved)).
  { apply (sheetOf_after _ _ ss' _ _ Hfiles). subst ss'.
    rewrite lookupTab_setTab_ne by discriminate.
    apply (lookupTab_setTab _ _ final). exact Hfin. }
  split; [rewrite Hw'; exact H1|].
  split; [intros i r Hr; rewrite Hw'; by apply H2|].
  split; [intros k i r Hk' Hr; rewrite Hc'; by apply (H3 k i r)|].
  split; [intros j Hj; rewrite Hc'; by apply H4|].
  split.
  { intros t Ht1 Ht2. unfold sheetOf. rewrite Hfiles, Hss. cbn [mbind option_bind].
    subst ss'. by rewrite !lookupTab_setTab_ne by congruence. }
  split; [intros k k' i i'; apply rowsOfBranch_increasing|].
  destruct (appended_rows final (appendValuesOf waiting moved))
    as (HL & Hafter & Hbefore & _ & Hge & Hlen).
  fold L in HL, Hafter, Hbefore, Hge, Hlen.
  assert (Hn : length (appendValuesOf waiting moved) = length moved) by apply length_map.
  rewrite Hn in Hge, Hlen. rewrite Hc'. auto 10.
Qed.

Lemma orderId_of_serial orderId :
  nonEmpty (orderSerialOf (toString (orElse orderId (Str EmptyString)))) = true ->
  truthy orderId = true.
Proof.
  unfold orElse. destruct (truthy orderId); [reflexivity|].
  intros H. vm_compute in H. discriminate.
Qed.

(** X10. An order that was cancelled cannot be approved: after a
    cancellation that succeeded, in the same month and with the order data
    kept outside the master sheet, the approval of the same order identifier
    answers 400, no waiting rows for the serial, and changes no spreadsheet. *)
Theorem cancelled_order_not_approvable req now now2 w ui w1 ss waiting cancelled :
  let composite := toString (orElse (or_orderId req) (Str EmptyString)) in
  let serial := orderSerialOf composite in
  keyFile w = true -> faults w = [] ->
  truthy (or_username req) = true ->
  nonEmpty serial = true ->
  statusOf composite = "waiting"%string ->
  getUserInfoByUsername credentialsSheetId (or_username req) w = (Ok (Some ui), w1) ->
  toUpperCase (level ui) = "L2"%string ->
  budgetSheetId ui <> credentialsSheetId ->
  files w !! budgetSheetId ui = Some ss ->
  lookupTab ss "Waiting for Approval" = Some waiting ->
  lookupTab ss "Cancelled Orders" = Some cancelled ->
  rowsOfSerial host now waiting serial <> [] ->
  getFullYear host now2 = getFullYear host now ->
  getMonth host now2 = getMonth host now ->
  exists w' w'',
    cancelOrder host credentialsSheetId req now w = (Ok (json Success), w')
    /\ approveOrder host credentialsSheetId req now2 w'
       = (Ok (mkResponse 400 (Failure MsgNoWaitingForSerial)), w'')
    /\ files w'' = files w'.
Proof.
  intros composite serial Hk Hf Hu Hserial Hstatus Hui Hlevel Hne Hss Hw Hc Hmoved Hy Hm.
  pose proof (cancelOrder_run host credentialsSheetId req now w ui w1 ss waiting cancelled
                Hk Hf Hu Hserial Hstatus Hui Hlevel Hss Hw Hc Hmoved) as Hrun.
  cbv zeta in Hrun. fold composite in Hrun. fold serial in Hrun.
  set (moved := rowsOfSerial host now waiting serial) in *.
  set (ss' := setTab _ "Waiting for Approval" (clearRows waiting moved)) in Hrun.
  set (w' := mkWorld _ _ _ _) in Hrun.
  assert (Hsame : sameFile credentialsSheetId w w').
  { split; [| split; [exact Hf | reflexivity]].
    subst w'. simpl. by rewrite lookup_insert_ne. }
  destruct (DependsOn_getUserInfoByUsername credentialsSheetId (or_username req)
              w w' Hsame) as [Hres _].
  rewrite Hui in Hres. simpl in Hres.
  destruct (getUserInfoByUsername credentialsSheetId (or_username req) w')
    as [res w1'] eqn:Hui'.
  simpl in Hres. subst res.
  destruct (Quiet_getUserInfoByUsername _ _ _ _ _ Hui') as (Hf1' & _).
  assert (Hw' : lookupTab ss' "Waiting for Approval" = Some (clearRows waiting moved)).
  { subst ss'. apply (lookupTab_setTab _ _ waiting).
    rewrite lookupTab_setTab_ne by discriminate. exact Hw. }
  assert (Hid : orElse (orElse (or_orderId req) (or_serial req)) (Str EmptyString)
                = orElse (or_orderId req) (Str EmptyString)).
  { pose proof (orderId_of_serial _ Hserial) as Ht. unfold orElse. rewrite Ht.
    by rewrite Ht. }
  exists w', (logged w1' (CallGet (budgetSheetId ui) "Waiting for Approval" Whole)).
  split; [exact Hrun|]. split.
  - apply (approveOrder_none host credentialsSheetId req now2 w' ui w1' ss'
             (clearRows waiting moved)); try assumption; try reflexivity.
    + by rewrite Hid.
    + by rewrite Hid.
    + subst w'. simpl. apply lookup_insert_eq.
    + rewrite Hid. fold composite. fold serial.
      by apply rowsOfSerial_cleared.
  - simpl. exact Hf1'.
Qed.

End BranchApproval.

(** ** Calls under a schedule of faults *)

Lemma call_ok c w fs :
  faults w = false :: fs ->
  call c w = (Ok tt, mkWorld (files w) (keyFile w) fs (trace w ++ [c])).
Proof. intros H. unfold call. by rewrite H. Qed.

Lemma call_fail c w fs :
  faults w = true :: fs ->
  call c w = (Err StoreError, mkWorld (files w) (keyFile w) fs (trace w ++ [c])).
Proof. intros H. unfold call. by rewrite H. Qed.

Lemma values_get_ok id title rg w fs ss g :
  faults w = false :: fs -> files w !! id = Some ss -> lookupTab ss title = Some g ->
  values_get id title rg w
  = (Ok (readRange g rg),
     mkWorld (files w) (keyFile w) fs (trace w ++ [CallGet id title rg])).
Proof.
  intros Hf Hs Hg. unfold values_get.
  rewrite (bind_run _ _ _ _ _ (call_ok _ _ _ Hf)).
  unfold mbind, M_bind, getFile. simpl. rewrite Hs, Hg. reflexivity.
Qed.

Lemma values_update_ok id wr w fs ss g :
  faults w = false :: fs -> files w !! id = Some ss ->
  lookupTab ss (wsheet wr) = Some g ->
  values_update id wr w
  = (Ok tt,
     mkWorld (<[id := setTab ss (wsheet wr) (writeBlock g (wrow wr) (wcol wr) (wvalues wr))]>
                (files w))
             (keyFile w) fs (trace w ++ [CallUpdate id wr])).
Proof.
  intros Hf Hs Hg. unfold values_update.
  rewrite (bind_run _ _ _ _ _ (call_ok _ _ _ Hf)).
  unfold mbind, M_bind, getFile, applyWrite, putFile. simpl. rewrite Hs.
  rewrite (updTab_setTab _ _ _ _ Hg). reflexivity.
Qed.

Lemma values_batchUpdate_fail id ws w fs :
  faults w = true :: fs ->
  values_batchUpdate id ws w
  = (Err StoreError,
     mkWorld (files w) (keyFile w) fs (trace w ++ [CallBatch id ws])).
Proof.
  intros Hf. unfold values_batchUpdate.
  by rewrite (bind_err _ _ _ _ _ (call_fail _ _ _ Hf)).
Qed.

Lemma values_get_missing id title rg w ss :
  faults w = [] -> files w !! id = Some ss -> lookupTab ss title = None ->
  values_get id title rg w = (Err StoreError, logged w (CallGet id title rg)).
Proof.
  intros Hf Hs Hg. unfold values_get.
  rewrite (bind_run _ _ _ _ _ (call_run _ _ Hf)).
  unfold mbind, M_bind, getFile. simpl. rewrite Hs, Hg. reflexivity.
Qed.

Section Partial.

Variable host : Host.
Variable credentialsSheetId : string.

(** X11. An approval is not atomic: when the rows were appended to 'Final
    Orders' and the call that clears them fails, the answer is 500, the
    rows are in 'Final Orders' and the waiting sheet still has them as they
    were. *)
Theorem approve_fault_after_append req now w ui w1 ss waiting final :
  let composite :=
    toString (orElse (orElse (or_orderId req) (or_serial req)) (Str EmptyString)) in
  let serial := orderSerialOf composite in
  let moved := rowsOfSerial host now waiting serial in
  let L := lastRowOf (readRange final rangeAA) in
  let id := budgetSheetId ui in
  keyFile w = true ->
  truthy (or_username req) = true ->
  nonEmpty serial = true ->
  statusOf composite = "waiting"%string ->
  getUserInfoByUsername credentialsSheetId (or_username req) w = (Ok (Some ui), w1) ->
  faults w1 = [false; false; false; true] ->
  toUpperCase (level ui) = "L2"%string ->
  files w !! id = Some ss ->
  lookupTab ss "Waiting for Approval" = Some waiting ->
  lookupTab ss "Final Orders" = Some final ->
  moved <> [] ->
  exists w',
    approveOrder host credentialsSheetId req now w
    = (Ok (mkResponse 500 (Failure MsgApproveError)), w')
    /\ sheetOf w' id "Waiting for Approval" = waiting
    /\ (forall k i r, moved !! k = Some i -> waiting !! i = Some r ->
          exists r', sheetOf w' id "Final Orders" !! (L + k)%nat = Some r'
                     /\ take 11 r' = map (cellStr r) (seq 0 11)).
Proof.
  intros composite serial moved L id Hk Hu Hserial Hstatus Hui Hq Hlevel Hss Hw Hfin Hmoved.
  destruct (Quiet_getUserInfoByUsername _ _ _ _ _ Hui) as (Hf1 & Hk1 & _ & _).
  assert (Hss1 : files w1 !! id = Some ss) by (by rewrite Hf1).
  set (vals := appendValuesOf waiting moved).
  assert (Hvals : vals <> []).
  { subst vals. unfold appendValuesOf. destruct moved; [congruence | discriminate]. }
  set (ss' := setTab ss "Final Orders" (writeBlock final L 0 vals)).
  set (wa := mkWorld (files w1) (keyFile w1) [false; false; true]
               (trace w1 ++ [CallGet id "Waiting for Approval" Whole])).
  assert (Ha : values_get id "Waiting for Approval" Whole w1 = (Ok waiting, wa))
    by exact (values_get_ok _ _ Whole _ _ _ _ Hq Hss1 Hw).
  set (wb := mkWorld (files w1) (keyFile w1) [false; true]
               (trace wa ++ [CallGet id "Final Orders" rangeAA])).
  assert (Hb : values_get id "Final Orders" rangeAA wa
               = (Ok (readRange final rangeAA), wb))
    by exact (values_get_ok _ _ rangeAA wa _ _ _ eq_refl Hss1 Hfin).
  set (wc := mkWorld (<[id := ss']> (files w1)) (keyFile w1) [true]
               (trace wb ++ [CallUpdate id (mkWrite "Final Orders" L 0 vals)])).
  assert (Hc : values_update id (mkWrite "Final Orders" L 0 vals) wb = (Ok tt, wc))
    by exact (values_update_ok _ (mkWrite "Final Orders" L 0 vals) wb _ _ _
                eq_refl Hss1 Hfin).
  assert (Happend : appendRowsAtoK id "Final Orders" vals wa = (Ok tt, wc)).
  { unfold appendRowsAtoK. rewrite (match_nonempty vals _ _ Hvals).
    rewrite (bind_run _ _ _ _ _ Hb). exact Hc. }
  set (wd := mkWorld (files wc) (keyFile wc) []
               (trace wc ++ [CallBatch id (clearDataOf moved)])).
  assert (Hd : values_batchUpdate id (clearDataOf moved) wc = (Err StoreError, wd))
    by exact (values_batchUpdate_fail _ _ wc _ eq_refl).
  exists wd. split.
  - unfold approveOrder, tryCatch.
    fold composite. fold serial. rewrite Hu, Hserial, Hstatus, String.eqb_refl.
    cbn [negb orb].
    rewrite (bind_run _ _ _ _ _ (getSheetsClient_run _ Hk)).
    rewrite (bind_run _ _ _ _ _ Hui).
    cbv beta iota. rewrite Hlevel, String.eqb_refl. cbn [negb].
    fold id. rewrite (bind_run _ _ _ _ _ Ha). fold moved. fold vals.
    rewrite (match_nonempty moved _ _ Hmoved).
    rewrite (bind_run _ _ _ _ _ Happend).
    rewrite (bind_err _ _ _ _ _ Hd). reflexivity.
  - assert (Hfiles : files wd !! id = Some ss') by apply lookup_insert_eq.
    split.
    + apply (sheetOf_after _ _ ss' _ _ Hfiles).
      subst ss'. by rewrite lookupTab_setTab_ne by discriminate.
    + intros k i r Hk' Hr.
      rewrite (sheetOf_after _ _ ss' _ (writeBlock final L 0 vals) Hfiles);
        [| subst ss'; by apply (lookupTab_setTab _ _ final)].
      destruct (move_rows_effect waiting final moved
                  (fun i => moved_bound host now waiting serial i)) as (_ & _ & H3 & _).
      by apply (H3 k i r).
Qed.

(** X12. A submission whose rows cannot be appended, the target sheet not
    being there, uses up a serial all the same: the answer is 500, no order
    row is written, and the counter cell holds the serial that was issued
    for the order. *)
Theorem submit_failure_uses_serial req now w ui w1 ss counter items :
  let userLevel := toUpperCase (if nonEmpty (level ui) then level ui else "L1") in
  let targetSheet :=
    if String.eqb userLevel "L2" then "Final Orders"%string
    else "Waiting for Approval"%string in
  let orderSerial := newSerialOf (trim (cellStr (default [] (counter !! 1%nat)) 1)) in
  let id := budgetSheetId ui in
  sr_orderItems req = Some items -> items <> [] ->
  truthy (sr_branchName req) = true ->
  keyFile w = true -> faults w = [] ->
  getUserInfoByUsername credentialsSheetId (sr_username req) w = (Ok (Some ui), w1) ->
  negb (String.eqb userLevel "L2") && nonEmpty (trim (branch ui))
    && negb (strictEqStr (trim (branch ui)) (sr_branchName req)) = false ->
  files w !! id = Some ss ->
  lookupTab ss "Serial Numbers" = Some counter ->
  lookupTab ss targetSheet = None ->
  exists w',
    submitOrder host credentialsSheetId req now w
    = (Ok (mkResponse 500 (Failure MsgSubmitError)), w')
    /\ cellStr (default [] (sheetOf w' id "Serial Numbers" !! 1%nat)) 1 = orderSerial
    /\ writesOf (trace w')
       = writesOf (trace w)
         ++ [CallUpdate id (mkWrite "Serial Numbers" 1 1 [[Str orderSerial]])].
Proof.
  intros userLevel targetSheet orderSerial id
         Hitems Hne Hbranch Hk Hf Hui Hallowed Hss Hcounter Htarget.
  destruct (Quiet_getUserInfoByUsername _ _ _ _ _ Hui) as (Hf1 & Hk1 & Hwr & Hq1).
  specialize (Hq1 Hf).
  assert (Hts : targetSheet <> "Serial Numbers"%string).
  { subst targetSheet. destruct (String.eqb userLevel "L2"); discriminate. }
  assert (Hss1 : files w1 !! id = Some ss) by (by rewrite Hf1).
  set (ss' := setTab ss "Serial Numbers" (writeBlock counter 1 1 [[Str orderSerial]])).
  eexists. split.
  - destruct items as [|item0 items0]; [congruence|].
    unfold submitOrder, tryCatch. rewrite Hitems, Hbranch. cbn [negb].
    rewrite (bind_run _ _ _ _ _ (getSheetsClient_run _ Hk)).
    rewrite (bind_run _ _ _ _ _ Hui).
    cbv beta iota zeta. fold userLevel. rewrite Hallowed. fold targetSheet.
    rewrite (bind_run _ _ _ _ _
              (getNextOrderSerial_run _ _ _ _ false Hss1 Hcounter Hq1)).
    fold orderSerial. cbv beta iota.
    erewrite bind_err;
      [| unfold appendRowsAtoK; cbn [map];
         erewrite bind_err; [reflexivity|];
         apply (values_get_missing _ _ _ _ ss');
           [ reflexivity
           | simpl; apply lookup_insert_eq
           | subst ss'; rewrite lookupTab_setTab_ne by exact Hts; exact Htarget ] ].
    reflexivity.
  - cbn [logged files trace]. split.
    + erewrite sheetOf_after;
        [apply counter_cell | apply lookup_insert_eq | by apply (lookupTab_setTab _ _ counter)].
    + rewrite !writesOf_app, Hwr. cbn. by rewrite app_nil_r.
Qed.

End Partial.

(** ** What the handlers answer, and when they write *)

Lemma Ensures_ret {A : Type} (P : A -> Prop) (a : A) : P a -> Ensures P (mret a).
Proof. intros H w a' w' [= <- <-]. exact H. Qed.

Lemma Ensures_throw {A : Type} (P : A -> Prop) (e : Error) : Ensures P (@throw A e).
Proof. intros w a w' H. discriminate. Qed.

Lemma Ensures_bind {A B : Type} (P : B -> Prop) (m : M A) (f : A -> M B) :
  (forall a, Ensures P (f a)) -> Ensures P (m ≫= f).
Proof.
  intros Hf w b w'. unfold mbind, M_bind.
  destruct (m w) as [[a|e] w1]; [apply Hf | discriminate].
Qed.

Lemma Ensures_answer {A : Type} (P : A -> Prop) (m : M A) (a500 : A) :
  Ensures P m -> P a500 ->
  forall w, exists a w', tryCatch m (fun _ => mret a500) w = (Ok a, w') /\ P a.
Proof.
  intros Hm H500 w. unfold tryCatch.
  destruct (m w) as [[a|e] w1] eqn:E; [exists a, w1 | exists a500, w1];
    (split; [reflexivity|]); [exact (Hm _ _ _ E) | exact H500].
Qed.

Lemma QuietWhen_ret {A : Type} (P : A -> Prop) (a : A) : QuietWhen P (mret a).
Proof. intros w a' w' [= <- <-] _. auto. Qed.

Lemma QuietWhen_throw {A : Type} (P : A -> Prop) (e : Error) : QuietWhen P (@throw A e).
Proof. intros w a w' H. discriminate. Qed.

Lemma QuietWhen_bind {A B : Type} (P : B -> Prop) (m : M A) (f : A -> M B) :
  Quiet m -> (forall a, QuietWhen P (f a)) -> QuietWhen P (m ≫= f).
Proof.
  intros Hm Hf w b w'. unfold mbind, M_bind.
  destruct (m w) as [[a|e] w1] eqn:E; [|discriminate].
  intros H HP. destruct (Hm _ _ _ E) as (H1 & _ & H3 & _).
  destruct (Hf a _ _ _ H HP) as (H1' & H3'). split; congruence.
Qed.

Lemma QuietWhen_never {A : Type} (P : A -> Prop) (m : M A) :
  Ensures (fun a => ~ P a) m -> QuietWhen P m.
Proof. intros Hm w a w' E HP. destruct (Hm _ _ _ E HP). Qed.

Lemma QuietWhen_tryCatch {A : Type} (P : A -> Prop) (m : M A) (a500 : A) :
  QuietWhen P m -> ~ P a500 -> QuietWhen P (tryCatch m (fun _ => mret a500)).
Proof.
  intros Hm H500 w a w'. unfold tryCatch.
  destruct (m w) as [[a0|e] w1] eqn:E.
  - intros [= <- <-]. exact (Hm _ _ _ E).
  - intros [= <- <-] HP. contradiction.
Qed.

Lemma Quiet_budgetScanTabs id username tabs : Quiet (budgetScanTabs id username tabs).
Proof.
  induction tabs as [|t rest IH]; simpl; [apply Quiet_throw|].
  apply Quiet_bind; [apply Quiet_values_get | intros rows].
  destruct (find _ rows); [|exact IH].
  apply Quiet_bind; [apply Quiet_values_get | intros g].
  match goal with |- Quiet (if ?b then _ else _) => destruct b end;
    [apply Quiet_ret | apply Quiet_throw].
Qed.

Lemma Quiet_resolveBudgetSheetId id username :
  Quiet (resolveBudgetSheetIdFromF2ByUsername id username).
Proof.
  unfold resolveBudgetSheetIdFromF2ByUsername.
  apply Quiet_bind; [apply Quiet_spreadsheets_get | intros titles].
  apply Quiet_budgetScanTabs.
Qed.

Lemma Quiet_findClientTab id username password :
  Quiet (findClientTabAndSheetIdByUser id username password).
Proof.
  unfold findClientTabAndSheetIdByUser.
  apply Quiet_bind; [apply Quiet_spreadsheets_get | intros titles].
  apply Quiet_loginScanTabs.
Qed.

Ltac quiet :=
  cbv zeta;
  repeat first
    [ apply Quiet_ret | apply Quiet_throw | apply Quiet_getSheetsClient
    | apply Quiet_getUserInfoByUsername | apply Quiet_values_get
    | apply Quiet_resolveBudgetSheetId | apply Quiet_findClientTab
    | apply Quiet_tryCatch; [|intros]
    | apply Quiet_bind; [|intros]
    | match goal with
      | |- Quiet (if ?b then _ else _) => destruct b
      | |- Quiet (match ?x with _ => _ end) => destruct x
      end ].

Ltac ensures :=
  cbv zeta;
  repeat first
    [ apply Ensures_ret; first [ reflexivity | unfold refuses, refused; simpl; lia ]
    | apply Ensures_throw
    | apply Ensures_bind; intros
    | match goal with
      | |- Ensures _ (if ?b then _ else _) => destruct b
      | |- Ensures _ (match ?x with _ => _ end) => destruct x
      end ].

Ltac quiet_when :=
  cbv zeta;
  repeat first
    [ apply QuietWhen_ret
    | apply QuietWhen_throw
    | apply QuietWhen_bind; [ solve [quiet] | intros ]
    | apply QuietWhen_never; solve [ensures]
    | match goal with
      | |- QuietWhen _ (if ?b then _ else _) => destruct b
      | |- QuietWhen _ (match ?x with _ => _ end) => destruct x
      end ].

Section Answers.

Variable host : Host.
Variable credentialsSheetId : string.

(** X13. The four handlers that write orders always answer, whatever the
    request, the store and the faults, and the status of the answer agrees
    with its body: 200 with [success: true], or 400, 403 or 500 with
    [success: false]. *)
Theorem order_handlers_status_agrees now w :
  (forall req, exists r w',
      approveOrder host credentialsSheetId req now w = (Ok r, w')
      /\ statusAgrees r = true)
  /\ (forall req, exists r w',
        cancelOrder host credentialsSheetId req now w = (Ok r, w')
        /\ statusAgrees r = true)
  /\ (forall req, exists r w',
        updateWaitingOrder host credentialsSheetId req now w = (Ok r, w')
        /\ statusAgrees r = true)
  /\ (forall req, exists r w',
        submitOrder host credentialsSheetId req now w = (Ok r, w')
        /\ statusAgrees r = true).
Proof.
  repeat split; intros;
    unfold approveOrder, cancelOrder, updateWaitingOrder, submitOrder;
    (apply (Ensures_answer (fun r => statusAgrees r = true)); [|reflexivity]);
    ensures.
Qed.

(** X14. A request that is refused with 400 or 403 has written nothing: the
    handlers that write orders, approve a branch or edit approved lines
    validate before they write, so that such an answer leaves every
    spreadsheet as it was and makes no write call. *)
Theorem refused_requests_write_nothing now :
  (forall req, QuietWhen refuses (approveOrder host credentialsSheetId req now))
  /\ (forall req, QuietWhen refuses (cancelOrder host credentialsSheetId req now))
  /\ (forall req, QuietWhen refuses (updateWaitingOrder host credentialsSheetId req now))
  /\ (forall req, QuietWhen refuses (submitOrder host credentialsSheetId req now))
  /\ (forall req, QuietWhen refused (approveBranchOrder host credentialsSheetId req now))
  /\ (forall req, QuietWhen refused (updatePreviousOrders host credentialsSheetId req now)).
Proof.
  split; [|split; [|split; [|split; [|split]]]]; intros req;
    unfold approveOrder, cancelOrder, updateWaitingOrder, submitOrder,
      approveBranchOrder, updatePreviousOrders, withL2User;
    (apply QuietWhen_tryCatch; [| unfold refuses, refused; simpl; lia]);
    quiet_when.
Qed.

(** X15. The login and the handlers that report (branches, products,
    approved lines, summaries, details, pending orders, exports) are
    read-only: whatever they answer, no spreadsheet has changed, no write
    call was made and no fault was met that was not pending. *)
Theorem reports_never_write now :
  (forall req, Quiet (validateLogin credentialsSheetId req))
  /\ (forall u, Quiet (clientBranches credentialsSheetId u))
  /\ (forall u, Quiet (branchesForL2 credentialsSheetId u))
  /\ (forall u, Quiet (loadOrderDataWithSpending credentialsSheetId u))
  /\ (forall b u, Quiet (previousOrders host credentialsSheetId b u now))
  /\ (forall u, Quiet (approvalsSummary host credentialsSheetId u now))
  /\ (forall u b, Quiet (approvalDetails host credentialsSheetId u b now))
  /\ (forall u, Quiet (pendingOrders host credentialsSheetId u now))
  /\ (forall u, Quiet (ordersSummary host credentialsSheetId u now))
  /\ (forall q, Quiet (orderDetails host credentialsSheetId q now))
  /\ (forall u s, Quiet (exportOrdersExcel host credentialsSheetId u s now))
  /\ (forall u s, Quiet (exportOrderExcel host credentialsSheetId u s now)).
Proof.
  split; [|split; [|split; [|split; [|split; [|split; [|split; [|split; [|split;
    [|split; [|split]]]]]]]]]]; intros;
    unfold validateLogin, clientBranches, branchesForL2, loadOrderDataWithSpending,
      previousOrders, approvalsSummary, approvalDetails, pendingOrders, ordersSummary,
      orderDetails, exportOrdersExcel, exportOrderExcel, withL2User;
    quiet.
Qed.

End Answers.

(** ** Sets kept in insertion order *)

Lemma In_setAdd x y l : In y (setAdd x l) <-> y = x \/ In y l.
Proof.
  unfold setAdd. destruct (existsb (String.eqb x) l) eqn:E.
  - split; [auto|]. intros [->|H]; [|exact H].
    apply existsb_exists in E. destruct E as (z & Hz & Ez).
    apply String.eqb_eq in Ez. by subst.
  - rewrite in_app_iff. simpl. split; [intros [H|[<-|[]]]; auto | intros [->|H]; auto].
Qed.

Lemma NoDup_setAdd x l : NoDup l -> NoDup (setAdd x l).
Proof.
  intros H. unfold setAdd. destruct (existsb (String.eqb x) l) eqn:E; [exact H|].
  apply (proj2 (NoDup_app l [x])). split; [exact H|]. split.
  - intros y Hy Hx. apply list_elem_of_In in Hy.
    apply list_elem_of_In in Hx. destruct Hx as [<-|[]].
    assert (existsb (String.eqb x) l = true); [|congruence].
    apply existsb_exists. exists x. split; [exact Hy | apply String.eqb_refl].
  - apply NoDup_singleton.
Qed.

Lemma branchesOf_from (rows : list (list string)) : forall acc,
  NoDup acc ->
  let res := fold_left
    (fun set r =>
       let b := trim (cellStr r 0) in
       if nonEmpty b then setAdd b set else set) rows acc in
  NoDup res
  /\ (forall b, In b res <->
        In b acc \/ (nonEmpty b = true /\ exists r, In r rows /\ trim (cellStr r 0) = b)).
Proof.
  induction rows as [|r rows IH]; intros acc Hacc; simpl.
  - split; [exact Hacc|]. intros b. split; [auto|].
    intros [H|(_ & r & [] & _)]. exact H.
  - destruct (nonEmpty (trim (cellStr r 0))) eqn:E.
    + destruct (IH _ (NoDup_setAdd (trim (cellStr r 0)) acc Hacc)) as [H1 H2].
      split; [exact H1|]. intros b. rewrite H2, In_setAdd. split.
      * intros [[->|H]|(Hb & r' & Hr' & Eb)]; [right | left | right]; eauto 6.
      * intros [H|(Hb & r' & [<-|Hr'] & Eb)]; [left; right | left; left | right];
          eauto 6.
    + destruct (IH _ Hacc) as [H1 H2]. split; [exact H1|]. intros b. rewrite H2. split.
      * intros [H|(Hb & r' & Hr' & Eb)]; [left | right]; eauto 6.
      * intros [H|(Hb & r' & [<-|Hr'] & Eb)]; [left | | right]; eauto 6.
        congruence.
Qed.

(** X16. The branches of a client tab, as both branch handlers list them:
    every trimmed text of column C that is not empty, once each. *)
Theorem branches_distinct (rows : list (list string)) :
  NoDup (branchesOf rows)
  /\ (forall b, In b (branchesOf rows) <->
        nonEmpty b = true /\ exists r, In r rows /\ trim (cellStr r 0) = b).
Proof.
  destruct (branchesOf_from rows [] (NoDup_nil_2)) as [H1 H2].
  split; [exact H1|]. intros b. unfold branchesOf. rewrite H2.
  split; [intros [[]|H]; exact H | auto].
Qed.

(** ** The scans, as selections of rows *)

Section Selections.

Variable host : Host.

Lemma scanFrom_collect {B : Type} now (p : list string -> bool) (f : list string -> B)
  rows : forall i acc,
  scanFrom host now (fun _ r acc => if p r then acc ++ [f r] else acc) i rows acc
  = acc ++ map f (List.filter (fun r => inMonth host now r && p r) rows).
Proof.
  induction rows as [|r rest IH]; intros i acc; simpl; [by rewrite app_nil_r|].
  rewrite IH. destruct (inMonth host now r); simpl; [|reflexivity].
  destruct (p r); simpl; [by rewrite <- app_assoc | reflexivity].
Qed.

Lemma selectFrom_rows (q : list string -> bool) (all : list (list string)) rows :
  forall i, rows = drop i all ->
  map (fun j => default [] (all !! j)) (selectFrom q i rows) = List.filter q rows.
Proof.
  induction rows as [|r rest IH]; intros i Hd; simpl; [reflexivity|].
  assert (Hr : all !! i = Some r).
  { rewrite <- (Nat.add_0_r i), <- lookup_drop, <- Hd. reflexivity. }
  assert (Hrest : rest = drop (S i) all).
  { replace (S i) with (i + 1)%nat by lia.
    rewrite <- drop_drop, <- Hd. reflexivity. }
  destruct (q r); simpl; rewrite (IH _ Hrest); [by rewrite Hr | reflexivity].
Qed.

Lemma length_selectFrom (q : list string -> bool) rows : forall i,
  length (selectFrom q i rows) = length (List.filter q rows).
Proof.
  induction rows as [|r rest IH]; intros i; simpl; [reflexivity|].
  destruct (q r); simpl; by rewrite IH.
Qed.

(** X17. The details of a branch list the rows the approval of the branch
    moves, in their order: one item per row of the current month whose
    trimmed branch is the branch asked for, read off that row. *)
Theorem approvalDetails_rows now codeToImage rows branchName :
  approvalDetailsScan host now codeToImage rows branchName
  = map (fun i => let r := default [] (rows !! i) in (lineOf r, imageOf codeToImage r))
        (rowsOfBranch host now rows (Str branchName)).
Proof.
  unfold approvalDetailsScan, scanCurrentMonth.
  rewrite (scan_ext host now _
             (fun _ r acc =>
                if String.eqb (trim (cellStr r 1)) branchName
                then acc ++ [(lineOf r, imageOf codeToImage r)] else acc));
    [| intros i r a; by destruct (String.eqb _ _)].
  rewrite (scanFrom_collect now _ (fun r => (lineOf r, imageOf codeToImage r))).
  rewrite rowsOfBranch_select. cbn [app strictEqStr].
  rewrite <- (selectFrom_rows _ rows (drop 1 rows) 1 eq_refl), map_map.
  reflexivity.
Qed.

Lemma scanFrom_fst_collect {B C : Type} now (q : list string -> bool)
  (f : list string -> B)
  (body : nat -> list string -> list B * C -> list B * C) :
  (forall i r items c,
     fst (body i r (items, c)) = if q r then items ++ [f r] else items) ->
  forall rows i items c,
    fst (scanFrom host now body i rows (items, c))
    = items ++ map f (List.filter (fun r => inMonth host now r && q r) rows).
Proof.
  intros Hbody rows. induction rows as [|r rest IH]; intros i items c.
  - simpl. by rewrite app_nil_r.
  - cbn [scanFrom List.filter]. destruct (inMonth host now r); cbn [andb].
    + specialize (Hbody i r items c).
      destruct (body i r (items, c)) as [items' c']. simpl in Hbody. subst items'.
      rewrite IH. destruct (q r); cbn [map]; [by rewrite <- app_assoc | reflexivity].
    + apply IH.
Qed.

(** X18. The details of an order asked for by serial list the rows an
    approval or a cancellation of that serial moves, in their order. *)
Theorem orderDetails_by_serial_rows now codeToImage rows branchNameQuery serialQuery :
  nonEmpty serialQuery = true ->
  fst (orderDetailsScan host now codeToImage rows branchNameQuery serialQuery)
  = map (fun i => let r := default [] (rows !! i) in (lineOf r, imageOf codeToImage r))
        (rowsOfSerial host now rows serialQuery).
Proof.
  intros Hs. unfold orderDetailsScan, scanCurrentMonth.
  rewrite (scanFrom_fst_collect now
             (fun r => String.eqb (trim (cellStr r 10)) serialQuery)
             (fun r => (lineOf r, imageOf codeToImage r)));
    [| intros i r items c; cbv zeta; rewrite Hs;
       by destruct (String.eqb (trim (cellStr r 10)) serialQuery)].
  rewrite rowsOfSerial_select. cbn [app].
  rewrite <- (selectFrom_rows _ rows (drop 1 rows) 1 eq_refl), map_map.
  reflexivity.
Qed.

Lemma approvalsSummary_from now b rows :
  nonEmpty b = true ->
  inherited b = false ->
  forall i (acc : gmap string BranchSummary),
    (forall e, acc !! b = Some e -> bs_branchName e = b) ->
    let q := fun r => inMonth host now r && String.eqb (trim (cellStr r 1)) b in
    let n := Z.of_nat (length (List.filter q rows)) in
    let res := scanFrom host now
      (fun _ r (summary : gmap string BranchSummary) =>
         let branch := trim (cellStr r 1) in
         if negb (nonEmpty branch) then summary else
         let l := lineOf r in
         let add e :=
           <[branch := mkBranchSummary (bs_branchName e)
                         (nadd (bs_totalAmount e) (ln_subtotal l))
                         (nadd (bs_totalQty e) (ln_quantity l))
                         (bs_lines e + 1)]> summary in
         match readKey summary branch with
         | Own e => add e
         | Absent => add (mkBranchSummary branch (ofZ 0) (ofZ 0) 0)
         | Inherited => summary
         end)
      i rows acc in
    match res !! b with
    | Some e => bs_branchName e = b
                /\ bs_lines e = default 0 (bs_lines <$> acc !! b) + n
                /\ (acc !! b = None -> 0 < n)
    | None => acc !! b = None /\ n = 0
    end.
Proof.
  intros Hb Hplain. induction rows as [|r rest IH]; intros i acc Hname; simpl.
  - destruct (acc !! b) as [e|] eqn:E; simpl.
    + split; [by apply Hname|]. split; [lia | discriminate].
    + auto.
  - destruct (inMonth host now r) eqn:Em; simpl; [|by apply IH].
    destruct (nonEmpty (trim (cellStr r 1))) eqn:En; simpl.
    + destruct (String.eqb_spec (trim (cellStr r 1)) b) as [Eb|Eb].
      * rewrite Eb, (readKey_plain acc b Hplain).
        destruct (acc !! b) as [a0|] eqn:Ea; cbv zeta.
        all: match goal with
             | |- context [scanFrom _ _ _ _ _ ?a] => set (acc' := a)
             end.
        all: assert (Hname' : forall e, acc' !! b = Some e -> bs_branchName e = b)
          by (intros e; subst acc'; rewrite lookup_insert_eq; intros [= <-]; simpl;
              first [ by apply Hname | reflexivity ]).
        all: specialize (IH (S i) acc' Hname'); cbv zeta in IH.
        all: destruct (scanFrom _ _ _ _ _ acc' !! b) as [e|];
          [ destruct IH as (H1 & H2 & _); split; [exact H1|];
            subst acc'; rewrite lookup_insert_eq in H2; simpl in H2;
            split; [ rewrite H2; simpl; lia | intros _; cbn [length]; lia ]
          | destruct IH as (H1 & _); subst acc'; rewrite lookup_insert_eq in H1;
            discriminate ].
      * assert (Hne : trim (cellStr r 1) <> b) by exact Eb.
        set (acc' := match readKey acc (trim (cellStr r 1)) with
                     | Own e => _ | Inherited => _ | Absent => _ end).
        assert (Hl : acc' !! b = acc !! b).
        { subst acc'. destruct (readKey acc (trim (cellStr r 1)));
            [ by rewrite lookup_insert_ne | reflexivity | by rewrite lookup_insert_ne ]. }
        assert (Hname' : forall e, acc' !! b = Some e -> bs_branchName e = b)
          by (intros e; rewrite Hl; apply Hname).
        specialize (IH (S i) acc' Hname'). cbv zeta in IH. rewrite Hl in IH.
        exact IH.
    + destruct (String.eqb_spec (trim (cellStr r 1)) b) as [Eb|Eb].
      * rewrite Eb in En. congruence.
      * by apply IH.
Qed.

(** X19. The summary of the approvals counts, for a branch whose name is not
    the name of a property every object inherits, the rows the approval of
    the branch moves: the branch has an entry when there is such a row and
    only then, the entry carries the name of the branch, and its [lines] is
    the number of these rows. *)
Theorem approvalsSummary_counts_branch_rows now rows b :
  nonEmpty b = true ->
  inherited b = false ->
  match approvalsSummaryScan host now rows !! b with
  | Some e =>
      bs_branchName e = b
      /\ bs_lines e = Z.of_nat (length (rowsOfBranch host now rows (Str b)))
      /\ 0 < bs_lines e
  | None => rowsOfBranch host now rows (Str b) = []
  end.
Proof.
  intros Hb Hplain. unfold approvalsSummaryScan, scanCurrentMonth.
  pose proof (approvalsSummary_from now b (drop 1 rows) Hb Hplain 1%nat ∅) as H.
  cbv zeta in H. rewrite lookup_empty in H. simpl in H.
  rewrite rowsOfBranch_select, length_selectFrom. simpl strictEqStr.
  destruct (scanFrom _ _ _ _ _ ∅ !! b) as [e|].
  - destruct H as (H1 & H2 & H3); [intros e'; discriminate|].
    split; [exact H1|]. split; [exact H2|]. rewrite H2. by apply H3.
  - destruct H as (_ & H2); [intros e'; discriminate|].
    apply length_zero_iff_nil. rewrite length_selectFrom. lia.
Qed.

End Selections.

(** ** Totals and requestors of the summaries *)

Lemma sumOf_snoc l x : sumOf (l ++ [x]) = nadd (sumOf l) x.
Proof. unfold sumOf. by rewrite fold_left_app. Qed.

Lemma NoDup_addRequestor (r : list string) l : NoDup l -> NoDup (addRequestor r l).
Proof.
  intros H. unfold addRequestor.
  destruct (nonEmpty (trim (cellStr r 2))); [by apply NoDup_setAdd | exact H].
Qed.

Lemma entrySound_step total subtotals requestors x (r : list string) :
  (subtotals = [] -> total = ofZ 0) ->
  (subtotals <> [] -> entrySound total subtotals requestors) ->
  NoDup requestors ->
  entrySound (nadd total x) (subtotals ++ [x]) (addRequestor r requestors).
Proof.
  intros H0 H1 Hnd. split; [|split].
  - rewrite sumOf_snoc. destruct subtotals as [|y l].
    + by rewrite (H0 eq_refl).
    + destruct H1 as (-> & _); [discriminate | reflexivity].
  - by destruct subtotals.
  - by apply NoDup_addRequestor.
Qed.

Section Totals.

Variable host : Host.

Lemma summaryProcessSheet_sound now codeToImage rows statusKey
  (summaryMap : gmap string OrderEntry) :
  (forall k e, summaryMap !! k = Some e ->
     entrySound (oe_total e) (map (fun it => ln_subtotal (fst it)) (oe_items e))
                (oe_requestors e)) ->
  forall k e,
    summaryProcessSheet host now codeToImage rows statusKey summaryMap !! k = Some e ->
    entrySound (oe_total e) (map (fun it => ln_subtotal (fst it)) (oe_items e))
               (oe_requestors e).
Proof.
  intros Hinit. unfold summaryProcessSheet.
  apply (scanCurrentMonth_invariant host
           (fun m : gmap string OrderEntry => forall k e, m !! k = Some e ->
              entrySound (oe_total e) (map (fun it => ln_subtotal (fst it)) (oe_items e))
                         (oe_requestors e))); [exact Hinit|].
  intros i r a _ _ _ Ha k e. cbv zeta.
  destruct (nonEmpty (trim (cellStr r 1))); cbn [negb]; [|apply Ha].
  destruct (nonEmpty (trim (cellStr r 10))); cbn [negb]; [|apply Ha].
  set (key := trim (cellStr r 10) +:+ "__" +:+ statusKey).
  destruct (decide (k = key)) as [->|Hne]; [|rewrite lookup_insert_ne by congruence; apply Ha].
  rewrite lookup_insert_eq. intros [= <-]. cbn [oe_total oe_items oe_requestors].
  rewrite map_app. cbn [map fst].
  destruct (a !! key) as [e0|] eqn:E; cbn [default from_option Datatypes.id].
  - destruct (Ha _ _ E) as (H1 & H2 & H3).
    apply entrySound_step; [intros H; contradiction | intros _; by split | exact H3].
  - apply entrySound_step; [reflexivity | intros H; by destruct H | apply NoDup_nil_2].
Qed.

(** X20. In the pending orders and in the summary by status, whatever the
    sheets hold: the total of an entry is the sum of the subtotals of its
    items, added in the order of the rows; an entry has at least one item;
    no requestor is listed twice; and the entry of a branch in the pending
    orders carries the name of that branch. *)
Theorem totals_are_sums now :
  (forall rows b e, pendingOrdersScan host now rows !! b = Some e ->
     pe_branchName e = b
     /\ entrySound (pe_total e) (map ln_subtotal (pe_items e)) (pe_requestors e))
  /\ (forall codeToImage waiting final cancelled k e,
        summaryProcessSheet host now codeToImage cancelled "Cancelled"
          (summaryProcessSheet host now codeToImage final "Approved"
             (summaryProcessSheet host now codeToImage waiting "Waiting" ∅)) !! k = Some e ->
        entrySound (oe_total e) (map (fun it => ln_subtotal (fst it)) (oe_items e))
                   (oe_requestors e)).
Proof.
  split.
  - intros rows. unfold pendingOrdersScan.
    apply (scanCurrentMonth_invariant host
             (fun m : gmap string PendingEntry => forall b e, m !! b = Some e ->
                pe_branchName e = b
                /\ entrySound (pe_total e) (map ln_subtotal (pe_items e))
                              (pe_requestors e))).
    + intros b e. by rewrite lookup_empty.
    + intros i r a _ _ _ Ha b e. cbv zeta.
      destruct (nonEmpty (trim (cellStr r 1))); cbn [negb]; [|apply Ha].
      set (key := trim (cellStr r 1)).
      destruct (decide (b = key)) as [->|Hne];
        [|rewrite lookup_insert_ne by congruence; apply Ha].
      rewrite lookup_insert_eq. intros [= <-].
      cbn [pe_branchName pe_total pe_items pe_requestors]. rewrite map_app. cbn [map].
      destruct (a !! key) as [e0|] eqn:E; cbn [default from_option Datatypes.id].
      * destruct (Ha _ _ E) as (H0 & H1 & H2 & H3). split; [exact H0|].
        apply entrySound_step; [intros H; contradiction | intros _; by split | exact H3].
      * split; [reflexivity|].
        apply entrySound_step; [reflexivity | intros H; by destruct H | apply NoDup_nil_2].
  - intros codeToImage waiting final cancelled.
    repeat apply summaryProcessSheet_sound.
    intros k e. by rewrite lookup_empty.
Qed.

(** ** The approved lines of a branch *)

Lemma previousOrders_index_from now (codeToProduct : gmap string (value * value))
  branchName rows :
  forall i (acc1 : gmap string PreviousOrder) (acc2 : gmap string nat),
    po_rowIndex <$> acc1 = acc2 ->
    po_rowIndex <$>
      scanFrom host now
        (fun i r (ordersMap : gmap string PreviousOrder) =>
           if negb (strictEq (cellAt r 1) branchName) then ordersMap else
           let productCode := cellAt r 3 in
           let quantity := orZero (parseInt (cellAt r 8)) in
           let product := codeToProduct !! toString productCode in
           <[toString productCode :=
               mkPreviousOrder productCode
                 (orElse (default Undefined (fst <$> product)) productCode)
                 (orElse (default Undefined (snd <$> product)) (Str EmptyString))
                 quantity i]> ordersMap)
        i rows acc1
    = scanFrom host now
        (fun i r (latestIndex : gmap string nat) =>
           if negb (strictEq (cellAt r 1) branchName) then latestIndex
           else <[toString (cellAt r 3) := i]> latestIndex)
        i rows acc2.
Proof.
  induction rows as [|r rest IH]; intros i acc1 acc2 Hacc; cbn [scanFrom];
    [exact Hacc|].
  apply IH. destruct (inMonth host now r); [|exact Hacc].
  destruct (strictEq (cellAt r 1) branchName); cbn [negb]; [|exact Hacc].
  cbv zeta. by rewrite fmap_insert, Hacc.
Qed.

(** X21. The row index [/api/previousOrders] gives with each product code is
    the row [/api/updatePreviousOrders] finds for that code: the two scans
    agree, and the row is a row of the current month, below the header, of
    the branch asked for, that carries the code and the quantity listed. *)
Theorem previousOrders_rowIndex_latest now codeToProduct rows branchName :
  po_rowIndex <$> previousOrdersScan host now codeToProduct rows branchName
  = latestIndexOf host now rows branchName
  /\ (forall code o,
        previousOrdersScan host now codeToProduct rows branchName !! code = Some o ->
        (1 <= po_rowIndex o)%nat
        /\ exists r, rows !! po_rowIndex o = Some r
             /\ inMonth host now r = true
             /\ strictEq (cellAt r 1) branchName = true
             /\ toString (cellAt r 3) = code
             /\ po_productCode o = cellAt r 3
             /\ po_quantity o = orZero (parseInt (cellAt r 8))).
Proof.
  split.
  - unfold previousOrdersScan, latestIndexOf, scanCurrentMonth.
    apply previousOrders_index_from. apply fmap_empty.
  - unfold previousOrdersScan.
    apply (scanCurrentMonth_invariant host
             (fun m : gmap string PreviousOrder => forall code o, m !! code = Some o ->
                (1 <= po_rowIndex o)%nat
                /\ exists r, rows !! po_rowIndex o = Some r
                     /\ inMonth host now r = true
                     /\ strictEq (cellAt r 1) branchName = true
                     /\ toString (cellAt r 3) = code
                     /\ po_productCode o = cellAt r 3
                     /\ po_quantity o = orZero (parseInt (cellAt r 8)))).
    + intros code o. by rewrite lookup_empty.
    + intros i r a Hi Hr Hm Ha code o.
      destruct (strictEq (cellAt r 1) branchName) eqn:Eb; cbn [negb]; [|apply Ha].
      cbv zeta.
      destruct (decide (code = toString (cellAt r 3))) as [->|Hne];
        [|rewrite lookup_insert_ne by congruence; apply Ha].
      rewrite lookup_insert_eq. intros [= <-]. cbn.
      split; [exact Hi|]. exists r. auto 10.
Qed.

End Totals.

(** ** The order identifier of the summary *)

Lemma append_empty_r (s : string) : s +:+ EmptyString = s.
Proof.
  induction s as [|c s IH]; [reflexivity|].
  change (String c s +:+ EmptyString) with (String c (s +:+ EmptyString)).
  by rewrite IH.
Qed.

Lemma append_snoc (cur : string) c s :
  (cur +:+ String c EmptyString) +:+ s = cur +:+ String c s.
Proof.
  induction cur as [|x cur IH]; [reflexivity|].
  change ((String x cur +:+ String c EmptyString) +:+ s)
    with (String x ((cur +:+ String c EmptyString) +:+ s)).
  by rewrite IH.
Qed.

Lemma splitFrom_serial serial : forall cur rest,
  noUnderscore serial = true ->
  splitFrom "__" 0 cur (serial +:+ "__" +:+ rest)
  = (cur +:+ serial) :: splitFrom "__" 0 EmptyString rest.
Proof.
  induction serial as [|c s IH]; intros cur rest H.
  - rewrite append_empty_r.
    change (EmptyString +:+ "__" +:+ rest) with (String "_" (String "_" rest)).
    by destruct rest.
  - cbn [noUnderscore] in H. apply andb_true_iff in H as [Hc Hs].
    apply negb_true_iff, Ascii.eqb_neq in Hc.
    change (String c s +:+ "__" +:+ rest) with (String c (s +:+ "__" +:+ rest)).
    cbn [splitFrom].
    assert (Hp : String.prefix "__" (String c (s +:+ "__" +:+ rest)) = false).
    { cbn [String.prefix]. destruct (ascii_dec "_" c) as [E|E]; [congruence | reflexivity]. }
    rewrite Hp, (IH _ _ Hs). by rewrite append_snoc.
Qed.

Section OrderId.

Variable host : Host.

(** X22. The order identifier the summary gives for an entry is read back
    by the handlers that approve, cancel and edit: for a serial without
    underscore and without white space around it, and one of the three
    statuses, splitting the identifier at [__] gives the serial and the
    status in lower case, so that the identifier of a waiting order passes
    their test of the status. *)
Theorem orderId_round_trip e :
  noUnderscore (oe_serial e) = true ->
  trim (oe_serial e) = oe_serial e ->
  In (oe_status e) ["Waiting"; "Approved"; "Cancelled"]%string ->
  let orderId := os_orderId (orderSummaryOf host e) in
  orderSerialOf orderId = oe_serial e
  /\ statusOf orderId = toLowerCase (oe_status e)
  /\ (oe_status e = "Waiting"%string -> statusOf orderId = "waiting"%string).
Proof.
  intros Hno Htrim Hst orderId. subst orderId.
  unfold orderSummaryOf, os_orderId, orderSerialOf, statusOf, split.
  rewrite (splitFrom_serial _ EmptyString _ Hno). cbn [lookup list_lookup].
  split; [exact Htrim|].
  destruct Hst as [<-|[<-|[<-|[]]]]; (split; [reflexivity|]); try discriminate;
    intros _; reflexivity.
Qed.

End OrderId.

(** ** The reports, run on a store *)

Lemma logged_faults w c : faults w = [] -> faults (logged w c) = [].
Proof. intros H. simpl. by rewrite H. Qed.

Section ReportsRun.

Variable host : Host.
Variable credentialsSheetId : string.

(** X23. The summary by status does without the sheet 'Cancelled Orders':
    when the budget spreadsheet has no such sheet, the failed read is caught
    and the answer is the summary of 'Waiting for Approval' and 'Final
    Orders'. *)
Theorem ordersSummary_without_cancelled username now w ui w1 ss catalog waiting final :
  let codeToImage := codeToImageOfCodes catalog in
  nonEmpty (queryText username) = true ->
  keyFile w = true -> faults w = [] ->
  getUserInfoByUsername credentialsSheetId (Str (queryText username)) w
  = (Ok (Some ui), w1) ->
  toUpperCase (level ui) = "L2"%string ->
  files w !! budgetSheetId ui = Some ss ->
  lookupTab ss "Product Catalog" = Some catalog ->
  lookupTab ss "Waiting for Approval" = Some waiting ->
  lookupTab ss "Final Orders" = Some final ->
  lookupTab ss "Cancelled Orders" = None ->
  fst (ordersSummary host credentialsSheetId username now w)
  = Ok (Sent (orderSummaryOf host <$>
               summaryProcessSheet host now codeToImage final "Approved"
                 (summaryProcessSheet host now codeToImage waiting "Waiting" ∅))).
Proof.
  intros codeToImage Hu Hk Hf Hui Hlevel Hss Hcat Hw Hfin Hcan.
  destruct (Quiet_getUserInfoByUsername _ _ _ _ _ Hui) as (Hf1 & Hk1 & _ & Hq1).
  specialize (Hq1 Hf).
  assert (Hss1 : files w1 !! budgetSheetId ui = Some ss) by (by rewrite Hf1).
  unfold ordersSummary, tryCatch at 1. cbv zeta. rewrite Hu. cbn [negb].
  rewrite (withL2User_run _ _ _ _ _ _ _ Hk Hui Hlevel).
  rewrite (bind_run _ _ _ _ _ (values_get_run _ _ Whole _ _ _ Hq1 Hss1 Hcat)).
  set (w2 := logged w1 _).
  rewrite (bind_run _ _ _ _ _
             (values_get_run _ _ Whole w2 _ _ (logged_faults _ _ Hq1) Hss1 Hw)).
  set (w3 := logged w2 _).
  rewrite (bind_run _ _ _ _ _
             (values_get_run _ _ Whole w3 _ _
                (logged_faults _ _ (logged_faults _ _ Hq1)) Hss1 Hfin)).
  set (w4 := logged w3 _).
  change (readRange catalog Whole) with catalog.
  change (readRange waiting Whole) with waiting.
  change (readRange final Whole) with final.
  fold codeToImage.
  set (m2 := summaryProcessSheet host now codeToImage final "Approved" _).
  assert (Hinner :
    tryCatch
      (cancelled ← values_get (budgetSheetId ui) "Cancelled Orders" Whole;
       mret (summaryProcessSheet host now codeToImage cancelled "Cancelled" m2))
      (fun _ => mret m2) w4
    = (Ok m2, logged w4 (CallGet (budgetSheetId ui) "Cancelled Orders" Whole))).
  { unfold tryCatch.
    rewrite (bind_err _ _ _ _ _
               (values_get_missing _ _ Whole w4 ss
                  (logged_faults _ _ (logged_faults _ _ (logged_faults _ _ Hq1)))
                  Hss1 Hcan)).
    reflexivity. }
  rewrite (bind_run _ _ _ _ _ Hinner). reflexivity.
Qed.

Lemma resolve_unknown username w :
  fst (getUserInfoByUsername credentialsSheetId username w) = Ok None ->
  exists w1,
    resolveBudgetSheetIdFromF2ByUsername credentialsSheetId username w
    = (Err UserNotFoundInAnyTab, w1).
Proof.
  unfold resolveBudgetSheetIdFromF2ByUsername, getUserInfoByUsername, mbind, M_bind.
  destruct (spreadsheets_get credentialsSheetId w) as [[titles|e] w0]; [|discriminate].
  intros H.
  pose proof (budgetScanTabs_agrees credentialsSheetId username (clientTabs titles)
                w0 w0 eq_refl eq_refl eq_refl) as Hag.
  rewrite H in Hag.
  destruct (budgetScanTabs credentialsSheetId username (clientTabs titles) w0)
    as [res w1].
  simpl in Hag. subst res. by exists w1.
Qed.

(** X24. A user the master sheet does not know is answered differently by
    the two lookups: the handlers that resolve the budget sheet by name
    (products, approved lines, edit of approved lines) let the exception of
    the lookup reach their handler and answer 500, where the handlers that
    look the user up answer 400, user not found. *)
Theorem unknown_user_answers username now w :
  keyFile w = true ->
  nonEmpty username = true -> trim username = username ->
  fst (getUserInfoByUsername credentialsSheetId (Str username) w) = Ok None ->
  fst (loadOrderDataWithSpending credentialsSheetId (Some username) w)
  = Ok (Refused 500 NoticeLoadError)
  /\ (forall b,
        fst (previousOrders host credentialsSheetId b (Some username) now w)
        = Ok (Refused 500 NoticePreviousError))
  /\ (forall b o os,
        truthy b = true ->
        fst (updatePreviousOrders host credentialsSheetId
               (mkUpdateRequest b (Some (o :: os)) (Str username)) now w)
        = Ok (Refused 500 NoticeUpdateError))
  /\ fst (approvalsSummary host credentialsSheetId (Some username) now w)
     = Ok (Refused 400 NoticeUserNotFound)
  /\ fst (pendingOrders host credentialsSheetId (Some username) now w)
     = Ok (Refused 400 NoticeUserNotFound).
Proof.
  intros Hk Hne Htrim Hnone.
  destruct (resolve_unknown _ _ Hnone) as [w1 Hres].
  assert (Hq : queryText (Some username) = username) by exact Htrim.
  destruct (getUserInfoByUsername credentialsSheetId (Str username) w)
    as [res w2] eqn:Hui.
  simpl in Hnone. subst res.
  split; [|split; [|split; [|split]]].
  - unfold loadOrderDataWithSpending, tryCatch. cbv zeta. cbn [default from_option].
    rewrite (bind_run _ _ _ _ _ (getSheetsClient_run _ Hk)).
    by rewrite (bind_err _ _ _ _ _ Hres).
  - intros b. unfold previousOrders, tryCatch. cbv zeta. cbn [default from_option].
    rewrite (bind_run _ _ _ _ _ (getSheetsClient_run _ Hk)).
    by rewrite (bind_err _ _ _ _ _ Hres).
  - intros b o os Hb. unfold updatePreviousOrders, tryCatch.
    cbn [ur_updatedOrders ur_branchName ur_username]. rewrite Hb. cbn [negb].
    rewrite (bind_run _ _ _ _ _ (getSheetsClient_run _ Hk)).
    by rewrite (bind_err _ _ _ _ _ Hres).
  - unfold approvalsSummary, tryCatch, withL2User. cbv zeta. rewrite Hq, Hne. cbn [negb].
    rewrite (bind_run _ _ _ _ _ (getSheetsClient_run _ Hk)).
    by rewrite (bind_run _ _ _ _ _ Hui).
  - unfold pendingOrders, tryCatch, withL2User. cbv zeta. rewrite Hq, Hne. cbn [negb].
    rewrite (bind_run _ _ _ _ _ (getSheetsClient_run _ Hk)).
    by rewrite (bind_run _ _ _ _ _ Hui).
Qed.

Lemma ngt_ofZ a b : ngt (ofZ a) (ofZ b) = (b <? a).
Proof.
  unfold ngt, ncompare, ofZ, pow10. change (Z.of_nat 0) with 0.
  rewrite Z.pow_0_r, !Z.mul_1_r.
  destruct (Z.compare_spec a b), (Z.ltb_spec b a); try reflexivity; lia.
Qed.

Lemma nlt_ofZ a b : nlt (ofZ a) (ofZ b) = (a <? b).
Proof.
  unfold nlt, ncompare, ofZ, pow10. change (Z.of_nat 0) with 0.
  rewrite Z.pow_0_r, !Z.mul_1_r.
  destruct (Z.compare_spec a b), (Z.ltb_spec a b); try reflexivity; lia.
Qed.

Lemma rowRefOf_index (rows : list (list string)) latestIndex o i :
  uo_rowIndex o = Num (ofZ (Z.of_nat i)) -> (0 < i < length rows)%nat ->
  rowRefOf rows latestIndex o = RowAt i.
Proof.
  intros Ho Hi. unfold rowRefOf. rewrite Ho, ngt_ofZ, nlt_ofZ.
  destruct (Z.ltb_spec 0 (Z.of_nat i)); [|lia].
  destruct (Z.ltb_spec (Z.of_nat i) (Z.of_nat (length rows))); [|lia].
  cbn [andb]. unfold asIndex, ofZ, pow10. change (Z.of_nat 0) with 0.
  rewrite Z.pow_0_r, Z.mod_1_r, Z.div_1_r.
  destruct (Z.leb_spec 0 (Z.of_nat i)); [|lia].
  cbn. by rewrite Nat2Z.id.
Qed.

Lemma updateWrites_sheet rows idx o wr :
  In wr (updateWrites rows idx o) -> wsheet wr = "Final Orders"%string.
Proof. unfold updateWrites. simpl. intros [<-|[<-|[]]]; reflexivity. Qed.

(** X25. A row index given with an element of [updatedOrders] is taken as
    it is: when it is a whole number above 0 and below the number of rows of
    'Final Orders', that row is the one written, whatever its branch, its
    date and its product code, and whatever the product code of the element;
    column I takes the quantity, floored at 0, and column G the stored unit
    price times that quantity; no other row changes. *)
Theorem updatePrevious_rowIndex_direct req now w id w1 ss rows o i :
  let r := default [] (rows !! i) in
  let qty := mathMax (ofZ 0) (orZero (parseInt (uo_quantity o))) in
  let subtotal := nmul (orZero (parseFloat (cellAt r 5))) qty in
  keyFile w = true -> faults w = [] ->
  truthy (ur_branchName req) = true ->
  ur_updatedOrders req = Some [o] ->
  uo_rowIndex o = Num (ofZ (Z.of_nat i)) -> (0 < i < length rows)%nat ->
  resolveBudgetSheetIdFromF2ByUsername credentialsSheetId (ur_username req) w
  = (Ok id, w1) ->
  files w !! id = Some ss ->
  lookupTab ss "Final Orders" = Some rows ->
  exists w',
    updatePreviousOrders host credentialsSheetId req now w = (Ok (Sent tt), w')
    /\ writesOf (trace w')
       = writesOf (trace w)
         ++ [CallBatch id [ mkWrite "Final Orders" i 8 [[Num qty]];
                            mkWrite "Final Orders" i 6 [[Num subtotal]] ]]
    /\ sheetOf w' id "Final Orders" !! i
       = Some (writeCells (writeCells r 8 [Num qty]) 6 [Num subtotal])
    /\ (forall j, j <> i -> sheetOf w' id "Final Orders" !! j = rows !! j).
Proof.
  intros r qty subtotal Hk Hf Hb Ho Hidx Hi Hres Hss Hrows.
  destruct (Quiet_resolveBudgetSheetId _ _ _ _ _ Hres) as (Hf1 & Hk1 & Hwr & Hq1).
  specialize (Hq1 Hf).
  assert (Hss1 : files w1 !! id = Some ss) by (by rewrite Hf1).
  set (batch := [ mkWrite "Final Orders" i 8 [[Num qty]];
                  mkWrite "Final Orders" i 6 [[Num subtotal]] ]).
  assert (Hbatch : updateBatch rows (latestIndexOf host now rows (ur_branchName req)) [o]
                   = Some batch).
  { cbn [updateBatch]. rewrite (rowRefOf_index rows _ o i Hidx Hi). reflexivity. }
  set (w2 := logged w1 (CallGet id "Final Orders" Whole)).
  assert (Hupd : values_batchUpdate id batch w2
                 = (Ok tt, mkWorld (<[id := setTab ss "Final Orders" (applyAll rows batch)]>
                                      (files w2))
                             (keyFile w2) [] (trace w2 ++ [CallBatch id batch]))).
  { apply (values_batchUpdate_run _ _ _ ss);
      [ by apply logged_faults | exact Hss1 |].
    apply (applyWrites_tab "Final Orders"); [|exact Hrows].
    intros x Hx. by apply (updateWrites_sheet rows i o). }
  eexists. split.
  - unfold updatePreviousOrders, tryCatch. rewrite Ho, Hb. cbn [negb].
    rewrite (bind_run _ _ _ _ _ (getSheetsClient_run _ Hk)).
    rewrite (bind_run _ _ _ _ _ Hres).
    rewrite (bind_run _ _ _ _ _ (values_get_run _ _ Whole _ _ _ Hq1 Hss1 Hrows)).
    change (readRange rows Whole) with rows. cbv zeta. rewrite Hbatch.
    unfold batch at 1. rewrite (bind_run _ _ _ _ _ Hupd). reflexivity.
  - cbn [trace files].
    destruct (editWrites_effect rows i (mkEditItem (uo_productCode o) (uo_quantity o))
                rows (proj2 Hi)) as (E1 & E2 & E3).
    change (applyAll rows (editWrites rows i
              (mkEditItem (uo_productCode o) (uo_quantity o))))
      with (applyAll rows batch) in E1, E2, E3.
    split.
    + subst w2. cbn [logged trace]. rewrite !writesOf_app, Hwr. cbn.
      by rewrite app_nil_r.
    + rewrite (sheetOf_after _ id (setTab ss "Final Orders" (applyAll rows batch))
                 "Final Orders" (applyAll rows batch));
        [| apply lookup_insert_eq | by apply (lookupTab_setTab _ _ rows)].
      split; [exact E3 | exact E2].
Qed.

End ReportsRun.

(** ** Dates kept as day numbers *)

Lemma takeDigits_string_of_uint d :
  takeDigits (NilEmpty.string_of_uint d) = (d, EmptyString).
Proof. induction d; simpl; try reflexivity; by rewrite IHd. Qed.

Lemma prefix_nondigit_head a p s :
  digitOf a = None -> allDigits s = true -> String.prefix (String a p) s = false.
Proof.
  intros Ha Hs. destruct s as [|c r]; [reflexivity|].
  cbn [String.prefix allDigits] in *.
  destruct (ascii_dec a c) as [<-|_]; [|reflexivity].
  by rewrite Ha in Hs.
Qed.

Lemma prefix_nondigit_second a b s :
  digitOf b = None -> allDigits s = true ->
  String.prefix (String a (String b EmptyString)) s = false.
Proof.
  intros Hb Hs. destruct s as [|c [|d r]]; try reflexivity.
  - cbn [String.prefix]. by destruct (ascii_dec a c).
  - cbn [String.prefix allDigits] in *.
    destruct (ascii_dec a c) as [_|_]; [|reflexivity].
    destruct (ascii_dec b d) as [<-|_]; [|reflexivity].
    destruct (digitOf c); [|discriminate]. by rewrite Hb in Hs.
Qed.

Lemma showN_not_empty n : showN n <> EmptyString.
Proof.
  unfold showN. pose proof (to_uint_not_nil n) as H.
  destruct (N.to_uint n); [congruence| ..]; discriminate.
Qed.

Lemma strDecimalLiteral_showN n :
  strDecimalLiteral (showN n) = Some (ofZ (Z.of_N n), EmptyString).
Proof.
  unfold strDecimalLiteral.
  rewrite (allDigits_takeSign _ (allDigits_showN n)).
  rewrite (prefix_nondigit_head "I" "nfinity" _ eq_refl (allDigits_showN n)).
  unfold showN at 1. rewrite takeDigits_string_of_uint.
  pose proof (to_uint_not_nil n) as Hn.
  replace (isNil (N.to_uint n)) with false
    by (destruct (N.to_uint n); first [congruence | reflexivity]).
  cbn [andb Decimal.nb_digits]. unfold uintZ, pow10.
  rewrite DecimalN.Unsigned.of_to. cbn -[Z.mul Z.add Z.of_N].
  change (Z.of_nat 0) with 0. change (Z.of_N 0) with 0.
  change (0 <=? 0 - 0) with true. cbv iota.
  change (0 - 0) with 0. rewrite Z.pow_0_r.
  unfold ofZ. do 3 f_equal. lia.
Qed.

Lemma stringToNumber_showN n : stringToNumber (showN n) = ofZ (Z.of_N n).
Proof.
  unfold stringToNumber. rewrite (allDigits_trim _ (allDigits_showN n)).
  pose proof (showN_not_empty n) as Hne.
  pose proof (allDigits_showN n) as Hd.
  unfold hasHexPrefix.
  rewrite (prefix_nondigit_second "0" "x" _ eq_refl Hd),
          (prefix_nondigit_second "0" "X" _ eq_refl Hd),
          (prefix_nondigit_second "0" "o" _ eq_refl Hd),
          (prefix_nondigit_second "0" "O" _ eq_refl Hd),
          (prefix_nondigit_second "0" "b" _ eq_refl Hd),
          (prefix_nondigit_second "0" "B" _ eq_refl Hd).
  cbn [orb].
  rewrite strDecimalLiteral_showN.
  destruct (showN n); [congruence | reflexivity].
Qed.

Lemma nadd_ofZ_raw a b k : nadd (Fin a 0) (Fin b (0 + k)) = Fin (a * pow10 k + b) k.
Proof.
  unfold nadd. cbn [Nat.add]. rewrite Nat.sub_0_r.
  replace (0 - k)%nat with 0%nat by lia. rewrite Nat.max_0_l.
  unfold pow10 at 2. change (Z.of_nat 0) with 0. rewrite Z.pow_0_r. f_equal. lia.
Qed.

(** X26. A date cell that holds a whole number written in digits: above
    30000 it is a number of days since 30 December 1899, read without the
    date parser of the host, so that the date is the same on every host
    (the day 25569 is 1 January 1970); up to 30000 the digits go to the
    date parser as any other text. *)
Theorem decodeDate_day_number host n :
  (30000 < Z.of_N n -> Z.of_N n <= 100000000 ->
     decodeDate host (Str (showN n))
     = Some (Some ((Z.of_N n - 25569) * 86400000)))
  /\ (Z.of_N n <= 30000 ->
     decodeDate host (Str (showN n)) = Some (dateParse host (showN n))).
Proof.
  assert (Ht : truthy (Str (showN n)) = true).
  { cbn [truthy]. apply negb_true_iff, String.eqb_neq, showN_not_empty. }
  unfold decodeDate. rewrite Ht. cbn [negb toNumber toString].
  rewrite stringToNumber_showN, ngt_ofZ. cbn [isNaNnum ofZ negb andb].
  split.
  - intros Hlo Hhi. destruct (Z.ltb_spec 30000 (Z.of_N n)); [|lia].
    unfold serialToDate. change (Fin (Z.of_N n) 0) with (ofZ (Z.of_N n)).
    unfold nmul, ofZ. rewrite nadd_ofZ_raw. unfold dateOfNum, pow10.
    change (Z.of_nat (0 + 0)) with 0. rewrite Z.pow_0_r, Z.quot_1_r.
    destruct (Z.leb_spec (Z.abs (-2209161600000 * 1 + Z.of_N n * 86400000))
                8640000000000000); [|lia].
    do 2 f_equal. lia.
  - intros Hlo. destruct (Z.ltb_spec 30000 (Z.of_N n)); [lia | reflexivity].
Qed.

(** ** The exports *)

Lemma upsertEntry_groups serial statusKey branchName fresh f orders :
  groupOf fresh = (serial, statusKey, branchName) ->
  (forall e, groupOf (f e) = groupOf e) ->
  map groupOf (upsertEntry serial statusKey branchName fresh f orders)
  = map groupOf orders
  \/ (((serial, statusKey, branchName) ∉ map groupOf orders)
      /\ map groupOf (upsertEntry serial statusKey branchName fresh f orders)
         = map groupOf orders ++ [(serial, statusKey, branchName)]).
Proof.
  intros Hfresh Hf. induction orders as [|o rest IH]; cbn [upsertEntry map].
  - right. split; [apply not_elem_of_nil|]. by rewrite Hf, Hfresh.
  - destruct (String.eqb (oe_serial o) serial && String.eqb (oe_status o) statusKey
              && String.eqb (oe_branchName o) branchName) eqn:E; cbn [map].
    + left. by rewrite Hf.
    + destruct IH as [IH|[Hnot IH]]; [left; by rewrite IH | right].
      split; [|by rewrite IH].
      apply not_elem_of_cons. split; [|exact Hnot].
      intros Heq. unfold groupOf in Heq. inversion Heq; subst.
      by rewrite !String.eqb_refl in E.
Qed.

Lemma upsertEntry_NoDup serial statusKey branchName fresh f orders :
  groupOf fresh = (serial, statusKey, branchName) ->
  (forall e, groupOf (f e) = groupOf e) ->
  NoDup (map groupOf orders) ->
  NoDup (map groupOf (upsertEntry serial statusKey branchName fresh f orders)).
Proof.
  intros Hfresh Hf Hnd.
  destruct (upsertEntry_groups serial statusKey branchName fresh f orders Hfresh Hf)
    as [->|[Hnot ->]]; [exact Hnd|].
  apply (proj2 (NoDup_app _ _)). split; [exact Hnd|]. split.
  - intros x Hx Hin. apply list_elem_of_singleton in Hin. by subst.
  - apply NoDup_singleton.
Qed.

Lemma upsertEntry_Forall (P : OrderEntry -> Prop) serial statusKey branchName fresh f
  orders :
  P (f fresh) -> (forall e, P e -> P (f e)) ->
  Forall P orders ->
  Forall P (upsertEntry serial statusKey branchName fresh f orders).
Proof.
  intros Hfresh Hf. induction orders as [|o rest IH]; cbn [upsertEntry]; intros Hall.
  - by constructor.
  - apply Forall_cons in Hall. destruct Hall as [Ho Hrest].
    destruct (_ && _); constructor; auto.
Qed.

Section Exports.

Variable host : Host.

Lemma exportOneProcessSheet_groups now serialQuery rows statusKey orders :
  In statusKey ["Waiting"; "Approved"; "Cancelled"]%string ->
  NoDup (map groupOf orders)
  /\ Forall (fun e => oe_serial e = serialQuery /\ oe_items e <> []
                      /\ In (oe_status e) ["Waiting"; "Approved"; "Cancelled"]%string)
            orders ->
  let res := exportOneProcessSheet host now serialQuery rows statusKey orders in
  NoDup (map groupOf res)
  /\ Forall (fun e => oe_serial e = serialQuery /\ oe_items e <> []
                      /\ In (oe_status e) ["Waiting"; "Approved"; "Cancelled"]%string)
            res.
Proof.
  intros Hst Hinit. cbv zeta. unfold exportOneProcessSheet.
  apply (scanCurrentMonth_invariant host
           (fun l => NoDup (map groupOf l)
              /\ Forall (fun e => oe_serial e = serialQuery /\ oe_items e <> []
                           /\ In (oe_status e)
                                ["Waiting"; "Approved"; "Cancelled"]%string) l));
    [exact Hinit|].
  intros i r a _ _ _ [Hnd Hall]. cbv zeta.
  destruct (nonEmpty (trim (cellStr r 1))); cbn [negb]; [|by split].
  destruct (nonEmpty (trim (cellStr r 10))); cbn [negb orb]; [|by split].
  destruct (String.eqb_spec (trim (cellStr r 10)) serialQuery) as [Es|Es];
    cbn [negb]; [|by split].
  split.
  - apply upsertEntry_NoDup; [reflexivity | intros e; reflexivity | exact Hnd].
  - apply upsertEntry_Forall; [| | exact Hall].
    + cbn. split; [exact Es|]. split; [discriminate | exact Hst].
    + intros e (H1 & H2 & H3). cbn. split; [exact H1|]. split; [|exact H3].
      by destruct (oe_items e).
Qed.

(** X27. The export of one order has one block per status and branch: after
    the three sheets were read, no two entries have the same status and
    branch, every entry is of the serial asked for, has one of the three
    statuses and has at least one row. *)
Theorem exportOne_groups_distinct now serialQuery waiting final cancelled :
  let orders :=
    exportOneProcessSheet host now serialQuery cancelled "Cancelled"
      (exportOneProcessSheet host now serialQuery final "Approved"
         (exportOneProcessSheet host now serialQuery waiting "Waiting" [])) in
  NoDup (map groupOf orders)
  /\ Forall (fun e => oe_serial e = serialQuery /\ oe_items e <> []
                      /\ In (oe_status e) ["Waiting"; "Approved"; "Cancelled"]%string)
            orders.
Proof.
  cbv zeta.
  apply exportOneProcessSheet_groups; [cbn; tauto|].
  apply exportOneProcessSheet_groups; [cbn; tauto|].
  apply exportOneProcessSheet_groups; [cbn; tauto|].
  split; [apply NoDup_nil_2 | constructor].
Qed.

Lemma scanFrom_entry now statusKey s (hit : list string -> bool)
  (f : list string -> Line * string)
  (body : nat -> list string -> gmap string OrderEntry * bool
          -> gmap string OrderEntry * bool) :
  (forall i r (acc : gmap string OrderEntry),
     snd (body i r (acc, false)) = false
     /\ if hit r
        then exists e, fst (body i r (acc, false)) !! s = Some e
               /\ oe_status e = statusKey
               /\ oe_items e = default [] (oe_items <$> acc !! s) ++ [f r]
        else fst (body i r (acc, false)) !! s = acc !! s) ->
  forall rows i (acc : gmap string OrderEntry),
    let taken := List.filter (fun r => inMonth host now r && hit r) rows in
    let res := scanFrom host now body i rows (acc, false) in
    snd res = false
    /\ (taken = [] -> fst res !! s = acc !! s)
    /\ (taken <> [] ->
        exists e, fst res !! s = Some e /\ oe_status e = statusKey
          /\ oe_items e = default [] (oe_items <$> acc !! s) ++ map f taken).
Proof.
  intros Hbody rows. induction rows as [|r rest IH]; intros i acc;
    cbn [scanFrom List.filter].
  - split; [reflexivity|]. split; [reflexivity | congruence].
  - destruct (inMonth host now r); cbn [andb]; [|apply IH].
    destruct (Hbody i r acc) as [Hq Hb].
    destruct (body i r (acc, false)) as [acc1 t1] eqn:E1.
    cbn [fst snd] in Hq, Hb. subst t1.
    specialize (IH (S i) acc1).
    cbv zeta in IH. destruct IH as (IH0 & IH1 & IH2).
    split; [exact IH0|].
    destruct (hit r).
    + destruct Hb as (e0 & He0 & Hs0 & Hi0).
      split; [discriminate|]. intros _.
      destruct (List.filter (fun r => inMonth host now r && hit r) rest) as [|r1 t].
      * rewrite (IH1 eq_refl). exists e0. auto.
      * destruct IH2 as (e & He & Hs & Hi); [discriminate|].
        exists e. split; [exact He|]. split; [exact Hs|].
        rewrite Hi, He0. cbn [fmap option_fmap option_map default from_option].
        unfold Datatypes.id. rewrite Hi0, <- app_assoc. reflexivity.
    + rewrite Hb in IH1, IH2. split; [exact IH1 | exact IH2].
Qed.

(** X28. In the export of several orders, when no selected serial is the
    name of a property every object inherits, the scan of a sheet ends
    without an error and there is one entry per serial: a sheet that has
    rows for a selected serial sets the status of its entry to the status of
    that sheet and adds these rows to its items, after the items of the
    sheets read before; a sheet that has none leaves the entry as it was.
    An order with rows in 'Waiting for Approval' and in 'Final Orders' is so
    exported once, as approved, with the rows of both. *)
Theorem export_last_status_wins now selectedSerials rows statusKey
  (ordersMap : gmap string OrderEntry) s :
  (forall x, In x selectedSerials -> inherited x = false) ->
  let taken := List.filter (exportsRow host now selectedSerials s) (drop 1 rows) in
  let res := exportManyProcessSheet host now selectedSerials rows statusKey ordersMap in
  snd res = false
  /\ (taken = [] -> fst res !! s = ordersMap !! s)
  /\ (taken <> [] ->
      exists e, fst res !! s = Some e /\ oe_status e = statusKey
        /\ oe_items e
           = default [] (oe_items <$> ordersMap !! s)
             ++ map (fun r => (lineOf r, EmptyString)) taken).
Proof.
  intros Hplain. unfold exportManyProcessSheet, scanCurrentMonth.
  apply (scanFrom_entry now statusKey s
           (fun r => nonEmpty (trim (cellStr r 1)) && nonEmpty s
                     && String.eqb (trim (cellStr r 10)) s
                     && existsb (String.eqb s) selectedSerials)
           (fun r => (lineOf r, EmptyString))).
  intros i r acc. cbv zeta. cbn [fst snd].
  destruct (nonEmpty (trim (cellStr r 1))); cbn [negb andb fst snd];
    [|split; reflexivity].
  destruct (nonEmpty (trim (cellStr r 10))) eqn:En; cbn [negb orb fst snd].
  2:{ split; [reflexivity|].
      destruct (String.eqb_spec (trim (cellStr r 10)) s) as [Es|Es];
        [rewrite <- Es, En | rewrite andb_false_r]; reflexivity. }
  destruct (existsb (String.eqb (trim (cellStr r 10))) selectedSerials) eqn:Ex;
    cbn [negb fst snd].
  2:{ split; [reflexivity|].
      destruct (String.eqb_spec (trim (cellStr r 10)) s) as [Es|Es];
        [rewrite <- Es, Ex, andb_false_r | rewrite andb_false_r]; reflexivity. }
  assert (Hin : inherited (trim (cellStr r 10)) = false).
  { apply existsb_exists in Ex. destruct Ex as (x & Hx & Ex).
    apply String.eqb_eq in Ex. rewrite Ex. by apply Hplain. }
  rewrite (readKey_plain acc _ Hin).
  destruct (String.eqb_spec (trim (cellStr r 10)) s) as [Es|Es].
  - rewrite <- Es, En, Ex. cbn [andb].
    destruct (acc !! trim (cellStr r 10)) as [e0|] eqn:E0; cbn [fst snd];
      (split; [reflexivity|]); rewrite lookup_insert_eq; eexists;
      (split; [reflexivity|]); cbn; split; reflexivity.
  - rewrite andb_false_r. cbn [andb].
    destruct (acc !! trim (cellStr r 10)) as [e0|] eqn:E0; cbn [fst snd];
      (split; [reflexivity|]); by rewrite lookup_insert_ne.
Qed.

End Exports.

(** ** Who may order for a branch, and row indices that are no index *)

Lemma updateBatch_missing rows (latestIndex : gmap string nat) orders o :
  In o orders -> rowRefOf rows latestIndex o = RowMissing ->
  updateBatch rows latestIndex orders = None.
Proof.
  intros Hin Ho. induction orders as [|x rest IH]; [destruct Hin|].
  cbn [updateBatch]. destruct Hin as [->|Hin].
  - by rewrite Ho.
  - rewrite (IH Hin). by destruct (rowRefOf rows latestIndex x).
Qed.

Section Rules.

Variable host : Host.
Variable credentialsSheetId : string.

(** X29. Who may order for a branch: for a request with items and a branch,
    by a user the lookup finds, the answer is 403 exactly when the user is
    not of level L2, has a branch of their own, and asks for another branch
    than that one, letter for letter; a user without a branch and a user of
    level L2 may order for any branch. *)
Theorem submit_branch_rule req now w ui w1 items r w' :
  sr_orderItems req = Some items -> items <> [] ->
  truthy (sr_branchName req) = true ->
  keyFile w = true ->
  getUserInfoByUsername credentialsSheetId (sr_username req) w = (Ok (Some ui), w1) ->
  submitOrder host credentialsSheetId req now w = (Ok r, w') ->
  status r = 403
  <-> (level ui <> "L2"%string /\ branch ui <> EmptyString
       /\ sr_branchName req <> Str (branch ui)).
Proof.
  intros Hitems Hne Hb Hk Hui.
  destruct (getUserInfo_fields _ _ _ _ _ Hui)
    as (_ & _ & _ & Hbranch & Hlne & Hlup & _).
  destruct items as [|item0 items0]; [congruence|].
  unfold submitOrder, tryCatch. rewrite Hitems, Hb. cbn [negb].
  rewrite (bind_run _ _ _ _ _ (getSheetsClient_run _ Hk)).
  rewrite (bind_run _ _ _ _ _ Hui).
  cbv beta iota zeta. rewrite Hlne, Hlup, Hbranch.
  destruct (String.eqb_spec (level ui) "L2") as [El|El]; cbn [negb andb].
  - unfold mbind, M_bind.
    destruct (getNextOrderSerial (budgetSheetId ui) w1) as [[s|e] w2];
      [destruct (appendRowsAtoK _ _ _ w2) as [[[]|e] w3]|];
      intros [= <- <-]; cbn; (split; [discriminate | tauto]).
  - destruct (nonEmpty (branch ui)) eqn:En; cbn [andb].
    + destruct (strictEqStr (branch ui) (sr_branchName req)) eqn:Es; cbn [negb].
      * apply strictEqStr_true in Es. unfold mbind, M_bind.
        destruct (getNextOrderSerial (budgetSheetId ui) w1) as [[s|e] w2];
          [destruct (appendRowsAtoK _ _ _ w2) as [[[]|e] w3]|];
          intros [= <- <-]; cbn; (split; [discriminate | tauto]).
      * intros [= <- <-]. cbn. split; [intros _ | reflexivity].
        split; [exact El|]. split.
        -- intros E. rewrite E in En. discriminate.
        -- intros E. rewrite E in Es. cbn in Es. by rewrite String.eqb_refl in Es.
    + unfold nonEmpty in En. apply negb_false_iff, String.eqb_eq in En.
      unfold mbind, M_bind.
      destruct (getNextOrderSerial (budgetSheetId ui) w1) as [[s|e] w2];
        [destruct (appendRowsAtoK _ _ _ w2) as [[[]|e] w3]|];
        intros [= <- <-]; cbn; (split; [discriminate|]);
        intros (_ & Hn & _); contradiction.
Qed.

(** X30. A row index that is a number within the rows of 'Final Orders' but
    not a whole number indexes no row: the loop over [updatedOrders] throws
    on that element, the answer is 500, and nothing is written, the other
    elements of the request included. *)
Theorem updatePrevious_fractional_index req now w id w1 ss rows orders o n :
  keyFile w = true -> faults w = [] ->
  truthy (ur_branchName req) = true ->
  ur_updatedOrders req = Some orders -> In o orders ->
  uo_rowIndex o = Num n ->
  ngt n (ofZ 0) = true -> nlt n (ofZ (Z.of_nat (length rows))) = true ->
  asIndex n = None ->
  resolveBudgetSheetIdFromF2ByUsername credentialsSheetId (ur_username req) w
  = (Ok id, w1) ->
  files w !! id = Some ss ->
  lookupTab ss "Final Orders" = Some rows ->
  exists w',
    updatePreviousOrders host credentialsSheetId req now w
    = (Ok (Refused 500 NoticeUpdateError), w')
    /\ files w' = files w
    /\ writesOf (trace w') = writesOf (trace w).
Proof.
  intros Hk Hf Hb Ho Hin Hidx Hgt Hlt Hno Hres Hss Hrows.
  destruct (Quiet_resolveBudgetSheetId _ _ _ _ _ Hres) as (Hf1 & Hk1 & Hwr & Hq1).
  specialize (Hq1 Hf).
  assert (Hss1 : files w1 !! id = Some ss) by (by rewrite Hf1).
  assert (Hmiss : rowRefOf rows (latestIndexOf host now rows (ur_branchName req)) o
                  = RowMissing).
  { unfold rowRefOf. by rewrite Hidx, Hgt, Hlt, Hno. }
  exists (logged w1 (CallGet id "Final Orders" Whole)). split.
  - destruct orders as [|o0 orders0]; [destruct Hin|].
    unfold updatePreviousOrders, tryCatch. rewrite Ho, Hb. cbn [negb].
    rewrite (bind_run _ _ _ _ _ (getSheetsClient_run _ Hk)).
    rewrite (bind_run _ _ _ _ _ Hres).
    rewrite (bind_run _ _ _ _ _ (values_get_run _ _ Whole _ _ _ Hq1 Hss1 Hrows)).
    change (readRange rows Whole) with rows. cbv zeta.
    by rewrite (updateBatch_missing rows _ (o0 :: orders0) o Hin Hmiss).
  - cbn [logged files trace]. split; [exact Hf1|].
    rewrite writesOf_app, Hwr. cbn. apply app_nil_r.
Qed.

End Rules.

(** ** The further properties at work on the sample stores *)

(** The login of [amr] on the sample store, and the lookup of that name. *)
Lemma login_user_is_known_witness :
  fst (findClientTabAndSheetIdByUser "master" (Str "amr") (Str "secret") sampleWorld)
  = Ok (Some sampleAmr)
  /\ fst (getUserInfoByUsername "master" (Str "amr") sampleWorld) <> Ok None.
Proof.
  assert (H : fst (findClientTabAndSheetIdByUser "master" (Str "amr") (Str "secret")
                     sampleWorld) = Ok (Some sampleAmr))
    by (vm_compute; reflexivity).
  split; [exact H|].
  exact (login_user_is_known "master" (Str "amr") (Str "secret") sampleWorld sampleAmr
           eq_refl H).
Defined.

(** The user [mona] of the sample master sheet, whose level cell holds [l2]. *)
Lemma resolver_fields_normal_witness :
  getUserInfoByUsername "master" (Str "mona") sampleWorld
  = (Ok (Some sampleMona), snd (getUserInfoByUsername "master" (Str "mona") sampleWorld))
  /\ toUpperCase (level sampleMona) = level sampleMona
  /\ nonEmpty (budgetSheetId sampleMona) = true.
Proof.
  assert (Hu : getUserInfoByUsername "master" (Str "mona") sampleWorld
               = (Ok (Some sampleMona),
                  snd (getUserInfoByUsername "master" (Str "mona") sampleWorld)))
    by (vm_compute; reflexivity).
  split; [exact Hu|].
  destruct (resolver_fields_normal "master" (Str "mona") sampleWorld sampleMona _ Hu)
    as (_ & _ & _ & _ & _ & Hup & Hid & _).
  split; [exact Hup | exact Hid].
Defined.

(** Two serials on the sample store, whose counter cell holds [AA2]. *)
Lemma nextSerial_consecutive_witness :
  exists w1 w2,
    getNextOrderSerial "budget-acme" sampleWorld = (Ok "AA3"%string, w1)
    /\ getNextOrderSerial "budget-acme" w1 = (Ok "AA4"%string, w2).
Proof.
  exact (nextSerial_consecutive "budget-acme" sampleWorld sampleBudget
           [["Name"; "Last"]; ["orders"; "AA2"]]%string 2
           eq_refl eq_refl eq_refl eq_refl eq_refl).
Defined.

(** Two appends to the sheet of approved orders of the sample store, which
    holds the header only: the rows go to rows 1 and 2. *)
Lemma append_twice_stacks_witness :
  exists w1 w2,
    appendRowsAtoK "budget-acme" "Final Orders" [[Str "2025-01-15"; Str "Maadi"]]
      sampleWorld = (Ok tt, w1)
    /\ appendRowsAtoK "budget-acme" "Final Orders" [[Str "2025-01-16"; Str "Giza"]] w1
       = (Ok tt, w2)
    /\ writesOf (trace w2)
       = [ CallUpdate "budget-acme"
             (mkWrite "Final Orders" 1 0 [[Str "2025-01-15"; Str "Maadi"]]);
           CallUpdate "budget-acme"
             (mkWrite "Final Orders" 2 0 [[Str "2025-01-16"; Str "Giza"]]) ].
Proof.
  destruct (append_twice_stacks "budget-acme" "Final Orders"
              [[Str "2025-01-15"; Str "Maadi"]] [[Str "2025-01-16"; Str "Giza"]]
              sampleWorld sampleBudget [sampleHeader]
              eq_refl eq_refl eq_refl ltac:(discriminate)
              (ex_intro _ [Str "2025-01-15"; Str "Maadi"] (conj eq_refl eq_refl)))
    as (w1 & w2 & H1 & H2 & H3 & _).
  exists w1, w2. split; [exact H1|]. split; [exact H2 | exact H3].
Defined.

(** The counter cell [aa5] gives the serial [AA6]. *)
Lemma newSerial_wellformed_witness :
  exists n : N,
    (0 < n)%N /\ Z.of_N n <= 10 ^ 15
    /\ currentNumOf "aa5" = ofZ (Z.of_N n - 1)
    /\ newSerialOf "aa5" = "AA" +:+ showN n.
Proof.
  apply (newSerial_wellformed "aa5"). vm_compute. lia.
Defined.

(** The cancellation of [AA1] by the L2 user of the sample store: rows 1 and
    3 go to 'Cancelled Orders', row 2, dated in December, stays, and 'Final
    Orders' is as it was. *)
Lemma cancel_moves_and_clears_witness :
  let req := mkOrderRequest (Str "mona") (Str "AA1__waiting") Undefined in
  rowsOfSerial sampleHost sampleNow sampleWaiting "AA1" = [1; 3]%nat
  /\ exists w',
       cancelOrder sampleHost "master" req sampleNow sampleWorld = (Ok (json Success), w')
       /\ sheetOf w' "budget-acme" "Waiting for Approval" !! 1%nat
          = Some (repeat EmptyString 11)
       /\ sheetOf w' "budget-acme" "Waiting for Approval" !! 2%nat
          = sampleWaiting !! 2%nat
       /\ (exists r', sheetOf w' "budget-acme" "Cancelled Orders" !! 2%nat = Some r'
                      /\ Some (take 11 r') = sampleWaiting !! 3%nat)
       /\ sheetOf w' "budget-acme" "Final Orders" = [sampleHeader].
Proof.
  intros req.
  assert (Hu : getUserInfoByUsername "master" (or_username req) sampleWorld
               = (Ok (Some sampleMona),
                  snd (getUserInfoByUsername "master" (Str "mona") sampleWorld)))
    by (vm_compute; reflexivity).
  assert (Hm : rowsOfSerial sampleHost sampleNow sampleWaiting "AA1" = [1; 3]%nat)
    by (vm_compute; reflexivity).
  split; [exact Hm|].
  destruct (cancel_moves_and_clears sampleHost "master" req sampleNow sampleWorld
              sampleMona _ sampleBudget sampleWaiting [sampleHeader]
              eq_refl eq_refl eq_refl eq_refl eq_refl Hu eq_refl eq_refl eq_refl eq_refl
              ltac:(vm_compute; discriminate))
    as (w' & Hrun & _ & Hrows & Hmoved & _ & Hothers & _).
  exists w'. split; [exact Hrun|].
  split; [etransitivity; [exact (Hrows 1%nat _ eq_refl) | vm_compute; reflexivity]|].
  split; [etransitivity; [exact (Hrows 2%nat _ eq_refl) | vm_compute; reflexivity]|].
  split.
  - destruct (Hmoved 1%nat 3%nat _ ltac:(vm_compute; reflexivity) eq_refl)
      as (r' & Hr' & Htake).
    exists r'. split; [exact Hr'|]. rewrite Htake. vm_compute. reflexivity.
  - etransitivity;
      [ exact (Hothers "Final Orders"%string ltac:(discriminate) ltac:(discriminate))
      | vm_compute; reflexivity ].
Defined.

(** The approval of the branch [Maadi] on the sample store: rows 1 and 3
    move, whatever their serial. *)
Lemma approveBranch_moves_and_clears_witness :
  let req := mkBranchRequest (Str "mona") (Str "Maadi") in
  rowsOfBranch sampleHost sampleNow sampleWaiting (Str "Maadi") = [1; 3]%nat
  /\ exists w',
       approveBranchOrder sampleHost "master" req sampleNow sampleWorld = (Ok (Sent tt), w')
       /\ sheetOf w' "budget-acme" "Waiting for Approval" !! 3%nat
          = Some (repeat EmptyString 11)
       /\ sheetOf w' "budget-acme" "Waiting for Approval" !! 4%nat
          = sampleWaiting !! 4%nat
       /\ (exists r', sheetOf w' "budget-acme" "Final Orders" !! 1%nat = Some r'
                      /\ Some (take 11 r') = sampleWaiting !! 1%nat).
Proof.
  intros req.
  assert (Hu : getUserInfoByUsername "master" (br_username req) sampleWorld
               = (Ok (Some sampleMona),
                  snd (getUserInfoByUsername "master" (Str "mona") sampleWorld)))
    by (vm_compute; reflexivity).
  assert (Hm : rowsOfBranch sampleHost sampleNow sampleWaiting (Str "Maadi") = [1; 3]%nat)
    by (vm_compute; reflexivity).
  split; [exact Hm|].
  destruct (approveBranch_moves_and_clears sampleHost "master" req sampleNow sampleWorld
              sampleMona _ sampleBudget sampleWaiting [sampleHeader]
              eq_refl eq_refl eq_refl eq_refl Hu eq_refl eq_refl eq_refl eq_refl
              ltac:(vm_compute; discriminate))
    as (w' & Hrun & _ & _ & Hrows & Hmoved & _).
  exists w'. split; [exact Hrun|].
  split; [etransitivity; [exact (Hrows 3%nat _ eq_refl) | vm_compute; reflexivity]|].
  split; [etransitivity; [exact (Hrows 4%nat _ eq_refl) | vm_compute; reflexivity]|].
  destruct (Hmoved 0%nat 1%nat _ ltac:(vm_compute; reflexivity) eq_refl)
    as (r' & Hr' & Htake).
  exists r'. split; [exact Hr'|]. rewrite Htake. vm_compute. reflexivity.
Defined.

(** The cancellation of [AA1] on the sample store, then its approval. *)
Lemma cancelled_order_not_approvable_witness :
  let req := mkOrderRequest (Str "mona") (Str "AA1__waiting") Undefined in
  exists w' w'',
    cancelOrder sampleHost "master" req sampleNow sampleWorld = (Ok (json Success), w')
    /\ approveOrder sampleHost "master" req sampleNow w'
       = (Ok (mkResponse 400 (Failure MsgNoWaitingForSerial)), w'').
Proof.
  intros req.
  assert (Hu : getUserInfoByUsername "master" (or_username req) sampleWorld
               = (Ok (Some sampleMona),
                  snd (getUserInfoByUsername "master" (Str "mona") sampleWorld)))
    by (vm_compute; reflexivity).
  assert (Hm : rowsOfSerial sampleHost sampleNow sampleWaiting "AA1" = [1; 3]%nat)
    by (vm_compute; reflexivity).
  destruct (cancelled_order_not_approvable sampleHost "master" req sampleNow sampleNow
              sampleWorld sampleMona _ sampleBudget sampleWaiting [sampleHeader]
              eq_refl eq_refl eq_refl eq_refl eq_refl Hu eq_refl ltac:(discriminate)
              eq_refl eq_refl eq_refl ltac:(vm_compute; discriminate) eq_refl eq_refl)
    as (w' & w'' & H1 & H2 & _).
  exists w', w''. split; [exact H1 | exact H2].
Defined.

(** The approval of [AA1] on the sample store when the seventh call, the
    one that clears the rows, fails: the rows are in both sheets. *)
Lemma approve_fault_after_append_witness :
  let req := mkOrderRequest (Str "mona") (Str "AA1__waiting") Undefined in
  faults (snd (getUserInfoByUsername "master" (Str "mona") sampleWorldSeventhFails))
  = [false; false; false; true]
  /\ exists w',
       approveOrder sampleHost "master" req sampleNow sampleWorldSeventhFails
       = (Ok (mkResponse 500 (Failure MsgApproveError)), w')
       /\ sheetOf w' "budget-acme" "Waiting for Approval" = sampleWaiting
       /\ (exists r', sheetOf w' "budget-acme" "Final Orders" !! 1%nat = Some r'
                      /\ Some (take 11 r') = sampleWaiting !! 1%nat).
Proof.
  intros req.
  assert (Hu : getUserInfoByUsername "master" (or_username req) sampleWorldSeventhFails
               = (Ok (Some sampleMona),
                  snd (getUserInfoByUsername "master" (Str "mona") sampleWorldSeventhFails)))
    by (vm_compute; reflexivity).
  assert (Hq : faults (snd (getUserInfoByUsername "master" (Str "mona")
                              sampleWorldSeventhFails))
               = [false; false; false; true])
    by (vm_compute; reflexivity).
  assert (Hm : rowsOfSerial sampleHost sampleNow sampleWaiting "AA1" = [1; 3]%nat)
    by (vm_compute; reflexivity).
  split; [exact Hq|].
  destruct (approve_fault_after_append sampleHost "master" req sampleNow
              sampleWorldSeventhFails sampleMona _ sampleBudget sampleWaiting [sampleHeader]
              eq_refl eq_refl eq_refl eq_refl Hu Hq eq_refl eq_refl eq_refl eq_refl
              ltac:(vm_compute; discriminate))
    as (w' & Hrun & Hw & Hmoved).
  exists w'. split; [exact Hrun|]. split; [exact Hw|].
  destruct (Hmoved 0%nat 1%nat _ ltac:(vm_compute; reflexivity) eq_refl)
    as (r' & Hr' & Htake).
  exists r'. split; [exact Hr'|]. rewrite Htake. vm_compute. reflexivity.
Defined.

(** A submission by an L1 user on a store without 'Waiting for Approval':
    the counter goes from [AA2] to [AA3] and no order is written. *)
Lemma submit_failure_uses_serial_witness :
  let item := mkOrderItem (Str "P1") (Str "Juice") (Num (ofZ 10)) (Num (ofZ 3))
                          Undefined (Str "Drinks") in
  let req := mkSubmitRequest (Str "Maadi") (Some [item]) (Str "amr") in
  lookupTab [ ("Final Orders", [sampleHeader]);
              ("Serial Numbers", [["Name"; "Last"]; ["orders"; "AA2"]]) ]%string
            "Waiting for Approval" = None
  /\ exists w',
       submitOrder sampleHost "master" req sampleNow sampleWorldNoWaiting
       = (Ok (mkResponse 500 (Failure MsgSubmitError)), w')
       /\ cellStr (default [] (sheetOf w' "budget-acme" "Serial Numbers" !! 1%nat)) 1
          = "AA3"%string.
Proof.
  intros item req.
  assert (Hu : getUserInfoByUsername "master" (sr_username req) sampleWorldNoWaiting
               = (Ok (Some sampleAmr),
                  snd (getUserInfoByUsername "master" (Str "amr") sampleWorldNoWaiting)))
    by (vm_compute; reflexivity).
  split; [reflexivity|].
  destruct (submit_failure_uses_serial sampleHost "master" req sampleNow
              sampleWorldNoWaiting sampleAmr _
              [ ("Final Orders", [sampleHeader]);
                ("Serial Numbers", [["Name"; "Last"]; ["orders"; "AA2"]]) ]%string
              [["Name"; "Last"]; ["orders"; "AA2"]]%string [item]
              eq_refl ltac:(discriminate) eq_refl eq_refl eq_refl Hu eq_refl
              eq_refl eq_refl eq_refl)
    as (w' & Hrun & Hcell & _).
  exists w'. split; [exact Hrun | exact Hcell].
Defined.

(** The details of the order [AA1] on the sample waiting sheet: two lines. *)
Lemma orderDetails_by_serial_rows_witness :
  length (fst (orderDetailsScan sampleHost sampleNow ∅ sampleWaiting "" "AA1")) = 2%nat.
Proof.
  rewrite (orderDetails_by_serial_rows sampleHost sampleNow ∅ sampleWaiting
             EmptyString "AA1" eq_refl).
  rewrite length_map. vm_compute. reflexivity.
Defined.

(** The summary of the approvals on the sample waiting sheet: two lines for
    the branch [Maadi]. *)
Lemma approvalsSummary_counts_branch_rows_witness :
  match approvalsSummaryScan sampleHost sampleNow sampleWaiting !! "Maadi"%string with
  | Some e => bs_lines e = 2
  | None => False
  end.
Proof.
  pose proof (approvalsSummary_counts_branch_rows sampleHost sampleNow sampleWaiting
                "Maadi" eq_refl eq_refl) as H.
  destruct (approvalsSummaryScan sampleHost sampleNow sampleWaiting !! "Maadi"%string)
    as [e|].
  - destruct H as (_ & H & _). rewrite H. vm_compute. reflexivity.
  - vm_compute in H. discriminate.
Defined.

(** The order identifier of a waiting order with serial [AA12]. *)
Lemma orderId_round_trip_witness :
  let e := mkOrderEntry "AA12" "Maadi" "Waiting" (ofZ 0) 0 [] [] in
  os_orderId (orderSummaryOf sampleHost e) = "AA12__waiting"%string
  /\ orderSerialOf "AA12__waiting" = "AA12"%string
  /\ statusOf "AA12__waiting" = "waiting"%string.
Proof.
  intros e.
  destruct (orderId_round_trip sampleHost e eq_refl eq_refl (or_introl eq_refl))
    as (H1 & _ & H3).
  split; [reflexivity|]. split; [exact H1 | exact (H3 eq_refl)].
Defined.

(** The summary on a store without 'Cancelled Orders': the three rows of the
    current month of the waiting sheet, under two serials. *)
Lemma ordersSummary_without_cancelled_witness :
  lookupTab [ ("Product Catalog", sampleCatalog);
              ("Waiting for Approval", sampleWaiting);
              ("Final Orders", [sampleHeader]) ]%string "Cancelled Orders" = None
  /\ exists orders,
       fst (ordersSummary sampleHost "master" (Some "mona"%string) sampleNow
              sampleWorldNoCancelled) = Ok (Sent orders)
       /\ os_serial <$> orders !! "AA1__Waiting"%string = Some "AA1"%string.
Proof.
  split; [reflexivity|].
  assert (Hu : getUserInfoByUsername "master" (Str (queryText (Some "mona"%string)))
                 sampleWorldNoCancelled
               = (Ok (Some sampleMona),
                  snd (getUserInfoByUsername "master" (Str "mona") sampleWorldNoCancelled)))
    by (vm_compute; reflexivity).
  eexists. split.
  - exact (ordersSummary_without_cancelled sampleHost "master" (Some "mona"%string)
             sampleNow sampleWorldNoCancelled sampleMona _
             [ ("Product Catalog", sampleCatalog);
               ("Waiting for Approval", sampleWaiting);
               ("Final Orders", [sampleHeader]) ]%string
             sampleCatalog sampleWaiting [sampleHeader]
             eq_refl eq_refl eq_refl Hu eq_refl eq_refl eq_refl eq_refl eq_refl eq_refl).
  - vm_compute. reflexivity.
Defined.

(** A name the sample master sheet does not have. *)
Lemma unknown_user_answers_witness :
  fst (getUserInfoByUsername "master" (Str "nobody") sampleWorld) = Ok None
  /\ fst (loadOrderDataWithSpending "master" (Some "nobody"%string) sampleWorld)
     = Ok (Refused 500 NoticeLoadError)
  /\ fst (approvalsSummary sampleHost "master" (Some "nobody"%string) sampleNow sampleWorld)
     = Ok (Refused 400 NoticeUserNotFound).
Proof.
  assert (H : fst (getUserInfoByUsername "master" (Str "nobody") sampleWorld) = Ok None)
    by (vm_compute; reflexivity).
  split; [exact H|].
  destruct (unknown_user_answers sampleHost "master" "nobody" sampleNow sampleWorld
              eq_refl eq_refl eq_refl H) as (H1 & _ & _ & H4 & _).
  split; [exact H1 | exact H4].
Defined.

(** An edit of approved lines that names row 4 of the sample sheet, a row of
    the branch [Giza], in a request for the branch [Maadi] and under a
    product code the sheet does not have: row 4 gets the quantity 7. *)
Lemma updatePrevious_rowIndex_direct_witness :
  let o := mkUpdatedOrder (Num (ofZ 4)) (Str "P9") (Num (ofZ 7)) in
  let req := mkUpdateRequest (Str "Maadi") (Some [o]) (Str "amr") in
  cellStr (default [] (sampleWaiting !! 4%nat)) 1 = "Giza"%string
  /\ exists w' r',
       updatePreviousOrders sampleHost "master" req sampleNow sampleWorldApproved
       = (Ok (Sent tt), w')
       /\ sheetOf w' "budget-acme" "Final Orders" !! 4%nat = Some r'
       /\ cellStr r' 8 = "7"%string /\ cellStr r' 6 = "70"%string.
Proof.
  intros o req. split; [reflexivity|].
  assert (Hres : resolveBudgetSheetIdFromF2ByUsername "master" (ur_username req)
                   sampleWorldApproved
                 = (Ok "budget-acme"%string,
                    snd (resolveBudgetSheetIdFromF2ByUsername "master" (Str "amr")
                           sampleWorldApproved)))
    by (vm_compute; reflexivity).
  destruct (updatePrevious_rowIndex_direct sampleHost "master" req sampleNow
              sampleWorldApproved "budget-acme" _
              [("Final Orders", sampleWaiting)]%string sampleWaiting o 4%nat
              eq_refl eq_refl eq_refl eq_refl eq_refl ltac:(simpl; lia) Hres
              eq_refl eq_refl)
    as (w' & Hrun & _ & Hrow & _).
  exists w'. eexists. split; [exact Hrun|]. split; [exact Hrow|].
  split; vm_compute; reflexivity.
Defined.

(** An L1 user of the branch [Maadi] of the sample store who orders for
    [Giza]. *)
Lemma submit_branch_rule_witness :
  let item := mkOrderItem (Str "P1") (Str "Juice") (Num (ofZ 10)) (Num (ofZ 3))
                          Undefined (Str "Drinks") in
  let req := mkSubmitRequest (Str "Giza") (Some [item]) (Str "amr") in
  fst (submitOrder sampleHost "master" req sampleNow sampleWorld)
  = Ok (mkResponse 403 (Failure MsgBranchForbidden))
  /\ level sampleAmr <> "L2"%string
  /\ sr_branchName req <> Str (branch sampleAmr).
Proof.
  intros item req.
  assert (Hu : getUserInfoByUsername "master" (sr_username req) sampleWorld
               = (Ok (Some sampleAmr),
                  snd (getUserInfoByUsername "master" (Str "amr") sampleWorld)))
    by (vm_compute; reflexivity).
  assert (Hrun : submitOrder sampleHost "master" req sampleNow sampleWorld
                 = (Ok (mkResponse 403 (Failure MsgBranchForbidden)),
                    snd (submitOrder sampleHost "master" req sampleNow sampleWorld)))
    by (vm_compute; reflexivity).
  split; [rewrite Hrun; reflexivity|].
  destruct (proj1 (submit_branch_rule sampleHost "master" req sampleNow sampleWorld
                     sampleAmr _ [item] _ _
                     eq_refl ltac:(discriminate) eq_refl eq_refl Hu Hrun) eq_refl)
    as (H1 & _ & H3).
  split; [exact H1 | exact H3].
Defined.

(** An edit of approved lines with the row index 1.5 beside a sound element:
    the answer is 500 and nothing is written. *)
Lemma updatePrevious_fractional_index_witness :
  let good := mkUpdatedOrder (Num (ofZ 1)) (Str "P1") (Num (ofZ 7)) in
  let bad := mkUpdatedOrder (Num (Fin 15 1)) (Str "P1") (Num (ofZ 7)) in
  let req := mkUpdateRequest (Str "Maadi") (Some [good; bad]) (Str "amr") in
  asIndex (Fin 15 1) = None
  /\ exists w',
       updatePreviousOrders sampleHost "master" req sampleNow sampleWorldApproved
       = (Ok (Refused 500 NoticeUpdateError), w')
       /\ files w' = files sampleWorldApproved.
Proof.
  intros good bad req. split; [reflexivity|].
  assert (Hres : resolveBudgetSheetIdFromF2ByUsername "master" (ur_username req)
                   sampleWorldApproved
                 = (Ok "budget-acme"%string,
                    snd (resolveBudgetSheetIdFromF2ByUsername "master" (Str "amr")
                           sampleWorldApproved)))
    by (vm_compute; reflexivity).
  destruct (updatePrevious_fractional_index sampleHost "master" req sampleNow
              sampleWorldApproved "budget-acme" _
              [("Final Orders", sampleWaiting)]%string sampleWaiting [good; bad] bad
              (Fin 15 1)
              eq_refl eq_refl eq_refl eq_refl (or_intror (or_introl eq_refl)) eq_refl
              eq_refl eq_refl eq_refl Hres eq_refl eq_refl)
    as (w' & Hrun & Hfiles & _).
  exists w'. split; [exact Hrun | exact Hfiles].
Defined.

(** The pending orders of the sample waiting sheet: the entry of [Maadi] has
    the two rows of January, and its total is their sum. *)
Lemma totals_are_sums_witness :
  exists e, pendingOrdersScan sampleHost sampleNow sampleWaiting !! "Maadi"%string = Some e
    /\ pe_branchName e = "Maadi"%string
    /\ map ln_subtotal (pe_items e) = [ofZ 30; ofZ 10]
    /\ entrySound (pe_total e) (map ln_subtotal (pe_items e)) (pe_requestors e).
Proof.
  destruct (pendingOrdersScan sampleHost sampleNow sampleWaiting !! "Maadi"%string)
    as [e|] eqn:He; [|vm_compute in He; discriminate].
  exists e. split; [reflexivity|].
  destruct (proj1 (totals_are_sums sampleHost sampleNow) sampleWaiting "Maadi"%string e He)
    as (Hb & Hs).
  split; [exact Hb|]. split; [|exact Hs].
  vm_compute in He. injection He as <-. reflexivity.
Defined.

(** The approved lines of the branch [Maadi] on the sample sheet: the code
    [P2] is listed with row 3, the row the edit finds for it, and with the
    quantity of that row. *)
Lemma previousOrders_rowIndex_latest_witness :
  latestIndexOf sampleHost sampleNow sampleWaiting (Str "Maadi") !! "P2"%string = Some 3%nat
  /\ exists o r, previousOrdersScan sampleHost sampleNow ∅ sampleWaiting (Str "Maadi")
                   !! "P2"%string = Some o
       /\ po_rowIndex o = 3%nat
       /\ sampleWaiting !! po_rowIndex o = Some r
       /\ po_quantity o = orZero (parseInt (cellAt r 8)).
Proof.
  split; [vm_compute; reflexivity|].
  destruct (previousOrdersScan sampleHost sampleNow ∅ sampleWaiting (Str "Maadi")
              !! "P2"%string) as [o|] eqn:Ho; [|vm_compute in Ho; discriminate].
  destruct (proj2 (previousOrders_rowIndex_latest sampleHost sampleNow ∅ sampleWaiting
                     (Str "Maadi")) "P2"%string o Ho)
    as (_ & r & Hr & _ & _ & _ & _ & Hq).
  exists o, r. split; [reflexivity|]. split; [|split; [exact Hr | exact Hq]].
  vm_compute in Ho. injection Ho as <-. reflexivity.
Defined.

(** The day 45668 is 11 January 2025 on every host; the digits [100] go to
    the date parser. *)
Lemma decodeDate_day_number_witness :
  (forall host, decodeDate host (Str "45668") = Some (Some (daysFromCivil 2025 1 11 * msPerDay)))
  /\ (forall host, decodeDate host (Str "100") = Some (dateParse host "100")).
Proof.
  split; intros host.
  - exact (proj1 (decodeDate_day_number host 45668%N) eq_refl ltac:(discriminate)).
  - exact (proj2 (decodeDate_day_number host 100%N) ltac:(discriminate)).
Defined.

(** The export of the serial [AA1] from the sample waiting sheet when the
    entry was made by an earlier sheet: its status becomes that of this
    sheet and the two rows of January are added. *)
Lemma export_last_status_wins_witness :
  let before := mkOrderEntry "AA1" "Maadi" "Waiting" (ofZ 0) 0 [] [] in
  let res := exportManyProcessSheet sampleHost sampleNow ["AA1"%string] sampleWaiting
               "Approved" (<["AA1"%string := before]> ∅) in
  snd res = false
  /\ exists e,
       fst res !! "AA1"%string = Some e
       /\ oe_status e = "Approved"%string /\ length (oe_items e) = 2%nat.
Proof.
  intros before res.
  assert (Hplain : forall x, In x ["AA1"%string] -> inherited x = false)
    by (intros x [<-|[]]; reflexivity).
  destruct (export_last_status_wins sampleHost sampleNow ["AA1"%string] sampleWaiting
              "Approved" (<["AA1"%string := before]> ∅) "AA1"%string Hplain)
    as (Hq & _ & Htaken).
  split; [exact Hq|].
  destruct (Htaken ltac:(vm_compute; discriminate)) as (e & He & Hs & Hi).
  exists e. split; [exact He|]. split; [exact Hs|].
  rewrite Hi. vm_compute. reflexivity.
Defined.
